(* ===== verification/_CoqProject ===== *)
-Q . S2P
Prelude.v
Model.v
PathSearch.v
Leaves.v
Serialize.v
Trees.v
Mermaid.v
Outside.v
Report.v
Outputs.v
Fuel.v
Objects.v
Walks.v
Limits.v
Construct.v
Represent.v
Program.v
