(* ===== verification/Prelude.v ===== *)
(** * Attack-tree analysis: a verification development

    The program verified here is [src/docs/security/attack-trees-analysis.py],
    a single Python module that models attacker goals as AND/OR attack trees,
    searches each tree for its best path under a metric, enumerates leaf
    attacks, serialises trees to dictionaries and renders them as Mermaid
    flowcharts, and finally assembles four hard-coded trees into a JSON
    report, a markdown report and a console listing.

    The development models the program twice.  On values ([Model] to
    [Report]) a node is the tree below it, every function is total, and the
    laws of the specification are proved.  On objects ([Objects] to
    [Program]) a node is an object in a store, [children] holds references,
    [add_child] mutates in place and the methods follow references under a
    bound on the depth of the recursion, as the interpreter runs them; the
    refinement theorems carry what is proved on values over to the program
    on objects.

    ** The program's parts and the files that model them

    - [Prelude] (this file): what the components share.  Python values that
      the source relies on ([Score], the value of [best_score], which starts
      as [float('inf')]; [sumZ], the builtin [sum] over ints; [str_join], the
      method [str.join]; [str_repeat], the operator [*] on a string; [py_or],
      the operator [or] on an optional list; [dict_get], the method
      [dict.get]; [truthy], the truth value of a string; [foldM], a loop
      whose body may fail), the interface
      [PyEnum] of Python's [Enum] classes with the lookups [of_name] and
      [of_value], a state monad [State] with its notation (scope [py_scope])
      for code that mutates [self] or acts on the outside, its variant
      [StateO] for code that may not return, the classes [Halts] and [Idle]
      of the states in which a program has ended and of the computations
      that do nothing to them, the hint
      databases [attack] and the tactics of the development, and the lemmas
      on lists, loops and enums that several components use.
    - [Model]: the data model, lines 18-80.  One Module per Python class:
      [NodeType], [Difficulty], [Cost], [DetectionRisk] (enums, with [value]
      and [name] as the source gives them), [AttackAttributes], [AttackNode]
      (a record whose field [children] is a list of nodes; [add_child]
      appends) and [AttackTree].  It also holds the traversal vocabulary the
      theorems are stated in ([nodes], the pre-order listing; [size];
      [ids]) and the invariants of the data model ([leaf_childless],
      [scorable], [unique_ids]), all decidable.
    - [PathSearch]: [AttackTree._find_path], [_path_score] and the three
      entry points, lines 82-132.  The metric is the string the source
      passes ("difficulty", "cost", "detection"; anything else scores 0).
      The OR loop is a left fold of [or_step] over the children's paths with
      the accumulator [(best_path, best_score)], the AND loop a left fold of
      [extend].  The class [PathMetric] is the contract between the score
      and the search: the search is proved optimal for every score that
      adds up along a path, and [_path_score] is proved to be one.
    - [Leaves]: [get_all_leaf_attacks], [_collect_leaves] (the list [leaves]
      that the source mutates is threaded as an accumulator) and
      [get_unmitigated_attacks], lines 134-148.
    - [Serialize]: [to_dict] and [_node_to_dict], lines 150-176, into a
      value type [py] of dictionaries (the list of their items, as Python
      dictionaries keep insertion order), lists, strings and floats; the
      specification is the reader [node_of_dict].
    - [Trees]: the four construction routines, lines 247-796, as the values
      they return, built by the same sequence of [add_child] calls.
    - [Mermaid]: the class [MermaidExporter], lines 179-244.  An exporter is
      the record of its attributes ([tree], [_lines], [_node_count],
      [_node_ids], the last a [gmap string string]); [export],
      [_export_node] and [_add_legend] are computations in the state monad.
      The specification is the pure renderer [render] over structured
      lines.
    - [Outside]: what the program does to the outside, lines 815-816 and
      1018-1026.  The statements of the source are [json_dump], [f_write]
      and [print]; what the interpreter and the operating system do
      behind them is not code of the repository, and the file holds the
      model of it that the development assumes (see the assumptions
      below).  The outside is the record [world]: which files can be
      opened for writing ([writable]), the [log] of the events in the
      order they happen ([Opened], [Wrote], [Closed], [Printed]) and the
      exception that ended the program ([raised]: the [OSError] of
      [open], or [RecursionError]).  [with_open] is the [with]-block of
      the source: it opens the file, runs its body and closes the file,
      or raises; [json_dump], [f_write] and [print] are the three
      statements that act on the outside; once an exception is raised no
      statement has an effect.  The views [files], [handles], [writes] and
      [stdout] give the file system, the open files and the console that
      a log leaves; [well_bracketed] is the discipline of files (written
      only while open, closed at the end) and [responds] the response
      property of a log.
    - [Report]: [generate_all_reports] and the main block, lines 799-1050,
      as a computation on [world]; the text of the markdown report is the
      source's f-string line by line ([md_summary], [md_analysis_1] ... ),
      its one interpolation the list of diagram sections.
    - [Outputs]: the three outputs of a tree side by side.  [same_dict]
      is the equivalence of trees with the same dictionary; the diagram
      section, the console block, the counts and the best paths are
      [Proper] for it.
    - [Fuel]: what the bounded walks share: the order [⊑] of definedness
      on results, monotonicity in the bound ([fuel_mono]), divergence, and
      the functions that descend along a relation ([descends]).
    - [Objects]: the objects behind the values.  In the source a node is
      an object, [children] holds references and [add_child] mutates the
      receiver in place (lines 58-71).  The store [heap] is the list of the
      objects constructed so far, a reference [loc] a position in it;
      [Heap.alloc] is the constructor call, [Heap.add_child] the method.
      The relation [denotes] says which node value an object stands for;
      [read] computes it by following references to a bounded depth, the
      [height] of the value being the depth that is needed.  The
      two operations are the steps [op] of a state machine; [guard] is
      what a caller of [add_child] must respect, [constructed] the stores
      that guarded constructions reach.
    - [Walks]: the path search, the leaf enumeration, the serialization
      and the exporter run over the store ([_find_path_obj],
      [_collect_leaves_obj], [_node_to_dict_obj], [_export_node_obj] and
      their entry points), following references, with a bound on the depth
      of the recursion.
    - [Limits]: the least bound with which each walk returns, and the
      walks on stores that hold a cycle.
    - [Construct]: the four construction routines statement by statement
      over the store, as programs [Build.t] of the two operations, and the
      four calls of [generate_all_reports] (lines 801-806) in one store.
    - [Represent]: the construction of an arbitrary node out of the two
      operations ([build_node]: the node without children, then every
      child built and added).  It is not a routine of the source but the
      way the source's routines proceed, and it is there to show that
      every node value is the value of an object.
    - [Program]: [generate_all_reports] and the main block over objects.
      The state is the pair [machine] of the store and the outside; the
      routines of [Construct] act on the store, the walks of [Walks] read
      it and raise [RecursionError] when they exceed the bound, the writes
      and prints of [Outside] act on the outside.

    The files are listed in [_CoqProject] in this order: [Prelude],
    [Model], [PathSearch], [Leaves], [Serialize], [Trees], [Mermaid],
    [Outside], [Report], [Outputs], [Fuel], [Objects], [Walks], [Limits],
    [Construct], [Represent], [Program]; each requires [Prelude] and the
    files of the components it calls, all of them earlier in the list.

    ** What the theorems show

    - Data model: [add_child] appends one child and keeps every other
      field; it preserves the invariants for a non-LEAF receiver and
      breaks them for a LEAF.
    - Path search: the three laws of the specification (a LEAF yields
      itself, an OR node the strictly smallest child path with the first
      child winning ties, an AND node the concatenation of all child paths
      whose score is the sum), the loops' equivalence with their closed
      forms ([find_path_ref]), and global optimality: [_find_path] returns
      an attack plan of the tree ([plan], an inductive specification) and no
      plan of the tree scores less.  Two error cases: a metric name the
      source does not know scores 0 everywhere, and a childless junction
      beats every real attack.
    - Leaf enumeration: [_collect_leaves] appends exactly the LEAF nodes of
      the pre-order listing; counts add up; unmitigated attacks are the
      leaves without mitigations.  What the enumeration and the search
      see of a child that is added ([add_child_analysis]): the leaf
      attacks of the child come last; the score of an AND node grows by
      the child's, the score of an OR node becomes the smaller of the
      two, and a LEAF hides the child from the search but not from the
      enumeration.
    - Serialisation: the round trip through [node_of_dict], which shows
      what [to_dict] keeps (everything but [cve_refs] and the two
      [requires_] flags), that the tree read back has the same nodes, ids
      and child order, and that two nodes share a dictionary exactly when
      they agree on what is kept.
    - Exporter: [export] computes the pure renderer under the memo it
      leaves (a refinement, for every starting state); the memo of a fresh
      exporter numbers the ids in the order of their first occurrence and
      is injective; the counts of declaration, style and edge lines; a
      second [export] returns the same text although the memo is not reset;
      what happens with repeated ids; the unbalanced shape of OR nodes and
      the choice of the connector by the child's type.
    - Outside and report: the effects of the program in order, with the
      loops of the main block in closed form; what the program leaves when a file cannot be opened (nothing
      when it is the JSON file, the JSON report alone when it is the
      markdown file); the file system after a run (each file holds its
      report, written once) and the discipline of files; the response
      property that every write is followed by the line that confirms it,
      which holds unless the markdown file alone cannot be opened; the
      numbers stated in the report text agree with the numbers computed,
      the narrated easiest path of the first tree does not.  The JSON
      report determines the other outputs ([outputs_by_dict]): the fields
      that [to_dict] leaves out are read by no analysis, so trees with
      the same dictionary have the same diagram, console block, leaf
      attacks and best paths.  The facts of
      the four trees that [Trees] evaluates (ids, paths, scores, leaf
      attacks) are examples, not theorems about the code.
    - Objects: what the two operations do to the store, object by object
      ([exec_frame]: a construction allocates past every object and
      changes none, [add_child] changes the children of the receiver and
      nothing else); [add_child] on an object refines [add_child] on its
      value when the receiver is not reached from the child, and leaves
      the value of every object from which the receiver is not reached;
      guarded
      constructions only reach forests (every object has a value, none is
      a child twice, no reference dangles); without the guard [add_child]
      can close a cycle, on which no walk returns, or make a node shared.
      Every node value can be constructed under the guard from every store
      so reached, and is read back from the store ([build_node_represents]).
    - Walks: when an object stands for a node, the walks over the store
      return references to the leaves and to the best path that the value
      model computes, the dictionary of the value, and the text and the
      exporter that [export] of the value gives.  Each walk returns exactly
      with the bounds from the height of the node on, and a larger bound
      never changes a result; on a cycle of references [_collect_leaves],
      [_node_to_dict] and [_export_node] return with no bound, and
      [_find_path], which does not enter the children of a LEAF, returns
      on a cycle through a LEAF.
    - Program: the four routines respect the guard, and the objects they
      build stand for the trees of [Trees].  The whole program over
      objects has the effects of the program over values when the bound is
      at least 3, the height of the four trees, and raises [RecursionError]
      with nothing written or printed when it is less
      ([main_obj_refines]): what the other theorems show of the value
      model holds of the program as the interpreter runs it.

    ** Bounds and fuel

    On values no definition uses fuel: every recursion is structural on the
    node (the recursion through [children] is nested in [list]), so every
    function is total and evaluates by [vm_compute].  On objects the walks
    ([read], [locs], [_collect_leaves_obj], [_find_path_obj],
    [_node_to_dict_obj], [_export_node_obj]) follow references, which may
    form a cycle, and take the depth of the recursion as fuel, as the
    interpreter bounds its recursion.  The fuel that is enough is the
    height of the node the object stands for, and no less is: the theorems
    of [Walks] give the result for every bound from the height on, those of
    [Limits] show that a walk with a smaller bound has no result, and that
    on a cycle no bound is enough.  The height is at most the number of
    allocated objects, because a branch of the value meets no object twice
    (a pigeonhole argument, [height_bound]).  The four trees of the program
    have height 3, so the program needs a bound of 3, far below the
    interpreter's default.  Scores are Python ints, modelled as [Z] without
    a width; the counter of the exporter is a natural number printed in
    decimal by [pretty]; [time_hours] is a binary64 float, modelled as
    Rocq's primitive [float].  Strings are sequences of bytes: the
    non-ASCII characters of the source's literals are their UTF-8
    encodings.

    ** Assumptions, and what is not modelled

    The outside is an assumed model, and the theorems of [Report] and
    [Program] hold under its assumptions.  Whether a file can be opened
    is a parameter of the outside that does not change during a run.  A
    write to a file that was opened, the closing of a file and a [print]
    do not fail: in particular the encoding of the text is not modelled,
    so the [UnicodeEncodeError] that [f.write] raises for the arrow of
    the report text, or [print] for the check mark of the confirmations,
    under a default encoding without these characters, is outside the
    model.  The library's side of the effects is not modelled: the JSON
    text that [json.dump] renders for the report object (the object
    itself is kept, as [Json v]), and the decimal form in which [print]
    shows [time_hours] (the float is kept, as [Hours x]).  The
    interpreter's recursion limit is a parameter of the walks that counts
    the depth of the walk alone: its default value (1000) is not fixed,
    and the frames the interpreter has in use when a walk starts are not
    counted.  The program is sequential and takes no input: the
    response property of [Report] is stated over the finite log of a run,
    there being no scheduler or environment to be fair to. *)

From Corelib Require Export ssreflect_rw.
From Stdlib Require Export ZArith.
From stdpp Require Export prelude strings pretty.

#[local] Open Scope Z_scope.
#[export] Set Warnings "-clear-no-such-hyp".

(** * Python values the source relies on *)

(** The value of [best_score] in [_find_path]: [float('inf')] before the
    first child is seen, an int score afterwards. *)
Inductive Score : Type :=
| Inf : Score
| Fin : Z → Score.

(** [score < best_score], an int on the left. *)
Definition score_lt (score : Z) (best_score : Score) : bool :=
  match best_score with
  | Inf => true
  | Fin b => bool_decide (score < b)
  end.

(** The builtin [sum] over a sequence of ints. *)
Definition sumZ (l : list Z) : Z := foldr Z.add 0 l.

(** The method [sep.join(lines)]. *)
Definition str_join (sep : string) (lines : list string) : string :=
  String.concat sep lines.

(** The expression [x or []] for [x] that is [None] or a list: an empty
    list is falsy, and the value is then the right operand. *)
Definition py_or {A} (x : option (list A)) (dflt : list A) : list A :=
  match x with
  | Some (a :: l) => a :: l
  | _ => dflt
  end.

(** The method [d.get(key, dflt)] of a dictionary, the dictionary given by
    its items in insertion order. *)
Fixpoint dict_get {K V} `{EqDecision K} (d : list (K * V)) (key : K)
    (dflt : V) : V :=
  match d with
  | [] => dflt
  | (k, v) :: d' => if decide (k = key) then v else dict_get d' key dflt
  end.

(** Truthiness of a string ([if parent_id:]). *)
Definition truthy (s : string) : bool :=
  match s with
  | EmptyString => false
  | String _ _ => true
  end.

(** The line feed, [chr(10)]. *)
Definition nl : string := String (Ascii.ascii_of_nat 10) EmptyString.

(** * The interface of an [Enum] class

    A Python [Enum] gives each member a [name] and a [value]; members are
    listed in definition order, names are unique, and so are values when
    the class declares no alias. *)
Class PyEnum (A V : Type) := {
  value : A → V;
  name : A → string;
  members : list A;
  members_all : ∀ a, a ∈ members;
  members_NoDup : NoDup members;
  name_inj : Inj (=) (=) name;
  value_inj : Inj (=) (=) value;
}.
#[global] Arguments value {A V _} _ : assert.
#[global] Arguments name {A V _} _ : assert.
#[global] Arguments members A {V _} : assert.
#[global] Hint Mode PyEnum ! - : typeclass_instances.

(** Lookup of a member by its name, [Cls[s]]. *)
Definition of_name {A V} `{PyEnum A V} (s : string) : option A :=
  list_find (λ a, name a = s) (members A) ≫= λ p, Some p.2.

(** The string of one double quote. *)
Definition dq : string :=
  String (Ascii.Ascii false true false false false true false false) EmptyString.

(** [s * n], the string [s] repeated [n] times. *)
Fixpoint str_repeat (s : string) (n : nat) : string :=
  match n with
  | O => EmptyString
  | S n' => s +:+ str_repeat s n'
  end.

(** Lookup of a member by its value, [Cls(v)]. *)
Definition of_value {A V} `{PyEnum A V} `{EqDecision V} (v : V) : option A :=
  list_find (λ a, value a = v) (members A) ≫= λ p, Some p.2.

(** * A state monad for code that mutates [self] *)

Definition State (S A : Type) : Type := S → A * S.

Definition st_ret {S A} (a : A) : State S A := λ s, (a, s).
Definition st_bind {S A B} (m : State S A) (f : A → State S B) : State S B :=
  λ s, let '(a, s') := m s in f a s'.
Definition st_get {S} : State S S := λ s, (s, s).
Definition st_put {S} (s : S) : State S unit := λ _, (tt, s).
Definition st_modify {S} (f : S → S) : State S unit := λ s, (tt, f s).
Definition st_exec {S A} (m : State S A) (s : S) : S := (m s).2.
Definition st_eval {S A} (m : State S A) (s : S) : A := (m s).1.

(** [for x in l: f(x)], the result of [f] dropped. *)
Definition for_each {S A B} (f : A → State S B) : list A → State S unit :=
  fix go (l : list A) : State S unit :=
    match l with
    | [] => st_ret tt
    | x :: l' => st_bind (f x) (λ _, go l')
    end.

(** [for x in l: acc = f(acc, x)] with a body that may fail: the loop
    stops at the first failure. *)
Fixpoint foldM {A B} (f : B → A → option B) (b : B) (l : list A) : option B :=
  match l with
  | [] => Some b
  | x :: l' => f b x ≫= λ b', foldM f b' l'
  end.

(** The states in which the program has ended: an exception was raised
    that nothing catches. *)
Class Halts (S : Type) := halted : S → Prop.

(** A computation that does nothing to such a state: its statements are
    not reached. *)
Class Idle {S A} `{!Halts S} (m : State S A) : Prop :=
  idle : ∀ s, halted s → (m s).2 = s.

Declare Scope py_scope.
Delimit Scope py_scope with py.
Notation "'let!' x ':=' m 'in' k" := (st_bind m (λ x, k))
  (at level 10, x name, m at level 100, k at level 200) : py_scope.
Notation "m ';;' k" := (st_bind m (λ _, k))
  (at level 100, k at level 200, right associativity) : py_scope.

(** * A state monad for code that may not return

    A computation that follows references may exceed every bound on the
    depth of its recursion; it then has no result and no final state. *)

Definition StateO (S A : Type) : Type := S → option (A * S).

Definition so_ret {S A} (a : A) : StateO S A := λ s, Some (a, s).
Definition so_bind {S A B} (m : StateO S A) (f : A → StateO S B) : StateO S B :=
  λ s, m s ≫= λ r, f r.1 r.2.
Definition so_fail {S A} : StateO S A := λ _, None.

(** A computation that always returns. *)
Definition so_lift {S A} (m : State S A) : StateO S A := λ s, Some (m s).

(** [for x in l: f(x)]. *)
Definition so_for_each {S A B} (f : A → StateO S B) : list A → StateO S unit :=
  fix go (l : list A) : StateO S unit :=
    match l with
    | [] => so_ret tt
    | x :: l' => so_bind (f x) (λ _, go l')
    end.

(** The computation [m] returns, with the result and the state of [m']. *)
Definition so_refines {S A} (m : StateO S A) (m' : State S A) : Prop :=
  ∀ s, m s = Some (m' s).

Declare Scope pyo_scope.
Delimit Scope pyo_scope with pyo.
Notation "'let!' x ':=' m 'in' k" := (so_bind m (λ x, k))
  (at level 10, x name, m at level 100, k at level 200) : pyo_scope.
Notation "m ';;' k" := (so_bind m (λ _, k))
  (at level 100, k at level 200, right associativity) : pyo_scope.

(** Two computations are equivalent when they agree on every state. *)
#[export] Instance State_equiv {S A} : Equiv (State S A) :=
  λ m1 m2, ∀ s, m1 s = m2 s.

(** Disjointness of two lists is decidable. *)
#[export] Instance list_disjoint_dec `{EqDecision A} (l k : list A) :
  Decision (l ## k).
Proof.
  refine (cast_if (decide (Forall (λ x, x ∉ k) l)));
    abstract (rewrite Forall_forall in *; set_solver).
Defined.

#[export] Hint Mode Idle - - - ! : typeclass_instances.

(** * Hint databases and tactics *)

(** [attack]: rewriting and resolution hints of the development. *)
Create HintDb attack discriminated.
Create Rewrite HintDb attack.

(** Case analysis on the [bool_decide]s and [match]es of a goal. *)
Ltac case_bool :=
  repeat first
    [ progress simplify_eq/=
    | case_bool_decide
    | case_match ].

(** Close a goal on [Z] after unfolding the comparison of scores. *)
Ltac score_lia := unfold score_lt in *; case_bool; lia.

(** * Lemmas *)

Section sumZ.
Implicit Types l k : list Z.

Lemma sumZ_nil : sumZ [] = 0.
Proof. done. Qed.

Lemma sumZ_cons x l : sumZ (x :: l) = x + sumZ l.
Proof. done. Qed.

Lemma sumZ_app l k : sumZ (l ++ k) = sumZ l + sumZ k.
Proof. induction l as [|x l IH]; rw /= ?IH ?sumZ_cons; lia. Qed.

Lemma sumZ_singleton x : sumZ [x] = x.
Proof. rw /sumZ /=. lia. Qed.

Lemma sumZ_join (ls : list (list Z)) : sumZ (mjoin ls) = sumZ (sumZ <$> ls).
Proof. induction ls as [|l ls IH]; [done|]. by rw /= sumZ_app IH. Qed.

Lemma sumZ_bounds lo hi l :
  Forall (λ x, lo ≤ x ≤ hi) l →
  lo * Z.of_nat (length l) ≤ sumZ l ≤ hi * Z.of_nat (length l).
Proof.
  induction 1 as [|x l Hx _ IH]; [simpl; lia|].
  rw sumZ_cons /=. lia.
Qed.

Lemma sumZ_nonneg l : Forall (λ x, 0 ≤ x) l → 0 ≤ sumZ l.
Proof. induction 1; rw ?sumZ_cons /=; [done|lia]. Qed.

(** Sums are monotone, element by element. *)
Lemma sumZ_le l k : Forall2 Z.le l k → sumZ l ≤ sumZ k.
Proof. induction 1; rw ?sumZ_cons /=; [done|lia]. Qed.

Lemma sumZ_fmap_le {A B} (f : A → Z) (g : B → Z) (xs : list A) (ys : list B) :
  Forall2 (λ x y, f x ≤ g y) xs ys → sumZ (f <$> xs) ≤ sumZ (g <$> ys).
Proof. intros. by apply sumZ_le, Forall2_fmap. Qed.

End sumZ.

#[export] Hint Rewrite sumZ_nil sumZ_cons sumZ_app sumZ_singleton : attack.

Section score.

Lemma score_lt_Inf z : score_lt z Inf = true.
Proof. done. Qed.

Lemma score_lt_Fin z b : score_lt z (Fin b) = true ↔ z < b.
Proof. by rw /= bool_decide_eq_true. Qed.

Lemma score_lt_Fin_false z b : score_lt z (Fin b) = false ↔ b ≤ z.
Proof. rw /= bool_decide_eq_false. lia. Qed.

End score.

Section py_or.
Context {A : Type}.
Implicit Types l d : list A.

Lemma py_or_None d : py_or None d = d.
Proof. done. Qed.

Lemma py_or_Some_cons a l d : py_or (Some (a :: l)) d = a :: l.
Proof. done. Qed.

Lemma py_or_Some_nil d : py_or (Some []) d = d.
Proof. done. Qed.

(** With the default [[]], [or] is the list itself. *)
Lemma py_or_nil (x : option (list A)) : py_or x [] = default [] x.
Proof. by destruct x as [[|??]|]. Qed.

End py_or.

Section lists.
Context {A : Type}.
Implicit Types l k : list A.

(** A loop of [extend] calls is a concatenation. *)
Lemma foldl_extend_join (ls : list (list A)) l :
  foldl (λ acc p, acc ++ p) l ls = l ++ mjoin ls.
Proof.
  revert l. induction ls as [|p ls IH]=> l /=; [by rw app_nil_r|].
  by rw IH -app_assoc.
Qed.

(** A loop of [append] calls is a map. *)
Lemma foldl_append_fmap {B} (g : A → B) (xs : list A) (acc : list B) :
  foldl (λ acc x, acc ++ [g x]) acc xs = acc ++ (g <$> xs).
Proof.
  revert acc. induction xs as [|x xs IH]=> acc /=; [by rw app_nil_r|].
  by rw IH -app_assoc.
Qed.

(** A loop of [append] calls guarded by a test is a filter. *)
Lemma foldl_append_filter (P : A → bool) (xs : list A) l :
  foldl (λ acc x, if P x then acc ++ [x] else acc) l xs
  = l ++ filter (λ x, P x = true) xs.
Proof.
  revert l. induction xs as [|x xs IH]=> l /=; [by rw app_nil_r|].
  rw IH filter_cons. case_decide as E.
  - by rw E -app_assoc.
  - by destruct (P x).
Qed.

(** Sublists of the bodies give a sublist of the loop's result. *)
Lemma sublist_bind {B} (f g : A → list B) l :
  Forall (λ x, f x `sublist_of` g x) l → (l ≫= f) `sublist_of` (l ≫= g).
Proof.
  induction 1 as [|x l Hx _ IH]; [done|]. rw !bind_cons. by apply sublist_app.
Qed.

Lemma sublist_bind_elem {B} (g : A → list B) x l (k : list B) :
  x ∈ l → k `sublist_of` g x → k `sublist_of` (l ≫= g).
Proof.
  intros (l1 & l2 & ->)%list_elem_of_split Hk.
  rw bind_app bind_cons.
  by apply sublist_inserts_l, sublist_inserts_r.
Qed.

(** A relation that holds along two lists, element by element, transported
    by a property of the right elements: the induction hypothesis of a
    nested recursion. *)
Lemma Forall2_impl_r {B} (R Q : A → B → Prop) l (k : list B) :
  Forall (λ y, ∀ x, R x y → Q x y) k → Forall2 R l k → Forall2 Q l k.
Proof. intros IH H. induction H; inv IH; constructor; auto. Qed.

Lemma Forall2_exists_r {B C} (R : A → B → Prop) (Q : A → C → Prop) l (k : list B) :
  Forall (λ y, ∀ x, R x y → ∃ z, Q x z) k → Forall2 R l k →
  ∃ k' : list C, Forall2 Q l k'.
Proof.
  intros IH H. induction H as [|x y l k Hxy _ IHk]; inv IH; [by exists []|].
  destruct IHk as [k' Hk']; [done|]. destruct (H1 x Hxy) as [z Hz].
  exists (z :: k'). by constructor.
Qed.

Lemma Forall2_functional_r {B} (R : A → B → Prop) l (k k' : list B) :
  Forall (λ y, ∀ x y', R x y → R x y' → y = y') k →
  Forall2 R l k → Forall2 R l k' → k = k'.
Proof.
  intros IH H. revert k'.
  induction H as [|x y l k Hxy _ IHk]=> k' H'; inv H'; inv IH; [done|].
  f_equal; eauto.
Qed.

(** Distinct numbers below a bound are at most as many as the bound. *)
Lemma NoDup_bounded (ns : list nat) (b : nat) :
  NoDup ns → Forall (λ n, (n < b)%nat) ns → (length ns ≤ b)%nat.
Proof.
  intros Hnd Hlt. rw -(length_seq b 0).
  apply submseteq_length, NoDup_submseteq; [done|].
  intros n Hn. apply elem_of_seq. rw Forall_forall in Hlt.
  specialize (Hlt n Hn). lia.
Qed.

Lemma max_list_le (ns : list nat) (b : nat) :
  Forall (λ n, (n ≤ b)%nat) ns → (max_list ns ≤ b)%nat.
Proof. induction 1; simpl; lia. Qed.

(** A map after a bind is a bind of maps. *)
Lemma fmap_bind {B C} (f : B → C) (g : A → list B) l :
  f <$> (l ≫= g) = l ≫= λ x, f <$> g x.
Proof. induction l as [|x l IH]; [done|]. by rw !bind_cons fmap_app IH. Qed.

(** Decoding the encodings of a list, element by element. *)
Lemma mapM_fmap_Forall {B C} (f : B → option C) (g : A → B) (h : A → C) l :
  Forall (λ x, f (g x) = Some (h x)) l → mapM f (g <$> l) = Some (h <$> l).
Proof. induction 1 as [|x l Hx _ IH]; [done|]. by rw /= Hx /= IH. Qed.

(** A loop over the images of a partial function. *)
Lemma mapM_fmap_ext {B C} (f : A → option B) (g : A → option C) (k : B → C) l :
  (∀ x, g x = k <$> f x) → mapM g l = fmap k <$> mapM f l.
Proof.
  intros Hg. induction l as [|x l IH]; [done|].
  rw /= Hg IH. destruct (f x); [|done]. by destruct (mapM f l).
Qed.

Lemma length_bind {B} (f : A → list B) l :
  length (l ≫= f) = sum_list ((λ x, length (f x)) <$> l).
Proof. induction l as [|x l IH]; [done|]. by rw bind_cons length_app IH. Qed.

Lemma filter_bind {B} (P : B → Prop) `{∀ y, Decision (P y)} (f : A → list B) l :
  filter P (l ≫= f) = l ≫= λ x, filter P (f x).
Proof. induction l as [|x l IH]; [done|]. by rw !bind_cons filter_app IH. Qed.

(** Filtering keeps the sublist order. *)
#[export] Instance filter_sublist (P : A → Prop) `{∀ x, Decision (P x)} :
  Proper (sublist ==> sublist) (filter P).
Proof.
  intros l k Hlk. induction Hlk as [|x l k _ IH|x l k _ IH]; [done|..].
  - rw !filter_cons. case_decide; [by apply sublist_skip|done].
  - rw filter_cons. case_decide; [by apply sublist_cons|done].
Qed.

(** Two tests that agree on the elements of a list filter it alike. *)
Lemma list_filter_iff_elem (P1 P2 : A → Prop)
    `{∀ x, Decision (P1 x), ∀ x, Decision (P2 x)} l :
  (∀ x, x ∈ l → P1 x ↔ P2 x) → filter P1 l = filter P2 l.
Proof.
  induction l as [|x l IH]=> Hl; [done|].
  rw !filter_cons IH; [by intros y ?; apply Hl; right|].
  pose proof (Hl x (list_elem_of_here _ _)).
  by repeat case_decide; try tauto.
Qed.

Lemma length_filter_split (P : A → Prop) `{∀ x, Decision (P x)} l :
  (length (filter P l) + length (filter (λ x, ¬ P x) l))%nat = length l.
Proof.
  induction l as [|x l IH]; [done|].
  rw !filter_cons. repeat case_decide; simpl; try tauto; lia.
Qed.

End lists.

Section state.
Context {S : Type}.

#[export] Instance State_equivalence {A} : Equivalence (≡@{State S A}).
Proof.
  split; [done| |].
  - by intros m1 m2 Hm s.
  - intros m1 m2 m3 H1 H2 s. by rw H1.
Qed.

#[export] Instance st_bind_proper {A B} :
  Proper ((≡) ==> pointwise_relation A (≡) ==> (≡)) (@st_bind S A B).
Proof.
  intros m1 m2 Hm f1 f2 Hf s. rw /st_bind Hm.
  destruct (m2 s) as [a s']. apply Hf.
Qed.

Lemma st_bind_ret_l {A B} (a : A) (f : A → State S B) :
  st_bind (st_ret a) f ≡ f a.
Proof. done. Qed.

Lemma st_bind_ret_r {A} (m : State S A) : st_bind m st_ret ≡ m.
Proof. intros s. rw /st_bind. by destruct (m s). Qed.

Lemma st_bind_assoc {A B C} (m : State S A) (f : A → State S B)
    (g : B → State S C) :
  st_bind (st_bind m f) g ≡ st_bind m (λ a, st_bind (f a) g).
Proof. intros s. rw /st_bind. by destruct (m s). Qed.

Lemma for_each_nil {A B} (f : A → State S B) : for_each f [] = st_ret tt.
Proof. done. Qed.

Lemma for_each_cons {A B} (f : A → State S B) x l :
  for_each f (x :: l) = st_bind (f x) (λ _, for_each f l).
Proof. done. Qed.

Lemma for_each_app {A B} (f : A → State S B) l k :
  for_each f (l ++ k) ≡ st_bind (for_each f l) (λ _, for_each f k).
Proof.
  induction l as [|x l IH]; [done|].
  rw /= /st_bind=> s. destruct (f x s) as [b s']. apply IH.
Qed.

(** Running a bind whose first computation is known. *)
Lemma st_bind_run {A B} (m : State S A) (k : A → State S B) s a s' :
  m s = (a, s') → st_bind m k s = k a s'.
Proof. intros Hm. by rw /st_bind Hm. Qed.

(** A loop whose body extends a log in the state by [g x] extends it by
    the [g x] in order. *)
Lemma for_each_log {A C} (f : A → State S unit) (log : S → list C → S)
    (g : A → list C) :
  (∀ s, log s [] = s) →
  (∀ s l1 l2, log (log s l1) l2 = log s (l1 ++ l2)) →
  (∀ x s, f x s = (tt, log s (g x))) →
  ∀ l s, for_each f l s = (tt, log s (l ≫= g)).
Proof.
  intros Hnil Happ Hf l. induction l as [|x l IH]=> s; [by rw /= Hnil|].
  by rw for_each_cons /st_bind Hf IH Happ.
Qed.

(** The final state of a loop is the fold of the bodies' final states. *)
Lemma st_exec_for_each {A B} (f : A → State S B) l s :
  st_exec (for_each f l) s = foldl (λ s x, st_exec (f x) s) s l.
Proof.
  revert s. induction l as [|x l IH]=> s; [done|].
  rw /= -IH /st_exec /st_bind. by destruct (f x s).
Qed.

End state.

(** ** Loops that may fail *)

Section foldM.
Context {A A' B B' : Type}.

(** A loop that may fail computes what a loop that cannot fail computes,
    when every round of it does: [Q] relates the accumulators. *)
Lemma foldM_refines (Q : B → B' → Prop) (f : B → A → option B)
    (g : B' → A' → B') (l : list A) (l' : list A') b b' :
  Forall2 (λ x x', ∀ b b', Q b b' → ∃ y, f b x = Some y ∧ Q y (g b' x')) l l' →
  Q b b' → ∃ y, foldM f b l = Some y ∧ Q y (foldl g b' l').
Proof.
  intros Hl. revert b b'.
  induction Hl as [|x x' l l' Hx _ IH]=> b b' Hb /=; [by exists b|].
  destruct (Hx b b' Hb) as (y & -> & Hy). by apply IH.
Qed.

End foldM.

(** ** Computations that may not return *)

Section StateO.
Context {S : Type}.

Lemma so_refines_ret {A} (a : A) : so_refines (S:=S) (so_ret a) (st_ret a).
Proof. done. Qed.

Lemma so_refines_lift {A} (m : State S A) : so_refines (so_lift m) m.
Proof. done. Qed.

Lemma so_refines_bind {A B} (m : StateO S A) m' (f : A → StateO S B) f' :
  so_refines m m' → (∀ a, so_refines (f a) (f' a)) →
  so_refines (so_bind m f) (st_bind m' f').
Proof.
  intros Hm Hf s. rw /so_bind /st_bind Hm /=. destruct (m' s). apply Hf.
Qed.

(** A loop whose every round returns is the loop that cannot fail. *)
Lemma so_refines_for_each {A A' B} (f : A → StateO S B) (g : A' → State S B)
    (l : list A) (l' : list A') :
  Forall2 (λ x x', so_refines (f x) (g x')) l l' →
  so_refines (so_for_each f l) (for_each g l').
Proof.
  induction 1 as [|x x' l l' Hx _ IH]; [done|].
  by apply so_refines_bind.
Qed.

End StateO.

(** Computations that are not reached after an exception. *)
Section idle.
Context {S : Type} `{!Halts S}.

#[export] Instance idle_ret {A} (a : A) : Idle (st_ret (S:=S) a).
Proof. by intros s. Qed.

#[export] Instance idle_get : Idle (st_get (S:=S)).
Proof. by intros s. Qed.

#[export] Instance idle_bind {A B} (m : State S A) (f : A → State S B) :
  Idle m → (∀ a, Idle (f a)) → Idle (st_bind m f).
Proof.
  intros Hm Hf s Hs. rw /st_bind. pose proof (Hm s Hs) as Hms.
  destruct (m s) as [a s']. simpl in Hms. subst s'. by apply Hf.
Qed.

#[export] Instance idle_for_each {A B} (f : A → State S B) (l : list A) :
  (∀ x, Idle (f x)) → Idle (for_each f l).
Proof. intros Hf. induction l as [|x l IH]; [apply _|]. by apply idle_bind. Qed.

#[export] Instance idle_if {A} (b : bool) (m1 m2 : State S A) :
  Idle m1 → Idle m2 → Idle (if b then m1 else m2).
Proof. by destruct b. Qed.

(** After an exception a computation only returns. *)
Lemma idle_run {A} (m : State S A) `{!Idle m} s :
  halted s → m s = ((m s).1, s).
Proof. intros Hs. pose proof (idle (m:=m) s Hs). by destruct (m s); simplify_eq/=. Qed.

Lemma idle_run_unit (m : State S unit) `{!Idle m} s : halted s → m s = (tt, s).
Proof. intros Hs. rw (idle_run m s Hs). by destruct (m s).1. Qed.

End idle.

Section enums.
Context {A V : Type} `{PyEnum A V}.

Lemma of_name_name (a : A) : of_name (name a) = Some a.
Proof.
  rw /of_name.
  destruct (list_find_elem_of (λ b, name b = name a) (members A) a)
    as [[i b] Hf]; [apply members_all|done|].
  rw Hf /=. apply list_find_Some in Hf as (_ & Hb & _).
  by apply name_inj in Hb as ->.
Qed.

Lemma of_name_Some (s : string) (a : A) : of_name s = Some a → name a = s.
Proof.
  rw /of_name. destruct (list_find _ _) as [[i b]|] eqn:Hf; [|done].
  intros [= <-]. by apply list_find_Some in Hf as (_ & Hb & _).
Qed.

Lemma of_value_value `{EqDecision V} (a : A) : of_value (value a) = Some a.
Proof.
  rw /of_value.
  destruct (list_find_elem_of (λ b, value b = value a) (members A) a)
    as [[i b] Hf]; [apply members_all|done|].
  rw Hf /=. apply list_find_Some in Hf as (_ & Hb & _).
  by apply value_inj in Hb as ->.
Qed.

Lemma name_eq_iff (a b : A) : name a = name b ↔ a = b.
Proof. split; [apply name_inj|by intros ->]. Qed.

Lemma value_eq_iff (a b : A) : value a = value b ↔ a = b.
Proof. split; [apply value_inj|by intros ->]. Qed.

End enums.
