(* ===== verification/Model.v ===== *)
(** * The data model

    The enums [NodeType], [Difficulty], [Cost] and [DetectionRisk], the
    dataclasses [AttackAttributes], [AttackNode] and [AttackTree] of
    [attack-trees-analysis.py] (lines 18-80), one Module per class with the
    source's member and field names, the method [AttackNode.add_child], and
    the vocabulary in which the other files state their theorems: the
    pre-order listing [nodes] of a node's subtree, [size], [ids], and the
    invariants of the data model as decidable predicates. *)

From S2P Require Import Prelude.
From Stdlib Require Import Floats.

(** ** Enums *)

Module NodeType.
Inductive t : Set := OR | AND | LEAF.

Definition value (x : t) : string :=
  match x with OR => "or" | AND => "and" | LEAF => "leaf" end.

Definition name (x : t) : string :=
  match x with OR => "OR" | AND => "AND" | LEAF => "LEAF" end.

Definition members : list t := [OR; AND; LEAF].

#[global] Instance eq_dec : EqDecision t.
Proof. solve_decision. Defined.
End NodeType.

Module Difficulty.
Inductive t : Set := TRIVIAL | LOW | MEDIUM | HIGH | EXPERT.

Definition value (x : t) : Z :=
  match x with
  | TRIVIAL => 1 | LOW => 2 | MEDIUM => 3 | HIGH => 4 | EXPERT => 5
  end.

Definition name (x : t) : string :=
  match x with
  | TRIVIAL => "TRIVIAL" | LOW => "LOW" | MEDIUM => "MEDIUM"
  | HIGH => "HIGH" | EXPERT => "EXPERT"
  end.

Definition members : list t := [TRIVIAL; LOW; MEDIUM; HIGH; EXPERT].

#[global] Instance eq_dec : EqDecision t.
Proof. solve_decision. Defined.
End Difficulty.

Module Cost.
Inductive t : Set := FREE | LOW | MEDIUM | HIGH | VERY_HIGH.

Definition value (x : t) : Z :=
  match x with
  | FREE => 0 | LOW => 1 | MEDIUM => 2 | HIGH => 3 | VERY_HIGH => 4
  end.

Definition name (x : t) : string :=
  match x with
  | FREE => "FREE" | LOW => "LOW" | MEDIUM => "MEDIUM"
  | HIGH => "HIGH" | VERY_HIGH => "VERY_HIGH"
  end.

Definition members : list t := [FREE; LOW; MEDIUM; HIGH; VERY_HIGH].

#[global] Instance eq_dec : EqDecision t.
Proof. solve_decision. Defined.
End Cost.

Module DetectionRisk.
Inductive t : Set := NONE | LOW | MEDIUM | HIGH | CERTAIN.

Definition value (x : t) : Z :=
  match x with
  | NONE => 0 | LOW => 1 | MEDIUM => 2 | HIGH => 3 | CERTAIN => 4
  end.

Definition name (x : t) : string :=
  match x with
  | NONE => "NONE" | LOW => "LOW" | MEDIUM => "MEDIUM"
  | HIGH => "HIGH" | CERTAIN => "CERTAIN"
  end.

Definition members : list t := [NONE; LOW; MEDIUM; HIGH; CERTAIN].

#[global] Instance eq_dec : EqDecision t.
Proof. solve_decision. Defined.
End DetectionRisk.

(** ** Dataclasses *)

Module AttackAttributes.
Record t : Set := mk {
  difficulty : Difficulty.t;
  cost : Cost.t;
  detection_risk : DetectionRisk.t;
  time_hours : float;
  requires_insider : bool;
  requires_physical : bool;
}.

(** [AttackAttributes()], every field at its default. *)
Definition default : t := {|
  difficulty := Difficulty.MEDIUM;
  cost := Cost.MEDIUM;
  detection_risk := DetectionRisk.MEDIUM;
  time_hours := 8.0;
  requires_insider := false;
  requires_physical := false;
|}.
End AttackAttributes.

Module AttackNode.
#[local] Unset Elimination Schemes.
Inductive t : Set := mk {
  id : string;
  name : string;
  description : string;
  node_type : NodeType.t;
  attributes : AttackAttributes.t;
  children : list t;
  mitigations : list string;
  cve_refs : list string;
  file_refs : list string;
}.
#[local] Set Elimination Schemes.

(** [self.children.append(child)]: the receiver after the call. *)
Definition add_child (self child : t) : t := {|
  id := id self;
  name := name self;
  description := description self;
  node_type := node_type self;
  attributes := attributes self;
  children := children self ++ [child];
  mitigations := mitigations self;
  cve_refs := cve_refs self;
  file_refs := file_refs self;
|}.

(** [AttackNode(id=.., name=.., description=.., node_type=..)], the other
    fields at their defaults. *)
Definition new (id name description : string) (node_type : NodeType.t) : t := {|
  id := id;
  name := name;
  description := description;
  node_type := node_type;
  attributes := AttackAttributes.default;
  children := [];
  mitigations := [];
  cve_refs := [];
  file_refs := [];
|}.
End AttackNode.

Module AttackTree.
Record t : Set := mk {
  name : string;
  description : string;
  root : AttackNode.t;
  version : string;
  severity : string;
}.

Definition default_version : string := "1.0".
Definition default_severity : string := "Medium".
End AttackTree.

(** ** Traversal vocabulary *)

(** The nodes of a subtree in pre-order: a node, then its children's
    subtrees in stored order.  Every walk of the source visits the nodes in
    this order. *)
Fixpoint nodes (n : AttackNode.t) : list AttackNode.t :=
  n :: (AttackNode.children n ≫= nodes).

(** The number of nodes of a subtree, as the [size] of the node. *)
#[export] Instance node_size : Size AttackNode.t := λ n, length (nodes n).

Definition ids (n : AttackNode.t) : list string := AttackNode.id <$> nodes n.

(** [node.node_type == NodeType.LEAF]. *)
Definition is_leaf (n : AttackNode.t) : bool :=
  bool_decide (AttackNode.node_type n = NodeType.LEAF).

(** The leaves of a list of nodes, in order. *)
Definition leaves_of (l : list AttackNode.t) : list AttackNode.t :=
  filter (λ n, is_leaf n = true) l.

(** ** Invariants of the data model *)

(** A LEAF has no children. *)
Definition leaf_ok (n : AttackNode.t) : Prop :=
  AttackNode.node_type n = NodeType.LEAF → AttackNode.children n = [].

(** An OR or AND node has at least one child. *)
Definition junction_ok (n : AttackNode.t) : Prop :=
  AttackNode.node_type n ≠ NodeType.LEAF → AttackNode.children n ≠ [].

Definition leaf_childless (n : AttackNode.t) : Prop := Forall leaf_ok (nodes n).
Definition scorable (n : AttackNode.t) : Prop := Forall junction_ok (nodes n).
Definition unique_ids (n : AttackNode.t) : Prop := NoDup (ids n).

(** A tree as the specification wants it for scoring. *)
Definition well_formed (n : AttackNode.t) : Prop :=
  leaf_childless n ∧ scorable n ∧ unique_ids n.

#[export] Instance leaf_ok_dec n : Decision (leaf_ok n).
Proof. unfold leaf_ok. apply _. Defined.
#[export] Instance junction_ok_dec n : Decision (junction_ok n).
Proof. unfold junction_ok. apply _. Defined.
#[export] Instance leaf_childless_dec n : Decision (leaf_childless n).
Proof. unfold leaf_childless. apply _. Defined.
#[export] Instance scorable_dec n : Decision (scorable n).
Proof. unfold scorable. apply _. Defined.
#[export] Instance unique_ids_dec n : Decision (unique_ids n).
Proof. unfold unique_ids. apply _. Defined.
#[export] Instance well_formed_dec n : Decision (well_formed n).
Proof. unfold well_formed. apply _. Defined.

(** ** Small trees for examples

    The two trees of the specification's examples, and their leaves. *)

Module Examples.
Definition leaf (id : string) (d : Difficulty.t) (c : Cost.t)
    (r : DetectionRisk.t) (mitigations : list string) : AttackNode.t := {|
  AttackNode.id := id;
  AttackNode.name := "Leaf " +:+ id;
  AttackNode.description := "";
  AttackNode.node_type := NodeType.LEAF;
  AttackNode.attributes := {|
    AttackAttributes.difficulty := d;
    AttackAttributes.cost := c;
    AttackAttributes.detection_risk := r;
    AttackAttributes.time_hours := 1.0;
    AttackAttributes.requires_insider := false;
    AttackAttributes.requires_physical := false |};
  AttackNode.children := [];
  AttackNode.mitigations := mitigations;
  AttackNode.cve_refs := [];
  AttackNode.file_refs := [];
|}.

Definition A : AttackNode.t :=
  leaf "A" Difficulty.TRIVIAL Cost.LOW DetectionRisk.NONE [].
Definition B : AttackNode.t :=
  leaf "B" Difficulty.HIGH Cost.MEDIUM DetectionRisk.LOW ["Patch"].

(** root(OR) with the leaves A and B. *)
Definition or_tree : AttackNode.t :=
  AttackNode.add_child
    (AttackNode.add_child (AttackNode.new "root" "Root" "" NodeType.OR) A) B.

(** root(AND) with the leaves A and B. *)
Definition and_tree : AttackNode.t :=
  AttackNode.add_child
    (AttackNode.add_child (AttackNode.new "root" "Root" "" NodeType.AND) A) B.

(** The tree around a root, the other fields at their defaults. *)
Definition tree (root : AttackNode.t) : AttackTree.t := {|
  AttackTree.name := AttackNode.name root;
  AttackTree.description := "";
  AttackTree.root := root;
  AttackTree.version := AttackTree.default_version;
  AttackTree.severity := AttackTree.default_severity;
|}.
End Examples.

(** ** The enums implement the [Enum] interface *)

#[export] Program Instance NodeType_enum : PyEnum NodeType.t string := {|
  value := NodeType.value; name := NodeType.name;
  members := NodeType.members |}.
Next Obligation. intros []; compute_done. Qed.
Next Obligation. compute_done. Qed.
Next Obligation. by intros [] []. Qed.
Next Obligation. by intros [] []. Qed.

#[export] Program Instance Difficulty_enum : PyEnum Difficulty.t Z := {|
  value := Difficulty.value; name := Difficulty.name;
  members := Difficulty.members |}.
Next Obligation. intros []; compute_done. Qed.
Next Obligation. compute_done. Qed.
Next Obligation. by intros [] []. Qed.
Next Obligation. by intros [] []. Qed.

#[export] Program Instance Cost_enum : PyEnum Cost.t Z := {|
  value := Cost.value; name := Cost.name; members := Cost.members |}.
Next Obligation. intros []; compute_done. Qed.
Next Obligation. compute_done. Qed.
Next Obligation. by intros [] []. Qed.
Next Obligation. by intros [] []. Qed.

#[export] Program Instance DetectionRisk_enum : PyEnum DetectionRisk.t Z := {|
  value := DetectionRisk.value; name := DetectionRisk.name;
  members := DetectionRisk.members |}.
Next Obligation. intros []; compute_done. Qed.
Next Obligation. compute_done. Qed.
Next Obligation. by intros [] []. Qed.
Next Obligation. by intros [] []. Qed.

(** ** Induction on nodes *)

(** The induction principle of a node: the property holds of a node when it
    holds of all its children. *)
Definition node_ind (P : AttackNode.t → Prop)
    (step : ∀ n, Forall P (AttackNode.children n) → P n) :
    ∀ n, P n :=
  fix go (n : AttackNode.t) : P n :=
    match n with
    | AttackNode.mk i nm d ty a cs ms cv fr =>
        step (AttackNode.mk i nm d ty a cs ms cv fr)
          ((fix go_list (l : list AttackNode.t) : Forall P l :=
              match l with
              | [] => Forall_nil_2 P
              | c :: l' => Forall_cons_2 P c l' (go c) (go_list l')
              end) cs)
    end.

(** [node_induction n] starts an induction on the node [n] and names the
    hypothesis on its children [IH]. *)
Ltac node_induction n :=
  induction n as [n IH] using node_ind.

(** ** Enum values are the ordinals of the specification *)

Lemma Difficulty_value_bounds d : (1 ≤ Difficulty.value d ≤ 5)%Z.
Proof. destruct d; simpl; lia. Qed.

Lemma Cost_value_bounds c : (0 ≤ Cost.value c ≤ 4)%Z.
Proof. destruct c; simpl; lia. Qed.

Lemma DetectionRisk_value_bounds r : (0 ≤ DetectionRisk.value r ≤ 4)%Z.
Proof. destruct r; simpl; lia. Qed.

(** ** The pre-order listing *)

Section nodes.
Implicit Types n m c : AttackNode.t.
Implicit Types l : list AttackNode.t.

Lemma nodes_unfold n : nodes n = n :: (AttackNode.children n ≫= nodes).
Proof. by destruct n. Qed.

Lemma is_leaf_true n : is_leaf n = true ↔ AttackNode.node_type n = NodeType.LEAF.
Proof. apply bool_decide_eq_true. Qed.

Lemma is_leaf_false n : is_leaf n = false ↔ AttackNode.node_type n ≠ NodeType.LEAF.
Proof. apply bool_decide_eq_false. Qed.

Lemma elem_of_nodes_self n : n ∈ nodes n.
Proof. rw nodes_unfold. left. Qed.

Lemma elem_of_nodes n m :
  m ∈ nodes n ↔ m = n ∨ ∃ c, c ∈ AttackNode.children n ∧ m ∈ nodes c.
Proof.
  rw {1}nodes_unfold elem_of_cons list_elem_of_bind.
  naive_solver.
Qed.

Lemma elem_of_nodes_child n c m :
  c ∈ AttackNode.children n → m ∈ nodes c → m ∈ nodes n.
Proof. rw (elem_of_nodes n). eauto. Qed.

Lemma elem_of_nodes_trans n m k : m ∈ nodes n → k ∈ nodes m → k ∈ nodes n.
Proof.
  node_induction n. rw (elem_of_nodes n). intros [->|(c & Hc & Hm)] Hk; [done|].
  eapply elem_of_nodes_child; [done|].
  move: IH. rw Forall_forall. eauto.
Qed.

Lemma size_unfold n :
  size n = S (sum_list (size <$> AttackNode.children n)).
Proof.
  rw /size /node_size nodes_unfold /=. f_equal.
  induction (AttackNode.children n) as [|c l IH]; [done|].
  by rw bind_cons length_app IH.
Qed.

Lemma size_pos n : (0 < size n)%nat.
Proof. rw size_unfold. lia. Qed.

Lemma ids_unfold n :
  ids n = AttackNode.id n :: (AttackNode.children n ≫= ids).
Proof.
  rw /ids nodes_unfold fmap_cons. f_equal.
  induction (AttackNode.children n) as [|c l IH]; [done|].
  by rw !bind_cons fmap_app IH.
Qed.

Lemma length_ids n : length (ids n) = size n.
Proof. by rw /ids length_fmap. Qed.

Lemma leaves_of_app l1 l2 : leaves_of (l1 ++ l2) = leaves_of l1 ++ leaves_of l2.
Proof. apply filter_app. Qed.

Lemma leaves_of_cons n l :
  leaves_of (n :: l) = if is_leaf n then n :: leaves_of l else leaves_of l.
Proof. rw /leaves_of filter_cons. case_decide as E; [by rw E|by destruct (is_leaf n)]. Qed.

(** The leaves of a subtree: the node if it is one, and its children's. *)
Lemma leaves_of_nodes n :
  leaves_of (nodes n)
  = (if is_leaf n then [n] else [])
    ++ (AttackNode.children n ≫= λ c, leaves_of (nodes c)).
Proof.
  rw nodes_unfold leaves_of_cons {1 2}/leaves_of filter_bind.
  by destruct (is_leaf n).
Qed.

Lemma length_leaves_of_nodes n :
  length (leaves_of (nodes n))
  = ((if is_leaf n then 1 else 0)
     + sum_list ((λ c, length (leaves_of (nodes c))) <$> AttackNode.children n))%nat.
Proof. rw leaves_of_nodes length_app length_bind. by destruct (is_leaf n). Qed.

#[export] Instance leaves_of_sublist : Proper (sublist ==> sublist) leaves_of.
Proof. intros l k Hlk. by apply filter_sublist. Qed.

Lemma elem_of_leaves_of n l : n ∈ leaves_of l ↔ n ∈ l ∧ is_leaf n = true.
Proof. rw /leaves_of list_elem_of_filter. tauto. Qed.

End nodes.

(** ** The invariants, one node at a time *)

Section invariants.
Implicit Types n c : AttackNode.t.

Lemma leaf_childless_unfold n :
  leaf_childless n ↔ leaf_ok n ∧ Forall leaf_childless (AttackNode.children n).
Proof.
  rw /leaf_childless nodes_unfold Forall_cons Forall_bind. done.
Qed.

Lemma scorable_unfold n :
  scorable n ↔ junction_ok n ∧ Forall scorable (AttackNode.children n).
Proof.
  rw /scorable nodes_unfold Forall_cons Forall_bind. done.
Qed.

Lemma leaf_childless_child n c :
  leaf_childless n → c ∈ AttackNode.children n → leaf_childless c.
Proof. rw leaf_childless_unfold Forall_forall. naive_solver. Qed.

Lemma scorable_child n c :
  scorable n → c ∈ AttackNode.children n → scorable c.
Proof. rw scorable_unfold Forall_forall. naive_solver. Qed.

(** In a tree that keeps the LEAF invariant a LEAF is its own subtree. *)
Lemma leaf_childless_nodes_leaf n :
  leaf_childless n → is_leaf n = true → nodes n = [n].
Proof.
  rw leaf_childless_unfold is_leaf_true nodes_unfold.
  intros [Hl _] Hty. by rw (Hl Hty).
Qed.

End invariants.

(** ** [add_child] *)

Section add_child.
Implicit Types self child : AttackNode.t.

Lemma add_child_children self child :
  AttackNode.children (AttackNode.add_child self child)
  = AttackNode.children self ++ [child].
Proof. done. Qed.

Lemma add_child_nodes self child :
  nodes (AttackNode.add_child self child)
  = AttackNode.add_child self child :: (AttackNode.children self ≫= nodes) ++ nodes child.
Proof.
  rw nodes_unfold add_child_children bind_app /=. by rw app_nil_r.
Qed.

Lemma add_child_size self child :
  size (AttackNode.add_child self child) = (size self + size child)%nat.
Proof.
  by rw /size /node_size add_child_nodes (nodes_unfold self) /= length_app.
Qed.

Lemma add_child_ids self child :
  ids (AttackNode.add_child self child) = ids self ++ ids child.
Proof.
  by rw /ids add_child_nodes (nodes_unfold self) !fmap_cons fmap_app.
Qed.

(** The children added so far keep their positions. *)
Lemma add_child_lookup_old self child i c :
  AttackNode.children self !! i = Some c →
  AttackNode.children (AttackNode.add_child self child) !! i = Some c.
Proof. rw add_child_children. apply lookup_app_l_Some. Qed.

(** The new child is the last one. *)
Lemma add_child_last self child :
  last (AttackNode.children (AttackNode.add_child self child)) = Some child.
Proof. by rw add_child_children last_snoc. Qed.

(** [add_child] keeps the ids unique exactly when the child's ids are
    unique and new to the receiver. *)
Lemma add_child_unique_ids self child :
  unique_ids (AttackNode.add_child self child)
  ↔ unique_ids self ∧ unique_ids child ∧ ids self ## ids child.
Proof.
  rw /unique_ids add_child_ids NoDup_app. set_solver.
Qed.

(** [add_child] validates nothing: on a junction it keeps the LEAF
    invariant when the child does, ... *)
Lemma add_child_leaf_childless self child :
  AttackNode.node_type self ≠ NodeType.LEAF →
  leaf_childless self → leaf_childless child →
  leaf_childless (AttackNode.add_child self child).
Proof.
  intros Hty [_ Hcs]%leaf_childless_unfold Hc.
  rw leaf_childless_unfold add_child_children Forall_app Forall_singleton.
  split_and!; [by intros ?|done..].
Qed.

(** ... on a LEAF it breaks it. *)
Lemma add_child_leaf_breaks self child :
  AttackNode.node_type self = NodeType.LEAF →
  ¬ leaf_childless (AttackNode.add_child self child).
Proof.
  rw leaf_childless_unfold add_child_children. intros Hty [Hl _].
  by destruct (app_cons_not_nil _ _ _ (eq_sym (Hl Hty))).
Qed.

(** A junction that was given a child can be scored. *)
Lemma add_child_scorable self child :
  Forall scorable (AttackNode.children self) → scorable child →
  scorable (AttackNode.add_child self child).
Proof.
  intros Hcs Hc.
  rw scorable_unfold add_child_children Forall_app Forall_singleton.
  split_and!; [|done..].
  intros _ Hnil. by destruct (app_cons_not_nil _ _ _ (eq_sym Hnil)).
Qed.

End add_child.

#[export] Hint Resolve elem_of_nodes_self elem_of_nodes_child size_pos : attack.
#[export] Hint Rewrite add_child_children add_child_size add_child_ids : attack.

(** ** Properties of the data model *)

(** C36. [add_child] appends the child as the last child and changes no
    other field of the receiver.  Seen through the traversals, the subtree
    listing of the receiver grows by the child's listing, at its end, and
    the sizes and the lists of ids add up.  It validates nothing: called
    on a LEAF it succeeds all the same, and breaks the invariant that a
    LEAF has no children. *)
Theorem add_child_appends (self child : AttackNode.t) :
  AttackNode.children (AttackNode.add_child self child)
    = AttackNode.children self ++ [child] ∧
  (AttackNode.id (AttackNode.add_child self child) = AttackNode.id self ∧
   AttackNode.name (AttackNode.add_child self child) = AttackNode.name self ∧
   AttackNode.description (AttackNode.add_child self child)
     = AttackNode.description self ∧
   AttackNode.node_type (AttackNode.add_child self child)
     = AttackNode.node_type self ∧
   AttackNode.attributes (AttackNode.add_child self child)
     = AttackNode.attributes self ∧
   AttackNode.mitigations (AttackNode.add_child self child)
     = AttackNode.mitigations self ∧
   AttackNode.cve_refs (AttackNode.add_child self child)
     = AttackNode.cve_refs self ∧
   AttackNode.file_refs (AttackNode.add_child self child)
     = AttackNode.file_refs self) ∧
  tail (nodes (AttackNode.add_child self child))
    = tail (nodes self) ++ nodes child ∧
  size (AttackNode.add_child self child) = (size self + size child)%nat ∧
  ids (AttackNode.add_child self child) = ids self ++ ids child ∧
  (AttackNode.node_type self = NodeType.LEAF →
   ¬ leaf_childless (AttackNode.add_child self child)).
Proof.
  split_and!; [done..| |apply add_child_size|apply add_child_ids
              |apply add_child_leaf_breaks].
  by rw add_child_nodes (nodes_unfold self).
Qed.

(** C35. [add_child] on a junction keeps the invariants of the data model
    when the child satisfies them and its ids are new to the receiver. *)
Theorem add_child_preserves (self child : AttackNode.t) :
  AttackNode.node_type self ≠ NodeType.LEAF →
  leaf_childless self → Forall scorable (AttackNode.children self) →
  unique_ids self →
  well_formed child → ids self ## ids child →
  well_formed (AttackNode.add_child self child).
Proof.
  intros Hty Hl Hs Hu (Hcl & Hcs & Hcu) Hdisj. split_and!.
  - by apply add_child_leaf_childless.
  - by apply add_child_scorable.
  - by apply add_child_unique_ids.
Qed.

Lemma add_child_preserves_witness : well_formed Examples.or_tree.
Proof.
  apply (add_child_preserves
    (AttackNode.add_child (AttackNode.new "root" "Root" "" NodeType.OR)
       Examples.A) Examples.B); compute_done.
Defined.

