(* ===== verification/PathSearch.v ===== *)
(** * Path search

    [AttackTree._find_path], [_path_score] and the entry points
    [find_easiest_path], [find_cheapest_path] and [find_stealthiest_path]
    (lines 82-132 of [attack-trees-analysis.py]).

    The specification has three parts: [plan], what an attack plan of a
    tree is; [find_path_ref], the search written with [first_min] and the
    list monad; and the interface [PathMetric] of a score that adds up
    along a path.  The reference search is proved optimal against the
    interface; [_path_score] implements the interface for every metric
    string, and the loops of [_find_path] compute the reference search, so
    the source's search is optimal.  The LEAF, OR and AND laws of the
    specification and the error cases are stated on the source's
    definitions. *)

From S2P Require Import Prelude Model.

#[local] Open Scope Z_scope.

(** ** The source's definitions *)

(** The three generators of [_path_score]: the metric's value at each LEAF
    of the path. *)
Definition difficulty_of (n : AttackNode.t) : Z :=
  Difficulty.value (AttackAttributes.difficulty (AttackNode.attributes n)).
Definition cost_of (n : AttackNode.t) : Z :=
  Cost.value (AttackAttributes.cost (AttackNode.attributes n)).
Definition detection_of (n : AttackNode.t) : Z :=
  DetectionRisk.value (AttackAttributes.detection_risk (AttackNode.attributes n)).

Definition _path_score (path : list AttackNode.t) (metric : string) : Z :=
  if String.eqb metric "difficulty" then
    sumZ (difficulty_of <$> leaves_of path)
  else if String.eqb metric "cost" then
    sumZ (cost_of <$> leaves_of path)
  else if String.eqb metric "detection" then
    sumZ (detection_of <$> leaves_of path)
  else 0.

(** The body of the loop over the children of an OR node, on the pair
    [(best_path, best_score)]. *)
Definition or_step (minimize : string)
    (best : option (list AttackNode.t) * Score)
    (child_path : list AttackNode.t) : option (list AttackNode.t) * Score :=
  let score := _path_score child_path minimize in
  if score_lt score best.2 then (Some child_path, Fin score) else best.

Fixpoint _find_path (node : AttackNode.t) (minimize : string)
    : list AttackNode.t :=
  if is_leaf node then [node]
  else if AttackNode.children node is [] then [node]
  else if decide (AttackNode.node_type node = NodeType.OR) then
    let best :=
      foldl (λ best child, or_step minimize best (_find_path child minimize))
        (None, Inf) (AttackNode.children node) in
    [node] ++ py_or best.1 []
  else
    foldl (λ path child, path ++ _find_path child minimize)
      [node] (AttackNode.children node).

Definition find_easiest_path (self : AttackTree.t) : list AttackNode.t :=
  _find_path (AttackTree.root self) "difficulty".

Definition find_cheapest_path (self : AttackTree.t) : list AttackNode.t :=
  _find_path (AttackTree.root self) "cost".

Definition find_stealthiest_path (self : AttackTree.t) : list AttackNode.t :=
  _find_path (AttackTree.root self) "detection".

(** ** Reference definitions and the specification *)

(** The first element of a list with the smallest value of [f]. *)
Fixpoint first_min {A} (f : A → Z) (l : list A) : option A :=
  match l with
  | [] => None
  | x :: l' =>
      match first_min f l' with
      | Some y => if bool_decide (f y < f x) then Some y else Some x
      | None => Some x
      end
  end.

(** The search as a function of the score alone, written with [first_min]
    and the list monad instead of loops. *)
Fixpoint find_path_ref (score : list AttackNode.t → Z) (n : AttackNode.t)
    : list AttackNode.t :=
  match AttackNode.node_type n with
  | NodeType.LEAF => [n]
  | NodeType.OR =>
      n :: default [] (first_min score (find_path_ref score <$> AttackNode.children n))
  | NodeType.AND => n :: (AttackNode.children n ≫= find_path_ref score)
  end.

(** A metric the source knows. *)
Definition known_metric (metric : string) : Prop :=
  metric ∈ ["difficulty"; "cost"; "detection"].

(** The attack plans of a node: a LEAF or a childless node is its own
    plan; a plan of an OR node is the node and a plan of one child; a plan
    of an AND node is the node and plans of all children, in order. *)
#[local] Unset Elimination Schemes.
Inductive plan : AttackNode.t → list AttackNode.t → Prop :=
| plan_leaf n :
    is_leaf n = true → plan n [n]
| plan_dead_end n :
    is_leaf n = false → AttackNode.children n = [] → plan n [n]
| plan_or n c p :
    AttackNode.node_type n = NodeType.OR →
    c ∈ AttackNode.children n → plan c p → plan n (n :: p)
| plan_and n ps :
    AttackNode.node_type n = NodeType.AND →
    AttackNode.children n ≠ [] →
    Forall2 plan (AttackNode.children n) ps → plan n (n :: mjoin ps).
#[local] Set Elimination Schemes.

(** What the search needs of a score: that it adds up along a path.  The
    reference search is optimal for every such score; [_path_score] is one
    for every metric string. *)
Class PathMetric (score : list AttackNode.t → Z) : Prop := {
  metric_nil : score [] = 0;
  metric_app p q : score (p ++ q) = score p + score q;
}.

(** ** The score of a path *)

Section path_score.
Context (metric : string).
Implicit Types n : AttackNode.t.
Implicit Types p q : list AttackNode.t.

(** What a node adds to the score of a path it stands in. *)
Definition node_score (n : AttackNode.t) : Z := _path_score [n] metric.

Lemma path_score_nil : _path_score [] metric = 0.
Proof. rw /_path_score. by repeat case_match. Qed.

Lemma path_score_cons n p :
  _path_score (n :: p) metric = node_score n + _path_score p metric.
Proof.
  rw /node_score /_path_score !leaves_of_cons.
  repeat case_match; rw ?fmap_cons ?sumZ_cons /=; lia.
Qed.

Lemma path_score_app p q :
  _path_score (p ++ q) metric = _path_score p metric + _path_score q metric.
Proof.
  induction p as [|n p IH]; [rw path_score_nil /=; lia|].
  rw -app_comm_cons !path_score_cons IH. lia.
Qed.

Lemma path_score_join (ps : list (list AttackNode.t)) :
  _path_score (mjoin ps) metric = sumZ ((λ p, _path_score p metric) <$> ps).
Proof.
  induction ps as [|p ps IH]; [by rw path_score_nil|].
  by rw /= path_score_app IH.
Qed.

(** Only a LEAF adds to the score. *)
Lemma node_score_junction n : is_leaf n = false → node_score n = 0.
Proof.
  intros Hn. rw /node_score /_path_score leaves_of_cons Hn. by repeat case_match.
Qed.

Lemma node_score_bounds n : 0 ≤ node_score n ≤ 5.
Proof.
  rw /node_score /_path_score leaves_of_cons.
  pose proof (Difficulty_value_bounds
    (AttackAttributes.difficulty (AttackNode.attributes n))).
  pose proof (Cost_value_bounds
    (AttackAttributes.cost (AttackNode.attributes n))).
  pose proof (DetectionRisk_value_bounds
    (AttackAttributes.detection_risk (AttackNode.attributes n))).
  repeat case_match;
    rw /= ?sumZ_singleton /difficulty_of /cost_of /detection_of; lia.
Qed.

Lemma path_score_nonneg p : 0 ≤ _path_score p metric.
Proof.
  induction p as [|n p IH]; [by rw path_score_nil|].
  rw path_score_cons. pose proof (node_score_bounds n). lia.
Qed.

Lemma path_score_upper p : _path_score p metric ≤ 5 * Z.of_nat (length p).
Proof.
  induction p as [|n p IH]; [by rw path_score_nil|].
  rw path_score_cons /=. pose proof (node_score_bounds n). lia.
Qed.

End path_score.

#[export] Hint Rewrite path_score_nil path_score_cons path_score_app : attack.

#[export] Instance path_score_metric metric :
  PathMetric (λ p, _path_score p metric).
Proof. split; [apply path_score_nil|apply path_score_app]. Qed.

(** ** The first minimum of a list *)

Section first_min.
Context {A : Type} (f : A → Z).
Implicit Types x y : A.
Implicit Types l : list A.

Lemma first_min_None l : first_min f l = None ↔ l = [].
Proof. destruct l as [|x l]; [done|]. simpl. by repeat case_match. Qed.

Lemma first_min_is_Some l : l ≠ [] → is_Some (first_min f l).
Proof. rw -not_eq_None_Some first_min_None. done. Qed.

(** The loop's view: the first two elements can be merged into the one
    the loop keeps. *)
Lemma first_min_cons_cons x y l :
  first_min f (x :: y :: l)
  = first_min f ((if bool_decide (f y < f x) then y else x) :: l).
Proof. simpl. destruct (first_min f l); case_bool; try done; lia. Qed.

Lemma first_min_elem_of l x : first_min f l = Some x → x ∈ l.
Proof.
  revert x. induction l as [|y l IH]=> x /=; [done|].
  destruct (first_min f l) as [z|]; case_bool; set_solver.
Qed.

(** It is a lower bound of the list, ... *)
Lemma first_min_le l x y : first_min f l = Some x → y ∈ l → f x ≤ f y.
Proof.
  revert x. induction l as [|z l IH]=> x /=; [by intros _ ?%elem_of_nil|].
  destruct (first_min f l) as [w|] eqn:Hw.
  - intros Hx [->|Hy]%elem_of_cons; case_bool;
      try specialize (IH _ eq_refl Hy); lia.
  - apply first_min_None in Hw as ->. intros [= ->] ->%list_elem_of_singleton. lia.
Qed.

(** ... and strictly below everything before it. *)
Lemma first_min_first l x :
  first_min f l = Some x →
  ∃ l1 l2, l = l1 ++ x :: l2 ∧ ∀ y, y ∈ l1 → f x < f y.
Proof.
  revert x. induction l as [|z l IH]=> x /=; [done|].
  destruct (first_min f l) as [w|] eqn:Hw.
  - case_bool_decide as Hlt; intros [= <-].
    + destruct (IH _ eq_refl) as (l1 & l2 & -> & Hl1).
      exists (z :: l1), l2. split; [done|].
      intros y [->|Hy]%elem_of_cons; auto.
    + exists [], l. split; [done|]. by intros y ?%elem_of_nil.
  - intros [= <-]. exists [], l. split; [done|]. by intros y ?%elem_of_nil.
Qed.

(** A last element takes the place of the first minimum when it is
    strictly below it. *)
Lemma first_min_snoc l x :
  first_min f (l ++ [x])
  = Some (match first_min f l with
          | Some y => if bool_decide (f x < f y) then x else y
          | None => x
          end).
Proof.
  induction l as [|z l IH]; [done|]. rw /= IH.
  destruct (first_min f l); repeat case_bool_decide; try done; lia.
Qed.

Lemma first_min_fmap {B} (g : B → A) (l : list B) :
  first_min f (g <$> l) = g <$> first_min (f ∘ g) l.
Proof.
  induction l as [|b l IH]; [done|]. rw /= IH.
  destruct (first_min (f ∘ g) l); simpl; by repeat case_bool_decide.
Qed.

End first_min.

(** ** The loops of [_find_path] in closed form *)

Section loops.
Context (minimize : string).
Implicit Types n c : AttackNode.t.
Implicit Types p : list AttackNode.t.
Implicit Types ps : list (list AttackNode.t).

#[local] Abbreviation score p := (_path_score p minimize).
#[local] Abbreviation find c := (_find_path c minimize).
#[local] Abbreviation scoref := (λ p, _path_score p minimize).
#[local] Abbreviation findf := (λ c, _find_path c minimize).

(** The pair the OR loop holds when [o] is the best path so far. *)
Definition best_of (o : option (list AttackNode.t))
    : option (list AttackNode.t) * Score :=
  (o, from_option (λ p, Fin (score p)) Inf o).

Lemma or_step_best_of p0 p :
  or_step minimize (best_of (Some p0)) p
  = best_of (Some (if bool_decide (score p < score p0) then p else p0)).
Proof. rw /or_step /=. by case_bool_decide. Qed.

Lemma or_loop_from p0 ps :
  foldl (or_step minimize) (best_of (Some p0)) ps
  = best_of (first_min scoref (p0 :: ps)).
Proof.
  revert p0. induction ps as [|p ps IH]=> p0; [done|].
  by rw [foldl _ _ _]/= or_step_best_of IH -first_min_cons_cons.
Qed.

(** The OR loop keeps the first child path of minimal score. *)
Lemma or_loop_first_min ps :
  foldl (or_step minimize) (None, Inf) ps = best_of (first_min scoref ps).
Proof. destruct ps as [|p ps]; [done|]. apply (or_loop_from p ps). Qed.

Lemma find_path_unfold n :
  _find_path n minimize =
    if is_leaf n then [n]
    else if AttackNode.children n is [] then [n]
    else if decide (AttackNode.node_type n = NodeType.OR) then
      [n] ++ py_or
        (foldl (λ best c, or_step minimize best (find c)) (None, Inf)
           (AttackNode.children n)).1 []
    else foldl (λ path c, path ++ find c) [n] (AttackNode.children n).
Proof. by destruct n. Qed.

Lemma find_path_leaf n : is_leaf n = true → _find_path n minimize = [n].
Proof. intros Hn. by rw find_path_unfold Hn. Qed.

Lemma find_path_dead_end n :
  AttackNode.children n = [] → _find_path n minimize = [n].
Proof. intros Hn. rw find_path_unfold Hn. by case_match. Qed.

Lemma find_path_or n :
  AttackNode.node_type n = NodeType.OR →
  _find_path n minimize
  = n :: default [] (first_min scoref (findf <$> AttackNode.children n)).
Proof.
  intros Hty. rw find_path_unfold /is_leaf Hty /=.
  destruct (AttackNode.children n) as [|c cs] eqn:Hcs; [done|].
  by rw -(foldl_fmap (or_step minimize)) or_loop_first_min py_or_nil.
Qed.

Lemma find_path_and n :
  AttackNode.node_type n = NodeType.AND →
  _find_path n minimize = n :: (AttackNode.children n ≫= findf).
Proof.
  intros Hty. rw find_path_unfold /is_leaf Hty /=.
  destruct (AttackNode.children n) as [|c cs] eqn:Hcs; [done|].
  by rw -(foldl_fmap (λ path p, path ++ p)) foldl_extend_join
    list_join_bind list_fmap_bind.
Qed.

(** Whatever the node, the path starts with it. *)
Lemma find_path_head n : ∃ p, _find_path n minimize = n :: p.
Proof.
  destruct (AttackNode.node_type n) eqn:Hty.
  - rw find_path_or //. eauto.
  - rw find_path_and //. eauto.
  - rw find_path_leaf; [by apply is_leaf_true|]. eauto.
Qed.

End loops.

(** ** The laws of the search *)

Section laws.
Context (minimize : string).
Implicit Types n c : AttackNode.t.
Implicit Types p : list AttackNode.t.

#[local] Abbreviation score p := (_path_score p minimize).
#[local] Abbreviation find c := (_find_path c minimize).
#[local] Abbreviation scoref := (λ p, _path_score p minimize).
#[local] Abbreviation findf := (λ c, _find_path c minimize).

(** An OR node with children selects one child: the first of those whose
    best path has the smallest score. *)
Lemma find_path_or_selects n :
  AttackNode.node_type n = NodeType.OR → AttackNode.children n ≠ [] →
  ∃ cs1 c cs2,
    AttackNode.children n = cs1 ++ c :: cs2 ∧
    _find_path n minimize = n :: find c ∧
    (∀ c', c' ∈ AttackNode.children n → score (find c) ≤ score (find c')) ∧
    (∀ c', c' ∈ cs1 → score (find c) < score (find c')).
Proof.
  intros Hty Hcs. rw find_path_or // first_min_fmap.
  destruct (first_min_is_Some (scoref ∘ findf) _ Hcs) as [c Hc]. rw Hc.
  destruct (first_min_first _ _ _ Hc) as (cs1 & cs2 & Heq & Hfirst).
  exists cs1, c, cs2. split_and!; [done..| |done].
  intros c' Hc'. apply (first_min_le (scoref ∘ findf) _ _ _ Hc Hc').
Qed.

Lemma find_path_junction_score n :
  is_leaf n = false →
  score (find n) = score (tail (find n)).
Proof.
  intros Hn. destruct (find_path_head minimize n) as [p ->].
  by rw path_score_cons node_score_junction.
Qed.

Lemma find_path_or_score n c :
  AttackNode.node_type n = NodeType.OR → c ∈ AttackNode.children n →
  score (find n) ≤ score (find c).
Proof.
  intros Hty Hc.
  destruct (find_path_or_selects n) as (cs1 & c0 & cs2 & _ & -> & Hle & _);
    [done|by intros Hnil; rw Hnil in Hc; inv Hc|].
  rw path_score_cons node_score_junction; [by rw /is_leaf Hty|].
  by apply Hle.
Qed.

Lemma find_path_and_score n :
  AttackNode.node_type n = NodeType.AND →
  score (find n) = sumZ ((λ c, score (find c)) <$> AttackNode.children n).
Proof.
  intros Hty. rw find_path_and // path_score_cons node_score_junction.
  { by rw /is_leaf Hty. }
  by rw -(list_fmap_bind _ id) -list_join_bind path_score_join -list_fmap_compose.
Qed.

(** *** The search after [add_child] *)

(** The score of a node is the receiver's: [add_child] keeps the type and
    the attributes. *)
Lemma node_score_add_child n c :
  node_score minimize (AttackNode.add_child n c) = node_score minimize n.
Proof.
  rw /node_score /_path_score !leaves_of_cons.
  change (is_leaf (AttackNode.add_child n c)) with (is_leaf n).
  by destruct (is_leaf n).
Qed.

(** The search does not look below a LEAF. *)
Lemma find_path_add_child_leaf n c :
  AttackNode.node_type n = NodeType.LEAF →
  find (AttackNode.add_child n c) = [AttackNode.add_child n c].
Proof. intros Hty. by apply find_path_leaf, is_leaf_true. Qed.

(** An AND node takes the steps of the new child after the others. *)
Lemma find_path_add_child_and n c :
  AttackNode.node_type n = NodeType.AND →
  find (AttackNode.add_child n c)
  = AttackNode.add_child n c :: tail (find n) ++ find c.
Proof.
  intros Hty. rw (find_path_and _ (AttackNode.add_child n c)) //.
  by rw (find_path_and _ n) // add_child_children bind_app /= app_nil_r.
Qed.

(** An OR node takes the new child when it has no other, or when the
    child is strictly better than the best so far. *)
Lemma find_path_add_child_or n c :
  AttackNode.node_type n = NodeType.OR →
  find (AttackNode.add_child n c)
  = AttackNode.add_child n c ::
      if bool_decide (AttackNode.children n = []
                      ∨ score (find c) < score (find n))
      then find c else tail (find n).
Proof.
  intros Hty. rw (find_path_or _ (AttackNode.add_child n c)) //.
  rw add_child_children fmap_app /= first_min_snoc (find_path_or _ n) //.
  destruct (AttackNode.children n) as [|c0 cs] eqn:Hcs; [done|].
  destruct (first_min_is_Some scoref (findf <$> c0 :: cs)) as [p Hp]; [done|].
  rw Hp /= path_score_cons node_score_junction; [by rw /is_leaf Hty|].
  rw Z.add_0_l. f_equal. repeat case_bool_decide; naive_solver.
Qed.

(** The path is a subsequence of the pre-order listing of the subtree. *)
Lemma find_path_sublist n : find n `sublist_of` nodes n.
Proof.
  node_induction n. rw nodes_unfold.
  destruct (AttackNode.node_type n) eqn:Hty.
  - rw find_path_or // first_min_fmap.
    destruct (first_min _ _) as [c|] eqn:Hc; [|by apply sublist_skip, sublist_nil_l].
    apply first_min_elem_of in Hc. apply sublist_skip.
    apply (sublist_bind_elem _ c); [done|].
    by apply (proj1 (Forall_forall _ _) IH).
  - rw find_path_and //. by apply sublist_skip, sublist_bind.
  - rw find_path_leaf; [by apply is_leaf_true|].
    apply sublist_skip, sublist_nil_l.
Qed.

Lemma find_path_elem_of n m : m ∈ find n → m ∈ nodes n.
Proof. intros Hm. eapply elem_of_sublist, find_path_sublist. done. Qed.

Lemma find_path_length n : (length (find n) ≤ size n)%nat.
Proof. apply sublist_length, find_path_sublist. Qed.

End laws.

(** ** The reference search against the specification *)

Section reference.
Context (score : list AttackNode.t → Z) `{!PathMetric score}.
Implicit Types n c : AttackNode.t.
Implicit Types p : list AttackNode.t.

#[local] Abbreviation ref c := (find_path_ref score c).

Lemma find_path_ref_unfold n :
  find_path_ref score n =
    match AttackNode.node_type n with
    | NodeType.LEAF => [n]
    | NodeType.OR =>
        n :: default [] (first_min score (find_path_ref score <$> AttackNode.children n))
    | NodeType.AND => n :: (AttackNode.children n ≫= find_path_ref score)
    end.
Proof. by destruct n. Qed.

Lemma find_path_ref_dead_end n :
  AttackNode.children n = [] → find_path_ref score n = [n].
Proof. intros Hn. rw find_path_ref_unfold Hn. by case_match. Qed.

Lemma metric_cons n p : score (n :: p) = score [n] + score p.
Proof. apply (metric_app [n] p). Qed.

Lemma metric_join (ps : list (list AttackNode.t)) :
  score (mjoin ps) = sumZ (score <$> ps).
Proof.
  induction ps as [|p ps IH]; [apply metric_nil|]. by rw /= metric_app IH.
Qed.

(** A plan of a node starts with the node and stays in its subtree. *)
Lemma plan_head n p : plan n p → head p = Some n.
Proof. by inv 1. Qed.

Lemma plans_sublist cs (ps : list (list AttackNode.t)) :
  Forall (λ c, ∀ p, plan c p → p `sublist_of` nodes c) cs →
  Forall2 plan cs ps → mjoin ps `sublist_of` (cs ≫= nodes).
Proof.
  intros IH Hps.
  induction Hps as [|c p cs ps Hp _ IHps]; inv IH; [done|].
  rw bind_cons. apply sublist_app; auto.
Qed.

Lemma plan_sublist n p : plan n p → p `sublist_of` nodes n.
Proof.
  revert p. node_induction n=> p Hp. rw nodes_unfold.
  inv Hp; apply sublist_skip; try apply sublist_nil_l.
  - apply (sublist_bind_elem _ c); [done|].
    by apply (proj1 (Forall_forall _ _) IH).
  - by apply plans_sublist.
Qed.

(** Soundness: the reference search returns a plan of the node. *)
Lemma find_path_ref_plan n : plan n (ref n).
Proof.
  node_induction n.
  destruct (decide (AttackNode.children n = [])) as [Hnil|Hcs].
  { rw find_path_ref_dead_end //. destruct (is_leaf n) eqn:?; by constructor. }
  rw find_path_ref_unfold. destruct (AttackNode.node_type n) eqn:Hty.
  - destruct (first_min_is_Some score (find_path_ref score <$> AttackNode.children n)) as [q Hq].
    { by intros ?%fmap_nil_inv. }
    rw Hq /=. apply first_min_elem_of, list_elem_of_fmap in Hq as (c & -> & Hc).
    apply (plan_or n c); [done..|]. by apply (proj1 (Forall_forall _ _) IH).
  - rw -(list_fmap_bind _ id) -list_join_bind.
    by apply plan_and, Forall2_fmap_r, Forall_Forall2_diag.
  - by apply plan_leaf, is_leaf_true.
Qed.

(** The best path of an OR node scores at most what its children's do. *)
Lemma find_path_ref_or_score n c :
  AttackNode.node_type n = NodeType.OR → c ∈ AttackNode.children n →
  score (ref n) ≤ score [n] + score (ref c).
Proof.
  intros Hty Hc. rw (find_path_ref_unfold n) Hty.
  destruct (first_min_is_Some score (find_path_ref score <$> AttackNode.children n)) as [q Hq].
  { intros Hnil%fmap_nil_inv. rw Hnil in Hc. by apply elem_of_nil in Hc. }
  rw Hq /= metric_cons. apply Z.add_le_mono_l.
  by apply (first_min_le score _ q _ Hq), list_elem_of_fmap_2.
Qed.

(** Pointwise optimality of the children sums up. *)
Lemma plans_score_le cs ps :
  Forall (λ c, ∀ p, plan c p → score (ref c) ≤ score p) cs →
  Forall2 plan cs ps →
  sumZ ((λ c, score (ref c)) <$> cs) ≤ sumZ (score <$> ps).
Proof.
  intros IH Hps. apply sumZ_fmap_le.
  induction Hps as [|c p cs ps Hp _ IHps]; inv IH; constructor; auto.
Qed.

(** Optimality: no plan of the node scores less than the path found. *)
Lemma find_path_ref_le_plan n p : plan n p → score (ref n) ≤ score p.
Proof.
  revert p. node_induction n=> p Hp. inv Hp.
  - rw find_path_ref_unfold. by apply is_leaf_true in H as ->.
  - by rw find_path_ref_dead_end.
  - etrans; [by apply (find_path_ref_or_score n c)|]. rw (metric_cons n p0).
    apply Z.add_le_mono_l. by apply (proj1 (Forall_forall _ _) IH).
  - rw find_path_ref_unfold H metric_cons (metric_cons n (mjoin ps)) metric_join.
    rw -(list_fmap_bind _ id) -list_join_bind metric_join -list_fmap_compose.
    by apply Z.add_le_mono_l, plans_score_le.
Qed.

End reference.

(** ** The search is the reference search *)

Section optimality.
Context (minimize : string).
Implicit Types n c : AttackNode.t.
Implicit Types p : list AttackNode.t.

#[local] Abbreviation score p := (_path_score p minimize).
#[local] Abbreviation find c := (_find_path c minimize).
#[local] Abbreviation scoref := (λ p, _path_score p minimize).

Lemma find_path_is_ref n : find n = find_path_ref scoref n.
Proof.
  node_induction n. rw find_path_ref_unfold.
  destruct (AttackNode.node_type n) eqn:Hty.
  - rw find_path_or //. do 3 f_equal. by apply Forall_fmap_ext.
  - rw find_path_and //. f_equal. by apply Forall_bind_ext.
  - by rw find_path_leaf; [apply is_leaf_true|].
Qed.

Lemma find_path_plan n : plan n (find n).
Proof. rw find_path_is_ref. by apply find_path_ref_plan. Qed.

Lemma find_path_le_plan n p : plan n p → score (find n) ≤ score p.
Proof. rw find_path_is_ref. by apply (find_path_ref_le_plan scoref). Qed.

End optimality.

(** ** Properties of the search *)

Section properties.
Implicit Types n c : AttackNode.t.
Implicit Types p : list AttackNode.t.
Implicit Types minimize metric : string.

(** The score of a path is the score of its leaves. *)
Lemma path_score_leaves p metric :
  _path_score p metric = _path_score (leaves_of p) metric.
Proof.
  induction p as [|n p IH]; [done|].
  rw leaves_of_cons path_score_cons IH. destruct (is_leaf n) eqn:Hn.
  - by rw path_score_cons.
  - by rw node_score_junction.
Qed.

Lemma path_score_unknown p metric : ¬ known_metric metric → _path_score p metric = 0.
Proof.
  rw /known_metric /_path_score=> Hm.
  repeat case_match; try done; exfalso; apply Hm;
    repeat match goal with H : String.eqb _ _ = true |- _ =>
      apply String.eqb_eq in H as -> end; set_solver.
Qed.

(** C1. Optimality of the search: the path found is an attack plan of the
    node (the node itself for a LEAF or a childless node, the node and a
    plan of one child for OR, the node and plans of all children for AND),
    and no attack plan of the node has a smaller score, whatever the
    metric. *)
Theorem find_path_optimal n minimize :
  plan n (_find_path n minimize) ∧
  ∀ p, plan n p →
    _path_score (_find_path n minimize) minimize ≤ _path_score p minimize.
Proof. split; [apply find_path_plan|apply find_path_le_plan]. Qed.

(** C2. The OR law: an OR node with children yields itself followed by
    the best path of one child, namely the first child, in stored order,
    whose best path has the smallest score; the comparison is strict, so
    the first child wins ties; and the node's score is that child's. *)
Theorem find_path_or_law n minimize :
  AttackNode.node_type n = NodeType.OR → AttackNode.children n ≠ [] →
  ∃ cs1 c cs2,
    AttackNode.children n = cs1 ++ c :: cs2 ∧
    _find_path n minimize = n :: _find_path c minimize ∧
    _path_score (_find_path n minimize) minimize
      = _path_score (_find_path c minimize) minimize ∧
    (∀ c', c' ∈ cs1 →
       _path_score (_find_path c minimize) minimize
         < _path_score (_find_path c' minimize) minimize) ∧
    (∀ c', c' ∈ cs2 →
       _path_score (_find_path c minimize) minimize
         ≤ _path_score (_find_path c' minimize) minimize).
Proof.
  intros Hty Hcs.
  destruct (find_path_or_selects minimize n Hty Hcs)
    as (cs1 & c & cs2 & Heq & Hp & Hle & Hlt).
  exists cs1, c, cs2. split_and!; [done..| |done|].
  - rw Hp path_score_cons node_score_junction; [by rw /is_leaf Hty|done].
  - intros c' Hc'. apply Hle. rw Heq. set_solver.
Qed.

Lemma find_path_or_law_witness :
  ∃ cs1 c cs2,
    AttackNode.children Examples.or_tree = cs1 ++ c :: cs2 ∧
    _find_path Examples.or_tree "difficulty"
      = Examples.or_tree :: _find_path c "difficulty" ∧
    _path_score (_find_path Examples.or_tree "difficulty") "difficulty"
      = _path_score (_find_path c "difficulty") "difficulty" ∧
    (∀ c', c' ∈ cs1 →
       _path_score (_find_path c "difficulty") "difficulty"
         < _path_score (_find_path c' "difficulty") "difficulty") ∧
    (∀ c', c' ∈ cs2 →
       _path_score (_find_path c "difficulty") "difficulty"
         ≤ _path_score (_find_path c' "difficulty") "difficulty").
Proof.
  apply (find_path_or_law Examples.or_tree "difficulty");
    [reflexivity|discriminate].
Defined.

(** C3. The AND law: an AND node yields itself followed by the best paths
    of all its children, in stored order, and its score is the sum of the
    children's best scores. *)
Theorem find_path_and_law n minimize :
  AttackNode.node_type n = NodeType.AND →
  _find_path n minimize
    = n :: mjoin ((λ c, _find_path c minimize) <$> AttackNode.children n) ∧
  _path_score (_find_path n minimize) minimize
    = sumZ ((λ c, _path_score (_find_path c minimize) minimize)
              <$> AttackNode.children n).
Proof.
  intros Hty. split; [|by apply find_path_and_score].
  by rw find_path_and // list_join_bind list_fmap_bind.
Qed.

Lemma find_path_and_law_witness :
  _find_path Examples.and_tree "cost"
    = Examples.and_tree
        :: mjoin ((λ c, _find_path c "cost")
                    <$> AttackNode.children Examples.and_tree) ∧
  _path_score (_find_path Examples.and_tree "cost") "cost"
    = sumZ ((λ c, _path_score (_find_path c "cost") "cost")
              <$> AttackNode.children Examples.and_tree).
Proof. apply (find_path_and_law Examples.and_tree "cost"). reflexivity. Defined.

(** C9. The LEAF law: the best path of a LEAF is the LEAF alone, for every
    metric, children or not, and its score under each of the three metrics
    is the value of the leaf's own attribute. *)
Theorem find_path_leaf_law n :
  AttackNode.node_type n = NodeType.LEAF →
  (∀ minimize, _find_path n minimize = [n]) ∧
  _path_score (_find_path n "difficulty") "difficulty"
    = Difficulty.value (AttackAttributes.difficulty (AttackNode.attributes n)) ∧
  _path_score (_find_path n "cost") "cost"
    = Cost.value (AttackAttributes.cost (AttackNode.attributes n)) ∧
  _path_score (_find_path n "detection") "detection"
    = DetectionRisk.value
        (AttackAttributes.detection_risk (AttackNode.attributes n)).
Proof.
  intros Hn%is_leaf_true.
  split_and!; [by intros; apply find_path_leaf|..];
    rw find_path_leaf // /_path_score leaves_of_cons Hn /=; apply Z.add_0_r.
Qed.

Lemma find_path_leaf_law_witness :
  (∀ minimize, _find_path Examples.B minimize = [Examples.B]) ∧
  _path_score (_find_path Examples.B "difficulty") "difficulty"
    = Difficulty.value
        (AttackAttributes.difficulty (AttackNode.attributes Examples.B)) ∧
  _path_score (_find_path Examples.B "cost") "cost"
    = Cost.value (AttackAttributes.cost (AttackNode.attributes Examples.B)) ∧
  _path_score (_find_path Examples.B "detection") "detection"
    = DetectionRisk.value
        (AttackAttributes.detection_risk (AttackNode.attributes Examples.B)).
Proof. apply (find_path_leaf_law Examples.B). reflexivity. Defined.

(** C10. The loops of [_find_path] compute the reference search: for every
    node and metric the result is [find_path_ref] under that metric's
    score. *)
Theorem find_path_equiv n minimize :
  _find_path n minimize = find_path_ref (λ p, _path_score p minimize) n.
Proof. apply find_path_is_ref. Qed.

(** The specification's two examples: in root(OR) over the leaves A
    (difficulty TRIVIAL) and B (difficulty HIGH) the easiest path is
    [root, A] with score 1; in root(AND) over A (cost LOW) and B (cost
    MEDIUM) the cheapest path is [root, A, B] with score 3. *)
Example find_path_examples :
  _find_path Examples.or_tree "difficulty" = [Examples.or_tree; Examples.A] ∧
  _path_score (_find_path Examples.or_tree "difficulty") "difficulty" = 1 ∧
  _find_path Examples.and_tree "cost"
    = [Examples.and_tree; Examples.A; Examples.B] ∧
  _path_score (_find_path Examples.and_tree "cost") "cost" = 3.
Proof. by vm_compute. Qed.

(** C29. The score of the best path lies between 0 and 5 times the number
    of LEAF nodes of the subtree, and the path is a subsequence of the
    subtree's pre-order listing that starts with the node. *)
Theorem find_path_bounds n minimize :
  0 ≤ _path_score (_find_path n minimize) minimize
    ≤ 5 * Z.of_nat (length (leaves_of (nodes n))) ∧
  _find_path n minimize `sublist_of` nodes n ∧
  head (_find_path n minimize) = Some n.
Proof.
  split_and!.
  - apply path_score_nonneg.
  - rw path_score_leaves. etrans; [apply path_score_upper|].
    pose proof (sublist_length _ _
      (leaves_of_sublist _ _ (find_path_sublist minimize n))). lia.
  - apply find_path_sublist.
  - by destruct (find_path_head minimize n) as [p ->].
Qed.

(** C30. The two ways an OR node finds a path of score 0.  A metric the
    source does not know scores every path 0, so that the node takes its
    first child whatever the attributes; this holds in particular of the
    metric name "detectionRisk".  And a childless junction is not a leaf
    attack, yet the search treats it as a path of its own with score 0:
    under the difficulty metric an OR node with such a child finds a path
    of score 0, which no path through leaf attacks has. *)
Theorem find_path_zero_scores n :
  AttackNode.node_type n = NodeType.OR →
  (∀ c cs metric,
     ¬ known_metric metric → AttackNode.children n = c :: cs →
     _path_score (_find_path n metric) metric = 0 ∧
     _find_path n metric = n :: _find_path c metric) ∧
  (∀ c,
     c ∈ AttackNode.children n →
     AttackNode.node_type c ≠ NodeType.LEAF → AttackNode.children c = [] →
     _path_score (_find_path n "difficulty") "difficulty" = 0).
Proof.
  intros Hty. split.
  - intros c cs metric Hm Hcs. split; [by apply path_score_unknown|].
    destruct (find_path_or_selects metric n)
      as ([|c' cs1] & c0 & cs2 & Heq & -> & _ & Hlt);
      [done|by rw Hcs|..]; rw Hcs in Heq; simplify_eq/=; [done|].
    specialize (Hlt _ (list_elem_of_here _ _)).
    by rw !path_score_unknown in Hlt.
  - intros c Hc Hcty Hcs.
    pose proof (find_path_or_score "difficulty" n c Hty Hc) as Hle.
    rw (find_path_dead_end _ c Hcs) path_score_cons path_score_nil in Hle.
    rw node_score_junction in Hle; [by apply is_leaf_false|].
    pose proof (path_score_nonneg "difficulty" (_find_path n "difficulty")). lia.
Qed.

Lemma find_path_zero_scores_witness :
  (_path_score (_find_path Examples.or_tree "detectionRisk") "detectionRisk" = 0 ∧
   _find_path Examples.or_tree "detectionRisk"
     = Examples.or_tree :: _find_path Examples.A "detectionRisk") ∧
  _path_score
    (_find_path
       (AttackNode.add_child Examples.or_tree
          (AttackNode.new "S" "Stub" "" NodeType.AND)) "difficulty")
    "difficulty" = 0%Z.
Proof.
  split.
  - apply (proj1 (find_path_zero_scores Examples.or_tree eq_refl)
             Examples.A [Examples.B]); [compute_done|reflexivity].
  - apply (proj2 (find_path_zero_scores
                    (AttackNode.add_child Examples.or_tree
                       (AttackNode.new "S" "Stub" "" NodeType.AND)) eq_refl)
             (AttackNode.new "S" "Stub" "" NodeType.AND));
      [repeat constructor|discriminate|reflexivity].
Defined.

End properties.
