(* ===== verification/Leaves.v ===== *)
(** * Leaf enumeration

    [AttackTree.get_all_leaf_attacks], [_collect_leaves] and
    [get_unmitigated_attacks] (lines 134-148 of [attack-trees-analysis.py]).
    The list [leaves] that the source passes down and appends to is the
    accumulator of [_collect_leaves]; the function returns it as it stands
    after the call. *)

From S2P Require Import Prelude Model PathSearch.

(** ** The source's definitions *)

Fixpoint _collect_leaves (node : AttackNode.t) (leaves : list AttackNode.t)
    : list AttackNode.t :=
  let leaves := if is_leaf node then leaves ++ [node] else leaves in
  foldl (λ leaves child, _collect_leaves child leaves)
    leaves (AttackNode.children node).

Definition get_all_leaf_attacks (self : AttackTree.t) : list AttackNode.t :=
  let leaves := [] in
  _collect_leaves (AttackTree.root self) leaves.

(** [not n.mitigations]. *)
Definition unmitigated (n : AttackNode.t) : Prop := AttackNode.mitigations n = [].

Definition get_unmitigated_attacks (self : AttackTree.t) : list AttackNode.t :=
  filter unmitigated (get_all_leaf_attacks self).

(** ** The walk appends the leaves of the pre-order listing *)

Section collect.
Implicit Types n c : AttackNode.t.
Implicit Types l acc : list AttackNode.t.

Lemma collect_leaves_unfold n acc :
  _collect_leaves n acc
  = foldl (λ leaves c, _collect_leaves c leaves)
      (if is_leaf n then acc ++ [n] else acc) (AttackNode.children n).
Proof. by destruct n. Qed.

(** A loop of walks that each append is the append of a bind. *)
Lemma collect_leaves_children cs acc :
  Forall (λ c, ∀ acc, _collect_leaves c acc = acc ++ leaves_of (nodes c)) cs →
  foldl (λ leaves c, _collect_leaves c leaves) acc cs
  = acc ++ leaves_of (cs ≫= nodes).
Proof.
  intros IH. revert acc.
  induction IH as [|c cs Hc _ IHcs]=> acc /=; [by rw app_nil_r|].
  by rw Hc IHcs leaves_of_app app_assoc.
Qed.

Lemma collect_leaves_spec n acc :
  _collect_leaves n acc = acc ++ leaves_of (nodes n).
Proof.
  revert acc. node_induction n=> acc.
  rw collect_leaves_unfold collect_leaves_children // nodes_unfold leaves_of_cons.
  destruct (is_leaf n); by rw -?app_assoc.
Qed.

(** The accumulator is only ever extended. *)
Lemma collect_leaves_prefix n acc : acc `prefix_of` _collect_leaves n acc.
Proof. rw collect_leaves_spec. by apply prefix_app_r. Qed.

End collect.

(** ** The two enumerations *)

Section enumerations.
Implicit Types self : AttackTree.t.
Implicit Types n : AttackNode.t.

Lemma get_all_leaf_attacks_spec self :
  get_all_leaf_attacks self = leaves_of (nodes (AttackTree.root self)).
Proof. by rw /get_all_leaf_attacks collect_leaves_spec. Qed.

Lemma elem_of_get_all_leaf_attacks self n :
  n ∈ get_all_leaf_attacks self
  ↔ n ∈ nodes (AttackTree.root self) ∧ AttackNode.node_type n = NodeType.LEAF.
Proof. by rw get_all_leaf_attacks_spec elem_of_leaves_of is_leaf_true. Qed.

(** Leaves and junctions partition the tree. *)
Lemma leaf_count self :
  (length (get_all_leaf_attacks self)
   + length (filter (λ n, is_leaf n ≠ true) (nodes (AttackTree.root self))))%nat
  = size (AttackTree.root self).
Proof. rw get_all_leaf_attacks_spec. apply length_filter_split. Qed.

Lemma get_unmitigated_attacks_sublist self :
  get_unmitigated_attacks self `sublist_of` get_all_leaf_attacks self.
Proof. apply sublist_filter. Qed.

Lemma elem_of_get_unmitigated_attacks self n :
  n ∈ get_unmitigated_attacks self
  ↔ n ∈ get_all_leaf_attacks self ∧ AttackNode.mitigations n = [].
Proof. rw /get_unmitigated_attacks list_elem_of_filter. tauto. Qed.

Lemma get_unmitigated_attacks_length self :
  (length (get_unmitigated_attacks self) ≤ length (get_all_leaf_attacks self))%nat.
Proof. apply sublist_length, get_unmitigated_attacks_sublist. Qed.

(** The leaves of a best path are leaf attacks of the tree. *)
Lemma find_path_leaves self minimize :
  leaves_of (_find_path (AttackTree.root self) minimize)
    `sublist_of` get_all_leaf_attacks self.
Proof.
  rw get_all_leaf_attacks_spec.
  apply leaves_of_sublist, find_path_sublist.
Qed.

(** The score of an OR node after [add_child]. *)
Lemma add_child_or_score n c minimize :
  AttackNode.node_type n = NodeType.OR →
  let n' := AttackNode.add_child n c in
  let find m := _find_path m minimize in
  let score m := _path_score (_find_path m minimize) minimize in
  find n'
  = n' :: (if bool_decide (AttackNode.children n = [] ∨ (score c < score n)%Z)
           then find c else tail (find n))
  ∧ score n' = (if bool_decide (AttackNode.children n = [])
                then score c else score n `min` score c)%Z.
Proof.
  intros Hty. cbv beta zeta. rw find_path_add_child_or //. split; [done|].
  rw path_score_cons node_score_add_child node_score_junction.
  { by rw /is_leaf Hty. }
  rw (find_path_junction_score _ n); [by rw /is_leaf Hty|].
  destruct (AttackNode.children n) eqn:Hcs; [done|].
  repeat case_bool_decide; naive_solver lia.
Qed.

End enumerations.

(** ** Properties of the enumerations *)

Section properties.
Implicit Types self : AttackTree.t.
Implicit Types n : AttackNode.t.

(** In a tree that keeps both invariants the leaves are the childless
    nodes. *)
Lemma leaves_of_terminals (l : list AttackNode.t) :
  Forall leaf_ok l → Forall junction_ok l →
  leaves_of l = filter (λ n, AttackNode.children n = []) l.
Proof.
  rw /leaves_of. intros Hl Hj. apply list_filter_iff_elem.
  rw Forall_forall in Hl. rw Forall_forall in Hj.
  intros n Hn. rw is_leaf_true. split; [by apply Hl|].
  intros Hnil. destruct (decide (AttackNode.node_type n = NodeType.LEAF)); [done|].
  by destruct (Hj n Hn).
Qed.

(** C5. [get_all_leaf_attacks] returns exactly the LEAF nodes of the tree
    in pre-order, each as often as the walk meets it, whatever the AND/OR
    structure; the walk only appends to the list it is given; and the
    leaves and the other nodes add up to the node count. *)
Theorem get_all_leaf_attacks_law self :
  get_all_leaf_attacks self = leaves_of (nodes (AttackTree.root self)) ∧
  (∀ leaves, _collect_leaves (AttackTree.root self) leaves
             = leaves ++ get_all_leaf_attacks self) ∧
  (length (get_all_leaf_attacks self)
   + length (filter (λ n, AttackNode.node_type n ≠ NodeType.LEAF)
               (nodes (AttackTree.root self))))%nat
  = size (AttackTree.root self).
Proof.
  split_and!; [apply get_all_leaf_attacks_spec| |].
  - intros leaves. by rw get_all_leaf_attacks_spec collect_leaves_spec.
  - rw -(leaf_count self). do 2 f_equal. apply list_filter_iff=> n.
    by rw is_leaf_true.
Qed.

(** C20. [get_unmitigated_attacks] is a subsequence of
    [get_all_leaf_attacks] and holds exactly the LEAF nodes of the tree
    whose [mitigations] are empty. *)
Theorem get_unmitigated_attacks_law self :
  get_unmitigated_attacks self `sublist_of` get_all_leaf_attacks self ∧
  get_unmitigated_attacks self
  = filter (λ n, AttackNode.node_type n = NodeType.LEAF
                 ∧ AttackNode.mitigations n = [])
      (nodes (AttackTree.root self)).
Proof.
  split; [apply get_unmitigated_attacks_sublist|].
  rw /get_unmitigated_attacks get_all_leaf_attacks_spec /leaves_of list_filter_filter.
  apply list_filter_iff=> n. rw is_leaf_true /unmitigated. tauto.
Qed.

(** C38. The leaf attacks of a tree that keeps the invariants of the data
    model.  When a LEAF has no children and a junction has some, the leaf
    attacks are the nodes without children.  When no id is repeated, every
    leaf attack is listed exactly once: the ids of the leaf attacks are
    pairwise distinct, and so are the leaf attacks. *)
Theorem leaf_attacks_well_formed self :
  (leaf_childless (AttackTree.root self) → scorable (AttackTree.root self) →
   get_all_leaf_attacks self
   = filter (λ n, AttackNode.children n = []) (nodes (AttackTree.root self))) ∧
  (unique_ids (AttackTree.root self) →
   NoDup (AttackNode.id <$> get_all_leaf_attacks self) ∧
   NoDup (get_all_leaf_attacks self)).
Proof.
  split.
  - intros Hl Hs. rw get_all_leaf_attacks_spec. by apply leaves_of_terminals.
  - intros Hu.
    assert (NoDup (AttackNode.id <$> get_all_leaf_attacks self)) as Hnd.
    { eapply sublist_NoDup; [exact Hu|]. rw get_all_leaf_attacks_spec.
      apply fmap_sublist, sublist_filter. }
    split; [done|]. by eapply NoDup_fmap_1.
Qed.

Lemma leaf_attacks_well_formed_witness :
  get_all_leaf_attacks (Examples.tree Examples.and_tree)
  = filter (λ n, AttackNode.children n = [])
      (nodes (AttackTree.root (Examples.tree Examples.and_tree))) ∧
  NoDup (AttackNode.id <$> get_all_leaf_attacks (Examples.tree Examples.and_tree)) ∧
  NoDup (get_all_leaf_attacks (Examples.tree Examples.and_tree)).
Proof.
  destruct (leaf_attacks_well_formed (Examples.tree Examples.and_tree))
    as [Hterminal Honce].
  split; [apply Hterminal|apply Honce]; compute_done.
Defined.

(** C37. What the analyses see of a child that is added, whatever the
    receiver and the child.  The enumeration lists the receiver's leaf
    attacks and then the child's.  The search depends on the type of the
    receiver.  An AND node takes the child's best path after those of
    the other children, and the scores add up.  An OR node takes the
    child's best path if it has no other child or if the child's score is
    strictly smaller than its own, and keeps its path otherwise: its score
    becomes the smaller of the two, and an alternative can only help the
    attacker.  A LEAF keeps its path and its score: the search does not
    look below a LEAF, while the enumeration lists the leaf attacks of the
    child all the same. *)
Theorem add_child_analysis (n c : AttackNode.t) (minimize : string) :
  let n' := AttackNode.add_child n c in
  let find m := _find_path m minimize in
  let score m := _path_score (_find_path m minimize) minimize in
  (∀ leaves,
     _collect_leaves n' leaves
     = leaves ++ (if is_leaf n then [n'] else [])
         ++ leaves_of (tail (nodes n)) ++ leaves_of (nodes c)) ∧
  match AttackNode.node_type n with
  | NodeType.LEAF => find n' = [n'] ∧ score n' = score n
  | NodeType.AND =>
      find n' = n' :: tail (find n) ++ find c
      ∧ score n' = (score n + score c)%Z
  | NodeType.OR =>
      find n'
      = n' :: (if bool_decide (AttackNode.children n = [] ∨ (score c < score n)%Z)
               then find c else tail (find n))
      ∧ score n' = (if bool_decide (AttackNode.children n = [])
                    then score c else score n `min` score c)%Z
  end.
Proof.
  cbv beta zeta. split.
  - intros leaves.
    rw collect_leaves_spec add_child_nodes (nodes_unfold n) leaves_of_cons.
    change (is_leaf (AttackNode.add_child n c)) with (is_leaf n).
    rw leaves_of_app /=. by destruct (is_leaf n).
  - destruct (AttackNode.node_type n) eqn:Hty.
    + apply add_child_or_score, Hty.
    + rw find_path_add_child_and // (find_path_junction_score _ n).
      { by rw /is_leaf Hty. }
      by rw !path_score_cons path_score_app node_score_add_child
        node_score_junction; [rw /is_leaf Hty|].
    + rw find_path_add_child_leaf // find_path_leaf; [by apply is_leaf_true|].
      by rw !path_score_cons node_score_add_child.
Qed.

End properties.
