(* ===== verification/Serialize.v ===== *)
(** * Serialization

    [AttackTree.to_dict] and [_node_to_dict] (lines 150-176 of
    [attack-trees-analysis.py]).  The values they build are Python
    dictionaries, lists, strings and one float: the type [py], a dictionary
    being the list of its items in insertion order, which is the order
    [json.dump] writes them in.

    The specification is a reader, [node_of_dict], that accepts exactly the
    dictionaries of that layout; the round trip shows what serialization
    keeps of a node (everything but [cve_refs] and the two [requires_]
    flags) and that the tree read back has the nodes of the tree written,
    in the same order. *)

From S2P Require Import Prelude Model.
From Stdlib Require Import Floats.

(** ** Python values *)

#[local] Unset Elimination Schemes.
Inductive py : Type :=
| PyStr (s : string)
| PyFloat (x : float)
| PyList (items : list py)
| PyDict (entries : list (string * py)).
#[local] Set Elimination Schemes.

(** A list of strings as a value. *)
Definition str_list (l : list string) : py := PyList (PyStr <$> l).

(** ** The source's definitions *)

Fixpoint _node_to_dict (node : AttackNode.t) : py :=
  PyDict [
    ("id", PyStr (AttackNode.id node));
    ("name", PyStr (AttackNode.name node));
    ("description", PyStr (AttackNode.description node));
    ("type", PyStr (NodeType.value (AttackNode.node_type node)));
    ("attributes", PyDict [
      ("difficulty",
       PyStr (Difficulty.name
                (AttackAttributes.difficulty (AttackNode.attributes node))));
      ("cost",
       PyStr (Cost.name (AttackAttributes.cost (AttackNode.attributes node))));
      ("detection_risk",
       PyStr (DetectionRisk.name
                (AttackAttributes.detection_risk (AttackNode.attributes node))));
      ("time_hours",
       PyFloat (AttackAttributes.time_hours (AttackNode.attributes node)))
    ]);
    ("mitigations", str_list (AttackNode.mitigations node));
    ("file_refs", str_list (AttackNode.file_refs node));
    ("children", PyList (_node_to_dict <$> AttackNode.children node))
  ].

Definition to_dict (self : AttackTree.t) : py :=
  PyDict [
    ("name", PyStr (AttackTree.name self));
    ("description", PyStr (AttackTree.description self));
    ("severity", PyStr (AttackTree.severity self));
    ("version", PyStr (AttackTree.version self));
    ("root", _node_to_dict (AttackTree.root self))
  ].

(** ** The specification: reading a dictionary back *)

Definition as_str (v : py) : option string :=
  if v is PyStr s then Some s else None.

Definition node_keys : list string :=
  ["id"; "name"; "description"; "type"; "attributes"; "mitigations";
   "file_refs"; "children"].

Definition attribute_keys : list string :=
  ["difficulty"; "cost"; "detection_risk"; "time_hours"].

Definition tree_keys : list string :=
  ["name"; "description"; "severity"; "version"; "root"].

(** The node a dictionary of the layout of [_node_to_dict] describes; the
    fields that are not serialized are at their defaults. *)
Fixpoint node_of_dict (d : py) : option AttackNode.t :=
  match d with
  | PyDict [(k1, PyStr id); (k2, PyStr name); (k3, PyStr description);
            (k4, PyStr type);
            (k5, PyDict [(a1, PyStr difficulty); (a2, PyStr cost);
                         (a3, PyStr detection_risk); (a4, PyFloat time_hours)]);
            (k6, PyList mitigations); (k7, PyList file_refs);
            (k8, PyList children)] =>
      if decide ([k1; k2; k3; k4; k5; k6; k7; k8] = node_keys
                 ∧ [a1; a2; a3; a4] = attribute_keys) then
        node_type ← @of_value NodeType.t _ _ _ type;
        difficulty ← @of_name Difficulty.t _ _ difficulty;
        cost ← @of_name Cost.t _ _ cost;
        detection_risk ← @of_name DetectionRisk.t _ _ detection_risk;
        mitigations ← mapM as_str mitigations;
        file_refs ← mapM as_str file_refs;
        children ← mapM node_of_dict children;
        Some {|
          AttackNode.id := id;
          AttackNode.name := name;
          AttackNode.description := description;
          AttackNode.node_type := node_type;
          AttackNode.attributes := {|
            AttackAttributes.difficulty := difficulty;
            AttackAttributes.cost := cost;
            AttackAttributes.detection_risk := detection_risk;
            AttackAttributes.time_hours := time_hours;
            AttackAttributes.requires_insider := false;
            AttackAttributes.requires_physical := false |};
          AttackNode.children := children;
          AttackNode.mitigations := mitigations;
          AttackNode.cve_refs := [];
          AttackNode.file_refs := file_refs |}
      else None
  | _ => None
  end.

Definition tree_of_dict (d : py) : option AttackTree.t :=
  match d with
  | PyDict [(k1, PyStr name); (k2, PyStr description); (k3, PyStr severity);
            (k4, PyStr version); (k5, root)] =>
      if decide ([k1; k2; k3; k4; k5] = tree_keys) then
        root ← node_of_dict root;
        Some (AttackTree.mk name description root version severity)
      else None
  | _ => None
  end.

(** What serialization keeps of the attributes and of a node. *)
Definition kept_attributes (a : AttackAttributes.t) : AttackAttributes.t := {|
  AttackAttributes.difficulty := AttackAttributes.difficulty a;
  AttackAttributes.cost := AttackAttributes.cost a;
  AttackAttributes.detection_risk := AttackAttributes.detection_risk a;
  AttackAttributes.time_hours := AttackAttributes.time_hours a;
  AttackAttributes.requires_insider := false;
  AttackAttributes.requires_physical := false;
|}.

Fixpoint kept (n : AttackNode.t) : AttackNode.t := {|
  AttackNode.id := AttackNode.id n;
  AttackNode.name := AttackNode.name n;
  AttackNode.description := AttackNode.description n;
  AttackNode.node_type := AttackNode.node_type n;
  AttackNode.attributes := kept_attributes (AttackNode.attributes n);
  AttackNode.children := kept <$> AttackNode.children n;
  AttackNode.mitigations := AttackNode.mitigations n;
  AttackNode.cve_refs := [];
  AttackNode.file_refs := AttackNode.file_refs n;
|}.

Definition kept_tree (self : AttackTree.t) : AttackTree.t :=
  AttackTree.mk (AttackTree.name self) (AttackTree.description self)
    (kept (AttackTree.root self)) (AttackTree.version self)
    (AttackTree.severity self).

(** A node that has nothing serialization drops. *)
Definition plain (n : AttackNode.t) : Prop :=
  AttackNode.cve_refs n = [] ∧
  AttackAttributes.requires_insider (AttackNode.attributes n) = false ∧
  AttackAttributes.requires_physical (AttackNode.attributes n) = false.

#[export] Instance plain_dec n : Decision (plain n).
Proof. unfold plain. apply _. Defined.

(** ** What is kept *)

Section kept.
Implicit Types n c : AttackNode.t.

Lemma kept_unfold n :
  kept n
  = AttackNode.mk (AttackNode.id n) (AttackNode.name n)
      (AttackNode.description n) (AttackNode.node_type n)
      (kept_attributes (AttackNode.attributes n))
      (kept <$> AttackNode.children n) (AttackNode.mitigations n) []
      (AttackNode.file_refs n).
Proof. by destruct n. Qed.

Lemma kept_children n :
  AttackNode.children (kept n) = kept <$> AttackNode.children n.
Proof. by destruct n. Qed.

Lemma kept_id n : AttackNode.id (kept n) = AttackNode.id n.
Proof. by destruct n. Qed.

(** The pre-order listing of what is kept is what is kept of the listing. *)
Lemma nodes_kept n : nodes (kept n) = kept <$> nodes n.
Proof.
  node_induction n.
  rw (nodes_unfold (kept n)) (nodes_unfold n) kept_children fmap_cons.
  f_equal. rw list_fmap_bind fmap_bind. by apply Forall_bind_ext.
Qed.

Lemma ids_kept n : ids (kept n) = ids n.
Proof.
  rw /ids nodes_kept -list_fmap_compose. apply list_fmap_ext=> i m _ /=.
  apply kept_id.
Qed.

Lemma size_kept n : size (kept n) = size n.
Proof. by rw -!length_ids ids_kept. Qed.

Lemma kept_plain n : Forall plain (nodes n) → kept n = n.
Proof.
  node_induction n. rw nodes_unfold Forall_cons Forall_bind.
  intros [(Hcve & Hi & Hp) Hcs]. rw kept_unfold.
  assert (kept <$> AttackNode.children n = AttackNode.children n) as ->.
  { rw -{2}(list_fmap_id (AttackNode.children n)). apply Forall_fmap_ext.
    rw Forall_forall in IH. rw Forall_forall in Hcs.
    apply Forall_forall=> c Hc. by apply IH, Hcs. }
  destruct n as [? ? ? ? [] ? ? ? ?]; simplify_eq/=. by rw /kept_attributes /=.
Qed.

Lemma kept_idemp n : kept (kept n) = kept n.
Proof.
  apply kept_plain. rw nodes_kept Forall_fmap. apply Forall_true=> m.
  by rw /= /plain kept_unfold.
Qed.

End kept.

(** ** The round trip *)

Section roundtrip.
Implicit Types n c : AttackNode.t.
Implicit Types self : AttackTree.t.

Lemma node_to_dict_unfold n :
  _node_to_dict n
  = PyDict [
      ("id", PyStr (AttackNode.id n));
      ("name", PyStr (AttackNode.name n));
      ("description", PyStr (AttackNode.description n));
      ("type", PyStr (NodeType.value (AttackNode.node_type n)));
      ("attributes", PyDict [
        ("difficulty",
         PyStr (Difficulty.name
                  (AttackAttributes.difficulty (AttackNode.attributes n))));
        ("cost",
         PyStr (Cost.name (AttackAttributes.cost (AttackNode.attributes n))));
        ("detection_risk",
         PyStr (DetectionRisk.name
                  (AttackAttributes.detection_risk (AttackNode.attributes n))));
        ("time_hours",
         PyFloat (AttackAttributes.time_hours (AttackNode.attributes n)))
      ]);
      ("mitigations", str_list (AttackNode.mitigations n));
      ("file_refs", str_list (AttackNode.file_refs n));
      ("children", PyList (_node_to_dict <$> AttackNode.children n))
    ].
Proof. by destruct n. Qed.

Lemma as_str_str_list (l : list string) : mapM as_str (PyStr <$> l) = Some l.
Proof.
  rw -{2}(list_fmap_id l). apply mapM_fmap_Forall. by apply Forall_true.
Qed.

Lemma node_of_dict_node_to_dict n :
  node_of_dict (_node_to_dict n) = Some (kept n).
Proof.
  node_induction n. rw node_to_dict_unfold kept_unfold /str_list.
  cbn [node_of_dict]. case_decide as Hk; [|exfalso; apply Hk; by split].
  rw (of_value_value (AttackNode.node_type n)) /=.
  rw (of_name_name (AttackAttributes.difficulty (AttackNode.attributes n))) /=.
  rw (of_name_name (AttackAttributes.cost (AttackNode.attributes n))) /=.
  rw (of_name_name (AttackAttributes.detection_risk (AttackNode.attributes n))) /=.
  by rw !as_str_str_list /= (mapM_fmap_Forall _ _ kept).
Qed.

Lemma tree_of_dict_to_dict self :
  tree_of_dict (to_dict self) = Some (kept_tree self).
Proof.
  rw /tree_of_dict /to_dict. case_decide as Hk; [|by exfalso; apply Hk].
  by rw node_of_dict_node_to_dict.
Qed.

End roundtrip.

(** ** Properties of serialization *)

Section properties.
Implicit Types n c : AttackNode.t.
Implicit Types self : AttackTree.t.

(** The dictionary of a node is the dictionary of what is kept of it. *)
Lemma node_to_dict_kept n : _node_to_dict (kept n) = _node_to_dict n.
Proof.
  node_induction n. rw (node_to_dict_unfold (kept n)) node_to_dict_unfold.
  rw kept_children -list_fmap_compose (kept_unfold n) /=.
  by rw (proj1 (Forall_fmap_ext (_node_to_dict ∘ kept) _node_to_dict _) IH).
Qed.

Lemma kept_tree_plain self :
  Forall plain (nodes (AttackTree.root self)) → kept_tree self = self.
Proof. intros Hp. rw /kept_tree kept_plain //. by destruct self. Qed.

(** The tree that is read back is walked like the tree itself. *)
Lemma kept_rewalk n :
  Forall2 (λ m' m,
      AttackNode.id m' = AttackNode.id m ∧
      AttackNode.id <$> AttackNode.children m'
      = AttackNode.id <$> AttackNode.children m)
    (nodes (kept n)) (nodes n).
Proof.
  rw nodes_kept. apply Forall2_fmap_l, Forall_Forall2_diag, Forall_true.
  intros m. rw /= kept_id kept_children -list_fmap_compose. split; [done|].
  apply list_fmap_ext=> i c _. apply kept_id.
Qed.

(** C6. The round trip of serialization: reading back the dictionary that
    [to_dict] builds gives the tree with every node as it was but for
    [cve_refs] and the flags [requires_insider] and [requires_physical],
    which [_node_to_dict] does not write; a tree whose nodes have these at
    their defaults is read back unchanged.  Walking the tree read back
    meets as many nodes as walking the tree itself, with the same ids in
    the same pre-order, and every node has its children's ids in the
    stored order. *)
Theorem to_dict_roundtrip self :
  tree_of_dict (to_dict self) = Some (kept_tree self) ∧
  node_of_dict (_node_to_dict (AttackTree.root self))
  = Some (kept (AttackTree.root self)) ∧
  (Forall plain (nodes (AttackTree.root self)) →
   tree_of_dict (to_dict self) = Some self) ∧
  size (AttackTree.root (kept_tree self)) = size (AttackTree.root self) ∧
  ids (AttackTree.root (kept_tree self)) = ids (AttackTree.root self) ∧
  Forall2 (λ m' m,
      AttackNode.id m' = AttackNode.id m ∧
      AttackNode.id <$> AttackNode.children m'
      = AttackNode.id <$> AttackNode.children m)
    (nodes (AttackTree.root (kept_tree self))) (nodes (AttackTree.root self)).
Proof.
  split_and!;
    [apply tree_of_dict_to_dict|apply node_of_dict_node_to_dict|
    |apply size_kept|apply ids_kept|apply kept_rewalk].
  intros Hp. by rw tree_of_dict_to_dict kept_tree_plain.
Qed.

(** C27. Two nodes have the same dictionary exactly when they agree on what
    serialization keeps: [_node_to_dict] loses [cve_refs] and the two
    [requires_] flags of every node of the subtree, and nothing else. *)
Theorem node_to_dict_inj n1 n2 :
  _node_to_dict n1 = _node_to_dict n2 ↔ kept n1 = kept n2.
Proof.
  split.
  - intros Hd. apply (inj Some).
    by rw -!node_of_dict_node_to_dict Hd.
  - intros Hk. by rw -(node_to_dict_kept n1) Hk node_to_dict_kept.
Qed.

(** The dictionary of a small tree, key by key: [type] is the enum's
    value, the attributes are the enums' names, and the root, an OR node
    built without attributes, is written with the default attributes. *)
Example to_dict_example :
  to_dict (Examples.tree (AttackNode.add_child
             (AttackNode.new "root" "Root" "" NodeType.OR) Examples.B))
  = PyDict [
      ("name", PyStr "Root"); ("description", PyStr "");
      ("severity", PyStr "Medium"); ("version", PyStr "1.0");
      ("root", PyDict [
         ("id", PyStr "root"); ("name", PyStr "Root");
         ("description", PyStr ""); ("type", PyStr "or");
         ("attributes", PyDict [
            ("difficulty", PyStr "MEDIUM"); ("cost", PyStr "MEDIUM");
            ("detection_risk", PyStr "MEDIUM"); ("time_hours", PyFloat 8.0)]);
         ("mitigations", PyList []); ("file_refs", PyList []);
         ("children", PyList [
            PyDict [
              ("id", PyStr "B"); ("name", PyStr "Leaf B");
              ("description", PyStr ""); ("type", PyStr "leaf");
              ("attributes", PyDict [
                 ("difficulty", PyStr "HIGH"); ("cost", PyStr "MEDIUM");
                 ("detection_risk", PyStr "LOW"); ("time_hours", PyFloat 1.0)]);
              ("mitigations", PyList [PyStr "Patch"]); ("file_refs", PyList []);
              ("children", PyList [])]])])].
Proof. reflexivity. Qed.

End properties.
