(* ===== verification/Trees.v ===== *)
(** * The four attack trees

    The construction routines [build_complete_system_compromise_tree],
    [build_data_exfiltration_tree], [build_denial_of_service_tree] and
    [build_internal_network_recon_tree] (lines 247-796 of
    [attack-trees-analysis.py]).  Each routine constructs its nodes, links
    them with [add_child] and returns the tree.  Here a Module per routine
    holds the nodes as the routine constructs them, under the names of its
    local variables and still without children, and the routine itself
    replays its [add_child] calls in the source's order, a [let] rebinding
    the receiver, as the call mutates it.  No routine adds a child to a node
    after the node was itself added to a parent, so the values built here
    are the trees the source builds; [Construct.v] runs the routines over
    the store of objects and proves it. *)

From S2P Require Import Prelude Model PathSearch Leaves.
From Stdlib Require Import Floats.

(** ** The source's definitions *)

Module SystemCompromise.
Definition root : AttackNode.t := {|
  AttackNode.id := "G1";
  AttackNode.name := "Complete System Compromise";
  AttackNode.description := "Gain full control over the application and underlying system";
  AttackNode.node_type := NodeType.OR;
  AttackNode.attributes := AttackAttributes.default;
  AttackNode.children := [];
  AttackNode.mitigations := [];
  AttackNode.cve_refs := [];
  AttackNode.file_refs := [];
|}.

Definition compromise_frontend : AttackNode.t := {|
  AttackNode.id := "S1";
  AttackNode.name := "Compromise Frontend";
  AttackNode.description := "Execute arbitrary code in the frontend context";
  AttackNode.node_type := NodeType.OR;
  AttackNode.attributes := AttackAttributes.default;
  AttackNode.children := [];
  AttackNode.mitigations := [];
  AttackNode.cve_refs := [];
  AttackNode.file_refs := [];
|}.

Definition xss_attack : AttackNode.t := {|
  AttackNode.id := "A1";
  AttackNode.name := "XSS via innerHTML";
  AttackNode.description := "Inject malicious script through map location marker data";
  AttackNode.node_type := NodeType.LEAF;
  AttackNode.attributes := {|
    AttackAttributes.difficulty := Difficulty.LOW;
    AttackAttributes.cost := Cost.LOW;
    AttackAttributes.detection_risk := DetectionRisk.MEDIUM;
    AttackAttributes.time_hours := 2.0%float;
    AttackAttributes.requires_insider := false;
    AttackAttributes.requires_physical := false |};
  AttackNode.children := [];
  AttackNode.mitigations := [
    "Sanitize HTML input";
    "Use React JSX instead of innerHTML";
    "Implement Content Security Policy"];
  AttackNode.cve_refs := [];
  AttackNode.file_refs := ["components/ui/map-location-picker.tsx:172-178"];
|}.

Definition supply_chain : AttackNode.t := {|
  AttackNode.id := "A2";
  AttackNode.name := "Supply Chain Compromise";
  AttackNode.description := "Compromise a dependency to run malicious code in frontend";
  AttackNode.node_type := NodeType.LEAF;
  AttackNode.attributes := {|
    AttackAttributes.difficulty := Difficulty.HIGH;
    AttackAttributes.cost := Cost.HIGH;
    AttackAttributes.detection_risk := DetectionRisk.LOW;
    AttackAttributes.time_hours := 40.0%float;
    AttackAttributes.requires_insider := false;
    AttackAttributes.requires_physical := false |};
  AttackNode.children := [];
  AttackNode.mitigations := [
    "Dependency scanning";
    "Software Bill of Materials (SBOM)";
    "Pinned dependencies"];
  AttackNode.cve_refs := [];
  AttackNode.file_refs := ["package.json"];
|}.

Definition backend_access : AttackNode.t := {|
  AttackNode.id := "S2";
  AttackNode.name := "Direct Backend Access";
  AttackNode.description := "Invoke Tauri commands without authentication";
  AttackNode.node_type := NodeType.AND;
  AttackNode.attributes := AttackAttributes.default;
  AttackNode.children := [];
  AttackNode.mitigations := [];
  AttackNode.cve_refs := [];
  AttackNode.file_refs := [];
|}.

Definition no_auth : AttackNode.t := {|
  AttackNode.id := "A3";
  AttackNode.name := "Exploit No Authentication";
  AttackNode.description := "Tauri commands have no permission checks (all 120+ exposed)";
  AttackNode.node_type := NodeType.LEAF;
  AttackNode.attributes := {|
    AttackAttributes.difficulty := Difficulty.TRIVIAL;
    AttackAttributes.cost := Cost.FREE;
    AttackAttributes.detection_risk := DetectionRisk.NONE;
    AttackAttributes.time_hours := 0.5%float;
    AttackAttributes.requires_insider := false;
    AttackAttributes.requires_physical := false |};
  AttackNode.children := [];
  AttackNode.mitigations := [
    "Implement authentication/authorization layer";
    "Add permission checks in Tauri commands";
    "Role-based access control"];
  AttackNode.cve_refs := [];
  AttackNode.file_refs := ["src-tauri/src/lib.rs:101-244"];
|}.

Definition sensitive_commands : AttackNode.t := {|
  AttackNode.id := "A4";
  AttackNode.name := "Invoke Sensitive Commands";
  AttackNode.description := "Call file system, process, or system commands";
  AttackNode.node_type := NodeType.LEAF;
  AttackNode.attributes := {|
    AttackAttributes.difficulty := Difficulty.TRIVIAL;
    AttackAttributes.cost := Cost.FREE;
    AttackAttributes.detection_risk := DetectionRisk.LOW;
    AttackAttributes.time_hours := 1.0%float;
    AttackAttributes.requires_insider := false;
    AttackAttributes.requires_physical := false |};
  AttackNode.children := [];
  AttackNode.mitigations := [
    "Restrict command surface";
    "Sandboxed command execution";
    "Command whitelisting"];
  AttackNode.cve_refs := [];
  AttackNode.file_refs := ["src-tauri/src/lib.rs"];
|}.

Definition path_traversal : AttackNode.t := {|
  AttackNode.id := "S3";
  AttackNode.name := "Path Traversal Attack";
  AttackNode.description := "Access arbitrary files on the system";
  AttackNode.node_type := NodeType.OR;
  AttackNode.attributes := AttackAttributes.default;
  AttackNode.children := [];
  AttackNode.mitigations := [];
  AttackNode.cve_refs := [];
  AttackNode.file_refs := [];
|}.

Definition path_open : AttackNode.t := {|
  AttackNode.id := "A5";
  AttackNode.name := "Path Traversal via open_path";
  AttackNode.description := "Pass arbitrary file paths to open_path command";
  AttackNode.node_type := NodeType.LEAF;
  AttackNode.attributes := {|
    AttackAttributes.difficulty := Difficulty.TRIVIAL;
    AttackAttributes.cost := Cost.FREE;
    AttackAttributes.detection_risk := DetectionRisk.LOW;
    AttackAttributes.time_hours := 1.0%float;
    AttackAttributes.requires_insider := false;
    AttackAttributes.requires_physical := false |};
  AttackNode.children := [];
  AttackNode.mitigations := [
    "Path validation and sanitization";
    "Allowlist of permitted directories";
    "Chroot/jail filesystem access"];
  AttackNode.cve_refs := [];
  AttackNode.file_refs := ["src-tauri/src/app_settings.rs:246-289"];
|}.

Definition path_import : AttackNode.t := {|
  AttackNode.id := "A6";
  AttackNode.name := "Path Traversal via import/export";
  AttackNode.description := "User-controlled paths in import_all_data/export_all_data";
  AttackNode.node_type := NodeType.LEAF;
  AttackNode.attributes := {|
    AttackAttributes.difficulty := Difficulty.LOW;
    AttackAttributes.cost := Cost.FREE;
    AttackAttributes.detection_risk := DetectionRisk.LOW;
    AttackAttributes.time_hours := 2.0%float;
    AttackAttributes.requires_insider := false;
    AttackAttributes.requires_physical := false |};
  AttackNode.children := [];
  AttackNode.mitigations := [
    "Validate file paths";
    "Restrict to app data directory";
    "Use secure file dialogs"];
  AttackNode.cve_refs := [];
  AttackNode.file_refs := ["src-tauri/src/storage.rs:164-267"];
|}.

End SystemCompromise.

Definition build_complete_system_compromise_tree : AttackTree.t :=
  let compromise_frontend := AttackNode.add_child SystemCompromise.compromise_frontend SystemCompromise.xss_attack in
  let compromise_frontend := AttackNode.add_child compromise_frontend SystemCompromise.supply_chain in
  let backend_access := AttackNode.add_child SystemCompromise.backend_access SystemCompromise.no_auth in
  let backend_access := AttackNode.add_child backend_access SystemCompromise.sensitive_commands in
  let path_traversal := AttackNode.add_child SystemCompromise.path_traversal SystemCompromise.path_open in
  let path_traversal := AttackNode.add_child path_traversal SystemCompromise.path_import in
  let root := AttackNode.add_child SystemCompromise.root compromise_frontend in
  let root := AttackNode.add_child root backend_access in
  let root := AttackNode.add_child root path_traversal in
  {|
    AttackTree.name := "Complete System Compromise";
    AttackTree.description := "Attack paths for gaining full system control";
    AttackTree.root := root;
    AttackTree.version := AttackTree.default_version;
    AttackTree.severity := "CRITICAL";
  |}.

Module DataExfiltration.
Definition root : AttackNode.t := {|
  AttackNode.id := "G2";
  AttackNode.name := "Data Exfiltration";
  AttackNode.description := "Steal sensitive user data from the application";
  AttackNode.node_type := NodeType.OR;
  AttackNode.attributes := AttackAttributes.default;
  AttackNode.children := [];
  AttackNode.mitigations := [];
  AttackNode.cve_refs := [];
  AttackNode.file_refs := [];
|}.

Definition read_files : AttackNode.t := {|
  AttackNode.id := "M1";
  AttackNode.name := "Read Files Directly";
  AttackNode.description := "Access stored data files through path traversal";
  AttackNode.node_type := NodeType.AND;
  AttackNode.attributes := AttackAttributes.default;
  AttackNode.children := [];
  AttackNode.mitigations := [];
  AttackNode.cve_refs := [];
  AttackNode.file_refs := [];
|}.

Definition step1 : AttackNode.t := {|
  AttackNode.id := "A7";
  AttackNode.name := "Find App Data Directory";
  AttackNode.description := "Locate application data storage";
  AttackNode.node_type := NodeType.LEAF;
  AttackNode.attributes := {|
    AttackAttributes.difficulty := Difficulty.TRIVIAL;
    AttackAttributes.cost := Cost.FREE;
    AttackAttributes.detection_risk := DetectionRisk.NONE;
    AttackAttributes.time_hours := 0.5%float;
    AttackAttributes.requires_insider := false;
    AttackAttributes.requires_physical := false |};
  AttackNode.children := [];
  AttackNode.mitigations := [];
  AttackNode.cve_refs := [];
  AttackNode.file_refs := ["src-tauri/src/storage.rs"];
|}.

Definition step2 : AttackNode.t := {|
  AttackNode.id := "A8";
  AttackNode.name := "Read JSON Files";
  AttackNode.description := "Read plaintext JSON storage files";
  AttackNode.node_type := NodeType.LEAF;
  AttackNode.attributes := {|
    AttackAttributes.difficulty := Difficulty.TRIVIAL;
    AttackAttributes.cost := Cost.FREE;
    AttackAttributes.detection_risk := DetectionRisk.LOW;
    AttackAttributes.time_hours := 0.5%float;
    AttackAttributes.requires_insider := false;
    AttackAttributes.requires_physical := false |};
  AttackNode.children := [];
  AttackNode.mitigations := [
    "Encrypt sensitive data at rest";
    "Use system credential storage";
    "File permissions"];
  AttackNode.cve_refs := [];
  AttackNode.file_refs := ["src-tauri/src/storage.rs:83-98"];
|}.

Definition extract_storage : AttackNode.t := {|
  AttackNode.id := "M2";
  AttackNode.name := "Extract from localStorage";
  AttackNode.description := "Access browser localStorage with sensitive data";
  AttackNode.node_type := NodeType.AND;
  AttackNode.attributes := AttackAttributes.default;
  AttackNode.children := [];
  AttackNode.mitigations := [];
  AttackNode.cve_refs := [];
  AttackNode.file_refs := [];
|}.

Definition step3 : AttackNode.t := {|
  AttackNode.id := "A9";
  AttackNode.name := "Execute XSS or DevTools";
  AttackNode.description := "Gain JavaScript execution context";
  AttackNode.node_type := NodeType.LEAF;
  AttackNode.attributes := {|
    AttackAttributes.difficulty := Difficulty.LOW;
    AttackAttributes.cost := Cost.LOW;
    AttackAttributes.detection_risk := DetectionRisk.MEDIUM;
    AttackAttributes.time_hours := 2.0%float;
    AttackAttributes.requires_insider := false;
    AttackAttributes.requires_physical := false |};
  AttackNode.children := [];
  AttackNode.mitigations := [
    "Content Security Policy";
    "XSS prevention";
    "DevTools protection in production"];
  AttackNode.cve_refs := [];
  AttackNode.file_refs := [];
|}.

Definition step4 : AttackNode.t := {|
  AttackNode.id := "A10";
  AttackNode.name := "Read localStorage";
  AttackNode.description := "Access unencrypted data in localStorage";
  AttackNode.node_type := NodeType.LEAF;
  AttackNode.attributes := {|
    AttackAttributes.difficulty := Difficulty.TRIVIAL;
    AttackAttributes.cost := Cost.FREE;
    AttackAttributes.detection_risk := DetectionRisk.NONE;
    AttackAttributes.time_hours := 0x1.999999999999ap-4%float;
    AttackAttributes.requires_insider := false;
    AttackAttributes.requires_physical := false |};
  AttackNode.children := [];
  AttackNode.mitigations := [
    "Encrypt data before storage";
    "Use secure credential manager";
    "Minimal data in localStorage"];
  AttackNode.cve_refs := [];
  AttackNode.file_refs := ["lib/storage/web-storage.ts"];
|}.

Definition ssrf : AttackNode.t := {|
  AttackNode.id := "M3";
  AttackNode.name := "SSRF to Internal Services";
  AttackNode.description := "Use application to probe internal network";
  AttackNode.node_type := NodeType.AND;
  AttackNode.attributes := AttackAttributes.default;
  AttackNode.children := [];
  AttackNode.mitigations := [];
  AttackNode.cve_refs := [];
  AttackNode.file_refs := [];
|}.

Definition step5 : AttackNode.t := {|
  AttackNode.id := "A11";
  AttackNode.name := "Inject Internal URLs";
  AttackNode.description := "Pass internal URLs to prefetch_url or cache fetch";
  AttackNode.node_type := NodeType.LEAF;
  AttackNode.attributes := {|
    AttackAttributes.difficulty := Difficulty.LOW;
    AttackAttributes.cost := Cost.FREE;
    AttackAttributes.detection_risk := DetectionRisk.MEDIUM;
    AttackAttributes.time_hours := 2.0%float;
    AttackAttributes.requires_insider := false;
    AttackAttributes.requires_physical := false |};
  AttackNode.children := [];
  AttackNode.mitigations := [
    "URL whitelist validation";
    "Block internal/private IPs";
    "Network segmentation"];
  AttackNode.cve_refs := [];
  AttackNode.file_refs := [
    "src-tauri/src/unified_cache.rs:332-366";
    "lib/offline/unified-cache.ts:372-425"];
|}.

Definition step6 : AttackNode.t := {|
  AttackNode.id := "A12";
  AttackNode.name := "Exfiltrate Responses";
  AttackNode.description := "Capture responses from internal services";
  AttackNode.node_type := NodeType.LEAF;
  AttackNode.attributes := {|
    AttackAttributes.difficulty := Difficulty.LOW;
    AttackAttributes.cost := Cost.FREE;
    AttackAttributes.detection_risk := DetectionRisk.LOW;
    AttackAttributes.time_hours := 1.0%float;
    AttackAttributes.requires_insider := false;
    AttackAttributes.requires_physical := false |};
  AttackNode.children := [];
  AttackNode.mitigations := [
    "Response validation";
    "Data loss prevention";
    "Network monitoring"];
  AttackNode.cve_refs := [];
  AttackNode.file_refs := [];
|}.

End DataExfiltration.

Definition build_data_exfiltration_tree : AttackTree.t :=
  let read_files := AttackNode.add_child DataExfiltration.read_files DataExfiltration.step1 in
  let read_files := AttackNode.add_child read_files DataExfiltration.step2 in
  let extract_storage := AttackNode.add_child DataExfiltration.extract_storage DataExfiltration.step3 in
  let extract_storage := AttackNode.add_child extract_storage DataExfiltration.step4 in
  let ssrf := AttackNode.add_child DataExfiltration.ssrf DataExfiltration.step5 in
  let ssrf := AttackNode.add_child ssrf DataExfiltration.step6 in
  let root := AttackNode.add_child DataExfiltration.root read_files in
  let root := AttackNode.add_child root extract_storage in
  let root := AttackNode.add_child root ssrf in
  {|
    AttackTree.name := "Data Exfiltration";
    AttackTree.description := "Attack paths for stealing sensitive data";
    AttackTree.root := root;
    AttackTree.version := AttackTree.default_version;
    AttackTree.severity := "CRITICAL";
  |}.

Module DenialOfService.
Definition root : AttackNode.t := {|
  AttackNode.id := "G3";
  AttackNode.name := "Denial of Service";
  AttackNode.description := "Make the application unavailable or unresponsive";
  AttackNode.node_type := NodeType.OR;
  AttackNode.attributes := AttackAttributes.default;
  AttackNode.children := [];
  AttackNode.mitigations := [];
  AttackNode.cve_refs := [];
  AttackNode.file_refs := [];
|}.

Definition resource_exhaustion : AttackNode.t := {|
  AttackNode.id := "M4";
  AttackNode.name := "Resource Exhaustion";
  AttackNode.description := "Exhaust memory or disk space with oversized inputs";
  AttackNode.node_type := NodeType.OR;
  AttackNode.attributes := AttackAttributes.default;
  AttackNode.children := [];
  AttackNode.mitigations := [];
  AttackNode.cve_refs := [];
  AttackNode.file_refs := [];
|}.

Definition attack1 : AttackNode.t := {|
  AttackNode.id := "A13";
  AttackNode.name := "Oversized JSON Deserialization";
  AttackNode.description := "Send massive JSON payload to deserialize";
  AttackNode.node_type := NodeType.LEAF;
  AttackNode.attributes := {|
    AttackAttributes.difficulty := Difficulty.TRIVIAL;
    AttackAttributes.cost := Cost.FREE;
    AttackAttributes.detection_risk := DetectionRisk.HIGH;
    AttackAttributes.time_hours := 0.5%float;
    AttackAttributes.requires_insider := false;
    AttackAttributes.requires_physical := false |};
  AttackNode.children := [];
  AttackNode.mitigations := ["JSON size limits"; "Streaming parsers"; "Memory quotas"];
  AttackNode.cve_refs := [];
  AttackNode.file_refs := ["src-tauri/src/storage.rs:92"];
|}.

Definition attack2 : AttackNode.t := {|
  AttackNode.id := "A14";
  AttackNode.name := "Cache Flooding";
  AttackNode.description := "Fill disk with unlimited cache entries";
  AttackNode.node_type := NodeType.LEAF;
  AttackNode.attributes := {|
    AttackAttributes.difficulty := Difficulty.TRIVIAL;
    AttackAttributes.cost := Cost.FREE;
    AttackAttributes.detection_risk := DetectionRisk.MEDIUM;
    AttackAttributes.time_hours := 1.0%float;
    AttackAttributes.requires_insider := false;
    AttackAttributes.requires_physical := false |};
  AttackNode.children := [];
  AttackNode.mitigations := [
    "Cache size limits";
    "LRU eviction";
    "Disk space monitoring"];
  AttackNode.cve_refs := [];
  AttackNode.file_refs := ["src-tauri/src/unified_cache.rs:159-200"];
|}.

Definition attack3 : AttackNode.t := {|
  AttackNode.id := "A15";
  AttackNode.name := "Massive CSV Import";
  AttackNode.description := "Import enormous CSV file to exhaust resources";
  AttackNode.node_type := NodeType.LEAF;
  AttackNode.attributes := {|
    AttackAttributes.difficulty := Difficulty.TRIVIAL;
    AttackAttributes.cost := Cost.FREE;
    AttackAttributes.detection_risk := DetectionRisk.MEDIUM;
    AttackAttributes.time_hours := 1.0%float;
    AttackAttributes.requires_insider := false;
    AttackAttributes.requires_physical := false |};
  AttackNode.children := [];
  AttackNode.mitigations := [
    "Row count limits";
    "Field size limits";
    "Streaming CSV parser"];
  AttackNode.cve_refs := [];
  AttackNode.file_refs := ["src-tauri/src/target_io.rs:175-242"];
|}.

Definition api_abuse : AttackNode.t := {|
  AttackNode.id := "M5";
  AttackNode.name := "API Abuse";
  AttackNode.description := "Flood APIs with requests without rate limiting";
  AttackNode.node_type := NodeType.LEAF;
  AttackNode.attributes := {|
    AttackAttributes.difficulty := Difficulty.TRIVIAL;
    AttackAttributes.cost := Cost.LOW;
    AttackAttributes.detection_risk := DetectionRisk.HIGH;
    AttackAttributes.time_hours := 0.5%float;
    AttackAttributes.requires_insider := false;
    AttackAttributes.requires_physical := false |};
  AttackNode.children := [];
  AttackNode.mitigations := [
    "Rate limiting on all Tauri commands";
    "Request throttling";
    "Circuit breakers"];
  AttackNode.cve_refs := [];
  AttackNode.file_refs := ["src-tauri/src/lib.rs"];
|}.

End DenialOfService.

Definition build_denial_of_service_tree : AttackTree.t :=
  let resource_exhaustion := AttackNode.add_child DenialOfService.resource_exhaustion DenialOfService.attack1 in
  let resource_exhaustion := AttackNode.add_child resource_exhaustion DenialOfService.attack2 in
  let resource_exhaustion := AttackNode.add_child resource_exhaustion DenialOfService.attack3 in
  let root := AttackNode.add_child DenialOfService.root resource_exhaustion in
  let root := AttackNode.add_child root DenialOfService.api_abuse in
  {|
    AttackTree.name := "Denial of Service";
    AttackTree.description := "Attack paths for making the application unavailable";
    AttackTree.root := root;
    AttackTree.version := AttackTree.default_version;
    AttackTree.severity := "HIGH";
  |}.

Module NetworkRecon.
Definition root : AttackNode.t := {|
  AttackNode.id := "G4";
  AttackNode.name := "Internal Network Reconnaissance";
  AttackNode.description := "Use application to probe internal network and services";
  AttackNode.node_type := NodeType.OR;
  AttackNode.attributes := AttackAttributes.default;
  AttackNode.children := [];
  AttackNode.mitigations := [];
  AttackNode.cve_refs := [];
  AttackNode.file_refs := [];
|}.

Definition ssrf_method : AttackNode.t := {|
  AttackNode.id := "M6";
  AttackNode.name := "SSRF via URL Injection";
  AttackNode.description := "Inject internal URLs into prefetch_url or cache";
  AttackNode.node_type := NodeType.AND;
  AttackNode.attributes := AttackAttributes.default;
  AttackNode.children := [];
  AttackNode.mitigations := [];
  AttackNode.cve_refs := [];
  AttackNode.file_refs := [];
|}.

Definition step1 : AttackNode.t := {|
  AttackNode.id := "A16";
  AttackNode.name := "Enumerate Internal IPs";
  AttackNode.description := "Scan internal IP ranges (192.168.x.x, 10.x.x.x)";
  AttackNode.node_type := NodeType.LEAF;
  AttackNode.attributes := {|
    AttackAttributes.difficulty := Difficulty.LOW;
    AttackAttributes.cost := Cost.FREE;
    AttackAttributes.detection_risk := DetectionRisk.MEDIUM;
    AttackAttributes.time_hours := 4.0%float;
    AttackAttributes.requires_insider := false;
    AttackAttributes.requires_physical := false |};
  AttackNode.children := [];
  AttackNode.mitigations := [
    "Block private IP ranges";
    "URL allowlist only";
    "Network egress filtering"];
  AttackNode.cve_refs := [];
  AttackNode.file_refs := [
    "src-tauri/src/unified_cache.rs:332-366";
    "lib/offline/unified-cache.ts:372-425"];
|}.

Definition step2 : AttackNode.t := {|
  AttackNode.id := "A17";
  AttackNode.name := "Port Scan via URLs";
  AttackNode.description := "Try different ports to find open services";
  AttackNode.node_type := NodeType.LEAF;
  AttackNode.attributes := {|
    AttackAttributes.difficulty := Difficulty.LOW;
    AttackAttributes.cost := Cost.FREE;
    AttackAttributes.detection_risk := DetectionRisk.MEDIUM;
    AttackAttributes.time_hours := 4.0%float;
    AttackAttributes.requires_insider := false;
    AttackAttributes.requires_physical := false |};
  AttackNode.children := [];
  AttackNode.mitigations := [
    "Port restrictions";
    "Protocol whitelisting (HTTPS only)";
    "URL validation"];
  AttackNode.cve_refs := [];
  AttackNode.file_refs := [];
|}.

Definition step3 : AttackNode.t := {|
  AttackNode.id := "A18";
  AttackNode.name := "Access Cloud Metadata";
  AttackNode.description := "Try cloud metadata endpoints (169.254.169.254)";
  AttackNode.node_type := NodeType.LEAF;
  AttackNode.attributes := {|
    AttackAttributes.difficulty := Difficulty.LOW;
    AttackAttributes.cost := Cost.FREE;
    AttackAttributes.detection_risk := DetectionRisk.HIGH;
    AttackAttributes.time_hours := 1.0%float;
    AttackAttributes.requires_insider := false;
    AttackAttributes.requires_physical := false |};
  AttackNode.children := [];
  AttackNode.mitigations := [
    "Block link-local addresses";
    "Cloud metadata endpoint blocking";
    "Network isolation"];
  AttackNode.cve_refs := [];
  AttackNode.file_refs := [];
|}.

End NetworkRecon.

Definition build_internal_network_recon_tree : AttackTree.t :=
  let ssrf_method := AttackNode.add_child NetworkRecon.ssrf_method NetworkRecon.step1 in
  let ssrf_method := AttackNode.add_child ssrf_method NetworkRecon.step2 in
  let ssrf_method := AttackNode.add_child ssrf_method NetworkRecon.step3 in
  let root := AttackNode.add_child NetworkRecon.root ssrf_method in
  {|
    AttackTree.name := "Internal Network Reconnaissance";
    AttackTree.description := "Attack paths for scanning internal network via SSRF";
    AttackTree.root := root;
    AttackTree.version := AttackTree.default_version;
    AttackTree.severity := "HIGH";
  |}.


(** ** Facts of the four trees *)

Section facts.

#[local] Open Scope Z_scope.

(** The four trees and their analysis, by evaluation.  Every tree the routines
    build keeps the invariants of the data model: a LEAF has no children,
    an OR or AND node has some, ids are unique within a tree, and even
    across the four trees; the nodes in pre-order, by id, are in the order
    of the [add_child] calls.  The easiest paths and their difficulty
    scores: path traversal through [open_path] alone (score 1) for the
    first tree, reading the data files (2) for the second, oversized JSON
    (1) for the third, the three SSRF steps (6) for the fourth.  The
    cheapest and the stealthiest paths, with their scores under the cost
    and the detection metric.  The leaf attacks: 6, 6, 4 and 3 of them, 19
    in all, of which one, A7, has no mitigation. *)
Example built_trees_facts :
  let built := [build_complete_system_compromise_tree;
                build_data_exfiltration_tree; build_denial_of_service_tree;
                build_internal_network_recon_tree] in
  Forall (λ t, well_formed (AttackTree.root t)) built ∧
  NoDup (built ≫= λ t, ids (AttackTree.root t)) ∧
  (λ t, ids (AttackTree.root t)) <$> built
    = [["G1"; "S1"; "A1"; "A2"; "S2"; "A3"; "A4"; "S3"; "A5"; "A6"];
       ["G2"; "M1"; "A7"; "A8"; "M2"; "A9"; "A10"; "M3"; "A11"; "A12"];
       ["G3"; "M4"; "A13"; "A14"; "A15"; "M5"];
       ["G4"; "M6"; "A16"; "A17"; "A18"]] ∧
  (λ t, AttackNode.id <$> find_easiest_path t) <$> built
    = [["G1"; "S3"; "A5"]; ["G2"; "M1"; "A7"; "A8"];
       ["G3"; "M4"; "A13"]; ["G4"; "M6"; "A16"; "A17"; "A18"]] ∧
  (λ t, _path_score (find_easiest_path t) "difficulty") <$> built
    = [1; 2; 1; 6] ∧
  (λ t, AttackNode.id <$> find_cheapest_path t) <$> built
    = [["G1"; "S2"; "A3"; "A4"]; ["G2"; "M1"; "A7"; "A8"];
       ["G3"; "M4"; "A13"]; ["G4"; "M6"; "A16"; "A17"; "A18"]] ∧
  (λ t, _path_score (find_cheapest_path t) "cost") <$> built
    = [0; 0; 0; 0] ∧
  (λ t, AttackNode.id <$> find_stealthiest_path t) <$> built
    = [["G1"; "S1"; "A2"]; ["G2"; "M1"; "A7"; "A8"];
       ["G3"; "M4"; "A14"]; ["G4"; "M6"; "A16"; "A17"; "A18"]] ∧
  (λ t, _path_score (find_stealthiest_path t) "detection") <$> built
    = [1; 1; 2; 7] ∧
  (λ t, AttackNode.id <$> get_all_leaf_attacks t) <$> built
    = [["A1"; "A2"; "A3"; "A4"; "A5"; "A6"];
       ["A7"; "A8"; "A9"; "A10"; "A11"; "A12"];
       ["A13"; "A14"; "A15"; "M5"]; ["A16"; "A17"; "A18"]] ∧
  (λ t, AttackNode.id <$> get_unmitigated_attacks t) <$> built
    = [[]; ["A7"]; []; []].
Proof. cbv zeta. split_and!; first [compute_done|by vm_compute]. Qed.

End facts.
