(* ===== verification/Mermaid.v ===== *)
(** * The Mermaid exporter

    The class [MermaidExporter] (lines 179-244 of
    [attack-trees-analysis.py]).  An exporter is its state: the tree and the
    three attributes [_lines], [_node_count] and [_node_ids] that its
    methods mutate; the methods are computations in the state monad of the
    prelude.  Only [export] reads the tree, so the state of the other
    methods is given for whatever the attribute [tree] holds.  The dictionary [_node_ids] is a [gmap string string], the
    counter a natural number (it starts at 0 and is only incremented).

    The specification is a pure renderer, [render], that produces the
    diagram's lines in structured form from a function that names the nodes;
    the theorems show that the exporter computes it, what the memo holds
    afterwards, how many lines of each kind there are, and that a second
    [export] returns the same text although the memo is not reset. *)

From S2P Require Import Prelude Model PathSearch Leaves.
From stdpp Require Import gmap.
From Stdlib Require Import Ascii.

(** ** The source's definitions *)

Module MermaidExporter.

(** [T] is what the attribute [tree] holds: a tree, or a tree object. *)
Record t (T : Type) : Type := mk {
  tree : T;
  _lines : list string;
  _node_count : nat;
  _node_ids : gmap string string;
}.
Arguments mk {T} tree _lines _node_count _node_ids.
Arguments tree {T} self : rename.
Arguments _lines {T} self : rename.
Arguments _node_count {T} self : rename.
Arguments _node_ids {T} self : rename.

Definition __init__ {T} (tree : T) : t T := {|
  tree := tree;
  _lines := [];
  _node_count := 0;
  _node_ids := ∅;
|}.

(** [self._lines = lines]. *)
Definition set_lines {T} (lines : list string) : State (t T) unit :=
  st_modify (λ self, mk (tree self) lines (_node_count self) (_node_ids self)).

(** [self._lines.append(line)]. *)
Definition append {T} (line : string) : State (t T) unit :=
  st_modify (λ self,
    mk (tree self) (_lines self ++ [line]) (_node_count self) (_node_ids self)).

(** The dictionary [colors] of [_get_leaf_style]. *)
Definition colors : list (Difficulty.t * string) := [
  (Difficulty.TRIVIAL, "fill:#ff6b6b,stroke:#c92a2a,stroke-width:3px");
  (Difficulty.LOW, "fill:#ffa06b,stroke:#e67700,stroke-width:2px");
  (Difficulty.MEDIUM, "fill:#ffd93d,stroke:#fab005,stroke-width:2px");
  (Difficulty.HIGH, "fill:#6bcb77,stroke:#2f9e44,stroke-width:2px");
  (Difficulty.EXPERT, "fill:#4d96ff,stroke:#1971c2,stroke-width:2px")
].

Definition _get_leaf_style (node : AttackNode.t) : string :=
  let color :=
    dict_get colors
      (AttackAttributes.difficulty (AttackNode.attributes node)) "fill:#gray" in
  let has_mitigation :=
    if AttackNode.mitigations node is [] then ""
    else "stroke:#51cf66,stroke-width:3px" in
  if negb (truthy has_mitigation) then color
  else "fill:#d3f9d8," +:+ has_mitigation.

(** Lines 197-202: the diagram identifier of a node id, a new one and a
    new memo entry when the id is met for the first time. *)
Definition node_id_of {T} (key : string) : State (t T) string := λ self,
  match _node_ids self !! key with
  | Some node_id => (node_id, self)
  | None =>
      let node_id := "N" +:+ pretty (_node_count self) in
      (node_id,
       mk (tree self) (_lines self) (S (_node_count self))
          (<[key := node_id]> (_node_ids self)))
  end.

#[local] Open Scope py_scope.

Fixpoint _export_node {T} (node : AttackNode.t) (parent_id : option string)
    : State (t T) string :=
  let! node_id := node_id_of (AttackNode.id node) in
  let! shape :=
    match AttackNode.node_type node with
    | NodeType.OR =>
        st_ret (node_id +:+ "(('" +:+ AttackNode.name node +:+ "')")
    | NodeType.AND =>
        st_ret (node_id +:+ "['" +:+ AttackNode.name node +:+ "']")
    | NodeType.LEAF =>
        let style := _get_leaf_style node in
        let shape := node_id +:+ "['" +:+ AttackNode.name node +:+ "']" in
        append ("    style " +:+ node_id +:+ " " +:+ style);;
        st_ret shape
    end in
  append ("    " +:+ shape);;
  match parent_id with
  | Some parent_id =>
      if truthy parent_id then
        let connector :=
          if bool_decide (AttackNode.node_type node ≠ NodeType.AND) then "-->"
          else "==>" in
        append ("    " +:+ parent_id +:+ " " +:+ connector +:+ " " +:+ node_id)
      else st_ret tt
  | None => st_ret tt
  end;;
  for_each (λ child, _export_node child (Some node_id))
    (AttackNode.children node);;
  st_ret node_id.

Definition _add_legend {T} : State (t T) unit :=
  append (nl +:+ "    classDef trivial fill:#ff6b6b,stroke:#c92a2a,stroke-width:3px");;
  append "    classDef low fill:#ffa06b,stroke:#e67700,stroke-width:2px";;
  append "    classDef medium fill:#ffd93d,stroke:#fab005,stroke-width:2px";;
  append "    classDef high fill:#6bcb77,stroke:#2f9e44,stroke-width:2px";;
  append "    classDef expert fill:#4d96ff,stroke:#1971c2,stroke-width:2px".

Definition export : State (t AttackTree.t) string :=
  set_lines ["flowchart TD"];;
  let! self := st_get in
  _export_node (AttackTree.root (tree self)) None;;
  _add_legend;;
  let! self := st_get in
  st_ret (str_join nl (_lines self)).

End MermaidExporter.

(** ** The specification: a pure renderer *)

(** The lines of a diagram's body, by kind. *)
Inductive line : Type :=
| Style (node_id style : string)
| Node (shape : string)
| Edge (parent_id connector node_id : string).

(** The text of a line, as the exporter formats it. *)
Definition line_text (l : line) : string :=
  match l with
  | Style node_id style => "    style " +:+ node_id +:+ " " +:+ style
  | Node shape => "    " +:+ shape
  | Edge parent_id connector node_id =>
      "    " +:+ parent_id +:+ " " +:+ connector +:+ " " +:+ node_id
  end.

Definition shape_of (node_id : string) (node : AttackNode.t) : string :=
  match AttackNode.node_type node with
  | NodeType.OR => node_id +:+ "(('" +:+ AttackNode.name node +:+ "')"
  | _ => node_id +:+ "['" +:+ AttackNode.name node +:+ "']"
  end.

Definition connector_of (node : AttackNode.t) : string :=
  if bool_decide (AttackNode.node_type node = NodeType.AND) then "==>" else "-->".

(** The lines of one node: the style of a LEAF, the declaration, and the
    edge from the parent when there is one. *)
Definition node_lines (node_id : string) (node : AttackNode.t)
    (parent_id : option string) : list line :=
  (if is_leaf node then [Style node_id (MermaidExporter._get_leaf_style node)]
   else [])
  ++ [Node (shape_of node_id node)]
  ++ match parent_id with
     | Some p => if truthy p then [Edge p (connector_of node) node_id] else []
     | None => []
     end.

(** The lines of a subtree when [ident] names the nodes by their ids. *)
Fixpoint render (ident : string → string) (node : AttackNode.t)
    (parent_id : option string) : list line :=
  node_lines (ident (AttackNode.id node)) node parent_id
  ++ (AttackNode.children node
        ≫= λ child, render ident child (Some (ident (AttackNode.id node)))).

(** The memo and the counter after one more id was looked up. *)
Definition assign (mc : gmap string string * nat) (key : string)
    : gmap string string * nat :=
  match mc.1 !! key with
  | Some _ => mc
  | None => (<[key := "N" +:+ pretty mc.2]> mc.1, S mc.2)
  end.

(** The naming a memo gives. *)
Definition ident (m : gmap string string) (key : string) : string :=
  default "" (m !! key).

(** The position of the first occurrence of a key. *)
Fixpoint index_of (key : string) (keys : list string) : option nat :=
  match keys with
  | [] => None
  | k :: keys' => if decide (k = key) then Some 0 else S <$> index_of key keys'
  end.

(** The keys of a list in the order of their first occurrences. *)
Definition add_new (seen : list string) (key : string) : list string :=
  if decide (key ∈ seen) then seen else seen ++ [key].

Definition first_occurrences (keys : list string) : list string :=
  foldl add_new [] keys.

(** The memo [mc] numbers the keys [seen], in order, from 0. *)
Definition numbers (seen : list string) (mc : gmap string string * nat) : Prop :=
  NoDup seen ∧ mc.2 = length seen ∧
  ∀ k, mc.1 !! k = (λ i : nat, "N" +:+ pretty i) <$> index_of k seen.

(** The kinds of lines. *)
Definition is_style (l : line) : bool := if l is Style _ _ then true else false.
Definition is_node (l : line) : bool := if l is Node _ then true else false.
Definition is_edge (l : line) : bool := if l is Edge _ _ _ then true else false.
Definition count (P : line → bool) (ls : list line) : nat :=
  length (filter (λ l, P l = true) ls).

(** The legend, as lines. *)
Definition legend : list string := [
  nl +:+ "    classDef trivial fill:#ff6b6b,stroke:#c92a2a,stroke-width:3px";
  "    classDef low fill:#ffa06b,stroke:#e67700,stroke-width:2px";
  "    classDef medium fill:#ffd93d,stroke:#fab005,stroke-width:2px";
  "    classDef high fill:#6bcb77,stroke:#2f9e44,stroke-width:2px";
  "    classDef expert fill:#4d96ff,stroke:#1971c2,stroke-width:2px"
].

(** The diagram of a tree under a memo: what [export] returns. *)
Definition diagram (m : gmap string string) (tree : AttackTree.t) : string :=
  str_join nl
    (["flowchart TD"]
     ++ (line_text <$> render (ident m) (AttackTree.root tree) None)
     ++ legend).

(** The memo of an exporter, and the exporter after a walk that appended
    [lines] and left the memo [mc]. *)
Definition memo_of (self : MermaidExporter.t AttackTree.t)
    : gmap string string * nat :=
  (MermaidExporter._node_ids self, MermaidExporter._node_count self).

Definition after (self : MermaidExporter.t AttackTree.t) (lines : list line)
    (mc : gmap string string * nat) : MermaidExporter.t AttackTree.t :=
  MermaidExporter.mk (MermaidExporter.tree self)
    (MermaidExporter._lines self ++ (line_text <$> lines)) mc.2 mc.1.

(** The memo after a walk of the exporter's tree. *)
Definition memo_after (self : MermaidExporter.t AttackTree.t)
    : gmap string string * nat :=
  foldl assign (memo_of self) (ids (AttackTree.root (MermaidExporter.tree self))).

(** Every id of the subtree has a non-empty name. *)
Definition names_all (f : string → string) (node : AttackNode.t) : Prop :=
  ∀ k, k ∈ ids node → truthy (f k) = true.

(** How often a character occurs in a string. *)
Fixpoint occurrences (c : Ascii.ascii) (s : string) : nat :=
  match s with
  | EmptyString => 0
  | String a s' => (if decide (a = c) then 1 else 0) + occurrences c s'
  end.

(** ** The memo *)

Section memo.
Implicit Types mc : gmap string string * nat.
Implicit Types m : gmap string string.
Implicit Types k key : string.
Implicit Types keys : list string.

Lemma assign_lookup_mono mc key k v :
  mc.1 !! k = Some v → (assign mc key).1 !! k = Some v.
Proof.
  intros Hk. rw /assign. destruct (mc.1 !! key) eqn:Hkey; [done|].
  rw /= lookup_insert_ne //. by intros ->; rw Hk in Hkey.
Qed.

Lemma assign_lookup_self mc key : is_Some ((assign mc key).1 !! key).
Proof.
  rw /assign. destruct (mc.1 !! key) eqn:Hkey; [by rw Hkey|].
  by rw /= lookup_insert_eq.
Qed.

Lemma assign_all_lookup_mono mc keys k v :
  mc.1 !! k = Some v → (foldl assign mc keys).1 !! k = Some v.
Proof.
  revert mc. induction keys as [|key keys IH]=> mc Hk; [done|].
  by apply IH, assign_lookup_mono.
Qed.

Lemma assign_all_lookup_elem mc keys k :
  k ∈ keys → is_Some ((foldl assign mc keys).1 !! k).
Proof.
  revert mc. induction keys as [|key keys IH]=> mc; [by intros ?%elem_of_nil|].
  intros [->|Hk]%elem_of_cons; [|by apply IH].
  destruct (assign_lookup_self mc key) as [v Hv].
  by rw /= (assign_all_lookup_mono _ _ _ _ Hv).
Qed.

(** Names given once are kept. *)
Lemma assign_all_ident_stable mc keys keys' k :
  k ∈ keys →
  ident (foldl assign (foldl assign mc keys) keys').1 k
  = ident (foldl assign mc keys).1 k.
Proof.
  intros Hk. destruct (assign_all_lookup_elem mc keys k Hk) as [v Hv].
  by rw /ident (assign_all_lookup_mono _ keys' _ _ Hv) Hv.
Qed.

(** Looking up known ids changes nothing. *)
Lemma assign_all_known mc keys :
  Forall (λ k, is_Some (mc.1 !! k)) keys → foldl assign mc keys = mc.
Proof.
  induction 1 as [|k keys [v Hv] _ IH]; [done|].
  assert (assign mc k = mc) as Hk by (by rw /assign Hv).
  by rw [foldl _ _ _]/= Hk.
Qed.

Lemma assign_all_idemp mc keys :
  foldl assign (foldl assign mc keys) keys = foldl assign mc keys.
Proof.
  apply assign_all_known, Forall_forall=> k. apply assign_all_lookup_elem.
Qed.

End memo.

(** ** The exporter computes the renderer *)

Section refinement.
Import MermaidExporter.
Implicit Types self : t AttackTree.t.
Implicit Types node c : AttackNode.t.
Implicit Types mc : gmap string string * nat.
Implicit Types parent_id : option string.

Lemma memo_of_after self lines mc : memo_of (after self lines mc) = mc.
Proof. by destruct mc. Qed.

Lemma after_after self lines1 lines2 mc1 mc2 :
  after (after self lines1 mc1) lines2 mc2 = after self (lines1 ++ lines2) mc2.
Proof. by rw /after /= fmap_app app_assoc. Qed.

Lemma render_unfold f node parent_id :
  render f node parent_id
  = node_lines (f (AttackNode.id node)) node parent_id
    ++ (AttackNode.children node
          ≫= λ c, render f c (Some (f (AttackNode.id node)))).
Proof. by destruct node. Qed.

(** The renderer reads the naming only at the ids of the subtree. *)
Lemma render_ext f g node parent_id :
  (∀ k, k ∈ ids node → f k = g k) →
  render f node parent_id = render g node parent_id.
Proof.
  revert parent_id. node_induction node=> parent_id Hfg.
  rw !render_unfold (Hfg (AttackNode.id node)); [rw ids_unfold; left|].
  f_equal. apply Forall_bind_ext. rw Forall_forall in IH.
  rw Forall_forall=> c Hc. apply IH; [done|].
  intros k Hk. apply Hfg. rw ids_unfold. right.
  apply list_elem_of_bind. eauto.
Qed.

(** The straight-line part of [_export_node]: the lookup and the lines of
    the node itself; the loop over the children is left. *)
Lemma export_node_step node parent_id self :
  _export_node node parent_id self =
    let mc := assign (memo_of self) (AttackNode.id node) in
    let node_id := ident mc.1 (AttackNode.id node) in
    let self' := after self (node_lines node_id node parent_id) mc in
    (node_id,
     (for_each (λ c, _export_node c (Some node_id))
        (AttackNode.children node) self').2).
Proof.
  destruct node as [i nm d ty a cs ms cv fr].
  rw /= /st_bind /node_id_of /assign /ident /node_lines /shape_of /connector_of
    /is_leaf /after /=.
  destruct (_node_ids self !! i) as [v|] eqn:Hv; rw /= ?Hv ?lookup_insert_eq /=;
    destruct ty, parent_id as [p|]; rw /= /append /st_modify /=;
    try destruct (truthy p); rw /= -?app_assoc /=;
    by destruct (for_each _ cs _).
Qed.

(** The loop over the children, given the specification of each child. *)
Lemma export_children_spec cs p self :
  Forall (λ c, ∀ parent_id self,
    let mc := foldl assign (memo_of self) (ids c) in
    _export_node c parent_id self
    = (ident mc.1 (AttackNode.id c),
       after self (render (ident mc.1) c parent_id) mc)) cs →
  let mc := foldl assign (memo_of self) (cs ≫= ids) in
  for_each (λ c, _export_node c (Some p)) cs self
  = (tt, after self (cs ≫= λ c, render (ident mc.1) c (Some p)) mc).
Proof.
  intros IH. revert self. induction IH as [|c cs Hc _ IHcs]=> self; cbv zeta.
  { rw /after /= app_nil_r. by destruct self. }
  rw for_each_cons /st_bind Hc IHcs memo_of_after after_after !bind_cons foldl_app.
  do 3 f_equal.
  apply render_ext=> k Hk. symmetry. by apply assign_all_ident_stable.
Qed.

Lemma export_node_spec node parent_id self :
  let mc := foldl assign (memo_of self) (ids node) in
  _export_node node parent_id self
  = (ident mc.1 (AttackNode.id node),
     after self (render (ident mc.1) node parent_id) mc).
Proof.
  revert parent_id self. node_induction node=> parent_id self.
  rw export_node_step /= export_children_spec // memo_of_after after_after.
  rw ids_unfold render_unfold /=.
  assert (∀ mc, ident (foldl assign (assign mc (AttackNode.id node))
                         (AttackNode.children node ≫= ids)).1 (AttackNode.id node)
                = ident (assign mc (AttackNode.id node)).1 (AttackNode.id node))
    as Hid.
  { intros mc. apply (assign_all_ident_stable mc [AttackNode.id node]). left. }
  by rw !Hid.
Qed.

End refinement.

(** ** First occurrences and the numbering of a memo *)

Section numbering.
Implicit Types mc : gmap string string * nat.
Implicit Types k key : string.
Implicit Types keys seen : list string.

Lemma index_of_None key keys : index_of key keys = None ↔ key ∉ keys.
Proof.
  induction keys as [|k keys IH]; [by split; [intros _ ?%elem_of_nil|]|].
  rw /= not_elem_of_cons. case_decide; [naive_solver|].
  rw fmap_None IH. naive_solver.
Qed.

Lemma index_of_Some key keys i : index_of key keys = Some i → keys !! i = Some key.
Proof.
  revert i. induction keys as [|k keys IH]=> i /=; [done|].
  case_decide; [by intros [= <-]; subst|].
  destruct (index_of key keys) as [j|]; intros [= <-]. by apply IH.
Qed.

(** Each position is the first occurrence of one key only. *)
Lemma index_of_inj k1 k2 keys i :
  index_of k1 keys = Some i → index_of k2 keys = Some i → k1 = k2.
Proof. intros H1%index_of_Some H2%index_of_Some. congruence. Qed.

Lemma index_of_app_l key keys keys' :
  key ∈ keys → index_of key (keys ++ keys') = index_of key keys.
Proof.
  induction keys as [|k keys IH]; [by intros ?%elem_of_nil|].
  rw /=. case_decide; [done|]. intros [?|Hk]%elem_of_cons; [done|]. by rw IH.
Qed.

Lemma index_of_snoc_new key keys :
  key ∉ keys → index_of key (keys ++ [key]) = Some (length keys).
Proof.
  induction keys as [|k keys IH]; rw /=; [by rw decide_True|].
  intros [? Hk]%not_elem_of_cons. by rw decide_False // IH.
Qed.

Lemma index_of_snoc_other key k keys :
  key ≠ k → index_of key (keys ++ [k]) = index_of key keys.
Proof.
  intros Hne. induction keys as [|k' keys IH]; rw /=; [by rw decide_False|].
  by rw IH.
Qed.

Lemma numbers_empty : numbers [] (∅, 0).
Proof. split_and!; [constructor|done|]. intros k. by rw /= lookup_empty. Qed.

(** One lookup extends the numbering by the key if it is new. *)
Lemma numbers_assign seen mc key :
  numbers seen mc → numbers (add_new seen key) (assign mc key).
Proof.
  intros (Hnd & Hlen & Hm). rw /add_new /assign Hm.
  case_decide as Hin.
  - destruct (index_of key seen) eqn:Hi; [done|].
    by apply index_of_None in Hi.
  - rw (proj2 (index_of_None _ _) Hin) /=. split_and!.
    + apply NoDup_app; split_and!; [done|set_solver|apply NoDup_singleton].
    + rw length_app /=. lia.
    + intros k. destruct (decide (k = key)) as [->|Hne].
      * by rw lookup_insert_eq index_of_snoc_new // Hlen.
      * by rw lookup_insert_ne // index_of_snoc_other.
Qed.

Lemma numbers_assign_all seen mc keys :
  numbers seen mc → numbers (foldl add_new seen keys) (foldl assign mc keys).
Proof.
  revert seen mc. induction keys as [|k keys IH]=> seen mc Hmc; [done|].
  by apply IH, numbers_assign.
Qed.

Lemma add_new_all_elem_of seen keys k :
  k ∈ foldl add_new seen keys ↔ k ∈ seen ∨ k ∈ keys.
Proof.
  revert seen. induction keys as [|key keys IH]=> seen /=; [set_solver|].
  rw IH /add_new. case_decide; set_solver.
Qed.

Lemma add_new_all_NoDup seen keys :
  NoDup (seen ++ keys) → foldl add_new seen keys = seen ++ keys.
Proof.
  revert seen. induction keys as [|key keys IH]=> seen; [by rw app_nil_r|].
  rw (assoc_L (++) seen [key] keys)=> Hnd. rw /= -IH // /add_new decide_False //.
  apply NoDup_app in Hnd as [Hnd _]. apply NoDup_app in Hnd. set_solver.
Qed.

Lemma first_occurrences_elem_of keys k : k ∈ first_occurrences keys ↔ k ∈ keys.
Proof. rw /first_occurrences add_new_all_elem_of. set_solver. Qed.

Lemma first_occurrences_NoDup keys : NoDup (first_occurrences keys).
Proof.
  by destruct (numbers_assign_all [] (∅, 0) keys numbers_empty) as [? _].
Qed.

Lemma first_occurrences_id keys : NoDup keys → first_occurrences keys = keys.
Proof. apply (add_new_all_NoDup []). Qed.

Lemma first_occurrences_length keys :
  (length (first_occurrences keys) ≤ length keys)%nat.
Proof.
  apply submseteq_length, NoDup_submseteq; [apply first_occurrences_NoDup|].
  intros k. by rw first_occurrences_elem_of.
Qed.

End numbering.

(** ** Counting the lines of a diagram *)

Section counting.
Implicit Types node c : AttackNode.t.
Implicit Types ls : list line.
Implicit Types f : string → string.

Lemma count_app P ls1 ls2 : count P (ls1 ++ ls2) = (count P ls1 + count P ls2)%nat.
Proof. by rw /count filter_app length_app. Qed.

Lemma count_bind {A} P (g : A → list line) (l : list A) :
  count P (l ≫= g) = sum_list ((λ x, count P (g x)) <$> l).
Proof.
  induction l as [|x l IH]; [done|]. by rw bind_cons count_app IH.
Qed.

Lemma count_node_lines P node_id node parent_id :
  count P (node_lines node_id node parent_id)
  = ((if is_leaf node then count P [Style node_id (MermaidExporter._get_leaf_style node)] else 0)
     + count P [Node (shape_of node_id node)]
     + (if from_option truthy false parent_id
        then count P [Edge (default "" parent_id) (connector_of node) node_id]
        else 0))%nat.
Proof.
  rw /node_lines !count_app.
  destruct (is_leaf node), parent_id as [p|]; rw /=; try destruct (truthy p);
    rw /count /=; lia.
Qed.

(** The counts of a subtree from the counts of its children. *)
Lemma render_count P f node parent_id (g : AttackNode.t → nat) :
  Forall (λ c, ∀ parent_id,
    from_option truthy false parent_id = true →
    count P (render f c parent_id) = g c) (AttackNode.children node) →
  truthy (f (AttackNode.id node)) = true →
  count P (render f node parent_id)
  = (count P (node_lines (f (AttackNode.id node)) node parent_id)
     + sum_list (g <$> AttackNode.children node))%nat.
Proof.
  intros IH Hf. rw render_unfold count_app count_bind. do 2 f_equal.
  apply Forall_fmap_ext. eapply Forall_impl; [done|]. intros c Hc. by apply Hc.
Qed.

Lemma names_all_child f node c :
  names_all f node → c ∈ AttackNode.children node → names_all f c.
Proof.
  intros Hf Hc k Hk. apply Hf. rw ids_unfold. right.
  apply list_elem_of_bind. eauto.
Qed.

Lemma names_all_self f node : names_all f node → truthy (f (AttackNode.id node)) = true.
Proof. intros Hf. apply Hf. rw ids_unfold. left. Qed.

(** One declaration per node of the subtree, one style per LEAF, and one
    edge per node that has a parent. *)
Lemma render_counts f node parent_id :
  names_all f node →
  count is_node (render f node parent_id) = size node ∧
  count is_style (render f node parent_id) = length (leaves_of (nodes node)) ∧
  count is_edge (render f node parent_id)
  = (size node - 1 + (if from_option truthy false parent_id then 1 else 0))%nat.
Proof.
  revert parent_id. node_induction node=> parent_id Hf.
  assert (Forall (λ c, ∀ parent_id,
    count is_node (render f c parent_id) = size c ∧
    count is_style (render f c parent_id) = length (leaves_of (nodes c)) ∧
    count is_edge (render f c parent_id)
    = (size c - 1 + (if from_option truthy false parent_id then 1 else 0))%nat)
    (AttackNode.children node)) as IH'.
  { rw Forall_forall in IH. apply Forall_forall=> c Hc p.
    by apply IH, (names_all_child f node). }
  pose proof (names_all_self f node Hf) as Hself.
  split_and!.
  - rw (render_count _ _ _ _ size) //.
    { eapply Forall_impl; [done|]. intros c Hc p _. apply Hc. }
    rw count_node_lines size_unfold.
    destruct (is_leaf node), (from_option truthy false parent_id); by rw /count.
  - rw (render_count _ _ _ _ (λ c, length (leaves_of (nodes c)))) //.
    { eapply Forall_impl; [done|]. intros c Hc p _. apply Hc. }
    rw count_node_lines length_leaves_of_nodes.
    destruct (is_leaf node), (from_option truthy false parent_id); by rw /count.
  - rw (render_count _ _ _ _ size) //.
    { eapply Forall_impl; [done|]. intros c Hc p Hp.
      destruct (Hc p) as (_ & _ & ->). rw Hp. pose proof (size_pos c). lia. }
    rw count_node_lines size_unfold.
    destruct (is_leaf node), (from_option truthy false parent_id); rw /count /=; lia.
Qed.

End counting.

(** ** [export] *)

Section export.
Import MermaidExporter.
Implicit Types self : t AttackTree.t.
Implicit Types tree : AttackTree.t.
Implicit Types node : AttackNode.t.

Lemma add_legend_spec self :
  _add_legend self
  = (tt, mk (MermaidExporter.tree self) (_lines self ++ legend)
           (_node_count self) (_node_ids self)).
Proof. by rw /_add_legend /st_bind /append /st_modify /= -!app_assoc. Qed.

(** [export] returns the diagram under the memo it leaves, whatever the
    lines and the memo it starts from. *)
Lemma export_spec self :
  export self
  = (diagram (memo_after self).1 (MermaidExporter.tree self),
     mk (MermaidExporter.tree self)
        (["flowchart TD"]
         ++ (line_text <$> render (ident (memo_after self).1)
                         (AttackTree.root (MermaidExporter.tree self)) None)
         ++ legend)
        (memo_after self).2 (memo_after self).1).
Proof.
  rw /export /st_bind /set_lines /st_modify /st_get export_node_spec.
  by rw add_legend_spec.
Qed.

Lemma memo_after_export self :
  memo_after (export self).2 = memo_after self.
Proof.
  rw export_spec /memo_after /memo_of /= -surjective_pairing.
  apply assign_all_idemp.
Qed.

(** A numbering names every key it numbers, and names no two alike. *)
Lemma numbers_truthy seen mc k : numbers seen mc → k ∈ seen → truthy (ident mc.1 k) = true.
Proof.
  intros (_ & _ & Hm) Hk. rw /ident Hm.
  destruct (index_of k seen) eqn:Hi; [done|]. by apply index_of_None in Hi.
Qed.

Lemma numbers_inj seen mc k1 k2 :
  numbers seen mc → k1 ∈ seen → ident mc.1 k1 = ident mc.1 k2 → k1 = k2.
Proof.
  intros (_ & _ & Hm) Hk1. rw /ident !Hm.
  destruct (index_of k1 seen) as [i|] eqn:H1; [|by apply index_of_None in H1].
  destruct (index_of k2 seen) as [j|] eqn:H2; [|done].
  rw /=. intros [= Hp]. assert (i = j) as -> by by apply (inj (@pretty nat _)).
  by eapply index_of_inj.
Qed.

Lemma numbers_size seen mc : numbers seen mc → size mc.1 = length seen.
Proof.
  intros (Hnd & _ & Hm).
  rw -size_dom -(size_list_to_set (C:=gset string) seen) //. f_equal.
  apply set_eq=> k. rw elem_of_dom elem_of_list_to_set Hm fmap_is_Some.
  rw -not_eq_None_Some index_of_None. split; [apply dec_stable|auto].
Qed.

(** The memo a fresh exporter leaves numbers the first occurrences of the
    tree's ids. *)
Lemma numbers_fresh tree :
  numbers (first_occurrences (ids (AttackTree.root tree)))
    (memo_after (__init__ tree)).
Proof. apply numbers_assign_all, numbers_empty. Qed.

Lemma names_all_fresh tree :
  names_all (ident (memo_after (__init__ tree)).1) (AttackTree.root tree).
Proof.
  intros k Hk. eapply numbers_truthy; [apply numbers_fresh|].
  by apply first_occurrences_elem_of.
Qed.

(** Fewer first occurrences than keys: some key occurs twice. *)
Lemma first_occurrences_length_NoDup keys :
  length (first_occurrences keys) = length keys → NoDup keys.
Proof.
  intros Hlen. assert (first_occurrences keys ≡ₚ keys) as HP.
  { apply submseteq_length_Permutation; [|lia].
    apply NoDup_submseteq; [apply first_occurrences_NoDup|].
    intros k. by rw first_occurrences_elem_of. }
  rewrite <- HP. apply first_occurrences_NoDup.
Qed.

End export.

(** ** Lines of a diagram *)

Section lines.
Implicit Types node n c : AttackNode.t.
Implicit Types f : string → string.
Implicit Types ls : list line.

Lemma occurrences_app ch s1 s2 :
  occurrences ch (s1 +:+ s2) = (occurrences ch s1 + occurrences ch s2)%nat.
Proof. induction s1 as [|a s1 IH]; [done|]. rw /= IH. lia. Qed.

Lemma count_cons P l ls :
  count P (l :: ls) = ((if P l then 1 else 0) + count P ls)%nat.
Proof. rw /count filter_cons. destruct (P l); by case_decide. Qed.

(** Every line is of one kind. *)
Lemma length_count ls :
  length ls = (count is_node ls + count is_style ls + count is_edge ls)%nat.
Proof. induction ls as [|[] ls IH]; [done|..]; rw !count_cons /= IH; lia. Qed.

Lemma connector_of_AND c :
  connector_of c
  = if decide (AttackNode.node_type c = NodeType.AND) then "==>" else "-->".
Proof. rw /connector_of. by case_bool_decide; case_decide. Qed.

Lemma render_node f node parent_id :
  Node (shape_of (f (AttackNode.id node)) node) ∈ render f node parent_id.
Proof. rw render_unfold /node_lines. set_solver. Qed.

(** The edge to a child names the child's connector. *)
Lemma render_edge f node parent_id c :
  c ∈ AttackNode.children node → truthy (f (AttackNode.id node)) = true →
  Edge (f (AttackNode.id node)) (connector_of c) (f (AttackNode.id c))
    ∈ render f node parent_id.
Proof.
  intros Hc Hf. rw render_unfold. apply elem_of_app. right.
  apply list_elem_of_bind. exists c. split; [|done].
  rw render_unfold /node_lines Hf. set_solver.
Qed.

(** The lines of a node of the tree are lines of the tree. *)
Lemma render_nodes f node parent_id n :
  n ∈ nodes node → ∃ p, render f n p ⊆ render f node parent_id.
Proof.
  revert parent_id. node_induction node=> parent_id. rw (elem_of_nodes node).
  intros [->|(c & Hc & Hn)]; [by exists parent_id|].
  rw Forall_forall in IH.
  destruct (IH c Hc (Some (f (AttackNode.id node))) Hn) as [p Hp].
  exists p. intros l Hl. rw render_unfold. apply elem_of_app. right.
  apply list_elem_of_bind. exists c. auto.
Qed.

End lines.

(** ** Properties of the exporter *)

Section properties.
Import MermaidExporter.
Implicit Types self : t AttackTree.t.
Implicit Types tree : AttackTree.t.
Implicit Types node n c : AttackNode.t.

Lemma export_tree self :
  MermaidExporter.tree (export self).2 = MermaidExporter.tree self.
Proof. by rw export_spec. Qed.

Lemma export_fresh_memo tree :
  memo_of (export (__init__ tree)).2 = memo_after (__init__ tree).
Proof. by rw export_spec /memo_of /= -surjective_pairing. Qed.

Lemma export_fresh_ids tree :
  _node_ids (export (__init__ tree)).2 = (memo_after (__init__ tree)).1.
Proof. by rw -export_fresh_memo. Qed.

Lemma export_fresh_lines tree :
  _lines (export (__init__ tree)).2
  = ["flowchart TD"]
    ++ (line_text <$> render (ident (memo_after (__init__ tree)).1)
                    (AttackTree.root tree) None)
    ++ legend.
Proof. by rw export_spec. Qed.

Lemma export_fresh_count tree :
  _node_count (export (__init__ tree)).2
  = length (first_occurrences (ids (AttackTree.root tree))).
Proof.
  destruct (numbers_fresh tree) as (_ & <- & _). by rw -export_fresh_memo.
Qed.

Lemma numbers_lookup seen mc k :
  numbers seen mc → k ∈ seen →
  ∃ i : nat, (i < mc.2)%nat ∧ mc.1 !! k = Some ("N" +:+ pretty i).
Proof.
  intros (_ & Hlen & Hm) Hk. rw Hm Hlen.
  destruct (index_of k seen) as [i|] eqn:Hi; [|by apply index_of_None in Hi].
  exists i. split; [|done]. by eapply lookup_lt_Some, index_of_Some.
Qed.

Lemma elem_of_ids node n : n ∈ nodes node → AttackNode.id n ∈ ids node.
Proof. apply list_elem_of_fmap_2. Qed.

(** C4. [export] of a fresh exporter returns the lines it leaves in
    [_lines], joined by newlines: the header [flowchart TD], then the lines
    of the pure renderer for the tree in pre-order under the memo the walk
    leaves, then the five lines of the legend; and that memo numbers the ids
    of the tree [N0], [N1], ... in the order in which the pre-order walk
    first meets them. *)
Theorem export_fresh tree :
  let self' := (export (__init__ tree)).2 in
  (export (__init__ tree)).1 = str_join nl (_lines self') ∧
  (export (__init__ tree)).1 = diagram (_node_ids self') tree ∧
  _lines self'
  = ["flowchart TD"]
    ++ (line_text <$> render (ident (_node_ids self')) (AttackTree.root tree) None)
    ++ legend ∧
  numbers (first_occurrences (ids (AttackTree.root tree))) (memo_of self').
Proof.
  cbv zeta. rw export_fresh_memo export_fresh_ids export_spec /=.
  split_and!; [done..|apply numbers_fresh].
Qed.

(** C17. [export] does not reset [_node_count] and [_node_ids], yet calling
    it again on the exporter it leaves returns the same text and leaves the
    same exporter, whatever state the first call started from. *)
Theorem export_idempotent self :
  export (export self).2 = ((export self).1, (export self).2).
Proof.
  rw (export_spec (export self).2) memo_after_export export_tree.
  by rw (export_spec self).
Qed.

(** The lines of a diagram, by kind. *)
Lemma export_lines_by_kind tree :
  let self' := (export (__init__ tree)).2 in
  let body := render (ident (_node_ids self')) (AttackTree.root tree) None in
  _lines self' = ["flowchart TD"] ++ (line_text <$> body) ++ legend ∧
  count is_node body = size (AttackTree.root tree) ∧
  count is_style body = length (get_all_leaf_attacks tree) ∧
  count is_edge body = (size (AttackTree.root tree) - 1)%nat ∧
  length (_lines self')
  = (2 * size (AttackTree.root tree) + length (get_all_leaf_attacks tree) + 5)%nat.
Proof.
  cbv zeta. rw export_fresh_ids export_fresh_lines get_all_leaf_attacks_spec.
  destruct (render_counts _ _ None (names_all_fresh tree)) as (Hn & Hs & He).
  rw /= Nat.add_0_r in He. split_and!; [done..|].
  rw /= length_app length_fmap length_count Hn Hs He /=.
  pose proof (size_pos (AttackTree.root tree)). lia.
Qed.

(** The memo numbers the distinct ids of the tree. *)
Lemma export_memo_numbers tree :
  let self' := (export (__init__ tree)).2 in
  size (_node_ids self') = _node_count self' ∧
  _node_count self' = length (first_occurrences (ids (AttackTree.root tree))) ∧
  (_node_count self' ≤ size (AttackTree.root tree))%nat ∧
  (∀ k, k ∈ ids (AttackTree.root tree) →
     ∃ i : nat, (i < _node_count self')%nat
       ∧ _node_ids self' !! k = Some ("N" +:+ pretty i)) ∧
  (∀ k1 k2, k1 ∈ ids (AttackTree.root tree) →
     ident (_node_ids self') k1 = ident (_node_ids self') k2 → k1 = k2).
Proof.
  cbv zeta. pose proof (numbers_fresh tree) as Hnum.
  rw -export_fresh_memo in Hnum. rw export_fresh_count. split_and!.
  - rw (numbers_size _ _ Hnum) //.
  - done.
  - rw -length_ids. apply first_occurrences_length.
  - intros k Hk. rw -export_fresh_count.
    by apply (numbers_lookup _ _ _ Hnum), first_occurrences_elem_of.
  - intros k1 k2 Hk1. by apply (numbers_inj _ _ _ _ Hnum), first_occurrences_elem_of.
Qed.

(** C18. What [export] of a fresh exporter counts.  The diagram has one
    declaration line per node of the tree, one style line per leaf attack
    and one edge line per node other than the root; with the header and
    the legend, [_lines] holds twice the node count plus the number of
    leaf attacks plus five lines.  The memo [_node_ids] has [_node_count]
    entries, as many as the tree has distinct ids; every id of the tree
    is mapped to [N<i>] for some [i] below [_node_count]; and two ids are
    mapped to the same diagram identifier only if they are equal.  The
    number of declaration lines equals the counter exactly when no id
    occurs twice in the tree: a repeated id is declared once per visit. *)
Theorem export_line_counts tree :
  let self' := (export (__init__ tree)).2 in
  let body := render (ident (_node_ids self')) (AttackTree.root tree) None in
  _lines self' = ["flowchart TD"] ++ (line_text <$> body) ++ legend ∧
  count is_node body = size (AttackTree.root tree) ∧
  count is_style body = length (get_all_leaf_attacks tree) ∧
  count is_edge body = (size (AttackTree.root tree) - 1)%nat ∧
  length (_lines self')
  = (2 * size (AttackTree.root tree) + length (get_all_leaf_attacks tree) + 5)%nat ∧
  size (_node_ids self') = _node_count self' ∧
  _node_count self' = length (first_occurrences (ids (AttackTree.root tree))) ∧
  (_node_count self' ≤ size (AttackTree.root tree))%nat ∧
  (∀ k, k ∈ ids (AttackTree.root tree) →
     ∃ i : nat, (i < _node_count self')%nat
       ∧ _node_ids self' !! k = Some ("N" +:+ pretty i)) ∧
  (∀ k1 k2, k1 ∈ ids (AttackTree.root tree) →
     ident (_node_ids self') k1 = ident (_node_ids self') k2 → k1 = k2) ∧
  (count is_node body = _node_count self' ↔ unique_ids (AttackTree.root tree)).
Proof.
  destruct (export_lines_by_kind tree) as (Hlines & Hn & Hs & He & Hlen).
  destruct (export_memo_numbers tree) as (Hsize & Hcount & Hle & Hnum & Hinj).
  cbv zeta in *. split_and!; [done..|]. rw Hn Hcount -length_ids. split.
  - intros Hlen'. by apply first_occurrences_length_NoDup.
  - intros Hnd. by rw first_occurrences_id.
Qed.

(** C32. What [_export_node] writes for one node.  [_get_leaf_style]
    gives a mitigated node the fixed green style and an unmitigated one
    the colour of its difficulty; the default of the dictionary lookup is
    never returned.  The declaration line that [_export_node] appends for
    an OR node opens two parentheses and closes one: besides those of the
    identifier and the name, the line has two [(] and a single [)]. *)
Theorem export_node_shape node parent_id self :
  _get_leaf_style node
  = (if decide (AttackNode.mitigations node = [])
     then match AttackAttributes.difficulty (AttackNode.attributes node) with
          | Difficulty.TRIVIAL => "fill:#ff6b6b,stroke:#c92a2a,stroke-width:3px"
          | Difficulty.LOW => "fill:#ffa06b,stroke:#e67700,stroke-width:2px"
          | Difficulty.MEDIUM => "fill:#ffd93d,stroke:#fab005,stroke-width:2px"
          | Difficulty.HIGH => "fill:#6bcb77,stroke:#2f9e44,stroke-width:2px"
          | Difficulty.EXPERT => "fill:#4d96ff,stroke:#1971c2,stroke-width:2px"
          end
     else "fill:#d3f9d8,stroke:#51cf66,stroke-width:3px") ∧
  _get_leaf_style node ≠ "fill:#gray" ∧
  (AttackNode.node_type node = NodeType.OR →
   let out := _export_node node parent_id self in
   let decl := "    " +:+ out.1 +:+ "(('" +:+ AttackNode.name node +:+ "')" in
   decl ∈ _lines out.2 ∧
   occurrences "("%char decl
   = (2 + occurrences "("%char out.1
      + occurrences "("%char (AttackNode.name node))%nat ∧
   occurrences ")"%char decl
   = (1 + occurrences ")"%char out.1
      + occurrences ")"%char (AttackNode.name node))%nat).
Proof.
  rw assoc. split.
  - rw /_get_leaf_style.
    destruct (AttackNode.mitigations node),
      (AttackAttributes.difficulty (AttackNode.attributes node)); by case_decide.
  - intros Hty. cbv zeta. rw export_node_spec /= !occurrences_app /=.
    split_and!; [|lia..]. apply elem_of_app. right.
    apply list_elem_of_fmap. eexists. split; [|apply render_node].
    by rw /= /shape_of Hty.
Qed.

Lemma export_node_shape_witness :
  let out := _export_node Examples.or_tree None
               (__init__ (Examples.tree Examples.or_tree)) in
  let decl := "    " +:+ out.1 +:+ "(('" +:+ AttackNode.name Examples.or_tree +:+ "')" in
  decl ∈ _lines out.2 ∧
  occurrences "("%char decl
  = (2 + occurrences "("%char out.1
     + occurrences "("%char (AttackNode.name Examples.or_tree))%nat ∧
  occurrences ")"%char decl
  = (1 + occurrences ")"%char out.1
     + occurrences ")"%char (AttackNode.name Examples.or_tree))%nat.
Proof.
  exact (proj2 (proj2 (export_node_shape Examples.or_tree None
                         (__init__ (Examples.tree Examples.or_tree)))) eq_refl).
Defined.

(** C31. The connector of an edge is chosen by the type of the node the edge
    leads to, not of the node it leaves: for every node of the tree and
    every child of it the diagram has the edge line from the node's
    identifier to the child's, with [==>] when the child is an AND node and
    [-->] otherwise. *)
Theorem export_connector_by_child tree n c :
  n ∈ nodes (AttackTree.root tree) → c ∈ AttackNode.children n →
  let self' := (export (__init__ tree)).2 in
  "    " +:+ ident (_node_ids self') (AttackNode.id n) +:+ " "
    +:+ (if decide (AttackNode.node_type c = NodeType.AND) then "==>" else "-->")
    +:+ " " +:+ ident (_node_ids self') (AttackNode.id c)
  ∈ _lines self'.
Proof.
  intros Hn Hc. cbv zeta. rw export_fresh_ids export_fresh_lines -connector_of_AND.
  destruct (render_nodes (ident (memo_after (__init__ tree)).1) _ None n Hn)
    as [p Hp].
  apply elem_of_app. right. apply elem_of_app. left.
  apply list_elem_of_fmap. eexists (Edge _ (connector_of c) _). split; [done|].
  apply Hp, render_edge; [done|]. by apply names_all_fresh, elem_of_ids.
Qed.

Lemma export_connector_by_child_witness :
  let self' := (export (__init__ (Examples.tree Examples.and_tree))).2 in
  "    " +:+ ident (_node_ids self') (AttackNode.id Examples.and_tree) +:+ " "
    +:+ (if decide (AttackNode.node_type Examples.A = NodeType.AND)
         then "==>" else "-->")
    +:+ " " +:+ ident (_node_ids self') (AttackNode.id Examples.A)
  ∈ _lines self'.
Proof.
  apply (export_connector_by_child (Examples.tree Examples.and_tree)
           Examples.and_tree Examples.A); repeat constructor.
Defined.

(** Two nodes with the same id share one diagram identifier: a root
    whose child repeats its id is exported with two declaration lines for
    [N0] and an edge from [N0] to itself, and an AND root with a LEAF child
    is connected to it by [-->]. *)
Example export_examples :
  let dup := AttackNode.add_child (AttackNode.new "X" "Root" "" NodeType.OR)
               (Examples.leaf "X" Difficulty.LOW Cost.LOW DetectionRisk.LOW []) in
  _lines (export (__init__ (Examples.tree dup))).2
  = ["flowchart TD";
     "    N0(('Root')";
     "    style N0 fill:#ffa06b,stroke:#e67700,stroke-width:2px";
     "    N0['Leaf X']";
     "    N0 --> N0"] ++ legend ∧
  _lines (export (__init__ (Examples.tree Examples.and_tree))).2
  = ["flowchart TD";
     "    N0['Root']";
     "    style N1 fill:#ff6b6b,stroke:#c92a2a,stroke-width:3px";
     "    N1['Leaf A']";
     "    N0 --> N1";
     "    style N2 fill:#d3f9d8,stroke:#51cf66,stroke-width:3px";
     "    N2['Leaf B']";
     "    N0 --> N2"] ++ legend.
Proof. by vm_compute. Qed.

End properties.
