(* ===== verification/Outside.v ===== *)
(** * The outside: files and the console

    What the program does to the outside (lines 815-816, 1018-1026 and
    1036-1050 of [attack-trees-analysis.py]): it opens files for writing,
    writes to them and closes them, and it prints.  The outside is a
    record [world]: which files can be opened for writing, the log of
    what the program did, in the order in which it happened, and the
    exception that ended the program, if one did.  [open] raises
    [OSError] for a file that cannot be opened; the program catches
    nothing, so no statement after it has an effect.  [files] is the file
    system that a log leaves, in which opening a file for writing
    discards what it held, and [handles] the files that are open.  The
    object that [json.dump] is given is kept as the value [py] (the JSON
    text is the library's rendering of it), and the line that prints
    [time_hours] keeps the float (its decimal form is Python's [repr]).

    Of these definitions [json_dump], [f_write], [print] and [print_time]
    are statements of the source.  The record [world], its events and
    exceptions and the block [with_open] are the model of the
    interpreter and the operating system that the development assumes:
    whether a file can be opened does not change during a run, and a
    write to an open file, the closing of a file and a [print] do not
    fail (no encoding error, no full disk). *)

From S2P Require Import Prelude Serialize.
From Stdlib Require Import Floats.
From stdpp Require Import gmap.

#[local] Open Scope py_scope.

(** ** Effects *)

(** What [print] is given. *)
Inductive out : Type :=
| Text (s : string)
| Hours (x : float).

(** What is written to a file: the object given to [json.dump], or text. *)
Inductive content : Type :=
| Json (v : py)
| Plain (s : string).

(** What the program does to the outside. *)
Inductive event : Type :=
| Opened (path : string)
| Wrote (path : string) (c : content)
| Closed (path : string)
| Printed (o : out).

(** The exceptions of a run: what [open] raises for a file that cannot
    be opened, and what the interpreter raises when the recursion exceeds
    its limit. *)
Inductive exn : Type :=
| OSError (path : string)
| RecursionError.

(** The outside: the files that can be opened for writing, what was done,
    in order, and the exception that ended the program. *)
Record world : Type := mk_world {
  writable : string → bool;
  log : list event;
  raised : option exn;
}.

#[export] Instance world_halts : Halts world := λ w, raised w ≠ None.

(** The world after more events: after an exception that nothing catches,
    no statement is reached. *)
Definition extend (w : world) (es : list event) : world :=
  if raised w is None then mk_world (writable w) (log w ++ es) None else w.

(** The world after an exception. *)
Definition fail (w : world) (x : exn) : world :=
  if raised w is None then mk_world (writable w) (log w) (Some x) else w.

Definition emit (e : event) : State world unit :=
  st_modify (λ w, extend w [e]).

Definition raise (x : exn) : State world unit := st_modify (λ w, fail w x).

(** [with open(path, "w") as f: body]: the file is opened, the body runs
    with the file, and the file is closed when the block is left; [open]
    raises when the file cannot be opened. *)
Definition with_open (path : string) (body : string → State world unit)
    : State world unit :=
  let! w := st_get in
  if writable w path then
    emit (Opened path);;
    body path;;
    emit (Closed path)
  else raise (OSError path).

(** [json.dump(v, f, indent=2)]. *)
Definition json_dump (v : py) (f : string) : State world unit :=
  emit (Wrote f (Json v)).

(** [f.write(s)]. *)
Definition f_write (s : string) (f : string) : State world unit :=
  emit (Wrote f (Plain s)).

Definition print (s : string) : State world unit := emit (Printed (Text s)).

(** [print(f"    Time: {x}h")]. *)
Definition print_time (x : float) : State world unit :=
  emit (Printed (Hours x)).

(** ** The specification *)

(** The files that were written, in order, ... *)
Definition writes (w : world) : list (string * content) :=
  omap (λ e, if e is Wrote path c then Some (path, c) else None) (log w).

(** ... the lines that were printed, ... *)
Definition stdout (w : world) : list out :=
  omap (λ e, if e is Printed o then Some o else None) (log w).

(** ... the file system: opening a file for writing discards what it
    held, and what is written is added at its end, ... *)
Definition files_step (fs : gmap string (list content)) (e : event)
    : gmap string (list content) :=
  match e with
  | Opened path => <[path:=[]]> fs
  | Wrote path c => alter (λ cs, cs ++ [c]) path fs
  | Closed _ | Printed _ => fs
  end.

Definition files (w : world) : gmap string (list content) :=
  foldl files_step ∅ (log w).

(** ... and the files that are open. *)
Definition handles_step (hs : gset string) (e : event) : gset string :=
  match e with
  | Opened path => {[path]} ∪ hs
  | Closed path => hs ∖ {[path]}
  | Wrote _ _ | Printed _ => hs
  end.

Definition handles (w : world) : gset string :=
  foldl handles_step ∅ (log w).

(** The discipline of files: a file that is opened is not open, a file
    that is written or closed is open.  [hs] are the files open before
    the events. *)
Fixpoint well_bracketed (hs : gset string) (es : list event) : bool :=
  match es with
  | [] => true
  | e :: es' =>
      match e with
      | Opened path => bool_decide (path ∉ hs)
      | Wrote path _ | Closed path => bool_decide (path ∈ hs)
      | Printed _ => true
      end
      && well_bracketed (handles_step hs e) es'
  end.

(** The world after more was printed. *)
Definition printed (w : world) (lines : list out) : world :=
  extend w (Printed <$> lines).

(** In a log every event that is a [P] is followed, later, by a [Q]. *)
Definition responds (P Q : event → Prop) (es : list event) : Prop :=
  ∀ i e, es !! i = Some e → P e →
    ∃ j e', i < j ∧ es !! j = Some e' ∧ Q e'.

(** ... each within a block of its own. *)
Definition with_block (file : string * content) : list event :=
  [Opened file.1; Wrote file.1 file.2; Closed file.1].

(** The world after the blocks: the files that can be opened are
    written, up to the first that cannot, for which [open] raises. *)
Fixpoint written (files : list (string * content)) (w : world) : world :=
  match files with
  | [] => w
  | file :: files' =>
      if writable w file.1 then written files' (extend w (with_block file))
      else fail w (OSError file.1)
  end.

(** ** The state after a statement *)

Section state.
Implicit Types w : world.
Implicit Types es : list event.

Lemma extend_nil w : extend w [] = w.
Proof. destruct w as [? ? []]; by rw /extend /= ?app_nil_r. Qed.

Lemma extend_extend w es1 es2 :
  extend (extend w es1) es2 = extend w (es1 ++ es2).
Proof. destruct w as [? ? []]; by rw /extend /= ?app_assoc. Qed.

(** Nothing happens after an exception. *)
Lemma extend_raised w es : raised w ≠ None → extend w es = w.
Proof. rw /extend. by destruct (raised w). Qed.

Lemma fail_raised w x : raised w ≠ None → fail w x = w.
Proof. rw /fail. by destruct (raised w). Qed.

Lemma raised_fail w x : raised (fail w x) ≠ None.
Proof. rw /fail. by destruct (raised w) eqn:Hw; rw /= ?Hw. Qed.

Lemma writable_extend w es : writable (extend w es) = writable w.
Proof. rw /extend. by destruct (raised w). Qed.

Lemma extend_None w es :
  raised w = None → extend w es = mk_world (writable w) (log w ++ es) None.
Proof. rw /extend. by intros ->. Qed.

Lemma fail_None w x :
  raised w = None → fail w x = mk_world (writable w) (log w) (Some x).
Proof. rw /fail. by intros ->. Qed.

Lemma log_extend w es :
  raised w = None → log (extend w es) = log w ++ es.
Proof. rw /extend. by intros ->. Qed.

Lemma written_raised files w : raised w ≠ None → written files w = w.
Proof.
  intros Hw. induction files as [|file files IH]; [done|].
  rw /= extend_raised // IH fail_raised //. by case_match.
Qed.

Lemma written_cons file files w :
  written (file :: files) w = written files (written [file] w).
Proof.
  rw /=. case_match; [done|]. rw written_raised //. apply raised_fail.
Qed.

(** When every file can be opened, every block is written, ... *)
Lemma written_writable files w :
  Forall (λ file, writable w file.1 = true) files →
  written files w = extend w (files ≫= with_block).
Proof.
  revert w. induction files as [|file files IH]=> w Hfiles.
  { by rw /= extend_nil. }
  apply Forall_cons in Hfiles as [Hfile Hfiles].
  rw /= Hfile IH; [|by rw extend_extend].
  eapply Forall_impl; [done|]. intros f Hf. by rw writable_extend.
Qed.

(** ... and otherwise the blocks before the first file that cannot. *)
Lemma written_unwritable files1 file files2 w :
  Forall (λ file, writable w file.1 = true) files1 →
  writable w file.1 = false →
  written (files1 ++ file :: files2) w
  = fail (extend w (files1 ≫= with_block)) (OSError file.1).
Proof.
  revert w. induction files1 as [|file1 files1 IH]=> w Hfiles Hfile.
  { by rw /= Hfile extend_nil. }
  apply Forall_cons in Hfiles as [Hfile1 Hfiles].
  rw /= Hfile1 IH; [|by rw writable_extend|by rw extend_extend].
  eapply Forall_impl; [done|]. intros f Hf. by rw writable_extend.
Qed.

(** The log of a run: some of the blocks, then what was printed. *)
Lemma written_log files w :
  ∃ k, log (written files w) = log w ++ (take k files ≫= with_block).
Proof.
  revert w. induction files as [|file files IH]=> w.
  { exists 0. by rw /= app_nil_r. }
  destruct (raised w) as [x|] eqn:Hw.
  { exists 0. by rw written_raised ?Hw //= app_nil_r. }
  rw /=. case_match.
  - destruct (IH (extend w (with_block file))) as [k ->].
    exists (S k). by rw log_extend // -app_assoc.
  - exists 0. by rw fail_None //= app_nil_r.
Qed.

Lemma printed_nil w : printed w [] = w.
Proof. apply extend_nil. Qed.

Lemma printed_printed w l1 l2 :
  printed (printed w l1) l2 = printed w (l1 ++ l2).
Proof. by rw /printed extend_extend fmap_app. Qed.

Lemma print_spec s w : print s w = (tt, printed w [Text s]).
Proof. done. Qed.

Lemma print_time_spec x w : print_time x w = (tt, printed w [Hours x]).
Proof. done. Qed.

(** A block whose body writes [c] to the file. *)
Lemma with_open_spec path c body w :
  (∀ w', body path w' = (tt, extend w' [Wrote path c])) →
  with_open path body w = (tt, written [(path, c)] w).
Proof.
  intros Hbody. rw /with_open /st_bind /st_get /=. case_match; [|done].
  by rw /emit /st_modify /= Hbody !extend_extend.
Qed.

(** No statement has an effect after an exception. *)
#[export] Instance idle_emit e : Idle (emit e).
Proof. intros w Hw. by apply extend_raised. Qed.

#[export] Instance idle_raise x : Idle (raise x).
Proof. intros w Hw. by apply fail_raised. Qed.

#[export] Instance idle_with_open path body :
  (∀ f, Idle (body f)) → Idle (with_open path body).
Proof.
  intros Hbody. rw /with_open. apply idle_bind; [apply _|]. intros w.
  case_match; apply _.
Qed.

#[export] Instance idle_json_dump v f : Idle (json_dump v f).
Proof. apply idle_emit. Qed.

#[export] Instance idle_f_write s f : Idle (f_write s f).
Proof. apply idle_emit. Qed.

#[export] Instance idle_print s : Idle (print s).
Proof. apply idle_emit. Qed.

#[export] Instance idle_print_time x : Idle (print_time x).
Proof. apply idle_emit. Qed.

End state.

(** ** The log and its views *)

Section log.
Implicit Types w : world.
Implicit Types es : list event.
Implicit Types P Q : event → Prop.

Lemma files_extend w es :
  raised w = None → files (extend w es) = foldl files_step (files w) es.
Proof. intros Hw. by rw /files log_extend // foldl_app. Qed.

Lemma handles_extend w es :
  raised w = None → handles (extend w es) = foldl handles_step (handles w) es.
Proof. intros Hw. by rw /handles log_extend // foldl_app. Qed.

Lemma foldl_files_printed fs (lines : list out) :
  foldl files_step fs (Printed <$> lines) = fs.
Proof. by induction lines. Qed.

Lemma foldl_handles_printed hs (lines : list out) :
  foldl handles_step hs (Printed <$> lines) = hs.
Proof. by induction lines. Qed.

Lemma omap_printed (lines : list out) :
  omap (λ e, if e is Printed o then Some o else None) (Printed <$> lines)
  = lines.
Proof. induction lines as [|o lines IH]; [done|]. simpl. f_equal. exact IH. Qed.

Lemma omap_wrote_printed (lines : list out) :
  omap (λ e, if e is Wrote path c then Some (path, c) else None)
    (Printed <$> lines)
  = [].
Proof. by induction lines. Qed.

Lemma well_bracketed_app hs es1 es2 :
  well_bracketed hs (es1 ++ es2)
  = well_bracketed hs es1 && well_bracketed (foldl handles_step hs es1) es2.
Proof.
  revert hs. induction es1 as [|e es1 IH]=> hs; [done|].
  by rw /= IH andb_assoc.
Qed.

Lemma well_bracketed_printed hs (lines : list out) : well_bracketed hs (Printed <$> lines).
Proof. by induction lines. Qed.

(** A block: the file is opened, written and closed. *)
Lemma files_block fs file :
  foldl files_step fs (with_block file) = <[file.1:=[file.2]]> fs.
Proof. by rw /= alter_insert_eq. Qed.

Lemma handles_block hs file :
  foldl handles_step hs (with_block file) = hs ∖ {[file.1]}.
Proof. rw /=. set_solver. Qed.

Lemma well_bracketed_block hs file :
  file.1 ∉ hs → well_bracketed hs (with_block file).
Proof. intros Hpath. rw /= !bool_decide_true //. set_solver. Qed.

(** Two logs in which every [P] is answered make one. *)
Lemma responds_app P Q es1 es2 :
  responds P Q es1 → responds P Q es2 → responds P Q (es1 ++ es2).
Proof.
  intros H1 H2 i e [Hi|[Hlen Hi]]%lookup_app_Some HP.
  - destruct (H1 i e Hi HP) as (j & e' & Hij & Hj & HQ).
    exists j, e'. split_and!; [done| |done]. by apply lookup_app_l_Some.
  - destruct (H2 _ e Hi HP) as (j & e' & Hij & Hj & HQ).
    exists (length es1 + j), e'. split_and!; [lia| |done].
    rw lookup_app_r; [lia|]. by replace (length es1 + j - length es1) with j by lia.
Qed.

(** Events that are answered among those that follow them all. *)
Lemma responds_prefix P Q es1 es2 :
  (∀ e, e ∈ es1 → P e → ∃ e', e' ∈ es2 ∧ Q e') →
  Forall (λ e, ¬ P e) es2 →
  responds P Q (es1 ++ es2).
Proof.
  intros H1 H2 i e [Hi|[Hlen Hi]]%lookup_app_Some HP.
  - destruct (H1 e) as (e' & [j Hj]%list_elem_of_lookup_1 & HQ);
      [by eapply list_elem_of_lookup_2|done|].
    exists (length es1 + j), e'. apply lookup_lt_Some in Hi.
    split_and!; [lia| |done]. rw lookup_app_r; [lia|].
    by replace (length es1 + j - length es1) with j by lia.
  - rw Forall_lookup in H2. by destruct (H2 _ e Hi).
Qed.

End log.
