(* ===== verification/Report.v ===== *)
(** * The report

    [generate_all_reports] and the main block (lines 799-1050 of
    [attack-trees-analysis.py]) on the values of the data model, as
    computations on the outside of [Outside.v].  The text of the markdown
    report is the f-string of the source, line by line; its one
    interpolation is the list of diagram sections.

    The theorems give the log of a run in full, when both report files
    can be opened and when one cannot; the files that a run leaves; that
    a run keeps the discipline of files and confirms what it has written;
    and that the report agrees with the analysis that the program
    computes, where it does. *)

From S2P Require Import Prelude Model PathSearch Leaves Serialize Trees Mermaid.
From S2P Require Import Outside.
From Stdlib Require Import Floats.
From stdpp Require Import gmap.

#[local] Open Scope py_scope.

(** ** The text of the markdown report *)

(** Lines 826-843. *)
Definition md_summary : list string := [
  "# Skymap Application Security Attack Trees";
  "";
  "**Generated:** 2025-12-26";
  "**Based on:** Security Vulnerability Report (llmdoc/agent/security-vulnerability-report.md)";
  "";
  "## Executive Summary";
  "";
  "This document presents attack tree analysis for the Skymap React + Tauri starmap application.";
  "Attack trees systematically map attacker goals to the paths they can take to achieve them.";
  "";
  "**Critical Findings:**";
  "- **4 major attack scenarios** identified";
  "- **19 unique attack paths** documented";
  "- **Most paths are TRIVIAL to LOW difficulty** due to missing security controls";
  "- **Highest risk:** Complete system compromise via unrestricted Tauri command access";
  "";
  "## Attack Scenarios";
  ""
].

(** Lines 845-869. *)
Definition md_analysis_1 : list string := [
  "";
  "## Detailed Analysis";
  "";
  "### 1. Complete System Compromise (CRITICAL)";
  "";
  "**Easiest Path:** Exploit No Authentication → Invoke Sensitive Commands";
  "- **Difficulty:** TRIVIAL";
  "- **Cost:** FREE";
  "- **Detection Risk:** NONE to LOW";
  "- **Time:** ~1.5 hours";
  "";
  "**Impact:** Full filesystem access, remote code execution, complete system control";
  "";
  "**Root Causes:**";
  "- All 120+ Tauri commands exposed without permission checks";
  "- Path traversal vulnerabilities in file operations";
  "- No authentication or authorization layer";
  "";
  "**Recommended Mitigations:**";
  "1. Implement authentication/authorization layer";
  "2. Add permission checks to all Tauri commands";
  "3. Validate and sanitize all file paths";
  "4. Restrict command surface area";
  "5. Implement sandboxing for sensitive operations";
  ""
].

(** Lines 870-892. *)
Definition md_analysis_2 : list string := [
  "### 2. Data Exfiltration (CRITICAL)";
  "";
  "**Easiest Path:** Read Files Directly";
  "- **Difficulty:** TRIVIAL";
  "- **Cost:** FREE";
  "- **Detection Risk:** LOW";
  "- **Time:** ~1 hour";
  "";
  "**Impact:** User PII exposure, location history, equipment data, observation logs";
  "";
  "**Root Causes:**";
  "- Plaintext data storage (JSON files, localStorage)";
  "- No encryption at rest";
  "- Path traversal allows arbitrary file read";
  "- XSS vulnerabilities enable localStorage theft";
  "";
  "**Recommended Mitigations:**";
  "1. Encrypt sensitive data at rest";
  "2. Use system credential storage for secrets";
  "3. Implement Content Security Policy";
  "4. Validate all file paths";
  "5. Add URL allowlist for SSRF prevention";
  ""
].

(** Lines 893-915. *)
Definition md_analysis_3 : list string := [
  "### 3. Denial of Service (HIGH)";
  "";
  "**Easiest Path:** Oversized JSON Deserialization";
  "- **Difficulty:** TRIVIAL";
  "- **Cost:** FREE";
  "- **Detection Risk:** HIGH";
  "- **Time:** ~30 minutes";
  "";
  "**Impact:** Application crash, system unresponsiveness, disk exhaustion";
  "";
  "**Root Causes:**";
  "- No size limits on input data";
  "- Unlimited cache growth";
  "- No rate limiting on commands";
  "- Unbounded CSV parsing";
  "";
  "**Recommended Mitigations:**";
  "1. Implement size limits on all inputs";
  "2. Add cache size quotas with LRU eviction";
  "3. Rate limit all Tauri commands";
  "4. Use streaming parsers for large data";
  "5. Add resource monitoring";
  ""
].

(** Lines 916-938. *)
Definition md_analysis_4 : list string := [
  "### 4. Internal Network Reconnaissance (HIGH)";
  "";
  "**Easiest Path:** SSRF via URL Injection";
  "- **Difficulty:** LOW";
  "- **Cost:** FREE";
  "- **Detection Risk:** MEDIUM";
  "- **Time:** ~4-8 hours";
  "";
  "**Impact:** Internal network mapping, cloud metadata theft, lateral movement";
  "";
  "**Root Causes:**";
  "- Arbitrary URL fetching without validation";
  "- No IP address restrictions";
  "- Missing network egress filtering";
  "- No protocol restrictions";
  "";
  "**Recommended Mitigations:**";
  "1. Implement URL allowlist validation";
  "2. Block private IP ranges (RFC 1918)";
  "3. Restrict to HTTPS only";
  "4. Add network egress filtering";
  "5. Block cloud metadata endpoints";
  ""
].

(** Lines 939-996. *)
Definition md_plan : list string := [
  "## Prioritized Remediation Plan";
  "";
  "### Phase 1: Critical (Immediate Action Required)";
  "";
  "1. **Add Authentication/Authorization** (src-tauri/src/lib.rs)";
  "   - Implement permission checks on all Tauri commands";
  "   - Add role-based access control";
  "   - Audit command surface area";
  "";
  "2. **Fix Path Traversal** (app_settings.rs, storage.rs)";
  "   - Validate and sanitize all file paths";
  "   - Implement directory allowlist";
  "   - Use secure file dialogs only";
  "";
  "3. **Enable Content Security Policy** (tauri.conf.json)";
  "   - Remove `" +:+ dq +:+ "csp" +:+ dq +:+ ": null`";
  "   - Implement strict CSP policy";
  "   - Add XSS protections";
  "";
  "4. **Encrypt Data at Rest** (storage.rs, web-storage.ts)";
  "   - Use system credential manager";
  "   - Encrypt JSON files";
  "   - Minimize localStorage usage";
  "";
  "### Phase 2: High (Within 1 Week)";
  "";
  "5. **URL Validation** (unified_cache.rs)";
  "   - Implement URL allowlist";
  "   - Block internal/private IPs";
  "   - Restrict to HTTPS only";
  "";
  "6. **Input Size Limits** (all Tauri commands)";
  "   - Add maximum size limits";
  "   - Implement streaming parsers";
  "   - Add resource quotas";
  "";
  "7. **Rate Limiting** (lib.rs command handlers)";
  "   - Implement rate limiting on all commands";
  "   - Add throttling mechanisms";
  "   - Circuit breakers for abuse";
  "";
  "### Phase 3: Medium (Within 1 Month)";
  "";
  "8. **Logging and Monitoring**";
  "   - Add comprehensive audit logs";
  "   - Security event monitoring";
  "   - Alerting on suspicious activities";
  "";
  "9. **XSS Prevention** (map-location-picker.tsx)";
  "   - Remove innerHTML usage";
  "   - Use React JSX";
  "   - Sanitize all HTML inputs";
  "";
  "10. **Dependency Management**";
  "    - Implement dependency scanning";
  "    - Create SBOM";
  "    - Regular security updates";
  ""
].

(** Lines 997-1009. *)
Definition md_conclusion : list string := [
  "## Conclusion";
  "";
  "The Skymap application has **critical security vulnerabilities** that make system compromise,";
  "data exfiltration, and denial of service attacks trivial to execute. The primary issues are:";
  "";
  "1. **No security boundary** between frontend and backend";
  "2. **Missing input validation** across all attack surfaces";
  "3. **Plaintext data storage** without encryption";
  "4. **No authentication or authorization** on sensitive operations";
  "";
  "**Immediate action is required** on Phase 1 items to reduce the attack surface from " +:+ dq +:+ "trivial";
  "exploitation" +:+ dq +:+ " to " +:+ dq +:+ "secured application." +:+ dq;
  ""
].

(** Lines 1010-1016. *)
Definition md_references : list string := [
  "## References";
  "";
  "- Security Vulnerability Report: `llmdoc/agent/security-vulnerability-report.md`";
  "- MITRE ATT&CK: https://attack.mitre.org/";
  "- OWASP Top 10: https://owasp.org/www-project-top-ten/";
  "- Tauri Security: https://tauri.app/v1/guides/security/";
  ""
].


(** ** [generate_all_reports] *)

Definition trees : list AttackTree.t := [
  build_complete_system_compromise_tree;
  build_data_exfiltration_tree;
  build_denial_of_service_tree;
  build_internal_network_recon_tree
].

Definition report : py :=
  PyDict [
    ("title", PyStr "Skymap Application Security Attack Trees");
    ("generated", PyStr "2025-12-26");
    ("trees", PyList (to_dict <$> trees))
  ].

(** The body of the loop that fills [mermaid_diagrams]. *)
Definition diagram_section (mermaid_diagrams : list string)
    (tree : AttackTree.t) : list string :=
  let exporter := MermaidExporter.__init__ tree in
  let diagram := (MermaidExporter.export exporter).1 in
  mermaid_diagrams
  ++ ["## " +:+ AttackTree.name tree +:+ nl +:+ nl
      +:+ "Severity: " +:+ AttackTree.severity tree +:+ nl +:+ nl
      +:+ "```mermaid" +:+ nl +:+ diagram +:+ nl +:+ "```"].

Definition mermaid_diagrams : list string := foldl diagram_section [] trees.

Definition md_report : string :=
  str_join nl
    (md_summary ++ [str_join nl mermaid_diagrams]
     ++ md_analysis_1 ++ md_analysis_2 ++ md_analysis_3 ++ md_analysis_4
     ++ md_plan ++ md_conclusion ++ md_references).

Definition generate_all_reports : State world (list AttackTree.t) :=
  with_open "d:/Project/skymap-test/docs/security/attack-trees-report.json"
    (json_dump report);;
  with_open "d:/Project/skymap-test/docs/security/attack-trees-analysis.md"
    (f_write md_report);;
  print "✓ Generated attack-trees-report.json";;
  print "✓ Generated attack-trees-analysis.md";;
  print (nl +:+ "Summary:");;
  print ("  - " +:+ pretty (length trees) +:+ " attack scenarios analyzed");;
  print ("  - "
         +:+ pretty (sum_list ((λ t, length (get_all_leaf_attacks t)) <$> trees))
         +:+ " total attack paths identified");;
  print ("  - "
         +:+ pretty (sum_list ((λ t, length (get_unmitigated_attacks t)) <$> trees))
         +:+ " unmitigated attacks found");;
  st_ret trees.

(** ** The main block *)

(** The body of the loop over the nodes of a path. *)
Definition print_node (node : AttackNode.t) : State world unit :=
  if is_leaf node then
    print ("  → " +:+ AttackNode.name node);;
    print ("    Difficulty: "
           +:+ Difficulty.name
                 (AttackAttributes.difficulty (AttackNode.attributes node)));;
    print ("    Cost: "
           +:+ Cost.name (AttackAttributes.cost (AttackNode.attributes node)));;
    print ("    Detection: "
           +:+ DetectionRisk.name
                 (AttackAttributes.detection_risk (AttackNode.attributes node)));;
    print_time (AttackAttributes.time_hours (AttackNode.attributes node));;
    if AttackNode.file_refs node is [] then st_ret tt
    else print ("    Files: " +:+ str_join ", " (AttackNode.file_refs node))
  else st_ret tt.

(** The body of the loop over the trees. *)
Definition print_tree (tree : AttackTree.t) : State world unit :=
  print (nl +:+ AttackTree.name tree +:+ " (" +:+ AttackTree.severity tree
         +:+ "):");;
  let path := find_easiest_path tree in
  for_each print_node path.

Definition main : State world unit :=
  let! trees := generate_all_reports in
  print (nl +:+ str_repeat "=" 80);;
  print "EASIEST ATTACK PATHS (By Difficulty)";;
  print (str_repeat "=" 80);;
  for_each print_tree trees.

(** ** The specification *)

(** What is printed for a LEAF of the easiest path. *)
Definition leaf_block (node : AttackNode.t) : list out :=
  [Text ("  → " +:+ AttackNode.name node);
   Text ("    Difficulty: "
         +:+ Difficulty.name
               (AttackAttributes.difficulty (AttackNode.attributes node)));
   Text ("    Cost: "
         +:+ Cost.name (AttackAttributes.cost (AttackNode.attributes node)));
   Text ("    Detection: "
         +:+ DetectionRisk.name
               (AttackAttributes.detection_risk (AttackNode.attributes node)));
   Hours (AttackAttributes.time_hours (AttackNode.attributes node))]
  ++ (if AttackNode.file_refs node is [] then []
      else [Text ("    Files: " +:+ str_join ", " (AttackNode.file_refs node))]).

(** What is printed for a tree. *)
Definition tree_block (tree : AttackTree.t) : list out :=
  Text (nl +:+ AttackTree.name tree +:+ " (" +:+ AttackTree.severity tree
        +:+ "):")
  :: (leaves_of (find_easiest_path tree) ≫= leaf_block).

(** The file [name] of the reports was written, ... *)
Definition wrote_file (name : string) (e : event) : Prop :=
  ∃ c, e = Wrote ("d:/Project/skymap-test/docs/security/" +:+ name) c.

(** ... and the line that says so was printed. *)
Definition confirmed (name : string) (e : event) : Prop :=
  e = Printed (Text ("✓ Generated " +:+ name)).

(** What [generate_all_reports] prints. *)
Definition summary_lines : list out :=
  [Text "✓ Generated attack-trees-report.json";
   Text "✓ Generated attack-trees-analysis.md";
   Text (nl +:+ "Summary:");
   Text ("  - " +:+ pretty (length trees) +:+ " attack scenarios analyzed");
   Text ("  - "
         +:+ pretty (sum_list ((λ t, length (get_all_leaf_attacks t)) <$> trees))
         +:+ " total attack paths identified");
   Text ("  - "
         +:+ pretty (sum_list ((λ t, length (get_unmitigated_attacks t)) <$> trees))
         +:+ " unmitigated attacks found")].

(** What it writes, ... *)
Definition report_files : list (string * content) :=
  [("d:/Project/skymap-test/docs/security/attack-trees-report.json",
    Json report);
   ("d:/Project/skymap-test/docs/security/attack-trees-analysis.md",
    Plain md_report)].

Definition report_events : list event := report_files ≫= with_block.

(** What the program prints. *)
Definition main_lines : list out :=
  summary_lines
  ++ [Text (nl +:+ str_repeat "=" 80);
      Text "EASIEST ATTACK PATHS (By Difficulty)";
      Text (str_repeat "=" 80)]
  ++ (trees ≫= tree_block).

(** A diagram section, from the diagram. *)
Definition section_of (tree : AttackTree.t) (diagram : string) : string :=
  "## " +:+ AttackTree.name tree +:+ nl +:+ nl
  +:+ "Severity: " +:+ AttackTree.severity tree +:+ nl +:+ nl
  +:+ "```mermaid" +:+ nl +:+ diagram +:+ nl +:+ "```".

#[local] Abbreviation json_file :=
  ("d:/Project/skymap-test/docs/security/attack-trees-report.json", Json report).
#[local] Abbreviation md_file :=
  ("d:/Project/skymap-test/docs/security/attack-trees-analysis.md",
   Plain md_report).

(** ** The loops of the report *)

Section loops.
Implicit Types w : world.
Implicit Types node : AttackNode.t.
Implicit Types tree : AttackTree.t.

Lemma generate_all_reports_spec w :
  generate_all_reports w
  = (trees, printed (written report_files w) summary_lines).
Proof.
  rw /generate_all_reports.
  rw (st_bind_run _ _ _ _ _ (with_open_spec _ (Json report) _ _ _)) //.
  rw (st_bind_run _ _ _ _ _ (with_open_spec _ (Plain md_report) _ _ _)) //.
  rw !(st_bind_run _ _ _ _ _ (print_spec _ _)) !printed_printed.
  by rw /report_files (written_cons _ [_]).
Qed.

Lemma print_node_spec node w :
  print_node node w
  = (tt, printed w (if is_leaf node then leaf_block node else [])).
Proof.
  rw /print_node /leaf_block. destruct (is_leaf node); [|by rw printed_nil].
  rw !(st_bind_run _ _ _ _ _ (print_spec _ _)).
  rw (st_bind_run _ _ _ _ _ (print_time_spec _ _)) !printed_printed.
  destruct (AttackNode.file_refs node); [by rw app_nil_r|].
  by rw print_spec printed_printed.
Qed.

(** The loop over a path prints the blocks of its LEAF nodes. *)
Lemma print_path_spec (path : list AttackNode.t) w :
  for_each print_node path w = (tt, printed w (leaves_of path ≫= leaf_block)).
Proof.
  rw (for_each_log print_node printed
        (λ node, if is_leaf node then leaf_block node else []));
    [apply printed_nil|apply printed_printed|apply print_node_spec|].
  do 2 f_equal. induction path as [|node path IH]; [done|].
  rw bind_cons IH leaves_of_cons. by destruct (is_leaf node).
Qed.

Lemma print_tree_spec tree w : print_tree tree w = (tt, printed w (tree_block tree)).
Proof.
  by rw /print_tree (st_bind_run _ _ _ _ _ (print_spec _ _)) print_path_spec
       printed_printed.
Qed.

(** The loop that fills [mermaid_diagrams] gives every tree a section
    around the diagram of a new exporter. *)
Lemma mermaid_diagrams_spec :
  mermaid_diagrams
  = (λ tree, section_of tree
               (MermaidExporter.export (MermaidExporter.__init__ tree)).1)
      <$> trees.
Proof. apply (foldl_append_fmap _ trees []). Qed.

End loops.

(** ** The events of the report *)

Section log.

Lemma wrote_file_printed name (lines : list out) :
  Forall (λ e, ¬ wrote_file name e) (Printed <$> lines).
Proof. apply Forall_fmap, Forall_true=> o. by intros [c [=]]. Qed.

(** The name of a written file is the name after the directory. *)
Lemma wrote_file_name name name' c :
  wrote_file name (Wrote ("d:/Project/skymap-test/docs/security/" +:+ name') c) →
  name = name'.
Proof. intros [c' Heq]. by simplify_eq/=. Qed.

End log.

(** ** The runs of the program *)

Section runs.
Implicit Types w : world.

(** The events of a run of the program, after those of the log it
    started with. *)
Lemma main_log w :
  main w = (tt, printed (written report_files w) main_lines).
Proof.
  rw /main (st_bind_run _ _ _ _ _ (generate_all_reports_spec w)).
  rw !(st_bind_run _ _ _ _ _ (print_spec _ _)).
  rw (for_each_log print_tree printed tree_block);
    [apply printed_nil|apply printed_printed|apply print_tree_spec|].
  by rw !printed_printed.
Qed.

Lemma main_log_shape w :
  ∃ k lines,
    log (st_exec main w)
    = log w ++ (take k report_files ≫= with_block) ++ (Printed <$> lines).
Proof.
  destruct (written_log report_files w) as [k Hk]. exists k.
  rw /st_exec main_log. cbn [snd]. move: Hk.
  generalize (written report_files w)=> w' Hk. rw /printed /extend.
  destruct (raised w').
  - exists []. by rw Hk /= app_nil_r.
  - exists main_lines. by rw /= Hk -app_assoc.
Qed.

(** No statement of the program has an effect after an exception. *)
#[export] Instance idle_print_node node : Idle (print_node node).
Proof.
  rw /print_node. destruct (is_leaf node); [|apply _].
  destruct (AttackNode.file_refs node); apply _.
Qed.

#[export] Instance idle_print_tree tree : Idle (print_tree tree).
Proof. rw /print_tree. apply _. Qed.

#[export] Instance idle_generate_all_reports : Idle generate_all_reports.
Proof. rw /generate_all_reports. apply _. Qed.

#[export] Instance idle_main : Idle main.
Proof. rw /main. apply _. Qed.

Lemma main_raised w : raised w ≠ None → st_exec main w = w.
Proof. exact (idle (m:=main) w). Qed.

(** A run in which a file cannot be opened ends there. *)
Lemma main_unwritable_at files1 file files2 w :
  report_files = files1 ++ file :: files2 →
  raised w = None →
  Forall (λ file, writable w file.1 = true) files1 →
  writable w file.1 = false →
  st_exec main w
  = mk_world (writable w) (log w ++ (files1 ≫= with_block)) (Some (OSError file.1)).
Proof.
  intros Heq Hw Hfiles1 Hfile. rw /st_exec main_log Heq written_unwritable //.
  rw /printed extend_raised; [apply raised_fail|].
  by rw extend_None // fail_None.
Qed.

(** A run in which both files can be opened. *)
Lemma main_writable w :
  raised w = None →
  Forall (λ file, writable w file.1 = true) report_files →
  st_exec main w
  = mk_world (writable w)
      (log w ++ report_events ++ (Printed <$> main_lines)) None.
Proof.
  intros Hw Hfiles.
  by rw /st_exec main_log written_writable // /printed extend_extend extend_None.
Qed.

End runs.

(** ** Properties of the report *)

Section properties.
Implicit Types w : world.

(** C15. What the program does, in order, when no exception has been
    raised and both files can be opened: it opens the JSON file, writes
    the report object and closes the file, does the same with the
    markdown file and the report text, and only then prints: the two
    confirmations and the summary with the numbers of trees, of leaf
    attacks and of unmitigated attacks, then the banner, and for every
    tree its heading and one block per LEAF of its easiest path,
    junctions skipped, with the line of file references only for a LEAF
    that has some.  It raises nothing. *)
Theorem main_effects w :
  raised w = None →
  writable w "d:/Project/skymap-test/docs/security/attack-trees-report.json"
  = true →
  writable w "d:/Project/skymap-test/docs/security/attack-trees-analysis.md"
  = true →
  main w
  = (tt,
     mk_world (writable w)
       (log w
        ++ [Opened "d:/Project/skymap-test/docs/security/attack-trees-report.json";
            Wrote "d:/Project/skymap-test/docs/security/attack-trees-report.json"
              (Json report);
            Closed "d:/Project/skymap-test/docs/security/attack-trees-report.json";
            Opened "d:/Project/skymap-test/docs/security/attack-trees-analysis.md";
            Wrote "d:/Project/skymap-test/docs/security/attack-trees-analysis.md"
              (Plain md_report);
            Closed "d:/Project/skymap-test/docs/security/attack-trees-analysis.md"]
        ++ (Printed
              <$> [Text "✓ Generated attack-trees-report.json";
                   Text "✓ Generated attack-trees-analysis.md";
                   Text (nl +:+ "Summary:");
                   Text "  - 4 attack scenarios analyzed";
                   Text "  - 19 total attack paths identified";
                   Text "  - 1 unmitigated attacks found";
                   Text (nl +:+ str_repeat "=" 80);
                   Text "EASIEST ATTACK PATHS (By Difficulty)";
                   Text (str_repeat "=" 80)]
                  ++ (trees ≫= tree_block)))
       None).
Proof.
  intros Hw Hjson Hmd.
  rw main_log written_writable; [by repeat constructor|].
  by rw /printed extend_extend extend_None.
Qed.

Lemma main_effects_witness :
  main (mk_world (λ _, true) [] None)
  = (tt,
     mk_world (λ _, true)
       ([Opened "d:/Project/skymap-test/docs/security/attack-trees-report.json";
         Wrote "d:/Project/skymap-test/docs/security/attack-trees-report.json"
           (Json report);
         Closed "d:/Project/skymap-test/docs/security/attack-trees-report.json";
         Opened "d:/Project/skymap-test/docs/security/attack-trees-analysis.md";
         Wrote "d:/Project/skymap-test/docs/security/attack-trees-analysis.md"
           (Plain md_report);
         Closed "d:/Project/skymap-test/docs/security/attack-trees-analysis.md"]
        ++ (Printed
              <$> [Text "✓ Generated attack-trees-report.json";
                   Text "✓ Generated attack-trees-analysis.md";
                   Text (nl +:+ "Summary:");
                   Text "  - 4 attack scenarios analyzed";
                   Text "  - 19 total attack paths identified";
                   Text "  - 1 unmitigated attacks found";
                   Text (nl +:+ str_repeat "=" 80);
                   Text "EASIEST ATTACK PATHS (By Difficulty)";
                   Text (str_repeat "=" 80)]
                  ++ (trees ≫= tree_block)))
       None).
Proof. apply (main_effects (mk_world (λ _, true) [] None)); reflexivity. Defined.

(** C16. The program catches nothing.  When the JSON file cannot be opened
    [open] raises and the program ends there: the trees were built and
    serialized, nothing is written and nothing is printed.  When the JSON
    file can be opened and the markdown file cannot, the program ends
    with the JSON report written and closed, no markdown report, and no
    line printed, the confirmation of the JSON report included.  A
    program that has ended does nothing. *)
Theorem main_unwritable w :
  (raised w = None →
   writable w "d:/Project/skymap-test/docs/security/attack-trees-report.json"
   = false →
   main w
   = (tt, mk_world (writable w) (log w)
            (Some (OSError
               "d:/Project/skymap-test/docs/security/attack-trees-report.json"))))
  ∧ (raised w = None →
     writable w "d:/Project/skymap-test/docs/security/attack-trees-report.json"
     = true →
     writable w "d:/Project/skymap-test/docs/security/attack-trees-analysis.md"
     = false →
     main w
     = (tt, mk_world (writable w)
              (log w
               ++ [Opened "d:/Project/skymap-test/docs/security/attack-trees-report.json";
                   Wrote "d:/Project/skymap-test/docs/security/attack-trees-report.json"
                     (Json report);
                   Closed "d:/Project/skymap-test/docs/security/attack-trees-report.json"])
              (Some (OSError
                 "d:/Project/skymap-test/docs/security/attack-trees-analysis.md"))))
  ∧ (raised w ≠ None → main w = (tt, w)).
Proof.
  assert (∀ w', main w' = (tt, st_exec main w')) as Hmain.
  { intros w'. rw /st_exec. by destruct (main w') as [[] ?]. }
  rw !Hmain. split_and!.
  - intros Hw Hjson.
    by rw (main_unwritable_at [] json_file [md_file]) //= app_nil_r.
  - intros Hw Hjson Hmd. rw (main_unwritable_at [json_file] md_file []) //.
    by repeat constructor.
  - intros Hw. by rw main_raised.
Qed.

(** C24. The files that a run leaves.  When no exception has been raised
    and both files can be opened, after the program has run the JSON file
    holds the report object and the markdown file the report text, and
    nothing else; every other file is as it was, and the two files are
    closed.  Running the program again leaves the same files: the reports
    are replaced by equal ones, and only the console grows. *)
Theorem main_files w :
  raised w = None →
  writable w "d:/Project/skymap-test/docs/security/attack-trees-report.json"
  = true →
  writable w "d:/Project/skymap-test/docs/security/attack-trees-analysis.md"
  = true →
  files (st_exec main w)
  = <["d:/Project/skymap-test/docs/security/attack-trees-analysis.md" :=
        [Plain md_report]]>
      (<["d:/Project/skymap-test/docs/security/attack-trees-report.json" :=
           [Json report]]> (files w))
  ∧ handles (st_exec main w)
    = handles w
      ∖ {["d:/Project/skymap-test/docs/security/attack-trees-report.json"]}
      ∖ {["d:/Project/skymap-test/docs/security/attack-trees-analysis.md"]}
  ∧ writes (st_exec main w) = writes w ++ report_files
  ∧ files (st_exec main (st_exec main w)) = files (st_exec main w)
  ∧ stdout (st_exec main (st_exec main w))
    = stdout w ++ main_lines ++ main_lines.
Proof.
  intros Hw Hjson Hmd.
  assert (Forall (λ file, writable w file.1 = true) report_files) as Hfiles
    by by repeat constructor.
  rw (main_writable w) // main_writable //. rw /files /handles /writes /stdout.
  cbn [log]. rw !foldl_app !omap_app !foldl_files_printed !foldl_handles_printed.
  rw !omap_printed !omap_wrote_printed !files_block !handles_block /= ?app_nil_r.
  split_and!; [done..| |].
  - rw (insert_insert_ne _ _
         "d:/Project/skymap-test/docs/security/attack-trees-analysis.md") //.
    by rw !insert_insert_eq.
  - by rw -app_assoc.
Qed.

Lemma main_files_witness :
  let w := mk_world (λ _, true) [] None in
  files (st_exec main w)
  = <["d:/Project/skymap-test/docs/security/attack-trees-analysis.md" :=
        [Plain md_report]]>
      (<["d:/Project/skymap-test/docs/security/attack-trees-report.json" :=
           [Json report]]> (files w))
  ∧ handles (st_exec main w)
    = handles w
      ∖ {["d:/Project/skymap-test/docs/security/attack-trees-report.json"]}
      ∖ {["d:/Project/skymap-test/docs/security/attack-trees-analysis.md"]}
  ∧ writes (st_exec main w) = writes w ++ report_files
  ∧ files (st_exec main (st_exec main w)) = files (st_exec main w)
  ∧ stdout (st_exec main (st_exec main w))
    = stdout w ++ main_lines ++ main_lines.
Proof. apply (main_files (mk_world (λ _, true) [] None)); reflexivity. Defined.

(** C25. The discipline of files.  In a log in which every file was
    opened before it was written or closed and no open file was opened
    again, and in which the two report files are not open, a run of the
    program keeps the discipline, whether the files can be opened or
    not: it opens each report file, writes to it while it is open and
    closes it before it opens the next. *)
Theorem main_well_bracketed w :
  "d:/Project/skymap-test/docs/security/attack-trees-report.json" ∉ handles w →
  "d:/Project/skymap-test/docs/security/attack-trees-analysis.md" ∉ handles w →
  well_bracketed ∅ (log w) → well_bracketed ∅ (log (st_exec main w)).
Proof.
  intros Hjson Hmd Hw. destruct (main_log_shape w) as (k & lines & ->).
  rw !well_bracketed_app. apply andb_True. split; [done|].
  apply andb_True. split; [|apply well_bracketed_printed].
  destruct k as [|[|k]]; [done|by apply well_bracketed_block|].
  rw take_ge; [simpl; lia|].
  change (report_files ≫= with_block)
    with (with_block ("d:/Project/skymap-test/docs/security/attack-trees-report.json",
                 Json report)
          ++ with_block ("d:/Project/skymap-test/docs/security/attack-trees-analysis.md",
                    Plain md_report)).
  rw well_bracketed_app handles_block.
  apply andb_True. split; apply well_bracketed_block; [done|set_solver].
Qed.

Lemma main_well_bracketed_witness :
  well_bracketed ∅ (log (st_exec main (mk_world (λ _, true) [] None))).
Proof. by apply (main_well_bracketed (mk_world (λ _, true) [] None)). Defined.

Lemma main_lines_confirm :
  Text "✓ Generated attack-trees-report.json" ∈ main_lines
  ∧ Text "✓ Generated attack-trees-analysis.md" ∈ main_lines.
Proof. rw /main_lines /summary_lines. set_solver. Qed.

(** Every write of the program is followed by its confirmation. *)
Lemma report_events_confirmed name :
  responds (wrote_file name) (confirmed name)
    (report_events ++ (Printed <$> main_lines)).
Proof.
  apply responds_prefix; [|apply wrote_file_printed].
  destruct main_lines_confirm as [Hjson Hmd]. intros e He HP.
  change (e ∈ [Opened ("d:/Project/skymap-test/docs/security/"
                       +:+ "attack-trees-report.json");
               Wrote ("d:/Project/skymap-test/docs/security/"
                      +:+ "attack-trees-report.json") (Json report);
               Closed ("d:/Project/skymap-test/docs/security/"
                       +:+ "attack-trees-report.json");
               Opened ("d:/Project/skymap-test/docs/security/"
                       +:+ "attack-trees-analysis.md");
               Wrote ("d:/Project/skymap-test/docs/security/"
                      +:+ "attack-trees-analysis.md") (Plain md_report);
               Closed ("d:/Project/skymap-test/docs/security/"
                       +:+ "attack-trees-analysis.md")]) in He.
  rw !elem_of_cons elem_of_nil in He.
  destruct He as [->|[->|[->|[->|[->|[->|[]]]]]]]; try by destruct HP.
  - apply wrote_file_name in HP as ->.
    exists (Printed (Text "✓ Generated attack-trees-report.json")).
    split; [by apply list_elem_of_fmap_2|done].
  - apply wrote_file_name in HP as ->.
    exists (Printed (Text "✓ Generated attack-trees-analysis.md")).
    split; [by apply list_elem_of_fmap_2|done].
Qed.

(** C26. Every write is confirmed, when the markdown file can be opened.
    When every write to a report file in the log so far is followed by
    the line that says the file was generated, and the markdown file can
    be opened if the JSON file can, the same holds of the log after a run
    of the program: the program prints the confirmation of each of the
    two files after it has written it, and it writes to no other file.
    When only the JSON file can be opened, the JSON report is written and
    never confirmed. *)
Theorem writes_confirmed (name : string) w :
  ((writable w "d:/Project/skymap-test/docs/security/attack-trees-report.json"
    = true →
    writable w "d:/Project/skymap-test/docs/security/attack-trees-analysis.md"
    = true) →
   responds (wrote_file name) (confirmed name) (log w) →
   responds (wrote_file name) (confirmed name) (log (st_exec main w)))
  ∧ (raised w = None →
     writable w "d:/Project/skymap-test/docs/security/attack-trees-report.json"
     = true →
     writable w "d:/Project/skymap-test/docs/security/attack-trees-analysis.md"
     = false →
     ¬ responds (wrote_file "attack-trees-report.json")
         (confirmed "attack-trees-report.json") (log (st_exec main w))).
Proof.
  split.
  - intros Hmd Hresp. destruct (raised w) as [x|] eqn:Hw.
    { by rw main_raised ?Hw. }
    destruct (writable w _) eqn:Hjson.
    + rw main_writable //=; [by repeat constructor; auto|].
      apply responds_app; [done|apply report_events_confirmed].
    + by rw (main_unwritable_at [] json_file [md_file]) //= app_nil_r.
  - intros Hw Hjson Hmd Hresp.
    rw (main_unwritable_at [json_file] md_file []) //= in Hresp;
      [by repeat constructor|].
    destruct (Hresp (S (length (log w))) (Wrote json_file.1 json_file.2))
      as (j & e' & Hj & He' & ->).
    { rw lookup_app_r; [lia|]. by replace (S (length (log w)) - length (log w)) with 1 by lia. }
    { by eexists. }
    apply lookup_app_Some in He' as [He'%lookup_lt_Some|[_ He']]; [lia|].
    destruct (j - length (log w)) as [|[|[|i]]] eqn:Hi; simplify_eq/=; lia.
Qed.

Lemma writes_confirmed_witness :
  responds (wrote_file "attack-trees-report.json")
    (confirmed "attack-trees-report.json")
    (log (st_exec main (mk_world (λ _, true) [] None))).
Proof.
  apply (proj1 (writes_confirmed "attack-trees-report.json"
                  (mk_world (λ _, true) [] None))); [done|].
  intros i e Hi. by rw lookup_nil in Hi.
Defined.

(** C33. The text of the report and the analysis.  The numbers that the
    text states are the numbers the program computes and prints: four
    trees, nineteen leaf attacks.  Every tree gets a section around the
    diagram of an exporter of its own, so the identifiers start again at
    [N0] in every diagram; the four diagrams have 31, 31, 21 and 18 lines
    and declare 10, 10, 6 and 5 identifiers, one per node.  The text
    names as the easiest path of the first tree the two steps of direct
    backend access, which is the tree's cheapest path and has difficulty
    2; the easiest path that the program computes and prints is the path
    traversal through [open_path], of difficulty 1.  For the other three
    trees the text names a node of the computed path. *)
Theorem report_text_vs_analysis :
  length trees = 4%nat ∧
  sum_list ((λ t, length (get_all_leaf_attacks t)) <$> trees) = 19%nat ∧
  sum_list ((λ t, length (get_unmitigated_attacks t)) <$> trees) = 1%nat ∧
  "- **" +:+ pretty (length trees) +:+ " major attack scenarios** identified"
    ∈ md_summary ∧
  "- **"
    +:+ pretty (sum_list ((λ t, length (get_all_leaf_attacks t)) <$> trees))
    +:+ " unique attack paths** documented"
    ∈ md_summary ∧
  mermaid_diagrams
  = (λ tree, section_of tree
               (MermaidExporter.export (MermaidExporter.__init__ tree)).1)
      <$> trees ∧
  (λ tree, length (MermaidExporter._lines
                     (MermaidExporter.export (MermaidExporter.__init__ tree)).2))
    <$> trees = [31; 31; 21; 18]%nat ∧
  (λ tree, MermaidExporter._node_count
             (MermaidExporter.export (MermaidExporter.__init__ tree)).2)
    <$> trees = [10; 10; 6; 5]%nat ∧
  (λ tree, size (AttackTree.root tree)) <$> trees = [10; 10; 6; 5]%nat ∧
  "**Easiest Path:** "
    +:+ str_join " → "
          (AttackNode.name
             <$> leaves_of (find_cheapest_path build_complete_system_compromise_tree))
    ∈ md_analysis_1 ∧
  _path_score (find_cheapest_path build_complete_system_compromise_tree)
    "difficulty" = 2%Z ∧
  _path_score (find_easiest_path build_complete_system_compromise_tree)
    "difficulty" = 1%Z ∧
  AttackNode.name
    <$> leaves_of (find_easiest_path build_complete_system_compromise_tree)
  = ["Path Traversal via open_path"] ∧
  Forall2 (λ tree lines, ∃ node,
      node ∈ find_easiest_path tree ∧
      "**Easiest Path:** " +:+ AttackNode.name node ∈ lines)
    [build_data_exfiltration_tree; build_denial_of_service_tree;
     build_internal_network_recon_tree]
    [md_analysis_2; md_analysis_3; md_analysis_4].
Proof.
  split_and!;
    try first [apply mermaid_diagrams_spec|by vm_compute
              |vm_compute; by repeat constructor].
  apply List.Forall2_cons;
    [|apply List.Forall2_cons; [|apply List.Forall2_cons; [|apply List.Forall2_nil]]].
  - exists (AttackNode.add_child
              (AttackNode.add_child DataExfiltration.read_files
                 DataExfiltration.step1) DataExfiltration.step2).
    split; vm_compute; by repeat constructor.
  - exists DenialOfService.attack1. split; vm_compute; by repeat constructor.
  - exists (AttackNode.add_child
              (AttackNode.add_child
                 (AttackNode.add_child NetworkRecon.ssrf_method NetworkRecon.step1)
                 NetworkRecon.step2) NetworkRecon.step3).
    split; vm_compute; by repeat constructor.
Qed.

End properties.
