(* ===== verification/Outputs.v ===== *)
(** * The outputs of the program agree

    [generate_all_reports] and the main block of
    [attack-trees-analysis.py] put a tree out three times: as an entry of
    the JSON report ([to_dict], line 811), as a diagram section of the
    markdown report (lines 819-823) and as a block of the console listing
    (lines 1039-1050), and they count its leaf attacks for the summary
    (lines 1025-1026).  The dictionary leaves out [cve_refs] and the two
    [requires_] flags of a node.  This file shows that nothing else the
    program puts out reads them: two trees with the same dictionary have
    the same diagram section, the same console block, the same counts and
    the same best paths, node for node by id and score.  The JSON report
    therefore determines the other outputs.

    [same_dict] is the equivalence of trees that the JSON report induces;
    the outputs are [Proper] for it. *)

From stdpp Require Import gmap.
From S2P Require Import Prelude Model PathSearch Leaves Serialize Mermaid.
From S2P Require Import Outside Report.

#[local] Open Scope Z_scope.

(** ** The equivalence *)

(** Two trees that the JSON report does not tell apart. *)
Definition same_dict : relation AttackTree.t :=
  λ t1 t2, to_dict t1 = to_dict t2.

#[export] Instance same_dict_equivalence : Equivalence same_dict.
Proof.
  split; [done|by intros t1 t2|]. intros t1 t2 t3. rw /same_dict. congruence.
Qed.

(** ** What is kept is what the analyses read *)

Section kept.
Context (minimize : string).
Implicit Types n c : AttackNode.t.
Implicit Types p : list AttackNode.t.
Implicit Types t : AttackTree.t.

Lemma is_leaf_kept n : is_leaf (kept n) = is_leaf n.
Proof. by rw kept_unfold. Qed.

Lemma node_score_kept n : node_score minimize (kept n) = node_score minimize n.
Proof.
  rw /node_score /_path_score !leaves_of_cons is_leaf_kept kept_unfold.
  by destruct (is_leaf n).
Qed.

Lemma path_score_kept p :
  _path_score (kept <$> p) minimize = _path_score p minimize.
Proof.
  induction p as [|n p IH]; [done|].
  by rw fmap_cons !path_score_cons node_score_kept IH.
Qed.

Lemma first_min_kept (ps : list (list AttackNode.t)) :
  first_min (λ p, _path_score p minimize) ((fmap (M:=list) kept) <$> ps)
  = (fmap (M:=list) kept) <$> first_min (λ p, _path_score p minimize) ps.
Proof.
  induction ps as [|p ps IH]; [done|]. rw fmap_cons /= IH.
  destruct (first_min _ ps) as [q|]; [|done].
  rw /= !path_score_kept. by case_bool_decide.
Qed.

(** The search of what is kept is what is kept of the search. *)
Lemma find_path_kept n :
  _find_path (kept n) minimize = kept <$> _find_path n minimize.
Proof.
  node_induction n.
  assert ((λ c, _find_path c minimize) <$> (kept <$> AttackNode.children n)
          = (fmap (M:=list) kept) <$> ((λ c, _find_path c minimize) <$> AttackNode.children n))
    as Hcs.
  { rw -!list_fmap_compose. by apply Forall_fmap_ext. }
  destruct (AttackNode.node_type n) eqn:Hty.
  - rw (find_path_or _ (kept n)); [by rw kept_unfold|].
    rw find_path_or // kept_children Hcs first_min_kept fmap_cons.
    by destruct (first_min _ _).
  - rw (find_path_and _ (kept n)); [by rw kept_unfold|].
    rw find_path_and // kept_children fmap_cons. f_equal.
    rw -(list_fmap_bind _ id) Hcs (list_fmap_bind _ id) fmap_bind.
    by rw -(list_fmap_bind _ ((fmap (M:=list) kept))).
  - rw (find_path_leaf _ (kept n)); [rw is_leaf_kept; by apply is_leaf_true|].
    by rw find_path_leaf; [apply is_leaf_true|].
Qed.

Lemma leaves_of_kept p : leaves_of (kept <$> p) = kept <$> leaves_of p.
Proof.
  induction p as [|n p IH]; [done|].
  rw fmap_cons !leaves_of_cons is_leaf_kept IH. by destruct (is_leaf n).
Qed.

Lemma filter_unmitigated_kept p :
  filter unmitigated (kept <$> p) = kept <$> filter unmitigated p.
Proof.
  induction p as [|n p IH]; [done|].
  rw fmap_cons !filter_cons IH /unmitigated (kept_unfold n) /=.
  destruct (decide _); [by rw fmap_cons kept_unfold|done].
Qed.

Lemma get_all_leaf_attacks_kept t :
  get_all_leaf_attacks (kept_tree t) = kept <$> get_all_leaf_attacks t.
Proof. by rw !get_all_leaf_attacks_spec /= nodes_kept leaves_of_kept. Qed.

Lemma get_unmitigated_attacks_kept t :
  get_unmitigated_attacks (kept_tree t) = kept <$> get_unmitigated_attacks t.
Proof.
  by rw /get_unmitigated_attacks get_all_leaf_attacks_kept filter_unmitigated_kept.
Qed.

End kept.

(** ** The diagram and the console block *)

Section outputs.
Implicit Types n : AttackNode.t.
Implicit Types t : AttackTree.t.

Lemma node_lines_kept node_id n parent_id :
  node_lines node_id (kept n) parent_id = node_lines node_id n parent_id.
Proof.
  rw /node_lines is_leaf_kept /MermaidExporter._get_leaf_style /shape_of
    /connector_of.
  by rw (kept_unfold n).
Qed.

Lemma render_kept f n parent_id :
  render f (kept n) parent_id = render f n parent_id.
Proof.
  revert parent_id. node_induction n=> parent_id.
  rw (render_unfold f (kept n)) render_unfold node_lines_kept kept_id.
  rw kept_children list_fmap_bind. f_equal.
  apply Forall_bind_ext. eapply Forall_impl; [done|]. intros c Hc. apply Hc.
Qed.

Lemma export_kept t :
  (MermaidExporter.export (MermaidExporter.__init__ (kept_tree t))).1
  = (MermaidExporter.export (MermaidExporter.__init__ t)).1.
Proof.
  rw !export_spec /= /diagram /memo_after /memo_of /=.
  by rw ids_kept render_kept.
Qed.

Lemma diagram_section_kept ds t :
  diagram_section ds (kept_tree t) = diagram_section ds t.
Proof. by rw /diagram_section export_kept. Qed.

Lemma leaf_block_kept n : leaf_block (kept n) = leaf_block n.
Proof. by rw /leaf_block (kept_unfold n). Qed.

Lemma tree_block_kept t : tree_block (kept_tree t) = tree_block t.
Proof.
  rw /tree_block /find_easiest_path /= find_path_kept leaves_of_kept.
  rw list_fmap_bind. f_equal. apply Forall_bind_ext, Forall_true=> n.
  apply leaf_block_kept.
Qed.

(** Trees with the same dictionary keep the same. *)
Lemma same_dict_kept t1 t2 : same_dict t1 t2 ↔ kept_tree t1 = kept_tree t2.
Proof.
  rw /same_dict. split.
  - intros Hd. apply (inj Some). by rw -!tree_of_dict_to_dict Hd.
  - intros Hk. rw /to_dict -(node_to_dict_kept (AttackTree.root t1)).
    rw -(node_to_dict_kept (AttackTree.root t2)).
    by injection Hk as -> -> -> -> ->.
Qed.

(** An output that commutes with [kept] is the same, node for node in
    the dictionaries, for trees with the same dictionary. *)
Lemma by_dict (X : AttackTree.t → list AttackNode.t) :
  (∀ t, X (kept_tree t) = kept <$> X t) →
  ∀ t1 t2, same_dict t1 t2 → _node_to_dict <$> X t1 = _node_to_dict <$> X t2.
Proof.
  intros HX t1 t2 Ht%same_dict_kept.
  assert (∀ t, _node_to_dict <$> X t = _node_to_dict <$> X (kept_tree t)) as Hk.
  { intros t. rw HX -list_fmap_compose. apply list_fmap_ext=> i n _ /=.
    by rw node_to_dict_kept. }
  by rw (Hk t1) (Hk t2) Ht.
Qed.

#[export] Instance diagram_section_proper ds :
  Proper (same_dict ==> (=)) (diagram_section ds).
Proof.
  intros t1 t2 Ht%same_dict_kept.
  by rw -(diagram_section_kept ds t1) Ht diagram_section_kept.
Qed.

#[export] Instance tree_block_proper : Proper (same_dict ==> (=)) tree_block.
Proof.
  intros t1 t2 Ht%same_dict_kept. by rw -(tree_block_kept t1) Ht tree_block_kept.
Qed.

#[export] Instance print_tree_proper : Proper (same_dict ==> (≡)) print_tree.
Proof. intros t1 t2 Ht w. by rw !print_tree_spec Ht. Qed.

End outputs.

(** ** The theorem *)

(** C28. The JSON report determines the other outputs.  [to_dict] leaves
    out [cve_refs] and the two [requires_] flags; no analysis reads them:
    two trees with the same dictionary get the same diagram section in the
    markdown report and the same block in the console listing, they have
    as many leaf attacks and as many unmitigated ones, and their best
    paths under every metric agree node for node in the dictionaries of
    the nodes, hence in ids, and in score. *)
Theorem outputs_by_dict (t1 t2 : AttackTree.t) :
  same_dict t1 t2 →
  (∀ ds, diagram_section ds t1 = diagram_section ds t2) ∧
  (∀ w, print_tree t1 w = print_tree t2 w) ∧
  _node_to_dict <$> get_all_leaf_attacks t1
    = _node_to_dict <$> get_all_leaf_attacks t2 ∧
  _node_to_dict <$> get_unmitigated_attacks t1
    = _node_to_dict <$> get_unmitigated_attacks t2 ∧
  ∀ minimize,
    _node_to_dict <$> _find_path (AttackTree.root t1) minimize
      = _node_to_dict <$> _find_path (AttackTree.root t2) minimize ∧
    _path_score (_find_path (AttackTree.root t1) minimize) minimize
      = _path_score (_find_path (AttackTree.root t2) minimize) minimize.
Proof.
  intros Ht. split_and!.
  - intros ds. by rw Ht.
  - intros w. by rw (print_tree_proper _ _ Ht w).
  - apply (by_dict get_all_leaf_attacks get_all_leaf_attacks_kept _ _ Ht).
  - apply (by_dict get_unmitigated_attacks get_unmitigated_attacks_kept _ _ Ht).
  - intros minimize. split.
    + apply (by_dict (λ t, _find_path (AttackTree.root t) minimize)
               (λ t, find_path_kept minimize (AttackTree.root t)) _ _ Ht).
    + apply same_dict_kept in Ht.
      rw -(path_score_kept minimize (_find_path (AttackTree.root t1) _)).
      rw -find_path_kept -(path_score_kept minimize (_find_path (AttackTree.root t2) _)).
      rw -find_path_kept. by injection Ht as _ _ -> _ _.
Qed.

Lemma outputs_by_dict_witness :
  let t1 := Examples.tree Examples.A in
  let t2 :=
    Examples.tree
      (AttackNode.mk (AttackNode.id Examples.A) (AttackNode.name Examples.A)
         (AttackNode.description Examples.A) (AttackNode.node_type Examples.A)
         (AttackNode.attributes Examples.A) (AttackNode.children Examples.A)
         (AttackNode.mitigations Examples.A) ["CVE-2025-0001"]
         (AttackNode.file_refs Examples.A)) in
  t1 ≠ t2 ∧
  (∀ ds, diagram_section ds t1 = diagram_section ds t2) ∧
  (∀ w, print_tree t1 w = print_tree t2 w) ∧
  _node_to_dict <$> get_all_leaf_attacks t1
    = _node_to_dict <$> get_all_leaf_attacks t2 ∧
  _node_to_dict <$> get_unmitigated_attacks t1
    = _node_to_dict <$> get_unmitigated_attacks t2 ∧
  ∀ minimize,
    _node_to_dict <$> _find_path (AttackTree.root t1) minimize
      = _node_to_dict <$> _find_path (AttackTree.root t2) minimize ∧
    _path_score (_find_path (AttackTree.root t1) minimize) minimize
      = _path_score (_find_path (AttackTree.root t2) minimize) minimize.
Proof.
  cbv zeta. split; [discriminate|].
  apply outputs_by_dict. reflexivity.
Defined.
