(* ===== verification/Fuel.v ===== *)
(** * Bounded recursion

    The walks of the program over objects take a bound on the depth of
    their recursion and have no result when they exceed it.  This file
    holds what such functions share: the order [⊑] on results (no result
    is below every result), the property [fuel_mono] of a bounded function
    that a larger bound only makes the result more defined, and the
    lemmas that the loops and the binds of the monads preserve the
    order.  A function that is monotone has at most one result, whatever
    the bound: the bound decides whether the function returns, never
    what it returns.  A bounded function [descends] along a relation
    when it calls itself on every successor with the bound less one: it
    then needs a bound above the length of every chain, and has no
    result on a cycle. *)

From S2P Require Import Prelude.

(** ** The order on results *)

(** [x] is less defined than [y]: [x] is no result, or [x] is [y]. *)
Inductive lessdef {A : Type} : option A → option A → Prop :=
| lessdef_None y : lessdef None y
| lessdef_Some a : lessdef (Some a) (Some a).

#[export] Instance option_sqsubseteq {A} : SqSubsetEq (option A) := lessdef.

(** A larger bound gives a more defined result. *)
Definition fuel_mono {A} (f : nat → option A) : Prop :=
  ∀ i j, i ≤ j → f i ⊑ f j.

(** No bound is enough. *)
Definition diverges {A} (f : nat → option A) : Prop := ∀ fuel, f fuel = None.

(** ** The order *)

(** [f] descends along [R]: it returns with no bound at 0, and a call on
    [l] that returns with the bound [S fuel] has made a call on every [c]
    that [R] relates to [l], which returned with the bound [fuel]. *)
Definition descends {L A} (f : nat → L → option A) (R : relation L) : Prop :=
  (∀ l, f 0 l = None)
  ∧ ∀ fuel l c, R l c → is_Some (f (S fuel) l) → is_Some (f fuel c).

#[export] Hint Constructors lessdef : attack.

#[export] Instance lessdef_preorder {A} : PreOrder (⊑@{option A}).
Proof.
  split; [by intros [a|]; constructor|].
  intros x y z [y'|a]; [constructor|done].
Qed.

Section lessdef.
Context {A B : Type}.
Implicit Types x y : option A.

Lemma lessdef_Some_l a y : Some a ⊑ y ↔ y = Some a.
Proof. split; [by inversion 1|by intros ->]. Qed.

Lemma lessdef_None_r x : x ⊑ None ↔ x = None.
Proof. split; [by inversion 1|by intros ->]. Qed.

Lemma lessdef_is_Some x y : x ⊑ y → is_Some x → x = y.
Proof. by intros [y'|a] [? ?]. Qed.

Lemma lessdef_bind x x' (f f' : A → option B) :
  x ⊑ x' → (∀ a, f a ⊑ f' a) → x ≫= f ⊑ x' ≫= f'.
Proof. intros [y|a] Hf; [constructor|apply Hf]. Qed.

Lemma lessdef_fmap (f : A → B) x x' : x ⊑ x' → f <$> x ⊑ f <$> x'.
Proof. intros [y|a]; constructor. Qed.

End lessdef.

(** The loops: [mapM] is the list comprehension, [foldM] the [for] loop
    with an accumulator. *)
Lemma lessdef_mapM {A B} (f g : B → option A) (l : list B) :
  Forall (λ b, f b ⊑ g b) l → mapM f l ⊑ mapM g l.
Proof.
  induction 1 as [|b l Hb _ IH]; [reflexivity|].
  apply lessdef_bind; [exact Hb|]. intros a.
  apply lessdef_bind; [exact IH|]. intros k. reflexivity.
Qed.

Lemma lessdef_foldM {A B} (f g : A → B → option A) (l : list B) a :
  Forall (λ b, ∀ a, f a b ⊑ g a b) l → foldM f a l ⊑ foldM g a l.
Proof.
  intros Hl. revert a. induction Hl as [|b l Hb _ IH]=> a; [reflexivity|].
  apply lessdef_bind; [apply Hb|apply IH].
Qed.

(** ** Computations with state *)

Section lessdef_state.
Context {S : Type}.

Lemma lessdef_so_bind {A B} (m m' : StateO S A) (f f' : A → StateO S B) s :
  m s ⊑ m' s → (∀ a s', f a s' ⊑ f' a s') → so_bind m f s ⊑ so_bind m' f' s.
Proof. intros Hm Hf. apply lessdef_bind; [done|]. intros r. apply Hf. Qed.

Lemma lessdef_so_for_each {A B} (f g : A → StateO S B) (l : list A) s :
  Forall (λ x, ∀ s, f x s ⊑ g x s) l → so_for_each f l s ⊑ so_for_each g l s.
Proof.
  intros Hl. revert s. induction Hl as [|x l Hx _ IH]=> s; [reflexivity|].
  apply lessdef_so_bind; [apply Hx|]. intros _. apply IH.
Qed.

Lemma so_bind_is_Some {A B} (m : StateO S A) (f : A → StateO S B) s :
  is_Some (so_bind m f s) ↔ ∃ a s', m s = Some (a, s') ∧ is_Some (f a s').
Proof.
  rw /so_bind. destruct (m s) as [[a s']|]; simpl.
  - split; [by exists a, s'|by intros (? & ? & [= <- <-] & ?)].
  - split; [by intros [? ?]|by intros (? & ? & ? & ?)].
Qed.

(** A loop that returns has returned from every round. *)
Lemma so_for_each_is_Some {A B} (f : A → StateO S B) (l : list A) s x :
  is_Some (so_for_each f l s) → x ∈ l → ∃ s', is_Some (f x s').
Proof.
  revert s. induction l as [|y l IH]=> s Hs; [by intros ?%elem_of_nil|].
  move: Hs. rw /= /so_bind. destruct (f y s) as [r|] eqn:Hy; [|by intros [? ?]].
  intros Hs [->|Hx]%elem_of_cons; [by exists s; rw Hy|by eapply IH].
Qed.

End lessdef_state.

(** A loop that returns has returned from every round. *)
Lemma foldM_is_Some {A B} (f : A → B → option A) (l : list B) a x :
  is_Some (foldM f a l) → x ∈ l → ∃ a', is_Some (f a' x).
Proof.
  revert a. induction l as [|y l IH]=> a Hl; [by intros ?%elem_of_nil|].
  move: Hl. rw /=. destruct (f a y) as [a'|] eqn:Hy; [|by intros [? ?]].
  intros Hl [->|Hx]%elem_of_cons; [by exists a; rw Hy|by eapply IH].
Qed.

(** ** Monotone functions of the bound *)

Section fuel_mono.
Context {A : Type} (f : nat → option A).

(** It is enough to look at the next bound. *)
Lemma fuel_mono_S : (∀ i, f i ⊑ f (S i)) → fuel_mono f.
Proof.
  intros Hf i j Hij. induction Hij as [|j _ IH]; [done|].
  by etrans; [apply IH|apply Hf].
Qed.

Context (Hf : fuel_mono f).

(** A result stays. *)
Lemma fuel_mono_Some i j a : f i = Some a → i ≤ j → f j = Some a.
Proof using Hf. intros Hi Hij. apply lessdef_Some_l. rw -Hi. by apply Hf. Qed.

(** Where there is no result, there was none. *)
Lemma fuel_mono_None i j : f j = None → i ≤ j → f i = None.
Proof using Hf. intros Hj Hij. apply lessdef_None_r. rw -Hj. by apply Hf. Qed.

(** The result does not depend on the bound. *)
Lemma fuel_mono_det i j a b : f i = Some a → f j = Some b → a = b.
Proof using Hf.
  intros Hi Hj. destruct (Nat.le_ge_cases i j) as [Hij|Hji].
  - rw (fuel_mono_Some i j a Hi Hij) in Hj. by injection Hj.
  - rw (fuel_mono_Some j i b Hj Hji) in Hi. by injection Hi.
Qed.

(** A monotone function diverges, or returns from some bound on. *)
Lemma fuel_mono_limit i a :
  f i = Some a → ¬ diverges f ∧ ∀ j, i ≤ j → f j = Some a.
Proof using Hf.
  intros Hi. split; [intros Hd; by rw Hd in Hi|].
  intros j. by apply fuel_mono_Some.
Qed.

End fuel_mono.

(** ** Functions that descend along a relation *)

Section descends.
Context {L A : Type} (f : nat → L → option A) (R : relation L).
Context (Hf : descends f R).

(** A chain of [n] steps below [l] takes a bound of more than [n]. *)
Lemma descends_nsteps n fuel l c :
  nsteps R n l c → is_Some (f fuel l) → n < fuel ∧ is_Some (f (fuel - n) c).
Proof using Hf.
  destruct Hf as [Hf0 HfS]. intros Hsteps. revert fuel.
  induction Hsteps as [l|n l m c Hlm _ IH]=> fuel Hl;
    (destruct fuel as [|fuel]; [rw Hf0 in Hl; by destruct Hl|]).
  - split; [lia|done].
  - destruct (IH fuel) as [Hlt Hc]; [by eapply HfS|]. split; [lia|done].
Qed.

(** On a cycle there is a chain of every length. *)
Lemma descends_cycle l : tc R l l → diverges (λ fuel, f fuel l).
Proof using Hf.
  intros (n & Hn & Hsteps)%tc_nsteps fuel.
  induction (lt_wf fuel) as [fuel _ IH].
  destruct (f fuel l) as [a|] eqn:Hl; [|done].
  destruct (descends_nsteps n fuel l l Hsteps) as [Hlt Hs]; [by rw Hl|].
  rw IH in Hs; [lia|]. by destruct Hs.
Qed.

End descends.
