(* ===== verification/Objects.v ===== *)
(** * Objects and references

    In the source an [AttackNode] is an object: [children] holds references
    to other objects, [add_child] mutates the receiver in place, and every
    walk of the program follows references.  The other files work with the
    value of a node, the finite tree below it.  This file models the
    objects themselves and shows when the value exists and what the
    operations do to it.

    The store [heap] is the list of the objects allocated so far, a
    reference [loc] the position of an object in it.  [Heap.alloc] is the
    constructor call [AttackNode(...)] (lines 58-68 of
    [attack-trees-analysis.py]), [Heap.add_child] the method of lines
    70-71.  The specification is the relation [denotes]: the object at a
    reference stands for a node value.  [read] computes that value by
    following references with a bound on the depth, as the interpreter
    bounds its recursion; [locs] lists the objects met on the way.

    A construction is a sequence of operations [op]; [guard] states what
    the caller of [add_child] must respect for the store to stay a
    [forest] (every object has a value, no object is a child twice), which
    the method itself does not check. *)

From S2P Require Import Prelude Model Fuel.
From Stdlib Require Import Floats.

(** ** Objects and the store *)

Definition loc : Set := nat.

Module Obj.
Record t : Set := mk {
  id : string;
  name : string;
  description : string;
  node_type : NodeType.t;
  attributes : AttackAttributes.t;
  children : list loc;
  mitigations : list string;
  cve_refs : list string;
  file_refs : list string;
}.

(** The object that the constructor call makes from the fields of [n] when
    no [children] argument is passed: [children] is a new empty list. *)
Definition of_fields (n : AttackNode.t) : t := {|
  id := AttackNode.id n;
  name := AttackNode.name n;
  description := AttackNode.description n;
  node_type := AttackNode.node_type n;
  attributes := AttackNode.attributes n;
  children := [];
  mitigations := AttackNode.mitigations n;
  cve_refs := AttackNode.cve_refs n;
  file_refs := AttackNode.file_refs n;
|}.

(** [self.children.append(child)] on the object. *)
Definition append_child (self : t) (child : loc) : t := {|
  id := id self;
  name := name self;
  description := description self;
  node_type := node_type self;
  attributes := attributes self;
  children := children self ++ [child];
  mitigations := mitigations self;
  cve_refs := cve_refs self;
  file_refs := file_refs self;
|}.

(** The node an object stands for, given the nodes of its children. *)
(** [node.node_type == NodeType.LEAF]. *)
Definition is_leaf (o : t) : bool := bool_decide (node_type o = NodeType.LEAF).

Definition value (o : t) (cs : list AttackNode.t) : AttackNode.t := {|
  AttackNode.id := id o;
  AttackNode.name := name o;
  AttackNode.description := description o;
  AttackNode.node_type := node_type o;
  AttackNode.attributes := attributes o;
  AttackNode.children := cs;
  AttackNode.mitigations := mitigations o;
  AttackNode.cve_refs := cve_refs o;
  AttackNode.file_refs := file_refs o;
|}.
End Obj.

Definition heap : Set := list Obj.t.

Module Heap.
(** [AttackNode(...)]: a new object, and the reference to it. *)
Definition alloc (o : Obj.t) : State heap loc := λ h, (length h, h ++ [o]).

(** [self.add_child(child)], line 71. *)
Definition add_child (self child : loc) : State heap unit :=
  st_modify (alter (λ o, Obj.append_child o child) self).
End Heap.

(** An [AttackTree] object: [root] is a reference. *)
Module TreeObj.
Record t : Set := mk {
  name : string;
  description : string;
  root : loc;
  version : string;
  severity : string;
}.
End TreeObj.

(** ** Following references *)

(** The value of the object at [l], following references to depth [fuel]
    at most. *)
Fixpoint read (fuel : nat) (h : heap) (l : loc) : option AttackNode.t :=
  match fuel with
  | O => None
  | S fuel' =>
      o ← h !! l;
      cs ← mapM (read fuel' h) (Obj.children o);
      Some (Obj.value o cs)
  end.

(** The objects met by a walk from [l], in pre-order. *)
Fixpoint locs (fuel : nat) (h : heap) (l : loc) : option (list loc) :=
  match fuel with
  | O => None
  | S fuel' =>
      o ← h !! l;
      ls ← mapM (locs fuel' h) (Obj.children o);
      Some (l :: mjoin ls)
  end.

(** The tree read back from a tree object. *)
Definition read_tree (h : heap) (t : TreeObj.t) : option AttackTree.t :=
  root ← read (length h) h (TreeObj.root t);
  Some (AttackTree.mk (TreeObj.name t) (TreeObj.description t) root
          (TreeObj.version t) (TreeObj.severity t)).

(** ** The specification *)

(** The object at [l] stands for the node [n]. *)
#[local] Unset Elimination Schemes.
Inductive denotes (h : heap) : loc → AttackNode.t → Prop :=
| denotes_obj l o cs :
    h !! l = Some o →
    Forall2 (denotes h) (Obj.children o) cs →
    denotes h l (Obj.value o cs).
#[local] Set Elimination Schemes.

(** [c] is a child of the object at [l]. *)
Definition edge (h : heap) (l c : loc) : Prop :=
  ∃ o, h !! l = Some o ∧ c ∈ Obj.children o.

(** The depth of a node: the number of nodes on its longest branch. *)
Fixpoint height (n : AttackNode.t) : nat :=
  S (max_list (height <$> AttackNode.children n)).

(** No object holds a reference to [c]. *)
Definition is_root (h : heap) (c : loc) : Prop := c ∉ h ≫= Obj.children.

(** Every object has a value and no object is a child twice: the store is
    a forest of trees. *)
Definition forest (h : heap) : Prop :=
  (∀ l, l < length h → ∃ n, denotes h l n) ∧ NoDup (h ≫= Obj.children).

(** Every reference held by an object is to an allocated object. *)
Definition closed (h : heap) : Prop :=
  Forall (λ o, Forall (λ c, c < length h) (Obj.children o)) h.

(** ** Constructions *)

(** The operations of a construction routine. *)
Inductive op : Set :=
| New (o : Obj.t)
| AddChild (self child : loc).

Definition exec (c : op) (h : heap) : heap :=
  match c with
  | New o => (Heap.alloc o h).2
  | AddChild self child => (Heap.add_child self child h).2
  end.

Definition run (ops : list op) (h : heap) : heap := foldl (flip exec) h ops.

(** What the caller must respect: a new object has no children yet; a
    child that is added is an allocated object that is no one's child and
    from which the receiver cannot be reached. *)
Definition guard (h : heap) (c : op) : Prop :=
  match c with
  | New o => Obj.children o = []
  | AddChild self child =>
      self < length h ∧ child < length h ∧ is_root h child
      ∧ ¬ rtc (edge h) child self
  end.

(** The stores that guarded constructions reach. *)
Inductive constructed : heap → Prop :=
| constructed_empty : constructed []
| constructed_step h c :
    constructed h → guard h c → constructed (exec c h).

(** The receiver is not among the objects met by a walk from the child. *)
Definition apart (h : heap) (child self : loc) : bool :=
  match locs (length h) h child with
  | Some ls => bool_decide (self ∉ ls)
  | None => false
  end.

(** The guard as a test. *)
Definition guard_b (h : heap) (c : op) : bool :=
  match c with
  | New o => bool_decide (Obj.children o = [])
  | AddChild self child =>
      bool_decide (self < length h ∧ child < length h ∧ is_root h child)
      && apart h child self
  end.

(** A sequence of operations every one of which passes the test. *)
Fixpoint disciplined (ops : list op) (h : heap) : bool :=
  match ops with
  | [] => true
  | c :: ops' => guard_b h c && disciplined ops' (exec c h)
  end.

(** The store after [self.add_child(child)]. *)
#[local] Abbreviation added h self child :=
  (alter (λ o, Obj.append_child o child) self h).

(** ** A small construction for the examples

    The objects of [Examples.or_tree]: the root and the two leaves are
    created, then the first leaf is added to the root. *)
Definition small_ops : list op := [
  New (Obj.of_fields (AttackNode.new "root" "Root" "" NodeType.OR));
  New (Obj.of_fields Examples.A);
  New (Obj.of_fields Examples.B);
  AddChild 0 1
].

Definition small_heap : heap := run small_ops [].

(** ** Values of objects *)

Section denotes.
Context (h : heap).
Implicit Types l c : loc.
Implicit Types n m : AttackNode.t.
Implicit Types o : Obj.t.

Lemma read_unfold fuel l :
  read (S fuel) h l
  = o ← h !! l; cs ← mapM (read fuel h) (Obj.children o); Some (Obj.value o cs).
Proof. done. Qed.

Lemma locs_unfold fuel l :
  locs (S fuel) h l
  = o ← h !! l; ls ← mapM (locs fuel h) (Obj.children o); Some (l :: mjoin ls).
Proof. done. Qed.

Lemma denotes_inv l n :
  denotes h l n →
  ∃ o, h !! l = Some o ∧ n = Obj.value o (AttackNode.children n)
       ∧ Forall2 (denotes h) (Obj.children o) (AttackNode.children n).
Proof. inversion 1; subst. eauto. Qed.

Lemma denotes_lookup l n : denotes h l n → l < length h.
Proof. intros (o & Ho & _)%denotes_inv. by eapply lookup_lt_Some. Qed.

(** An object stands for one node only. *)
Lemma denotes_inj n l m : denotes h l n → denotes h l m → n = m.
Proof.
  revert l m. node_induction n=> l m.
  intros (o & Ho & -> & Hcs)%denotes_inv (o' & Ho' & -> & Hcs')%denotes_inv.
  simplify_eq. f_equal. simpl in *. by eapply Forall2_functional_r.
Qed.

Lemma size_child n m : m ∈ AttackNode.children n → size m < size n.
Proof.
  intros Hc. rw (size_unfold n). apply Nat.lt_succ_r.
  apply list_elem_of_split in Hc as (l1 & l2 & ->).
  rw fmap_app fmap_cons sum_list_with_app /=. lia.
Qed.

Lemma height_unfold n :
  height n = S (max_list (height <$> AttackNode.children n)).
Proof. by destruct n. Qed.

Lemma height_child n m : m ∈ AttackNode.children n → height m < height n.
Proof.
  intros Hc. rw (height_unfold n). apply Nat.lt_succ_r, max_list_elem_of_le.
  by apply list_elem_of_fmap_2.
Qed.

(** Soundness of the bounded walk. *)
Lemma read_sound fuel l n : read fuel h l = Some n → denotes h l n.
Proof.
  revert l n. induction fuel as [|fuel IH]=> l n; [done|].
  rw read_unfold.
  intros (o & Ho & (cs & Hcs%mapM_Some & [= <-])%bind_Some)%bind_Some.
  apply denotes_obj; [done|]. eapply Forall2_impl; [done|auto].
Qed.

(** Completeness: a depth of the height of the value is enough. *)
Lemma read_height n l fuel :
  denotes h l n → height n ≤ fuel → read fuel h l = Some n.
Proof.
  revert l fuel. node_induction n=> l fuel.
  intros (o & Ho & Hn & Hcs)%denotes_inv Hfuel.
  destruct fuel as [|fuel]; [rw height_unfold in Hfuel; lia|].
  rw read_unfold Ho /= (mapM_Some_2 _ _ (AttackNode.children n)) /= -?Hn //.
  apply (Forall2_impl_r (denotes h)); [|done].
  rw Forall_forall in IH. apply Forall_forall=> m Hm x Hx. apply IH; [done..|].
  pose proof (height_child n m Hm). lia.
Qed.

(** The least bound is the height of the value. *)
Lemma read_Some_height fuel l n : read fuel h l = Some n → height n ≤ fuel.
Proof.
  revert l n. induction fuel as [|fuel IH]=> l n; [done|].
  rw read_unfold.
  intros (o & Ho & (cs & Hcs%mapM_Some & [= <-])%bind_Some)%bind_Some.
  rw height_unfold /=. apply le_n_S, max_list_le, Forall_fmap, Forall_lookup.
  intros i m Hm. destruct (Forall2_lookup_r _ _ _ _ _ Hcs Hm) as (c & _ & Hc).
  by eapply IH.
Qed.

Lemma read_exact fuel l n :
  read fuel h l = Some n ↔ denotes h l n ∧ height n ≤ fuel.
Proof.
  split; [|intros [? ?]; by apply read_height].
  eauto using read_sound, read_Some_height.
Qed.

(** A larger bound gives a more defined result. *)
Lemma read_mono l : fuel_mono (λ fuel, read fuel h l).
Proof.
  apply fuel_mono_S=> fuel. revert l.
  induction fuel as [|fuel IH]=> l; [constructor|].
  rw !read_unfold. apply lessdef_bind; [reflexivity|]. intros o.
  apply lessdef_bind; [|reflexivity]. apply lessdef_mapM, Forall_forall. auto.
Qed.

Lemma locs_mono l : fuel_mono (λ fuel, locs fuel h l).
Proof.
  apply fuel_mono_S=> fuel. revert l.
  induction fuel as [|fuel IH]=> l; [constructor|].
  rw !locs_unfold. apply lessdef_bind; [reflexivity|]. intros o.
  apply lessdef_bind; [|reflexivity]. apply lessdef_mapM, Forall_forall. auto.
Qed.

End denotes.

(** ** Cycles and the depth of a walk *)

Section acyclic.
Context (h : heap).
Implicit Types l c a : loc.
Implicit Types n m : AttackNode.t.
Implicit Types o : Obj.t.

(** The child of an object stands for a child of its value. *)
Lemma edge_denotes l c n :
  edge h l c → denotes h l n →
  ∃ m, denotes h c m ∧ m ∈ AttackNode.children n.
Proof.
  intros (o & Ho & Hc) (o' & Ho' & _ & Hcs)%denotes_inv. simplify_eq.
  apply list_elem_of_lookup in Hc as [i Hi].
  destruct (Forall2_lookup_l _ _ _ _ _ Hcs Hi) as (m & Hm & Hd).
  exists m. split; [done|]. by eapply list_elem_of_lookup_2.
Qed.

(** A child of a value is the value of a child. *)
Lemma denotes_child l n m :
  denotes h l n → m ∈ AttackNode.children n → ∃ c, edge h l c ∧ denotes h c m.
Proof.
  intros (o & Ho & _ & Hcs)%denotes_inv [i Hi]%list_elem_of_lookup.
  destruct (Forall2_lookup_r _ _ _ _ _ Hcs Hi) as (c & Hc & Hd).
  exists c. split; [|done]. exists o. split; [done|].
  by eapply list_elem_of_lookup_2.
Qed.

(** What is reached from an object has a smaller value. *)
Lemma tc_denotes l l' n :
  tc (edge h) l l' → denotes h l n → ∃ m, denotes h l' m ∧ size m < size n.
Proof.
  intros Htc. revert n. induction Htc as [l l' He|l c l' He _ IH]=> n Hn;
    destruct (edge_denotes _ _ _ He Hn) as (m & Hm & Hin%size_child).
  - by exists m.
  - destruct (IH m Hm) as (m' & Hm' & Hlt). exists m'. split; [done|lia].
Qed.

(** An object that has a value is on no cycle. *)
Lemma denotes_acyclic l n : denotes h l n → ¬ tc (edge h) l l.
Proof.
  intros Hn Htc. destruct (tc_denotes _ _ n Htc Hn) as (m & Hm & Hlt).
  rw (denotes_inj h n l m Hn Hm) in Hlt. lia.
Qed.

(** A walk from an object on a cycle exceeds every depth. *)
Lemma read_cycle l fuel : tc (edge h) l l → read fuel h l = None.
Proof.
  intros Htc. destruct (read fuel h l) as [n|] eqn:Hr; [|done].
  apply read_sound in Hr. by destruct (denotes_acyclic l n).
Qed.

(** The branches of a value pass through distinct objects: below [anc],
    objects with larger values, there is room for the height of [n]. *)
Lemma height_bound n l (anc : list loc) :
  denotes h l n → NoDup anc →
  (∀ a, a ∈ anc → a < length h ∧ ∀ m, denotes h a m → size n < size m) →
  height n + length anc ≤ length h.
Proof.
  revert l anc. node_induction n=> l anc Hn Hnd Hanc.
  assert (l ∉ anc) as Hl.
  { intros [_ Hlt]%Hanc. specialize (Hlt n Hn). lia. }
  assert (length (l :: anc) ≤ length h) as Hlen.
  { apply NoDup_bounded; [by constructor|].
    constructor; [by eapply denotes_lookup|].
    apply Forall_forall=> a Ha. by apply Hanc. }
  cut (max_list (height <$> AttackNode.children n) ≤ length h - S (length anc)).
  { rw height_unfold. simpl in Hlen. lia. }
  apply max_list_le, Forall_fmap, Forall_forall=> m Hm /=.
  destruct (denotes_child l n m Hn Hm) as (c & _ & Hc).
  rw Forall_forall in IH.
  pose proof (IH m Hm c (l :: anc) Hc) as Hm'. simpl in Hm'.
  cut (height m + S (length anc) ≤ length h); [lia|].
  apply Hm'; [by constructor|]. pose proof (size_child n m Hm).
  intros a [->|Ha]%elem_of_cons.
  - split; [by eapply denotes_lookup|]. intros m' Hm''.
    by rw -(denotes_inj h n l m' Hn Hm'').
  - destruct (Hanc a Ha) as [? Hlt]. split; [done|].
    intros m' Hm''. specialize (Hlt m' Hm''). lia.
Qed.

(** Termination: a depth of the number of objects is enough. *)
Lemma denotes_height l n : denotes h l n → height n ≤ length h.
Proof.
  intros Hn. pose proof (height_bound n l [] Hn (NoDup_nil_2 (A:=loc))) as Hb.
  simpl in Hb. rw -(Nat.add_0_r (height n)). apply Hb.
  by intros a ?%elem_of_nil.
Qed.

Lemma read_enough l n fuel :
  denotes h l n → length h ≤ fuel → read fuel h l = Some n.
Proof.
  intros Hn Hfuel. apply read_height; [done|].
  etrans; [by eapply denotes_height|done].
Qed.

(** The walk meets everything that is reached. *)
Lemma locs_rtc fuel l ls x :
  locs fuel h l = Some ls → rtc (edge h) l x → x ∈ ls.
Proof.
  revert l ls x. induction fuel as [|fuel IH]=> l ls x; [done|].
  rw locs_unfold.
  intros (o & Ho & (lss & Hlss%mapM_Some & [= <-])%bind_Some)%bind_Some.
  intros [->|(c & (o' & Ho' & Hc) & Hrtc)]%rtc_inv; [left|].
  simplify_eq. right. apply list_elem_of_lookup in Hc as [i Hi].
  destruct (Forall2_lookup_l _ _ _ _ _ Hlss Hi) as (lc & Hlc & Hloc).
  apply list_elem_of_join. exists lc.
  split; [by eapply IH|by eapply list_elem_of_lookup_2].
Qed.

(** The walk lists, in the pre-order of the value, references to the
    nodes of the value. *)
Lemma locs_sound_children cs (lss : list (list loc)) :
  Forall2 (λ c ls, ∃ m, denotes h c m ∧ Forall2 (denotes h) ls (nodes m))
    cs lss →
  ∃ ms, Forall2 (denotes h) cs ms
        ∧ Forall2 (denotes h) (mjoin lss) (ms ≫= nodes).
Proof.
  induction 1 as [|c ls cs lss (m & Hm & Hls) _ (ms & Hms & Hlss)].
  - exists []. by split; constructor.
  - exists (m :: ms). split; [by constructor|]. by apply Forall2_app.
Qed.

Lemma locs_sound fuel l ls :
  locs fuel h l = Some ls →
  ∃ n, denotes h l n ∧ Forall2 (denotes h) ls (nodes n).
Proof.
  revert l ls. induction fuel as [|fuel IH]=> l ls; [done|].
  rw locs_unfold.
  intros (o & Ho & (lss & Hlss%mapM_Some & [= <-])%bind_Some)%bind_Some.
  destruct (locs_sound_children (Obj.children o) lss) as (ms & Hms & Hall).
  { eapply Forall2_impl; [done|]. intros c ls'. apply IH. }
  exists (Obj.value o ms). split; [by constructor|].
  rw nodes_unfold /=. constructor; [by constructor|done].
Qed.

(** The two walks end with the same bounds. *)
Lemma read_locs fuel l : is_Some (read fuel h l) → is_Some (locs fuel h l).
Proof.
  revert l. induction fuel as [|fuel IH]=> l; [by intros [? ?]|].
  rw read_unfold locs_unfold. destruct (h !! l) as [o|]; [|by intros [? ?]].
  rw /=. intros [n (ms & Hms & _)%bind_Some].
  assert (is_Some (mapM (locs fuel h) (Obj.children o))) as [lss ->]; [|done].
  apply mapM_is_Some, Forall_forall=> c Hc. apply IH.
  apply mapM_Some in Hms. apply list_elem_of_lookup in Hc as [i Hi].
  destruct (Forall2_lookup_l _ _ _ _ _ Hms Hi) as (m & _ & Hm). by rw Hm.
Qed.

Lemma locs_height l n fuel :
  denotes h l n → height n ≤ fuel →
  ∃ ls, locs fuel h l = Some ls ∧ Forall2 (denotes h) ls (nodes n).
Proof.
  intros Hn Hfuel. destruct (read_locs fuel l) as [ls Hls].
  { by rw (read_height h n l fuel). }
  exists ls. split; [done|].
  destruct (locs_sound fuel l ls Hls) as (n' & Hn' & Hall).
  by rw (denotes_inj h n l n').
Qed.

Lemma locs_enough l n fuel :
  denotes h l n → length h ≤ fuel →
  ∃ ls, locs fuel h l = Some ls ∧ Forall2 (denotes h) ls (nodes n).
Proof.
  intros Hn Hfuel. apply locs_height; [done|].
  etrans; [by eapply denotes_height|done].
Qed.

Lemma locs_read fuel l : is_Some (locs fuel h l) → is_Some (read fuel h l).
Proof.
  revert l. induction fuel as [|fuel IH]=> l; [by intros [? ?]|].
  rw read_unfold locs_unfold. destruct (h !! l) as [o|]; [|by intros [? ?]].
  rw /=. intros [ls (lss & Hlss & _)%bind_Some].
  assert (is_Some (mapM (read fuel h) (Obj.children o))) as [cs ->]; [|done].
  apply mapM_is_Some, Forall_forall=> c Hc. apply IH.
  apply mapM_Some in Hlss. apply list_elem_of_lookup in Hc as [i Hi].
  destruct (Forall2_lookup_l _ _ _ _ _ Hlss Hi) as (lc & _ & Hlc). by rw Hlc.
Qed.

(** The object at [l] stands for no node exactly when no bound is enough
    to read it. *)
Lemma read_diverges l :
  (∀ n, ¬ denotes h l n) ↔ diverges (λ fuel, read fuel h l).
Proof.
  split.
  - intros Hnone fuel. destruct (read fuel h l) as [n|] eqn:Hn; [|done].
    by destruct (Hnone n); apply (read_sound h fuel).
  - intros Hd n Hn%(read_enough l n (length h)); [|done]. by rw Hd in Hn.
Qed.

Lemma locs_cycle l fuel : tc (edge h) l l → locs fuel h l = None.
Proof.
  intros Hcycle. destruct (locs fuel h l) as [ls|] eqn:Hls; [|done].
  destruct (locs_sound fuel l ls Hls) as (n & Hn & _).
  by destruct (denotes_acyclic l n Hn).
Qed.

End acyclic.

(** ** The operations *)

Section operations.
Implicit Types h : heap.
Implicit Types l c self child : loc.
Implicit Types n m s : AttackNode.t.
Implicit Types o : Obj.t.

Lemma denotes_intro h l o n :
  h !! l = Some o → n = Obj.value o (AttackNode.children n) →
  Forall2 (denotes h) (Obj.children o) (AttackNode.children n) →
  denotes h l n.
Proof. intros Ho Hn Hcs. rewrite Hn. by constructor. Qed.

(** Allocation changes no value, ... *)
Lemma denotes_alloc h o l n : denotes h l n → denotes (h ++ [o]) l n.
Proof.
  revert l. node_induction n=> l.
  intros (o' & Ho & Hn & Hcs)%denotes_inv.
  eapply denotes_intro; [by apply lookup_app_l_Some|done|].
  by apply (Forall2_impl_r (denotes h)).
Qed.

(** ... and the new object stands for its fields over its children. *)
Lemma denotes_alloc_new h o cs :
  Forall2 (denotes h) (Obj.children o) cs →
  denotes (h ++ [o]) (length h) (Obj.value o cs).
Proof.
  intros Hcs. constructor; [by apply list_lookup_middle|].
  eapply Forall2_impl; [done|]. intros. by apply denotes_alloc.
Qed.

Lemma lookup_added h self child l :
  added h self child !! l
  = (if decide (l = self) then λ o, Obj.append_child o child else id) <$> h !! l.
Proof.
  case_decide as Hl; [subst; apply list_lookup_alter_eq|].
  assert (self ≠ l) by congruence.
  by rw list_lookup_alter_ne // option_fmap_id.
Qed.

(** [add_child] removes no reference, and adds the one to the child. *)
Lemma edge_added h self child l c :
  edge h l c → edge (added h self child) l c.
Proof.
  intros (o & Ho & Hc). rw /edge lookup_added Ho /=.
  case_decide; eexists; (split; [done|]); [|done].
  apply elem_of_app. by left.
Qed.

Lemma edge_added_new h self child :
  self < length h → edge (added h self child) self child.
Proof.
  intros [o Ho]%lookup_lt_is_Some. rw /edge lookup_added Ho decide_True //=.
  eexists. split; [done|]. apply elem_of_app. right. left.
Qed.

(** Frame: the value of an object from which the receiver is not reached
    does not change. *)
Lemma denotes_added_frame h self child l n :
  denotes h l n → ¬ rtc (edge h) l self → denotes (added h self child) l n.
Proof.
  revert l. node_induction n=> l Hn Hl.
  destruct (denotes_inv h l n Hn) as (o & Ho & Hval & Hcs).
  eapply denotes_intro; [|done|].
  { rw lookup_added Ho decide_False //. by intros ->. }
  rw Forall_forall in IH.
  apply Forall2_same_length_lookup. split; [by eapply Forall2_length|].
  intros i c m Hc Hm. apply IH; [by eapply list_elem_of_lookup_2|..].
  - by eapply Forall2_lookup_lr.
  - intros Hr. apply Hl. eapply rtc_l; [|done].
    exists o. split; [done|]. by eapply list_elem_of_lookup_2.
Qed.

(** The receiver's new value is the value model's [add_child]. *)
Lemma denotes_added h self child s m :
  denotes h self s → denotes h child m → ¬ rtc (edge h) child self →
  denotes (added h self child) self (AttackNode.add_child s m).
Proof.
  intros Hs Hm Hchild.
  destruct (denotes_inv h self s Hs) as (o & Ho & Hval & Hcs).
  eapply (denotes_intro _ _ (Obj.append_child o child)).
  { by rw lookup_added Ho decide_True. }
  { rw {1}Hval. done. }
  apply Forall2_app; [|by repeat constructor; apply denotes_added_frame].
  apply Forall2_same_length_lookup. split; [by eapply Forall2_length|].
  intros i c x Hc Hx. apply denotes_added_frame; [by eapply Forall2_lookup_lr|].
  intros Hr. apply (denotes_acyclic h self s Hs).
  eapply tc_rtc_r; [|done]. apply tc_once.
  exists o. split; [done|]. by eapply list_elem_of_lookup_2.
Qed.

(** Every object that had a value has one afterwards. *)
Lemma denotes_added_any h self child m n l :
  denotes h child m → ¬ rtc (edge h) child self →
  denotes h l n → ∃ n', denotes (added h self child) l n'.
Proof.
  intros Hm Hchild. revert l. node_induction n=> l Hn.
  destruct (decide (l = self)) as [->|Hl].
  { eexists. by apply (denotes_added h self child n m). }
  destruct (denotes_inv h l n Hn) as (o & Ho & _ & Hcs).
  destruct (Forall2_exists_r (denotes h) (denotes (added h self child))
              _ _ IH Hcs) as [cs' Hcs'].
  exists (Obj.value o cs'). constructor; [|done].
  by rw lookup_added Ho decide_False.
Qed.

(** Closing a cycle: when the receiver is reached from the child, no walk
    from the receiver ends any more. *)
Lemma read_added_cycle h self child fuel :
  self < length h → rtc (edge h) child self →
  read fuel (added h self child) self = None.
Proof.
  intros Hself Hr. apply read_cycle.
  eapply tc_rtc_r; [by apply tc_once, edge_added_new|].
  eapply rtc_subrel; [|done]. intros x y. apply edge_added.
Qed.

(** The references held in the store grow by the one to the child. *)
Lemma children_added h self child :
  self < length h →
  added h self child ≫= Obj.children ≡ₚ child :: (h ≫= Obj.children).
Proof.
  revert self. induction h as [|o h IH]=> self Hself; [simpl in Hself; lia|].
  destruct self as [|self].
  - change (added (o :: h) 0 child) with (Obj.append_child o child :: h).
    rw !bind_cons /= -(assoc_L (++)) /=. symmetry. apply Permutation_middle.
  - change (added (o :: h) (S self) child) with (o :: added h self child).
    rw !bind_cons IH; [simpl in Hself; lia|]. symmetry. apply Permutation_middle.
Qed.

End operations.

(** ** The invariants and the guarded constructions *)

Section invariants.
Implicit Types h : heap.
Implicit Types l c self child : loc.
Implicit Types o : Obj.t.

Lemma apart_sound h child self :
  apart h child self = true → ¬ rtc (edge h) child self.
Proof.
  rw /apart. destruct (locs _ _ _) as [ls|] eqn:Hls; [|done].
  intros Hself%bool_decide_eq_true Hr. by eapply Hself, locs_rtc.
Qed.

Lemma closed_alloc h o :
  closed h → Forall (λ c, c < length h) (Obj.children o) → closed (h ++ [o]).
Proof.
  rw /closed length_app /= => Hh Ho. apply Forall_app. split.
  - apply (Forall_impl _ _ _ Hh)=> o' Ho'. apply (Forall_impl _ _ _ Ho').
    simpl. lia.
  - repeat constructor. apply (Forall_impl _ _ _ Ho). simpl. lia.
Qed.

Lemma closed_added h self child :
  closed h → child < length h → closed (added h self child).
Proof.
  rw /closed length_alter !Forall_lookup => Hh Hchild l o.
  rw lookup_added. intros (o' & Ho' & ->)%fmap_Some.
  case_decide; [|by eapply Hh]. apply Forall_app. split; [by eapply Hh|].
  by repeat constructor.
Qed.

Lemma forest_closed h : forest h → closed h.
Proof.
  intros [Hd _]. apply Forall_lookup=> l o Ho.
  destruct (Hd l) as [n Hn]; [by eapply lookup_lt_Some|].
  apply denotes_inv in Hn as (o' & Ho' & _ & Hcs).
  pose proof (eq_trans (eq_sym Ho) Ho') as [= <-].
  apply Forall_lookup=> i c Hc.
  destruct (Forall2_lookup_l _ _ _ _ _ Hcs Hc) as (m & _ & Hm).
  by eapply denotes_lookup.
Qed.

Lemma forest_empty : forest [].
Proof. split; [simpl; lia|constructor]. Qed.

Lemma forest_alloc h o : forest h → Obj.children o = [] → forest (h ++ [o]).
Proof.
  intros [Hd Hnd] Ho. split.
  - intros l. rw length_app /= => Hl.
    destruct (decide (l = length h)) as [->|Hne].
    + exists (Obj.value o []). apply denotes_alloc_new. rw Ho. constructor.
    + destruct (Hd l) as [m Hm]; [lia|]. exists m. by apply denotes_alloc.
  - by rw bind_app /= Ho /= !app_nil_r.
Qed.

Lemma forest_added h self child :
  forest h → self < length h → child < length h → is_root h child →
  ¬ rtc (edge h) child self → forest (added h self child).
Proof.
  intros [Hd Hnd] Hself Hchild Hroot Hr. destruct (Hd child Hchild) as [m Hm].
  split.
  - intros l. rw length_alter=> Hl. destruct (Hd l Hl) as [n Hn].
    by eapply denotes_added_any.
  - rw children_added //. by constructor.
Qed.

Lemma forest_exec h (c : op) : forest h → guard h c → forest (exec c h).
Proof.
  destruct c as [o|self child]; simpl; [apply forest_alloc|].
  intros ? (? & ? & ? & ?). by apply forest_added.
Qed.

Lemma guard_b_sound h (c : op) : guard_b h c = true → guard h c.
Proof.
  destruct c as [o|self child]; simpl; [by intros ?%bool_decide_eq_true|].
  intros [(? & ? & ?)%bool_decide_eq_true ?%apart_sound]%andb_true_iff.
  done.
Qed.

Lemma disciplined_constructed ops h :
  disciplined ops h = true → constructed h → constructed (run ops h).
Proof.
  revert h. induction ops as [|c ops IH]=> h /=; [done|].
  intros [Hc Hops]%andb_true_iff Hh. apply IH; [done|].
  apply constructed_step; [done|by apply guard_b_sound].
Qed.

Lemma constructed_inv h : constructed h → forest h.
Proof. induction 1; eauto using forest_empty, forest_exec. Qed.

End invariants.

(** An object stands for a node exactly when the walk that follows its
    references returns that node with every bound on the depth that is at
    least the number of allocated objects.  The bound is enough because a
    branch of the value meets no object twice. *)
Lemma read_total (h : heap) (l : loc) (n : AttackNode.t) :
  denotes h l n ↔ ∀ fuel, length h ≤ fuel → read fuel h l = Some n.
Proof.
  split; [intros Hn fuel; by apply read_enough|].
  intros Hread. by apply (read_sound h (length h)), Hread.
Qed.

(** ** The theorems *)

(** C8. Refinement of the value model by the objects: when the receiver
    stands for [s], the child for [m], and the receiver is not reached from
    the child, then after [self.add_child(child)] the receiver stands for
    [AttackNode.add_child s m]; every object from which the receiver is not
    reached keeps its value, and no object is allocated. *)
Theorem add_child_refines (h : heap) (self child : loc) (s m : AttackNode.t) :
  denotes h self s → denotes h child m → ¬ rtc (edge h) child self →
  denotes (st_exec (Heap.add_child self child) h) self (AttackNode.add_child s m)
  ∧ (∀ l n, denotes h l n → ¬ rtc (edge h) l self →
       denotes (st_exec (Heap.add_child self child) h) l n)
  ∧ length (st_exec (Heap.add_child self child) h) = length h.
Proof.
  intros Hs Hm Hr. split_and!.
  - by apply denotes_added.
  - intros l n. apply denotes_added_frame.
  - apply length_alter.
Qed.

Lemma add_child_refines_witness :
  denotes (st_exec (Heap.add_child 0 2) small_heap) 0 Examples.or_tree
  ∧ (∀ l n, denotes small_heap l n → ¬ rtc (edge small_heap) l 0 →
       denotes (st_exec (Heap.add_child 0 2) small_heap) l n)
  ∧ length (st_exec (Heap.add_child 0 2) small_heap) = length small_heap.
Proof.
  apply (add_child_refines small_heap 0 2
           (AttackNode.add_child (AttackNode.new "root" "Root" "" NodeType.OR)
              Examples.A) Examples.B).
  - by apply (read_sound _ 3).
  - by apply (read_sound _ 3).
  - by apply apart_sound.
Defined.

(** C21. The stores that guarded constructions reach are forests without
    dangling references: every allocated object stands for a node, no
    object is the child of two objects or twice of one, and every
    reference is to an allocated object. *)
Theorem constructed_forest (h : heap) :
  constructed h → forest h ∧ closed h.
Proof.
  intros Hh%constructed_inv. eauto using forest_closed.
Qed.

Lemma constructed_forest_witness : forest small_heap ∧ closed small_heap.
Proof.
  apply (constructed_forest small_heap).
  apply (disciplined_constructed small_ops []); [reflexivity|constructor].
Defined.

(** C22. [add_child] checks nothing.  When the receiver is reached from
    the child (the child is the receiver or one of its ancestors), the call
    closes a cycle: no walk from the receiver returns, whatever the bound,
    and the receiver stands for no node.  When the child already is the
    child of an object, the store is no forest afterwards. *)
Theorem add_child_unguarded (h : heap) (self child : loc) :
  self < length h →
  (rtc (edge h) child self →
     (∀ fuel, read fuel (st_exec (Heap.add_child self child) h) self = None)
     ∧ ∀ n, ¬ denotes (st_exec (Heap.add_child self child) h) self n)
  ∧ (¬ is_root h child → ¬ forest (st_exec (Heap.add_child self child) h)).
Proof.
  intros Hself. split.
  - intros Hr.
    assert (∀ fuel, read fuel (added h self child) self = None) as Hnone
      by (intros; by apply read_added_cycle).
    split; [done|]. intros n Hn%(read_enough _ _ _ (length (added h self child))); [|done].
    by rw Hnone in Hn.
  - intros Hroot [_ Hnd]. apply Hroot. rw /is_root.
    rewrite (children_added h self child Hself) in Hnd.
    apply NoDup_cons in Hnd as [Hnot _]. by intros ?.
Qed.

Lemma add_child_unguarded_witness :
  ((∀ fuel, read fuel (st_exec (Heap.add_child 0 0) small_heap) 0 = None)
   ∧ ∀ n, ¬ denotes (st_exec (Heap.add_child 0 0) small_heap) 0 n)
  ∧ ¬ forest (st_exec (Heap.add_child 2 1) small_heap).
Proof.
  split.
  - apply (add_child_unguarded small_heap 0 0); [vm_compute; lia|apply rtc_refl].
  - apply (add_child_unguarded small_heap 2 1); [vm_compute; lia|].
    intros Hroot. apply Hroot. vm_compute. left.
Defined.

(** C34. What the two operations do to the store, object by object.
    Constructing an object allocates it at a new reference, past every
    object of the store, and changes no object.  [add_child] allocates
    nothing and changes the receiver only, whether or not other objects
    hold the same child: the child is appended to the children of the
    receiver and the other fields of the receiver are kept.  Neither
    leaves a dangling reference: in a store where every reference is to
    an allocated object, constructing an object whose children are
    allocated, or adding an allocated child, gives such a store again. *)
Theorem exec_frame (h : heap) (c : op) :
  match c with
  | New o =>
      length (exec c h) = S (length h)
      ∧ exec c h !! length h = Some o
      ∧ (∀ l, l < length h → exec c h !! l = h !! l)
      ∧ (closed h → Forall (λ x, x < length h) (Obj.children o) →
         closed (exec c h))
  | AddChild self child =>
      length (exec c h) = length h
      ∧ (∀ l, l ≠ self → exec c h !! l = h !! l)
      ∧ (∀ o, h !! self = Some o →
           ∃ o', exec c h !! self = Some o'
             ∧ Obj.children o' = Obj.children o ++ [child]
             ∧ ∀ cs, Obj.value o' cs = Obj.value o cs)
      ∧ (closed h → child < length h → closed (exec c h))
  end.
Proof.
  destruct c as [o|self child]; rw /exec /=.
  - split_and!; [rw length_app /=; lia|by rw list_lookup_middle| |apply closed_alloc].
    intros l Hl. by apply lookup_app_l.
  - split_and!; [apply length_alter| | |apply closed_added].
    + intros l Hl. by rw lookup_added decide_False // option_fmap_id.
    + intros o Ho. exists (Obj.append_child o child).
      by rw lookup_added decide_True // Ho.
Qed.
