(* ===== verification/Walks.v ===== *)
(** * The walks of the program over the store

    The methods of [attack-trees-analysis.py] that walk a tree follow the
    references in [children].  This file runs the path search
    ([_find_path], [_path_score] and the three entry points, lines 82-132),
    the leaf enumeration ([_collect_leaves] and [get_all_leaf_attacks],
    lines 134-144), the serialization ([to_dict] and [_node_to_dict],
    lines 150-176) and the exporter ([export] and [_export_node], lines
    188-223) over the store of [Objects.v]:
    [node] is a reference, a path and the list [leaves] are lists of
    references, and the depth of the recursion is bounded, as the
    interpreter bounds it.  The theorems show that the walks return
    whenever the object stands for a node, with every bound from the
    height of the node on, that they then return references to the nodes which
    the value models of [PathSearch.v], [Leaves.v], [Serialize.v] and
    [Mermaid.v] compute, and that
    [_collect_leaves] never returns on a cycle. *)

From S2P Require Import Prelude Model PathSearch Leaves Serialize Objects.
From S2P Require Import Mermaid.
From stdpp Require Import gmap.

(** ** The source's definitions *)

Fixpoint _collect_leaves_obj (fuel : nat) (h : heap) (node : loc)
    (leaves : list loc) : option (list loc) :=
  match fuel with
  | O => None
  | S fuel' =>
      o ← h !! node;
      let leaves := if Obj.is_leaf o then leaves ++ [node] else leaves in
      foldM (λ leaves child, _collect_leaves_obj fuel' h child leaves)
        leaves (Obj.children o)
  end.

Definition get_all_leaf_attacks_obj (fuel : nat) (h : heap) (self : TreeObj.t)
    : option (list loc) :=
  let leaves := [] in
  _collect_leaves_obj fuel h (TreeObj.root self) leaves.

(** The generators of [_path_score], on an object. *)
(** [not n.mitigations], for a reference [n]. *)
Definition unmitigated_at (h : heap) (n : loc) : Prop :=
  Obj.mitigations <$> h !! n = Some [].

#[export] Instance unmitigated_at_dec h n : Decision (unmitigated_at h n).
Proof. unfold unmitigated_at. apply _. Defined.

Definition get_unmitigated_attacks_obj (fuel : nat) (h : heap)
    (self : TreeObj.t) : option (list loc) :=
  leaves ← get_all_leaf_attacks_obj fuel h self;
  Some (filter (unmitigated_at h) leaves).

Definition difficulty_of_obj (o : Obj.t) : Z :=
  Difficulty.value (AttackAttributes.difficulty (Obj.attributes o)).
Definition cost_of_obj (o : Obj.t) : Z :=
  Cost.value (AttackAttributes.cost (Obj.attributes o)).
Definition detection_of_obj (o : Obj.t) : Z :=
  DetectionRisk.value (AttackAttributes.detection_risk (Obj.attributes o)).

(** The LEAF objects of a path of references, in order. *)
Definition leaves_of_obj (h : heap) (path : list loc) : list Obj.t :=
  filter (λ o, Obj.is_leaf o = true) (omap (h !!.) path).

Definition _path_score_obj (h : heap) (path : list loc) (metric : string) : Z :=
  if String.eqb metric "difficulty" then
    sumZ (difficulty_of_obj <$> leaves_of_obj h path)
  else if String.eqb metric "cost" then
    sumZ (cost_of_obj <$> leaves_of_obj h path)
  else if String.eqb metric "detection" then
    sumZ (detection_of_obj <$> leaves_of_obj h path)
  else 0%Z.

(** The body of the loop over the children of an OR node. *)
Definition or_step_obj (h : heap) (minimize : string)
    (best : option (list loc) * Score) (child_path : list loc)
    : option (list loc) * Score :=
  let score := _path_score_obj h child_path minimize in
  if score_lt score best.2 then (Some child_path, Fin score) else best.

Fixpoint _find_path_obj (fuel : nat) (h : heap) (node : loc)
    (minimize : string) : option (list loc) :=
  match fuel with
  | O => None
  | S fuel' =>
      o ← h !! node;
      if Obj.is_leaf o then Some [node]
      else if Obj.children o is [] then Some [node]
      else if decide (Obj.node_type o = NodeType.OR) then
        best ← foldM (λ best child,
                  child_path ← _find_path_obj fuel' h child minimize;
                  Some (or_step_obj h minimize best child_path))
               (None, Inf) (Obj.children o);
        Some ([node] ++ py_or best.1 [])
      else
        foldM (λ path child,
            child_path ← _find_path_obj fuel' h child minimize;
            Some (path ++ child_path))
          [node] (Obj.children o)
  end.

Definition find_easiest_path_obj (fuel : nat) (h : heap) (self : TreeObj.t)
    : option (list loc) :=
  _find_path_obj fuel h (TreeObj.root self) "difficulty".

Definition find_cheapest_path_obj (fuel : nat) (h : heap) (self : TreeObj.t)
    : option (list loc) :=
  _find_path_obj fuel h (TreeObj.root self) "cost".

Definition find_stealthiest_path_obj (fuel : nat) (h : heap) (self : TreeObj.t)
    : option (list loc) :=
  _find_path_obj fuel h (TreeObj.root self) "detection".

Fixpoint _node_to_dict_obj (fuel : nat) (h : heap) (node : loc) : option py :=
  match fuel with
  | O => None
  | S fuel' =>
      o ← h !! node;
      children ← mapM (_node_to_dict_obj fuel' h) (Obj.children o);
      Some (PyDict [
        ("id", PyStr (Obj.id o));
        ("name", PyStr (Obj.name o));
        ("description", PyStr (Obj.description o));
        ("type", PyStr (NodeType.value (Obj.node_type o)));
        ("attributes", PyDict [
          ("difficulty",
           PyStr (Difficulty.name (AttackAttributes.difficulty (Obj.attributes o))));
          ("cost",
           PyStr (Cost.name (AttackAttributes.cost (Obj.attributes o))));
          ("detection_risk",
           PyStr (DetectionRisk.name
                    (AttackAttributes.detection_risk (Obj.attributes o))));
          ("time_hours",
           PyFloat (AttackAttributes.time_hours (Obj.attributes o)))
        ]);
        ("mitigations", str_list (Obj.mitigations o));
        ("file_refs", str_list (Obj.file_refs o));
        ("children", PyList children)
      ])
  end.

Definition to_dict_obj (fuel : nat) (h : heap) (self : TreeObj.t) : option py :=
  root ← _node_to_dict_obj fuel h (TreeObj.root self);
  Some (PyDict [
    ("name", PyStr (TreeObj.name self));
    ("description", PyStr (TreeObj.description self));
    ("severity", PyStr (TreeObj.severity self));
    ("version", PyStr (TreeObj.version self));
    ("root", root)
  ]).

Definition _get_leaf_style_obj (o : Obj.t) : string :=
  let color :=
    dict_get MermaidExporter.colors
      (AttackAttributes.difficulty (Obj.attributes o)) "fill:#gray" in
  let has_mitigation :=
    if Obj.mitigations o is [] then ""
    else "stroke:#51cf66,stroke-width:3px" in
  if negb (truthy has_mitigation) then color
  else "fill:#d3f9d8," +:+ has_mitigation.

Fixpoint _export_node_obj {T} (fuel : nat) (h : heap) (node : loc)
    (parent_id : option string) : StateO (MermaidExporter.t T) string :=
  match fuel with
  | O => so_fail
  | S fuel' =>
      match h !! node with
      | None => so_fail
      | Some o =>
          (let! node_id := so_lift (MermaidExporter.node_id_of (Obj.id o)) in
           let! shape :=
             so_lift
               match Obj.node_type o with
               | NodeType.OR =>
                   st_ret (node_id +:+ "(('" +:+ Obj.name o +:+ "')")
               | NodeType.AND =>
                   st_ret (node_id +:+ "['" +:+ Obj.name o +:+ "']")
               | NodeType.LEAF =>
                   let style := _get_leaf_style_obj o in
                   let shape := node_id +:+ "['" +:+ Obj.name o +:+ "']" in
                   (MermaidExporter.append
                      ("    style " +:+ node_id +:+ " " +:+ style);;
                    st_ret shape)%py
               end in
           so_lift (MermaidExporter.append ("    " +:+ shape));;
           so_lift
             match parent_id with
             | Some parent_id =>
                 if truthy parent_id then
                   let connector :=
                     if bool_decide (Obj.node_type o ≠ NodeType.AND) then "-->"
                     else "==>" in
                   MermaidExporter.append
                     ("    " +:+ parent_id +:+ " " +:+ connector +:+ " "
                      +:+ node_id)
                 else st_ret tt
             | None => st_ret tt
             end;;
           so_for_each
             (λ child, _export_node_obj fuel' h child (Some node_id))
             (Obj.children o);;
           so_ret node_id)%pyo
      end
  end.

Definition export_obj (fuel : nat) (h : heap)
    : StateO (MermaidExporter.t TreeObj.t) string :=
  (so_lift (MermaidExporter.set_lines ["flowchart TD"]);;
   let! self := so_lift st_get in
   _export_node_obj fuel h (TreeObj.root (MermaidExporter.tree self)) None;;
   so_lift MermaidExporter._add_legend;;
   let! self := so_lift st_get in
   so_ret (str_join nl (MermaidExporter._lines self)))%pyo.

(** ** The specification *)

(** The exporter with another value of the attribute [tree]. *)
Definition with_tree {T U} (tree : U) (self : MermaidExporter.t T)
    : MermaidExporter.t U :=
  MermaidExporter.mk tree (MermaidExporter._lines self)
    (MermaidExporter._node_count self) (MermaidExporter._node_ids self).

(** [m'] does to an exporter what [m] does, whatever [tree] holds. *)
Definition tree_blind {T U A} (m : State (MermaidExporter.t T) A)
    (m' : State (MermaidExporter.t U) A) : Prop :=
  ∀ (u : U) self, m' (with_tree u self) = ((m self).1, with_tree u (m self).2).

(** The object at [l] is a LEAF. *)
Definition leaf_at (h : heap) (l : loc) : Prop :=
  Obj.is_leaf <$> h !! l = Some true.

(** The pair [(best_path, best_score)] of the OR loop over references
    stands for the pair of the loop over nodes. *)
Definition best_denotes (h : heap) (best_obj : option (list loc) * Score)
    (best : option (list AttackNode.t) * Score) : Prop :=
  option_Forall2 (Forall2 (denotes h)) best_obj.1 best.1 ∧ best_obj.2 = best.2.

#[export] Instance leaf_at_dec h l : Decision (leaf_at h l).
Proof. unfold leaf_at. apply _. Defined.

(** ** The walk and the pre-order listing of references *)

Section collect.
Context (h : heap).
Implicit Types node l : loc.
Implicit Types leaves ls : list loc.
Implicit Types n : AttackNode.t.

Lemma collect_leaves_obj_unfold fuel node leaves :
  _collect_leaves_obj (S fuel) h node leaves
  = o ← h !! node;
    foldM (λ leaves child, _collect_leaves_obj fuel h child leaves)
      (if Obj.is_leaf o then leaves ++ [node] else leaves) (Obj.children o).
Proof. done. Qed.

Lemma leaf_at_lookup l o : h !! l = Some o → leaf_at h l ↔ Obj.is_leaf o = true.
Proof. rw /leaf_at=> -> /=. split; [by intros [= ?]|by intros ->]. Qed.

(** A loop of walks that each append the leaves they list. *)
Lemma collect_leaves_obj_children fuel (cs : list loc) leaves :
  (∀ c leaves, _collect_leaves_obj fuel h c leaves
     = (λ ls, leaves ++ filter (leaf_at h) ls) <$> locs fuel h c) →
  foldM (λ leaves child, _collect_leaves_obj fuel h child leaves) leaves cs
  = (λ lss, leaves ++ filter (leaf_at h) (mjoin lss)) <$> mapM (locs fuel h) cs.
Proof.
  intros IH. revert leaves.
  induction cs as [|c cs IHcs]=> leaves /=; [by rw app_nil_r|].
  rw IH. destruct (locs fuel h c) as [ls|]; [|done].
  rw /= IHcs. destruct (mapM _ cs) as [lss|]; [|done].
  by rw /= filter_app app_assoc.
Qed.

(** With every bound, the walk appends the leaves among the objects that
    the pre-order walk lists, and fails when that walk fails. *)
Lemma collect_leaves_obj_locs fuel node leaves :
  _collect_leaves_obj fuel h node leaves
  = (λ ls, leaves ++ filter (leaf_at h) ls) <$> locs fuel h node.
Proof.
  revert node leaves. induction fuel as [|fuel IH]=> node leaves; [done|].
  rw collect_leaves_obj_unfold locs_unfold.
  destruct (h !! node) as [o|] eqn:Ho; [|done].
  rw /= collect_leaves_obj_children //.
  destruct (mapM _ _) as [lss|]; [|done].
  rw /= filter_cons. case_decide as Hleaf; rw (leaf_at_lookup node o Ho) in Hleaf;
    destruct (Obj.is_leaf o); by rw -?app_assoc.
Qed.

(** An object that stands for a node is a LEAF when the node is. *)
Lemma leaf_at_denotes l n : denotes h l n → leaf_at h l ↔ is_leaf n = true.
Proof.
  intros (o & Ho & -> & _)%denotes_inv. by rw (leaf_at_lookup l o).
Qed.

Lemma leaves_denotes ls (ns : list AttackNode.t) :
  Forall2 (denotes h) ls ns →
  Forall2 (denotes h) (filter (leaf_at h) ls) (leaves_of ns).
Proof. apply Forall2_filter. apply leaf_at_denotes. Qed.

End collect.

(** ** Serialization of objects *)

Section serialize.
Context (h : heap).

(** With every bound, the dictionary of an object is the dictionary of
    the value that [read] returns with that bound. *)
Lemma node_to_dict_obj_read fuel (node : loc) :
  _node_to_dict_obj fuel h node = _node_to_dict <$> read fuel h node.
Proof.
  revert node. induction fuel as [|fuel IH]=> node; [done|].
  rw read_unfold /=. destruct (h !! node) as [o|]; [|done].
  rw /= (mapM_fmap_ext (read fuel h) _ _node_to_dict) //.
  by destruct (mapM (read fuel h) (Obj.children o)).
Qed.

Lemma to_dict_obj_read_tree (self : TreeObj.t) :
  to_dict_obj (length h) h self = to_dict <$> read_tree h self.
Proof.
  rw /to_dict_obj /read_tree node_to_dict_obj_read.
  by destruct (read (length h) h (TreeObj.root self)).
Qed.

End serialize.

(** ** The search over references *)

Section search.
Context (h : heap) (minimize : string).
Implicit Types node l : loc.
Implicit Types path p : list loc.
Implicit Types n : AttackNode.t.

Lemma find_path_obj_unfold fuel node :
  _find_path_obj (S fuel) h node minimize
  = o ← h !! node;
    if Obj.is_leaf o then Some [node]
    else if Obj.children o is [] then Some [node]
    else if decide (Obj.node_type o = NodeType.OR) then
      best ← foldM (λ best child,
                child_path ← _find_path_obj fuel h child minimize;
                Some (or_step_obj h minimize best child_path))
             (None, Inf) (Obj.children o);
      Some ([node] ++ py_or best.1 [])
    else
      foldM (λ path child,
          child_path ← _find_path_obj fuel h child minimize;
          Some (path ++ child_path))
        [node] (Obj.children o).
Proof. done. Qed.

(** The LEAF objects of a path stand for the LEAF nodes of its value. *)
Lemma leaves_of_obj_denotes path (ns : list AttackNode.t) :
  Forall2 (denotes h) path ns →
  Forall2 (λ o n, AttackNode.attributes n = Obj.attributes o)
    (leaves_of_obj h path) (leaves_of ns).
Proof.
  induction 1 as [|l n path ns Hn _ IH]; [constructor|].
  destruct (denotes_inv h l n Hn) as (o & Ho & Hval & _).
  rw /leaves_of_obj /= Ho /= filter_cons leaves_of_cons.
  replace (is_leaf n) with (Obj.is_leaf o) by by rw Hval.
  destruct (Obj.is_leaf o); case_decide; try done.
  constructor; [by rw Hval|done].
Qed.

Lemma path_score_obj_denotes path (ns : list AttackNode.t) :
  Forall2 (denotes h) path ns →
  _path_score_obj h path minimize = _path_score ns minimize.
Proof.
  intros Hleaves%leaves_of_obj_denotes. rw /_path_score_obj /_path_score.
  repeat case_match; try done; f_equal;
    (apply list_eq_Forall2, Forall2_fmap; eapply Forall2_impl; [done|]);
    intros o n Hon;
    by rw /difficulty_of /cost_of /detection_of /difficulty_of_obj /cost_of_obj
          /detection_of_obj Hon.
Qed.

Lemma or_step_obj_denotes best_obj best p (np : list AttackNode.t) :
  best_denotes h best_obj best → Forall2 (denotes h) p np →
  best_denotes h (or_step_obj h minimize best_obj p) (or_step minimize best np).
Proof.
  intros [Hpath Hscore] Hp.
  rw /or_step_obj /or_step (path_score_obj_denotes p np) // Hscore.
  case_match; [|done]. split; [by constructor|done].
Qed.

(** The two loops over the children, when the search of every child
    returns a path that stands for the child's best path. *)
Lemma find_path_obj_loops fuel node n (cs : list loc) (ms : list AttackNode.t) :
  Forall2 (λ c m, ∃ p, _find_path_obj fuel h c minimize = Some p
                       ∧ Forall2 (denotes h) p (_find_path m minimize)) cs ms →
  denotes h node n →
  (∃ best_obj,
     foldM (λ best child,
         child_path ← _find_path_obj fuel h child minimize;
         Some (or_step_obj h minimize best child_path)) (None, Inf) cs
     = Some best_obj
     ∧ best_denotes h best_obj
         (foldl (λ best c, or_step minimize best (_find_path c minimize))
            (None, Inf) ms))
  ∧ (∃ p,
       foldM (λ path child,
           child_path ← _find_path_obj fuel h child minimize;
           Some (path ++ child_path)) [node] cs
       = Some p
       ∧ Forall2 (denotes h) p
           (foldl (λ acc c, acc ++ _find_path c minimize) [n] ms)).
Proof.
  intros Hsub Hn. split.
  - apply (foldM_refines (best_denotes h)); [|split; [constructor|done]].
    eapply Forall2_impl; [done|]. intros c m (p & Hp & Hpm) b b' Hb.
    rw Hp /=. eexists. split; [done|]. by apply or_step_obj_denotes.
  - apply (foldM_refines (Forall2 (denotes h))); [|by repeat constructor].
    eapply Forall2_impl; [done|]. intros c m (p & Hp & Hpm) b b' Hb.
    rw Hp /=. eexists. split; [done|]. by apply Forall2_app.
Qed.

(** The search returns when the bound is at least the height of the
    value, with a path that stands for the best path of the value. *)
Lemma find_path_obj_height n node fuel :
  denotes h node n → height n ≤ fuel →
  ∃ p, _find_path_obj fuel h node minimize = Some p
       ∧ Forall2 (denotes h) p (_find_path n minimize).
Proof.
  revert node fuel. node_induction n=> node fuel Hn Hfuel.
  destruct fuel as [|fuel]; [rw height_unfold in Hfuel; lia|].
  destruct (denotes_inv h node n Hn) as (o & Ho & Hval & Hcs).
  destruct (find_path_obj_loops fuel node n (Obj.children o)
              (AttackNode.children n)) as [(best & Hbest & Hb) (p & Hp & Hpp)];
    [|done|].
  { apply (Forall2_impl_r (denotes h)); [|done]. rw Forall_forall in IH.
    apply Forall_forall=> m Hm c Hc. apply IH; [done..|].
    pose proof (height_child n m Hm). lia. }
  rw find_path_obj_unfold Ho /= Hbest Hp /= find_path_unfold.
  replace (is_leaf n) with (Obj.is_leaf o) by by rw Hval.
  replace (AttackNode.node_type n) with (Obj.node_type o) by by rw Hval.
  destruct (Obj.is_leaf o); [exists [node]; by repeat constructor|].
  inversion Hcs as [Eo En|c m cs ms Hc Hcs' Eo En]; rw -?Eo -?En;
    [exists [node]; by repeat constructor|].
  rw -En in Hb. rw -En in Hpp. case_decide; [|by exists p].
  eexists. split; [done|].
  constructor; [done|]. destruct Hb as [Hpath _].
  destruct Hpath as [p1 p2 [|? ? ? ? ? ?]|]; by repeat constructor.
Qed.

End search.

(** ** The exporter over references *)

Section export.
Context (h : heap) {T : Type}.
Implicit Types node : loc.
Implicit Types n : AttackNode.t.
Implicit Types self : MermaidExporter.t T.

(** The walk of the exporter returns when the bound is at least the
    height of the value, with the result and the state of the walk of the
    value. *)
Lemma export_node_obj_height n node fuel parent_id :
  denotes h node n → height n ≤ fuel →
  so_refines (_export_node_obj (T:=T) fuel h node parent_id)
    (MermaidExporter._export_node n parent_id).
Proof.
  revert node fuel parent_id. node_induction n=> node fuel parent_id Hn Hfuel.
  destruct fuel as [|fuel]; [rw height_unfold in Hfuel; lia|].
  destruct (denotes_inv h node n Hn) as (o & Ho & Hval & Hcs).
  assert (Forall2 (λ c m, ∀ p,
            so_refines (_export_node_obj (T:=T) fuel h c p)
              (MermaidExporter._export_node m p))
            (Obj.children o) (AttackNode.children n)) as Hsub.
  { apply (Forall2_impl_r (denotes h)); [|done]. rw Forall_forall in IH.
    apply Forall_forall=> m Hm c Hc p. apply IH; [done..|].
    pose proof (height_child n m Hm). lia. }
  clear IH Hn Hfuel Hcs. destruct n. injection Hval as -> -> -> -> -> -> -> ->.
  cbn [_export_node_obj MermaidExporter._export_node]. rw Ho.
  repeat (apply so_refines_bind; [apply so_refines_lift|intros ?]).
  apply so_refines_bind; [|intros _; apply so_refines_ret].
  apply so_refines_for_each. eapply Forall2_impl; [exact Hsub|].
  intros c m Hcm. apply Hcm.
Qed.

End export.

(** ** The attribute [tree] and the methods that do not read it *)

Section tree_blind.
Context {T U : Type}.
#[local] Abbreviation blind := (tree_blind (T:=T) (U:=U)).

Lemma tree_blind_ret {A} (a : A) : blind (st_ret a) (st_ret a).
Proof. done. Qed.

Lemma tree_blind_bind {A B} m m' (f : A → State _ B) f' :
  blind m m' → (∀ a, blind (f a) (f' a)) → blind (st_bind m f) (st_bind m' f').
Proof.
  intros Hm Hf u self. rw /st_bind Hm. destruct (m self) as [a self']. apply Hf.
Qed.

Lemma tree_blind_for_each {A B} (f : A → State _ B) f' l :
  Forall (λ x, blind (f x) (f' x)) l → blind (for_each f l) (for_each f' l).
Proof.
  induction 1 as [|x l Hx _ IH]; [done|]. by apply tree_blind_bind.
Qed.

Lemma tree_blind_append line :
  blind (MermaidExporter.append line) (MermaidExporter.append line).
Proof. done. Qed.

Lemma tree_blind_node_id_of key :
  blind (MermaidExporter.node_id_of key) (MermaidExporter.node_id_of key).
Proof.
  intros u self. rw /MermaidExporter.node_id_of /=. by case_match.
Qed.

Lemma tree_blind_add_legend :
  blind MermaidExporter._add_legend MermaidExporter._add_legend.
Proof. done. Qed.

Lemma tree_blind_export_node n parent_id :
  blind (MermaidExporter._export_node n parent_id)
    (MermaidExporter._export_node n parent_id).
Proof.
  revert parent_id. node_induction n=> parent_id. destruct n.
  cbn [MermaidExporter._export_node].
  apply tree_blind_bind; [apply tree_blind_node_id_of|intros node_id].
  apply tree_blind_bind; [by repeat case_match|intros shape].
  apply tree_blind_bind; [done|intros _].
  apply tree_blind_bind; [by repeat case_match|intros _].
  apply tree_blind_bind; [|done].
  apply tree_blind_for_each. eapply Forall_impl; [exact IH|].
  intros m Hm. apply Hm.
Qed.

End tree_blind.

Lemma export_node_keeps_tree {T} n parent_id (self : MermaidExporter.t T) :
  MermaidExporter.tree (MermaidExporter._export_node n parent_id self).2
  = MermaidExporter.tree self.
Proof.
  destruct self as [u lines count memo].
  by rw (tree_blind_export_node n parent_id u (MermaidExporter.mk u lines count memo)).
Qed.

(** ** The methods of a tree object *)

Lemma export_obj_read_tree h fuel (self : MermaidExporter.t TreeObj.t) tree :
  read_tree h (MermaidExporter.tree self) = Some tree →
  height (AttackTree.root tree) ≤ fuel →
  export_obj fuel h self
  = Some ((MermaidExporter.export (with_tree tree self)).1,
          with_tree (MermaidExporter.tree self)
            (MermaidExporter.export (with_tree tree self)).2).
Proof.
  rw /read_tree. intros (n & Hn%read_sound & [= <-])%bind_Some Hheight.
  simpl in Hheight. destruct self as [t lines count memo]. simpl in Hn.
  rw /export_obj /MermaidExporter.export /so_bind /so_lift /st_bind /=.
  rw (export_node_obj_height h n _ fuel None Hn Hheight _) /=.
  pose proof (export_node_keeps_tree n None
                (MermaidExporter.mk t ["flowchart TD"] count memo)) as Htree.
  pose proof (tree_blind_export_node n None
                (AttackTree.mk (TreeObj.name t) (TreeObj.description t) n
                   (TreeObj.version t) (TreeObj.severity t))
                (MermaidExporter.mk t ["flowchart TD"] count memo)) as Hblind.
  rw /with_tree /= in Hblind. rw Hblind.
  destruct (MermaidExporter._export_node n None _) as [r self']. simpl in *.
  by rw /so_ret /with_tree /= Htree.
Qed.

Section methods.
Context (h : heap) (fuel : nat) (self : TreeObj.t) (tree : AttackTree.t).
Context (Hself : read_tree h self = Some tree).

Lemma read_tree_root : denotes h (TreeObj.root self) (AttackTree.root tree).
Proof using Hself.
  move: Hself. rw /read_tree. by intros (n & Hn%read_sound & [= <-])%bind_Some.
Qed.

Lemma read_tree_fields :
  AttackTree.name tree = TreeObj.name self
  ∧ AttackTree.description tree = TreeObj.description self
  ∧ AttackTree.version tree = TreeObj.version self
  ∧ AttackTree.severity tree = TreeObj.severity self.
Proof using Hself.
  move: Hself. rw /read_tree. by intros (n & _ & [= <-])%bind_Some.
Qed.

Context (Hfuel : height (AttackTree.root tree) ≤ fuel).

Lemma to_dict_obj_enough : to_dict_obj fuel h self = Some (to_dict tree).
Proof using Hself Hfuel.
  destruct read_tree_fields as (Hname & Hdescription & Hversion & Hseverity).
  rw /to_dict_obj node_to_dict_obj_read
     (read_height h _ _ fuel read_tree_root Hfuel) /to_dict /=.
  by rw Hname Hdescription Hversion Hseverity.
Qed.

Lemma get_all_leaf_attacks_obj_enough :
  ∃ ls, get_all_leaf_attacks_obj fuel h self = Some ls
        ∧ Forall2 (denotes h) ls (get_all_leaf_attacks tree).
Proof using Hself Hfuel.
  destruct (locs_height h _ _ fuel read_tree_root Hfuel) as (ls & Hls & Hall).
  exists (filter (leaf_at h) ls).
  rw /get_all_leaf_attacks_obj collect_leaves_obj_locs Hls get_all_leaf_attacks_spec.
  split; [done|]. by apply leaves_denotes.
Qed.

Lemma get_unmitigated_attacks_obj_enough :
  ∃ ls, get_unmitigated_attacks_obj fuel h self = Some ls
        ∧ Forall2 (denotes h) ls (get_unmitigated_attacks tree).
Proof using Hself Hfuel.
  destruct get_all_leaf_attacks_obj_enough as (ls & Hls & Hall).
  exists (filter (unmitigated_at h) ls). rw /get_unmitigated_attacks_obj Hls.
  split; [done|]. apply Forall2_filter; [|done].
  intros l n (o & Ho & Hval & _)%denotes_inv.
  rw /unmitigated_at /unmitigated Ho Hval /=. split; [by intros [= ?]|by intros ->].
Qed.

Lemma find_easiest_path_obj_enough :
  ∃ p, find_easiest_path_obj fuel h self = Some p
       ∧ Forall2 (denotes h) p (find_easiest_path tree).
Proof using Hself Hfuel.
  apply find_path_obj_height; [apply read_tree_root|done].
Qed.

Lemma export_obj_init :
  fst <$> export_obj fuel h (MermaidExporter.__init__ self)
  = Some (MermaidExporter.export (MermaidExporter.__init__ tree)).1.
Proof using Hself Hfuel.
  by rw (export_obj_read_tree h fuel (MermaidExporter.__init__ self) tree).
Qed.

End methods.

(** ** The theorems *)

(** C13. Termination of the walks over objects.  When the object at
    [node] stands for a node, the height of that node is at most the
    number of allocated objects, and [_collect_leaves], [_find_path],
    [_node_to_dict] and [_export_node] return with every bound on the
    depth of the recursion that is at least that height.
    [_collect_leaves] appends to the list it is given references to the
    nodes that [_collect_leaves] of the value model lists, in the same
    order; [_find_path] returns references to the nodes of the best path
    of the value model, in the same order, and [_path_score] of the
    references is the score of that path; [_node_to_dict] returns the
    dictionary of the value; [_export_node] returns the identifier and
    leaves the exporter that the walk of the value leaves.  When [node]
    lies on a cycle of references [_collect_leaves] returns with no
    bound: the recursion of the source does not end. *)
Theorem walks_terminate (h : heap) (node : loc) :
  (∀ n, denotes h node n →
     height n ≤ length h ∧
     ∀ fuel, height n ≤ fuel →
     (∀ leaves, ∃ ls,
        _collect_leaves_obj fuel h node leaves = Some (leaves ++ ls)
        ∧ Forall2 (denotes h) ls (_collect_leaves n [])) ∧
     (∀ minimize, ∃ p,
        _find_path_obj fuel h node minimize = Some p
        ∧ Forall2 (denotes h) p (_find_path n minimize)
        ∧ _path_score_obj h p minimize
          = _path_score (_find_path n minimize) minimize) ∧
     _node_to_dict_obj fuel h node = Some (_node_to_dict n) ∧
     (∀ T parent_id (self : MermaidExporter.t T),
        _export_node_obj fuel h node parent_id self
        = Some (MermaidExporter._export_node n parent_id self))) ∧
  (tc (edge h) node node →
     ∀ fuel leaves, _collect_leaves_obj fuel h node leaves = None).
Proof.
  split; [|intros Hcycle fuel leaves; by rw collect_leaves_obj_locs locs_cycle].
  intros n Hn. split; [by eapply denotes_height|]. intros fuel Hfuel. split_and!.
  - intros leaves.
    destruct (locs_height h node n fuel Hn Hfuel) as (ls & Hls & Hall).
    exists (filter (leaf_at h) ls). rw collect_leaves_obj_locs Hls.
    split; [done|]. rw collect_leaves_spec /=. by apply leaves_denotes.
  - intros minimize.
    destruct (find_path_obj_height h minimize n node fuel) as (p & Hp & Hpath);
      [done..|].
    exists p. split_and!; [done..|]. by apply path_score_obj_denotes.
  - by rw node_to_dict_obj_read (read_height h n node).
  - intros T parent_id. by apply export_node_obj_height.
Qed.

(** C19. [export] over objects refines [export] over values: for an
    exporter whose tree object stands for a tree, and every bound on the
    depth of the recursion that is at least the height of the tree,
    it returns the text that [export] returns for that tree and
    leaves the same lines, counter and memo; the attribute [tree] still
    holds the tree object. *)
Theorem export_obj_refines h fuel (self : MermaidExporter.t TreeObj.t) tree :
  read_tree h (MermaidExporter.tree self) = Some tree →
  height (AttackTree.root tree) ≤ fuel →
  export_obj fuel h self
  = Some ((MermaidExporter.export (with_tree tree self)).1,
          with_tree (MermaidExporter.tree self)
            (MermaidExporter.export (with_tree tree self)).2).
Proof. apply export_obj_read_tree. Qed.

Lemma export_obj_refines_witness :
  export_obj 3 (exec (AddChild 0 2) small_heap)
    (MermaidExporter.__init__ (TreeObj.mk "Root" "" 0 "1.0" "Medium"))
  = Some ((MermaidExporter.export
             (with_tree (Examples.tree Examples.or_tree)
                (MermaidExporter.__init__ (TreeObj.mk "Root" "" 0 "1.0" "Medium")))).1,
          with_tree (TreeObj.mk "Root" "" 0 "1.0" "Medium")
            (MermaidExporter.export
               (with_tree (Examples.tree Examples.or_tree)
                  (MermaidExporter.__init__
                     (TreeObj.mk "Root" "" 0 "1.0" "Medium")))).2).
Proof.
  apply (export_obj_refines (exec (AddChild 0 2) small_heap) 3);
    [reflexivity|vm_compute; lia].
Defined.
