(* ===== verification/Limits.v ===== *)
(** * The walks and the recursion limit

    The walks of [Walks.v] take the bound on the depth of their recursion
    as a parameter.  This file shows what the bound can and cannot do, on
    every store, the stores with cycles and shared objects included.

    - A larger bound only makes the result more defined ([fuel_mono]): the
      bound decides whether a walk returns, never what it returns.
    - [_collect_leaves], [_node_to_dict] and [_export_node] visit every
      object below the node: they return with a bound exactly when the
      object stands for a node whose height is at most the bound, and
      with no bound when it stands for none.
    - [_find_path] does not look below a LEAF: it returns on a store in
      which a LEAF was given children, even ones that close a cycle, and
      it diverges exactly as far as [edge_search] goes, the references
      held by objects that are not LEAFs. *)

From S2P Require Import Prelude Model PathSearch Leaves Serialize Mermaid.
From S2P Require Import Fuel Objects Walks.
From stdpp Require Import gmap.

(** ** The specification *)

(** [c] is a child of the object at [l], which is not a LEAF: the
    references that [_find_path] follows. *)
Definition edge_search (h : heap) (l c : loc) : Prop :=
  ∃ o, h !! l = Some o ∧ Obj.is_leaf o = false ∧ c ∈ Obj.children o.

(** The object at [node] stands for a node whose height is at most
    [fuel]: the recursion of a walk from [node] stays within the bound. *)
Definition within (h : heap) (node : loc) (fuel : nat) : Prop :=
  ∃ n, denotes h node n ∧ height n ≤ fuel.

(** A LEAF that was made its own child. *)
Definition leaf_loop : heap :=
  run [New (Obj.of_fields Examples.A); AddChild 0 0] [].

(** ** More fuel, more defined *)

Section mono.
Context (h : heap).
Implicit Types node : loc.

Lemma collect_leaves_obj_mono node leaves :
  fuel_mono (λ fuel, _collect_leaves_obj fuel h node leaves).
Proof.
  intros i j Hij. rw !collect_leaves_obj_locs.
  by apply lessdef_fmap, locs_mono.
Qed.

Lemma node_to_dict_obj_mono node :
  fuel_mono (λ fuel, _node_to_dict_obj fuel h node).
Proof.
  intros i j Hij. rw !node_to_dict_obj_read. by apply lessdef_fmap, read_mono.
Qed.

Lemma find_path_obj_mono node minimize :
  fuel_mono (λ fuel, _find_path_obj fuel h node minimize).
Proof.
  apply fuel_mono_S=> fuel. revert node.
  induction fuel as [|fuel IH]=> node; [constructor|].
  rw !find_path_obj_unfold. apply lessdef_bind; [reflexivity|]. intros o.
  repeat case_match; try reflexivity.
  - apply lessdef_bind; [|reflexivity].
    apply lessdef_foldM, Forall_forall=> c _ best.
    apply lessdef_bind; [apply IH|reflexivity].
  - apply lessdef_foldM, Forall_forall=> c _ path.
    apply lessdef_bind; [apply IH|reflexivity].
Qed.

Lemma export_node_obj_unfold {T} fuel node parent_id :
  _export_node_obj (T:=T) (S fuel) h node parent_id
  = match h !! node with
    | None => so_fail
    | Some o =>
        (let! node_id := so_lift (MermaidExporter.node_id_of (Obj.id o)) in
         let! shape :=
           so_lift
             match Obj.node_type o with
             | NodeType.OR =>
                 st_ret (node_id +:+ "(('" +:+ Obj.name o +:+ "')")
             | NodeType.AND =>
                 st_ret (node_id +:+ "['" +:+ Obj.name o +:+ "']")
             | NodeType.LEAF =>
                 let style := _get_leaf_style_obj o in
                 let shape := node_id +:+ "['" +:+ Obj.name o +:+ "']" in
                 (MermaidExporter.append
                    ("    style " +:+ node_id +:+ " " +:+ style);;
                  st_ret shape)%py
             end in
         so_lift (MermaidExporter.append ("    " +:+ shape));;
         so_lift
           match parent_id with
           | Some parent_id =>
               if truthy parent_id then
                 let connector :=
                   if bool_decide (Obj.node_type o ≠ NodeType.AND) then "-->"
                   else "==>" in
                 MermaidExporter.append
                   ("    " +:+ parent_id +:+ " " +:+ connector +:+ " "
                    +:+ node_id)
               else st_ret tt
           | None => st_ret tt
           end;;
         so_for_each
           (λ child, _export_node_obj fuel h child (Some node_id))
           (Obj.children o);;
         so_ret node_id)%pyo
    end.
Proof. done. Qed.

Lemma export_node_obj_mono {T} node parent_id (self : MermaidExporter.t T) :
  fuel_mono (λ fuel, _export_node_obj fuel h node parent_id self).
Proof.
  apply fuel_mono_S=> fuel. revert node parent_id self.
  induction fuel as [|fuel IH]=> node parent_id self; [constructor|].
  rw !export_node_obj_unfold. destruct (h !! node) as [o|]; [|reflexivity].
  do 4 (apply lessdef_so_bind; [reflexivity|intros ? ?]).
  apply lessdef_so_bind; [|intros; reflexivity].
  apply lessdef_so_for_each, Forall_forall=> c _ s. apply IH.
Qed.

End mono.

(** ** The bound that a walk needs *)

Section exact.
Context (h : heap).
Implicit Types node l c : loc.

(** [_export_node] calls itself where [read] does. *)
Lemma export_node_obj_read {T} fuel node parent_id (self : MermaidExporter.t T) :
  is_Some (_export_node_obj fuel h node parent_id self) →
  is_Some (read fuel h node).
Proof.
  revert node parent_id self.
  induction fuel as [|fuel IH]=> node parent_id self; [by intros [? ?]|].
  rw export_node_obj_unfold read_unfold.
  destruct (h !! node) as [o|]; [|by intros [? ?]].
  do 4 (intros (? & ? & _ & Hs)%so_bind_is_Some; revert Hs).
  intros (? & ? & Hloop & _)%so_bind_is_Some. cbn [mbind option_bind].
  assert (is_Some (mapM (read fuel h) (Obj.children o))) as [ms ->]; [|done].
  apply mapM_is_Some, Forall_forall=> c Hc.
  destruct (so_for_each_is_Some _ _ _ c (mk_is_Some _ _ Hloop) Hc) as [s' Hs'].
  by eapply IH.
Qed.

(** The walks that visit every object below [node] return exactly with
    the bounds that [read] returns with: the height of the node that the
    object stands for, and more. *)
Lemma read_is_Some fuel node : is_Some (read fuel h node) ↔ within h node fuel.
Proof. rw /is_Some /within. by setoid_rewrite read_exact. Qed.

Lemma collect_leaves_obj_exact fuel node leaves :
  is_Some (_collect_leaves_obj fuel h node leaves) ↔ is_Some (read fuel h node).
Proof.
  rw collect_leaves_obj_locs fmap_is_Some.
  split; [apply locs_read|apply read_locs].
Qed.

Lemma node_to_dict_obj_exact fuel node :
  is_Some (_node_to_dict_obj fuel h node) ↔ is_Some (read fuel h node).
Proof. by rw node_to_dict_obj_read fmap_is_Some. Qed.

Lemma export_node_obj_exact {T} fuel node parent_id (self : MermaidExporter.t T) :
  is_Some (_export_node_obj fuel h node parent_id self)
  ↔ is_Some (read fuel h node).
Proof.
  split; [apply export_node_obj_read|].
  intros [n (Hn & Hheight)%read_exact].
  by rw (export_node_obj_height h n node fuel parent_id Hn Hheight self).
Qed.

(** [_find_path] calls itself on the children of an object that is not
    a LEAF. *)
Lemma find_path_obj_descends minimize :
  descends (λ fuel l, _find_path_obj fuel h l minimize) (edge_search h).
Proof.
  split; [done|]. intros fuel l c (o & Ho & Hleaf & Hc).
  rw find_path_obj_unfold Ho /= Hleaf.
  destruct (Obj.children o) as [|c' cs] eqn:Hcs; [by apply elem_of_nil in Hc|].
  case_decide.
  - intros [p (best & Hbest & _)%bind_Some].
    destruct (foldM_is_Some _ _ _ c (mk_is_Some _ _ Hbest) Hc) as (b & Hb).
    destruct (_find_path_obj fuel h c minimize); [done|by destruct Hb].
  - intros Hp. destruct (foldM_is_Some _ _ _ c Hp Hc) as (b & Hb).
    destruct (_find_path_obj fuel h c minimize); [done|by destruct Hb].
Qed.

(** It does not return on a cycle of such references, ... *)
Lemma find_path_obj_cycle minimize l :
  tc (edge_search h) l l → diverges (λ fuel, _find_path_obj fuel h l minimize).
Proof.
  apply (descends_cycle (λ fuel l, _find_path_obj fuel h l minimize)),
    find_path_obj_descends.
Qed.

(** ... and a chain of [n] of them takes a bound of more than [n]. *)
Lemma find_path_obj_chain minimize n fuel l c :
  nsteps (edge_search h) n l c →
  is_Some (_find_path_obj fuel h l minimize) → n < fuel.
Proof.
  intros Hsteps Hl.
  by destruct (descends_nsteps _ _ (find_path_obj_descends minimize)
                 n fuel l c Hsteps Hl).
Qed.

Lemma edge_search_edge l c : edge_search h l c → edge h l c.
Proof. intros (o & Ho & _ & Hc). by exists o. Qed.

End exact.

(** ** The theorems *)

(** C14. The bound that the walks need, on every store.  [_collect_leaves],
    [_node_to_dict] and [_export_node] return from the object at [node]
    with the bound [fuel] on the depth of the recursion exactly when the
    object stands for a node whose height is at most [fuel]: with a
    smaller bound, on a cycle of references and on a reference to no
    object they do not return, and nothing else stops them.  The bound
    decides whether a walk returns, never what it returns: a walk that
    returns with a bound returns the same, and [_export_node] leaves the
    same exporter, with every larger bound. *)
Theorem walks_bound (h : heap) (node : loc) (fuel : nat) :
  (∀ leaves, is_Some (_collect_leaves_obj fuel h node leaves)
             ↔ within h node fuel)
  ∧ (is_Some (_node_to_dict_obj fuel h node) ↔ within h node fuel)
  ∧ (∀ T parent_id (self : MermaidExporter.t T),
       is_Some (_export_node_obj fuel h node parent_id self)
       ↔ within h node fuel)
  ∧ ∀ fuel', fuel ≤ fuel' →
      (∀ leaves, _collect_leaves_obj fuel h node leaves
                 ⊑ _collect_leaves_obj fuel' h node leaves)
      ∧ (∀ minimize, _find_path_obj fuel h node minimize
                     ⊑ _find_path_obj fuel' h node minimize)
      ∧ _node_to_dict_obj fuel h node ⊑ _node_to_dict_obj fuel' h node
      ∧ (∀ T parent_id (self : MermaidExporter.t T),
           _export_node_obj fuel h node parent_id self
           ⊑ _export_node_obj fuel' h node parent_id self).
Proof.
  split_and!; try (intros; (etrans; [|apply read_is_Some])).
  - apply collect_leaves_obj_exact.
  - apply node_to_dict_obj_exact.
  - apply export_node_obj_exact.
  - intros fuel' Hfuel. split_and!; intros.
    + by apply collect_leaves_obj_mono.
    + by apply find_path_obj_mono.
    + by apply node_to_dict_obj_mono.
    + by apply export_node_obj_mono.
Qed.

(** C23. [_find_path] does not look below a LEAF.  It follows the
    references held by the objects that are not LEAFs: a chain of [n] of
    them below [node] takes a bound of more than [n], and on a cycle of
    them it returns with no bound.  On a LEAF that was made its own child
    it returns the LEAF, where [_collect_leaves] and [_node_to_dict]
    return with no bound. *)
Theorem find_path_obj_stops_at_leaf (h : heap) (minimize : string) (node : loc) :
  (∀ n c fuel, nsteps (edge_search h) n node c →
     is_Some (_find_path_obj fuel h node minimize) → n < fuel)
  ∧ (tc (edge_search h) node node →
     ∀ fuel, _find_path_obj fuel h node minimize = None)
  ∧ (∀ fuel, _find_path_obj (S fuel) leaf_loop 0 minimize = Some [0])
  ∧ (∀ fuel,
       _collect_leaves_obj fuel leaf_loop 0 [] = None
       ∧ _node_to_dict_obj fuel leaf_loop 0 = None).
Proof.
  split_and!.
  - intros n c fuel. apply find_path_obj_chain.
  - apply find_path_obj_cycle.
  - done.
  - assert (tc (edge leaf_loop) 0 0) as Hloop.
    { apply tc_once. eexists. split; [done|]. apply list_elem_of_here. }
    intros fuel. split.
    + by rw collect_leaves_obj_locs locs_cycle.
    + by rw node_to_dict_obj_read read_cycle.
Qed.
