(* ===== verification/Construct.v ===== *)
(** * The construction routines over the store

    The four construction routines of [attack-trees-analysis.py] (lines
    247-796) as the source runs them: every [AttackNode(...)] allocates an
    object, every [add_child] mutates the receiver through its reference,
    in the order of the statements, and [generate_all_reports] (lines
    801-806) calls the four routines one after the other in one store.

    A routine is a program [Build.t]: a tree of the two operations of the
    store.  [Build.interp] runs a program in the state monad over the store
    with [Heap.alloc] and [Heap.add_child]; [Build.trace] lists the
    operations it performs, so that [Build.checked] can test the guard of
    [Objects.v] before every one of them.  The theorems show that the
    routines respect the guard, and that the trees of [Trees.v], built
    from values, are the values of the objects the routines build. *)

From S2P Require Import Prelude Model Objects Trees Report.

(** ** Programs over the store *)

Declare Scope build_scope.
Delimit Scope build_scope with build.

Module Build.
Inductive t (A : Type) : Type :=
| Done (a : A)
| Alloc (o : Obj.t) (k : loc → t A)
| Link (self child : loc) (k : t A).
Arguments Done {A} a.
Arguments Alloc {A} o k.
Arguments Link {A} self child k.

Definition ret {A} (a : A) : t A := Done a.

Fixpoint bind {A B} (m : t A) (f : A → t B) : t B :=
  match m with
  | Done a => f a
  | Alloc o k => Alloc o (λ l, bind (k l) f)
  | Link self child k => Link self child (bind k f)
  end.

(** [AttackNode(...)]. *)
Definition alloc (o : Obj.t) : t loc := Alloc o Done.

(** [self.add_child(child)]. *)
Definition add_child (self child : loc) : t unit := Link self child (Done tt).

(** Running a program in the store. *)
Fixpoint interp {A} (m : t A) : State heap A :=
  match m with
  | Done a => st_ret a
  | Alloc o k => st_bind (Heap.alloc o) (λ l, interp (k l))
  | Link self child k => st_bind (Heap.add_child self child) (λ _, interp k)
  end.

(** The operations a program performs when it starts in the store [h]. *)
Fixpoint trace {A} (m : t A) (h : heap) : list op :=
  match m with
  | Done _ => []
  | Alloc o k => New o :: trace (k (length h)) (exec (New o) h)
  | Link self child k =>
      AddChild self child :: trace k (exec (AddChild self child) h)
  end.

(** Every operation of the program passes the guard. *)
Definition checked {A} (m : t A) (h : heap) : bool := disciplined (trace m h) h.
End Build.

Notation "'let!' x ':=' m 'in' k" := (Build.bind m (λ x, k))
  (at level 10, x name, m at level 100, k at level 200) : build_scope.
Notation "m ';;' k" := (Build.bind m (λ _, k))
  (at level 100, k at level 200, right associativity) : build_scope.

#[local] Open Scope build_scope.

(** ** The source's routines *)

Definition build_complete_system_compromise_tree_obj : Build.t TreeObj.t :=
  let! root := Build.alloc (Obj.of_fields SystemCompromise.root) in
  let! compromise_frontend := Build.alloc (Obj.of_fields SystemCompromise.compromise_frontend) in
  let! xss_attack := Build.alloc (Obj.of_fields SystemCompromise.xss_attack) in
  let! supply_chain := Build.alloc (Obj.of_fields SystemCompromise.supply_chain) in
  Build.add_child compromise_frontend xss_attack;;
  Build.add_child compromise_frontend supply_chain;;
  let! backend_access := Build.alloc (Obj.of_fields SystemCompromise.backend_access) in
  let! no_auth := Build.alloc (Obj.of_fields SystemCompromise.no_auth) in
  let! sensitive_commands := Build.alloc (Obj.of_fields SystemCompromise.sensitive_commands) in
  Build.add_child backend_access no_auth;;
  Build.add_child backend_access sensitive_commands;;
  let! path_traversal := Build.alloc (Obj.of_fields SystemCompromise.path_traversal) in
  let! path_open := Build.alloc (Obj.of_fields SystemCompromise.path_open) in
  let! path_import := Build.alloc (Obj.of_fields SystemCompromise.path_import) in
  Build.add_child path_traversal path_open;;
  Build.add_child path_traversal path_import;;
  Build.add_child root compromise_frontend;;
  Build.add_child root backend_access;;
  Build.add_child root path_traversal;;
  Build.ret {|
    TreeObj.name := "Complete System Compromise";
    TreeObj.description := "Attack paths for gaining full system control";
    TreeObj.root := root;
    TreeObj.version := AttackTree.default_version;
    TreeObj.severity := "CRITICAL";
  |}.

Definition build_data_exfiltration_tree_obj : Build.t TreeObj.t :=
  let! root := Build.alloc (Obj.of_fields DataExfiltration.root) in
  let! read_files := Build.alloc (Obj.of_fields DataExfiltration.read_files) in
  let! step1 := Build.alloc (Obj.of_fields DataExfiltration.step1) in
  let! step2 := Build.alloc (Obj.of_fields DataExfiltration.step2) in
  Build.add_child read_files step1;;
  Build.add_child read_files step2;;
  let! extract_storage := Build.alloc (Obj.of_fields DataExfiltration.extract_storage) in
  let! step3 := Build.alloc (Obj.of_fields DataExfiltration.step3) in
  let! step4 := Build.alloc (Obj.of_fields DataExfiltration.step4) in
  Build.add_child extract_storage step3;;
  Build.add_child extract_storage step4;;
  let! ssrf := Build.alloc (Obj.of_fields DataExfiltration.ssrf) in
  let! step5 := Build.alloc (Obj.of_fields DataExfiltration.step5) in
  let! step6 := Build.alloc (Obj.of_fields DataExfiltration.step6) in
  Build.add_child ssrf step5;;
  Build.add_child ssrf step6;;
  Build.add_child root read_files;;
  Build.add_child root extract_storage;;
  Build.add_child root ssrf;;
  Build.ret {|
    TreeObj.name := "Data Exfiltration";
    TreeObj.description := "Attack paths for stealing sensitive data";
    TreeObj.root := root;
    TreeObj.version := AttackTree.default_version;
    TreeObj.severity := "CRITICAL";
  |}.

Definition build_denial_of_service_tree_obj : Build.t TreeObj.t :=
  let! root := Build.alloc (Obj.of_fields DenialOfService.root) in
  let! resource_exhaustion := Build.alloc (Obj.of_fields DenialOfService.resource_exhaustion) in
  let! attack1 := Build.alloc (Obj.of_fields DenialOfService.attack1) in
  let! attack2 := Build.alloc (Obj.of_fields DenialOfService.attack2) in
  let! attack3 := Build.alloc (Obj.of_fields DenialOfService.attack3) in
  Build.add_child resource_exhaustion attack1;;
  Build.add_child resource_exhaustion attack2;;
  Build.add_child resource_exhaustion attack3;;
  let! api_abuse := Build.alloc (Obj.of_fields DenialOfService.api_abuse) in
  Build.add_child root resource_exhaustion;;
  Build.add_child root api_abuse;;
  Build.ret {|
    TreeObj.name := "Denial of Service";
    TreeObj.description := "Attack paths for making the application unavailable";
    TreeObj.root := root;
    TreeObj.version := AttackTree.default_version;
    TreeObj.severity := "HIGH";
  |}.

Definition build_internal_network_recon_tree_obj : Build.t TreeObj.t :=
  let! root := Build.alloc (Obj.of_fields NetworkRecon.root) in
  let! ssrf_method := Build.alloc (Obj.of_fields NetworkRecon.ssrf_method) in
  let! step1 := Build.alloc (Obj.of_fields NetworkRecon.step1) in
  let! step2 := Build.alloc (Obj.of_fields NetworkRecon.step2) in
  let! step3 := Build.alloc (Obj.of_fields NetworkRecon.step3) in
  Build.add_child ssrf_method step1;;
  Build.add_child ssrf_method step2;;
  Build.add_child ssrf_method step3;;
  Build.add_child root ssrf_method;;
  Build.ret {|
    TreeObj.name := "Internal Network Reconnaissance";
    TreeObj.description := "Attack paths for scanning internal network via SSRF";
    TreeObj.root := root;
    TreeObj.version := AttackTree.default_version;
    TreeObj.severity := "HIGH";
  |}.

(** The list [trees] of [generate_all_reports], lines 801-806. *)
Definition trees_obj : Build.t (list TreeObj.t) :=
  let! t1 := build_complete_system_compromise_tree_obj in
  let! t2 := build_data_exfiltration_tree_obj in
  let! t3 := build_denial_of_service_tree_obj in
  let! t4 := build_internal_network_recon_tree_obj in
  Build.ret [t1; t2; t3; t4].

(** ** A construction that links late

    No routine of the source adds a child to a node that already is the
    child of another; this program does: the leaf is added to [sub] after
    [sub] was added to the root. *)
Definition late_link : Build.t loc :=
  let! root := Build.alloc (Obj.of_fields (AttackNode.new "root" "Root" "" NodeType.OR)) in
  let! sub := Build.alloc (Obj.of_fields (AttackNode.new "sub" "Sub" "" NodeType.AND)) in
  let! leaf := Build.alloc (Obj.of_fields Examples.A) in
  Build.add_child root sub;;
  Build.add_child sub leaf;;
  Build.ret root.

#[local] Close Scope build_scope.

(** ** Programs *)

Section programs.
Context {A : Type}.
Implicit Types m : Build.t A.
Implicit Types h : heap.

Lemma interp_trace m h : st_exec (Build.interp m) h = run (Build.trace m h) h.
Proof.
  revert h. induction m as [a|o k IH|self child k IH]=> h //=.
  - apply IH.
  - apply IH.
Qed.

Lemma checked_constructed m h :
  Build.checked m h = true → constructed h →
  constructed (st_exec (Build.interp m) h).
Proof. rw interp_trace. apply disciplined_constructed. Qed.

Lemma interp_bind {B} m (f : A → Build.t B) h :
  Build.interp (Build.bind m f) h
  = st_bind (Build.interp m) (λ a, Build.interp (f a)) h.
Proof.
  revert h. induction m as [a|o k IH|self child k IH]=> h //=.
  - apply IH.
  - apply IH.
Qed.

Lemma trace_bind {B} m (f : A → Build.t B) h :
  Build.trace (Build.bind m f) h
  = Build.trace m h
    ++ Build.trace (f (st_eval (Build.interp m) h)) (st_exec (Build.interp m) h).
Proof.
  revert h. induction m as [a|o k IH|self child k IH]=> h //=.
  - f_equal. apply IH.
  - f_equal. apply IH.
Qed.

End programs.

(** ** The theorems *)

(** The program [late_link] passes every guard, and the root stands for
    the tree with the leaf below [sub]: the mutation of [sub] is seen
    through the reference the root holds. *)
Lemma late_link_seen :
  Build.checked late_link [] = true
  ∧ (let (root, h) := Build.interp late_link [] in
     read (length h) h root
     = Some (AttackNode.add_child (AttackNode.new "root" "Root" "" NodeType.OR)
               (AttackNode.add_child
                  (AttackNode.new "sub" "Sub" "" NodeType.AND) Examples.A))).
Proof. by vm_compute. Qed.

(** C11. The construction routines refine their value model.  Run one
    after the other in the empty store, as [generate_all_reports] runs
    them, the four routines pass the guard at every operation, so that the
    store they leave is a forest; the four tree objects they return stand
    for the four trees of the value model; and the four roots are
    different objects, none of which is the child of an object. *)
Theorem builders_refine :
  let ts := st_eval (Build.interp trees_obj) [] in
  let h := st_exec (Build.interp trees_obj) [] in
  mapM (read_tree h) ts = Some trees
  ∧ constructed h
  ∧ NoDup (TreeObj.root <$> ts)
  ∧ Forall (is_root h) (TreeObj.root <$> ts).
Proof.
  split_and!; [by vm_compute| |compute_done..].
  apply checked_constructed; [by vm_compute|constructor].
Qed.
