(* ===== verification/Represent.v ===== *)
(** * Every tree can be constructed

    The construction routines of [attack-trees-analysis.py] build the
    four trees of the program.  [build_node] is the way they proceed, for
    an arbitrary node: every node is constructed without children, and
    its children are added with [add_child] once they are built.  The
    theorem shows that this is always possible under the guard of
    [Objects.v], in every store that a guarded construction has reached:
    the objects of the store keep their values, one object is allocated
    per node, and the new root stands for the node.  The relation
    [denotes] of [Objects.v] therefore leaves out no tree, and reading
    back what was built gives the tree that was asked for. *)

From S2P Require Import Prelude Model Fuel Objects Construct.

#[local] Open Scope build_scope.

(** ** The construction of a node *)

(** The loop over the children: each is built and added to [self]. *)
Definition build_children (build : AttackNode.t → Build.t loc) (self : loc)
    : list AttackNode.t → Build.t loc :=
  fix go (ms : list AttackNode.t) : Build.t loc :=
    match ms with
    | [] => Build.ret self
    | m :: ms' =>
        let! child := build m in
        Build.add_child self child;;
        go ms'
    end.

Fixpoint build_node (n : AttackNode.t) : Build.t loc :=
  let! self := Build.alloc (Obj.of_fields n) in
  build_children build_node self (AttackNode.children n).

(** ** The specification *)

(** The store [h'] has the objects of [h], unchanged, and maybe more. *)
Definition extends (h h' : heap) : Prop :=
  length h ≤ length h' ∧ ∀ x, x < length h → h' !! x = h !! x.

(** The objects from [base] on hold references to objects after [base]
    only. *)
Definition above (h : heap) (base : loc) : Prop :=
  ∀ x c, edge h x c → base ≤ x → base < c.

(** What a construction from the store [h] leaves: a store [h'] that a
    guarded construction reaches, with the objects of [h] and, from [l]
    on, the objects of the node [n]. *)
Definition builds (h : heap) (n : AttackNode.t) (l : loc) (h' : heap) : Prop :=
  l = length h ∧ constructed h' ∧ extends h h' ∧ denotes h' l n
  ∧ above h' l ∧ length h' = length h + size n.

#[local] Abbreviation added h self child :=
  (alter (λ o, Obj.append_child o child) self h).

(** ** Stores that grow *)

Section extends.
Implicit Types h : heap.
Implicit Types l c x self child base : loc.

Lemma extends_refl h : extends h h.
Proof. by split. Qed.

Lemma extends_trans h1 h2 h3 : extends h1 h2 → extends h2 h3 → extends h1 h3.
Proof.
  intros [Hlen1 H1] [Hlen2 H2]. split; [lia|]. intros x Hx.
  rw H2; [lia|]. by apply H1.
Qed.

Lemma extends_alloc h o : extends h (h ++ [o]).
Proof. split; [rw length_app; lia|]. intros x Hx. by apply lookup_app_l. Qed.

(** [add_child] on an object that came later. *)
Lemma extends_added_later h0 h self child :
  extends h0 h → length h0 ≤ self → extends h0 (added h self child).
Proof.
  intros [Hlen Hh] Hself. split; [by rw length_alter|]. intros x Hx.
  rw lookup_added decide_False; [lia|]. by rw option_fmap_id Hh.
Qed.

Lemma denotes_extends h h' l n : extends h h' → denotes h l n → denotes h' l n.
Proof.
  intros [Hlen Hh]. revert l. node_induction n=> l.
  intros (o & Ho & Hn & Hcs)%denotes_inv.
  eapply denotes_intro; [|done|].
  { rw Hh //. by eapply lookup_lt_Some. }
  by apply (Forall2_impl_r (denotes h)).
Qed.

Lemma edge_extends h h' x c :
  extends h h' → x < length h → edge h' x c → edge h x c.
Proof. intros [_ Hh] Hx (o & Ho & Hc). exists o. by rw -Hh. Qed.

Lemma closed_edge h x c : closed h → edge h x c → c < length h.
Proof.
  intros Hh (o & Ho & Hc). rw /closed Forall_lookup in Hh.
  specialize (Hh x o Ho). rw Forall_forall in Hh. by apply Hh.
Qed.

Lemma is_root_edge h c : is_root h c ↔ ∀ x, ¬ edge h x c.
Proof.
  rw /is_root list_elem_of_bind. split.
  - intros Hc x (o & Ho & Hoc). apply Hc. exists o.
    split; [done|]. by eapply list_elem_of_lookup_2.
  - intros Hc (o & Hoc & [x Hx]%list_elem_of_lookup_1). apply (Hc x). by exists o.
Qed.

Lemma edge_added_inv h self child x c :
  edge (added h self child) x c → edge h x c ∨ (x = self ∧ c = child).
Proof.
  intros (o & Ho & Hc). rw lookup_added in Ho.
  apply fmap_Some in Ho as (o' & Ho' & ->). case_decide as Hx; [|left; by exists o'].
  apply elem_of_app in Hc as [Hc|Hc%list_elem_of_singleton]; [left; by exists o'|].
  by right.
Qed.

(** Nothing before [base] is reached from an object after it. *)
Lemma rtc_above h base x y :
  above h base → base ≤ x → rtc (edge h) x y → base ≤ y.
Proof.
  intros Hh Hx Hxy. induction Hxy as [|x c y Hc _ IH]; [done|].
  apply IH. pose proof (Hh x c Hc Hx). lia.
Qed.

(** The root of what was built from [h] is no one's child. *)
Lemma builds_is_root h n l h' : closed h → builds h n l h' → is_root h' l.
Proof.
  intros Hclosed (-> & _ & Hext & _ & Habove & _). apply is_root_edge=> x Hx.
  destruct (decide (x < length h)) as [Hlt|Hge].
  - pose proof (closed_edge h x _ Hclosed (edge_extends _ _ _ _ Hext Hlt Hx)). lia.
  - pose proof (Habove x _ Hx). lia.
Qed.

End extends.

(** ** The construction, step by step *)

Section build.
Implicit Types h : heap.
Implicit Types n m s : AttackNode.t.
Implicit Types ms : list AttackNode.t.

Lemma build_node_unfold n :
  build_node n
  = (let! self := Build.alloc (Obj.of_fields n) in
     build_children build_node self (AttackNode.children n)).
Proof. by destruct n. Qed.

Lemma value_of_fields n :
  Obj.value (Obj.of_fields n) (AttackNode.children n) = n.
Proof. by destruct n. Qed.

(** The children that were added, one after the other. *)
Lemma foldl_add_child o (cs ms : list AttackNode.t) :
  foldl AttackNode.add_child (Obj.value o cs) ms = Obj.value o (cs ++ ms).
Proof.
  revert cs. induction ms as [|m ms IH]=> cs; [by rw app_nil_r|].
  rw (assoc_L (++) cs [m] ms : cs ++ m :: ms = (cs ++ [m]) ++ ms) -IH //.
Qed.

(** The object that was just constructed. *)
Lemma builds_alloc h o :
  Obj.children o = [] → constructed h →
  constructed (h ++ [o]) ∧ extends h (h ++ [o])
  ∧ denotes (h ++ [o]) (length h) (Obj.value o []) ∧ above (h ++ [o]) (length h).
Proof.
  intros Ho Hh. split_and!.
  - by apply (constructed_step h (New o)).
  - apply extends_alloc.
  - apply denotes_alloc_new. rw Ho. constructor.
  - intros x c (o' & Hx & Hc) Hge. pose proof (lookup_lt_Some _ _ _ Hx) as Hlt.
    rw length_app /= in Hlt. replace x with (length h) in Hx by lia.
    rw list_lookup_middle // in Hx. injection Hx as <-. rw Ho in Hc.
    by apply elem_of_nil in Hc.
Qed.

(** One round of the loop: a child was built in the store [h], from the
    reference [length h] on, and is added to the object at [base]. *)
Lemma builds_add_child h0 h h1 s m :
  constructed h → extends h0 h → length h0 < length h →
  denotes h (length h0) s → above h (length h0) →
  builds h m (length h) h1 →
  constructed (added h1 (length h0) (length h))
  ∧ extends h0 (added h1 (length h0) (length h))
  ∧ denotes (added h1 (length h0) (length h)) (length h0)
      (AttackNode.add_child s m)
  ∧ above (added h1 (length h0) (length h)) (length h0)
  ∧ length (added h1 (length h0) (length h)) = length h + size m.
Proof.
  intros Hh Hext Hbase Hs Habove Hbuilt.
  pose proof (forest_closed h (constructed_inv h Hh)) as Hclosed.
  pose proof (builds_is_root h m _ h1 Hclosed Hbuilt) as Hroot.
  destruct Hbuilt as (_ & Hh1 & Hext1 & Hm & Habove1 & Hlen1).
  assert (¬ rtc (edge h1) (length h) (length h0)) as Hapart.
  { intros Hr%(rtc_above _ (length h)); [lia|done..]. }
  split_and!.
  - apply (constructed_step h1 (AddChild (length h0) (length h))); [done|].
    destruct Hext1 as [Hle _]. split_and!; [lia| |done..].
    by eapply denotes_lookup.
  - apply extends_added_later; [by eapply extends_trans|done].
  - apply denotes_added; [by eapply denotes_extends|done..].
  - intros x c [Hx|[-> ->]]%edge_added_inv Hge; [|done].
    destruct (decide (x < length h)) as [Hlt|Hnlt].
    + apply (Habove x); [|done]. by eapply edge_extends.
    + pose proof (Habove1 x c Hx). lia.
  - by rw length_alter.
Qed.

(** The loop over the children. *)
Lemma build_children_builds h0 ms :
  Forall (λ m, ∀ h, constructed h →
            builds h m (st_eval (Build.interp (build_node m)) h)
              (st_exec (Build.interp (build_node m)) h)) ms →
  ∀ h s,
    constructed h → extends h0 h → length h0 < length h →
    denotes h (length h0) s → above h (length h0) →
    st_eval (Build.interp (build_children build_node (length h0) ms)) h
    = length h0
    ∧ constructed
        (st_exec (Build.interp (build_children build_node (length h0) ms)) h)
    ∧ extends h0
        (st_exec (Build.interp (build_children build_node (length h0) ms)) h)
    ∧ denotes
        (st_exec (Build.interp (build_children build_node (length h0) ms)) h)
        (length h0) (foldl AttackNode.add_child s ms)
    ∧ above
        (st_exec (Build.interp (build_children build_node (length h0) ms)) h)
        (length h0)
    ∧ length
        (st_exec (Build.interp (build_children build_node (length h0) ms)) h)
      = length h + sum_list (size <$> ms).
Proof.
  induction 1 as [|m ms Hm _ IH]=> h s Hh Hext Hbase Hs Habove.
  { split_and!; [done..|]. rw /st_exec /=. lia. }
  specialize (Hm h Hh). pose proof Hm as (Hc & _).
  rw Hc in Hm.
  destruct (builds_add_child h0 h _ s m Hh Hext Hbase Hs Habove Hm)
    as (Hh2 & Hext2 & Hs2 & Habove2 & Hlen2).
  assert (length h0 < length (added (st_exec (Build.interp (build_node m)) h)
                               (length h0) (length h))) as Hbase2 by lia.
  destruct (IH _ _ Hh2 Hext2 Hbase2 Hs2 Habove2)
    as (Hr & Hh' & Hext' & Hs' & Habove' & Hlen').
  rw /st_eval /st_exec /= !interp_bind /st_bind
    in Hc Hlen2 Hr Hh' Hext' Hs' Habove' Hlen' |- *.
  destruct (Build.interp (build_node m) h) as [c h1]. simpl in *. subst c.
  split_and!; [done..|]. rw Hlen' Hlen2. symmetry. apply Nat.add_assoc.
Qed.

(** The construction of a node. *)
Lemma build_node_builds n h :
  constructed h →
  builds h n (st_eval (Build.interp (build_node n)) h)
    (st_exec (Build.interp (build_node n)) h).
Proof.
  revert h. node_induction n=> h Hh.
  destruct (builds_alloc h (Obj.of_fields n) eq_refl Hh)
    as (Hh1 & Hext1 & Hs1 & Habove1).
  destruct (build_children_builds h (AttackNode.children n) IH
              (h ++ [Obj.of_fields n]) (Obj.value (Obj.of_fields n) []) Hh1 Hext1)
    as (Hr & Hh' & Hext' & Hs' & Habove' & Hlen');
    [rw length_app /=; lia|done..|].
  rw foldl_add_child value_of_fields in Hs'.
  rw build_node_unfold /st_eval /st_exec interp_bind /st_bind /=.
  rw /st_eval /st_exec in Hr Hh' Hext' Hs' Habove' Hlen'.
  destruct (Build.interp _ _) as [l h']. simpl in *. subst l.
  split_and!; [done..|]. rw Hlen' length_app size_unfold /=. lia.
Qed.

End build.

(** ** The theorem *)

(** C12. Every tree can be constructed.  In a store [h] that guarded
    constructions have reached, the construction of a node [n] -- the
    node without children first, then each child built and added with
    [add_child] -- returns the reference [length h] and leaves a store
    that guarded constructions reach, with one more object per node of
    [n].  The new reference is no one's child, every object of [h] stands
    for the value it stood for, and the walk that reads the store returns
    [n] at the new reference, with the bounds on the depth from the
    height of [n] on and with no other. *)
Theorem build_node_represents (n : AttackNode.t) (h : heap) :
  constructed h →
  ∃ h', Build.interp (build_node n) h = (length h, h')
    ∧ constructed h'
    ∧ length h' = length h + size n
    ∧ is_root h' (length h)
    ∧ (∀ x m, denotes h x m → denotes h' x m)
    ∧ (∀ fuel, read fuel h' (length h) = Some n ↔ height n ≤ fuel).
Proof.
  intros Hh. pose proof (build_node_builds n h Hh) as Hb.
  pose proof (builds_is_root _ _ _ _ (forest_closed _ (constructed_inv _ Hh)) Hb)
    as Hroot.
  destruct Hb as (Hl & Hh' & Hext & Hn & _ & Hlen).
  rw /st_eval /st_exec in Hl Hh' Hext Hn Hlen Hroot.
  destruct (Build.interp (build_node n) h) as [l h']; simpl in *; subst l.
  exists h'. split_and!; [done..|eauto using denotes_extends|].
  intros fuel. rw read_exact. naive_solver.
Qed.

Lemma build_node_represents_witness :
  ∃ h', Build.interp (build_node Examples.or_tree) [] = (0, h')
    ∧ constructed h'
    ∧ length h' = 0 + size Examples.or_tree
    ∧ is_root h' 0
    ∧ (∀ x m, denotes [] x m → denotes h' x m)
    ∧ (∀ fuel, read fuel h' 0 = Some Examples.or_tree
               ↔ height Examples.or_tree ≤ fuel).
Proof. apply (build_node_represents Examples.or_tree []). constructor. Defined.
