(* ===== verification/Program.v ===== *)
(** * The program over objects

    [generate_all_reports] and the main block (lines 799-1050 of
    [attack-trees-analysis.py]) as the interpreter runs them: the state of
    the program is the store of objects and the outside; the construction
    routines allocate and link objects, the methods of the trees walk the
    store with a bound on the depth of the recursion, and the blocks and
    prints act on the outside.  A walk that exceeds the bound raises
    [RecursionError], which nothing catches: as after [OSError], no
    statement that follows has an effect.  [Report.v] models the same
    code on values.

    The theorem shows that with every bound of at least 3, the height of
    the trees it constructs, the program does to the outside what the
    value model does, whether the files can be opened or not, and that
    with a smaller bound it raises [RecursionError] with the trees built
    and nothing written or printed. *)

From S2P Require Import Prelude Model PathSearch Leaves Serialize Objects.
From S2P Require Import Trees Mermaid Outside Report Walks Construct.
From Stdlib Require Import Floats.

(** ** The state of the program *)

Definition machine : Type := heap * world.

#[export] Instance machine_halts : Halts machine := λ s, halted s.2.

(** A construction acts on the objects, ... *)
Definition on_heap {A} `{!Inhabited A} (m : State heap A) : State machine A :=
  λ s, if raised s.2 is None then ((m s.1).1, ((m s.1).2, s.2))
       else (inhabitant, s).

(** ... a block or a print on the outside, ... *)
Definition on_world {A} (m : State world A) : State machine A :=
  λ s, ((m s.2).1, (s.1, (m s.2).2)).

(** ... and a walk reads the objects; one that exceeds the bound on the
    depth of the recursion raises [RecursionError].  What a statement
    returns after an exception is never used: no effect follows. *)
Definition walk {A} `{!Inhabited A} (f : heap → option A) : State machine A :=
  λ s, match f s.1 with
       | Some a => (a, s)
       | None => (inhabitant, (s.1, fail s.2 RecursionError))
       end.

#[local] Open Scope py_scope.

(** ** [generate_all_reports] *)

(** The body of the loop that fills [mermaid_diagrams]. *)
Definition diagram_section_obj (fuel : nat) (h : heap)
    (mermaid_diagrams : list string) (tree : TreeObj.t) : option (list string) :=
  let exporter := MermaidExporter.__init__ tree in
  diagram ← fst <$> export_obj fuel h exporter;
  Some (mermaid_diagrams
        ++ ["## " +:+ TreeObj.name tree +:+ nl +:+ nl
            +:+ "Severity: " +:+ TreeObj.severity tree +:+ nl +:+ nl
            +:+ "```mermaid" +:+ nl +:+ diagram +:+ nl +:+ "```"]).

Definition generate_all_reports_obj (fuel : nat)
    : State machine (list TreeObj.t) :=
  let! trees := on_heap (Build.interp trees_obj) in
  let! dicts := walk (λ h, mapM (to_dict_obj fuel h) trees) in
  let report :=
    PyDict [
      ("title", PyStr "Skymap Application Security Attack Trees");
      ("generated", PyStr "2025-12-26");
      ("trees", PyList dicts)
    ] in
  on_world
    (with_open "d:/Project/skymap-test/docs/security/attack-trees-report.json"
       (json_dump report));;
  let! mermaid_diagrams :=
    walk (λ h, foldM (diagram_section_obj fuel h) [] trees) in
  let md_report :=
    str_join nl
      (md_summary ++ [str_join nl mermaid_diagrams]
       ++ md_analysis_1 ++ md_analysis_2 ++ md_analysis_3 ++ md_analysis_4
       ++ md_plan ++ md_conclusion ++ md_references) in
  on_world
    (with_open "d:/Project/skymap-test/docs/security/attack-trees-analysis.md"
       (f_write md_report));;
  on_world (print "✓ Generated attack-trees-report.json");;
  on_world (print "✓ Generated attack-trees-analysis.md");;
  on_world (print (nl +:+ "Summary:"));;
  on_world
    (print ("  - " +:+ pretty (length trees) +:+ " attack scenarios analyzed"));;
  let! leaf_attacks :=
    walk (λ h, sum_list
                 <$> mapM (λ t, length <$> get_all_leaf_attacks_obj fuel h t)
                       trees) in
  on_world
    (print ("  - " +:+ pretty leaf_attacks
            +:+ " total attack paths identified"));;
  let! unmitigated_attacks :=
    walk (λ h, sum_list
                 <$> mapM (λ t, length <$> get_unmitigated_attacks_obj fuel h t)
                       trees) in
  on_world
    (print ("  - " +:+ pretty unmitigated_attacks
            +:+ " unmitigated attacks found"));;
  st_ret trees.

(** ** The main block *)

(** The body of the loop over the nodes of a path, for the object that
    [node] refers to. *)
Definition print_fields (o : Obj.t) : State world unit :=
  (if Obj.is_leaf o then
     print ("  → " +:+ Obj.name o);;
     print ("    Difficulty: "
            +:+ Difficulty.name (AttackAttributes.difficulty (Obj.attributes o)));;
     print ("    Cost: "
            +:+ Cost.name (AttackAttributes.cost (Obj.attributes o)));;
     print ("    Detection: "
            +:+ DetectionRisk.name
                  (AttackAttributes.detection_risk (Obj.attributes o)));;
     print_time (AttackAttributes.time_hours (Obj.attributes o));;
     if Obj.file_refs o is [] then st_ret tt
     else print ("    Files: " +:+ str_join ", " (Obj.file_refs o))
   else st_ret tt)%py.

Definition print_node_obj (node : loc) : State machine unit :=
  let! s := st_get in
  if s.1 !! node is Some o then on_world (print_fields o) else st_ret tt.

(** The body of the loop over the trees. *)
Definition print_tree_obj (fuel : nat) (tree : TreeObj.t)
    : State machine unit :=
  on_world
    (print (nl +:+ TreeObj.name tree +:+ " (" +:+ TreeObj.severity tree
            +:+ "):"));;
  let! path := walk (λ h, find_easiest_path_obj fuel h tree) in
  for_each print_node_obj path.

Definition main_obj (fuel : nat) : State machine unit :=
  let! trees := generate_all_reports_obj fuel in
  on_world (print (nl +:+ str_repeat "=" 80));;
  on_world (print "EASIEST ATTACK PATHS (By Difficulty)");;
  on_world (print (str_repeat "=" 80));;
  for_each (print_tree_obj fuel) trees.

(** ** The specification *)

(** From the store [h] the computation [m] returns in the store [h'],
    having done to the outside what [m'] does; [R] relates the results. *)
Definition runs {A A'} (h h' : heap) (R : A → A' → Prop)
    (m : State machine A) (m' : State world A') : Prop :=
  ∀ w, ∃ a, m (h, w) = (a, (h', (m' w).2)) ∧ R a (m' w).1.

(** The tree objects stand for the trees. *)
Definition stand_for (h : heap) (ts : list TreeObj.t)
    (trees : list AttackTree.t) : Prop :=
  Forall2 (λ t tree, read_tree h t = Some tree) ts trees.

(** ** Running a computation beside its value model *)

Section runs.
Implicit Types h : heap.

Lemma runs_ret {A A'} h (R : A → A' → Prop) a a' :
  R a a' → runs h h R (st_ret a) (st_ret a').
Proof. intros Ha w. by exists a. Qed.

Lemma runs_bind {A A' B B'} h h1 h2 (R : A → A' → Prop) (Q : B → B' → Prop)
    m m' (f : A → State machine B) (f' : A' → State world B') :
  runs h h1 R m m' → (∀ a a', R a a' → runs h1 h2 Q (f a) (f' a')) →
  runs h h2 Q (st_bind m f) (st_bind m' f').
Proof.
  intros Hm Hf w. destruct (Hm w) as (a & Ha & HR).
  rw /st_bind Ha /=. destruct (m' w) as [a' w']. by apply Hf.
Qed.

(** A step that the value model does not make: it leaves the outside as
    it is. *)
Lemma runs_left {A B B'} h h1 h2 (Q : B → B' → Prop) (m : State machine A) a
    (f : A → State machine B) (m' : State world B') :
  (∀ w, m (h, w) = (a, (h1, w))) → runs h1 h2 Q (f a) m' →
  runs h h2 Q (st_bind m f) m'.
Proof. intros Hm Hf w. rw /st_bind Hm /=. apply Hf. Qed.

(** A walk that returns. *)
Lemma runs_walk {A B B'} `{!Inhabited A} h h' (Q : B → B' → Prop)
    (g : heap → option A) a (f : A → State machine B) (m' : State world B') :
  g h = Some a → runs h h' Q (f a) m' → runs h h' Q (st_bind (walk g) f) m'.
Proof. intros Hg. apply runs_left=> w. by rw /walk /= Hg. Qed.

Lemma runs_on_world {A} h (m : State world A) : runs h h eq (on_world m) m.
Proof. intros w. by exists (m w).1. Qed.

Lemma runs_for_each {A A' B B'} h (f : A → State machine B)
    (g : A' → State world B') (l : list A) (l' : list A') :
  Forall2 (λ x x', runs h h (λ _ _, True) (f x) (g x')) l l' →
  runs h h eq (for_each f l) (for_each g l').
Proof.
  induction 1 as [|x x' l l' Hx _ IH]; [by apply runs_ret|].
  eapply runs_bind; [done|]. by intros _ _ _.
Qed.

(** A construction, when no exception has been raised. *)
Lemma on_heap_run {A} `{!Inhabited A} (m : State heap A) h w :
  raised w = None → on_heap m (h, w) = ((m h).1, ((m h).2, w)).
Proof. rw /on_heap /=. by intros ->. Qed.

(** A walk that exceeds the bound. *)
Lemma walk_raise {A} `{!Inhabited A} (g : heap → option A) h w :
  g h = None → walk g (h, w) = (inhabitant, (h, fail w RecursionError)).
Proof. rw /walk /=. by intros ->. Qed.

(** No statement has an effect after an exception. *)
#[export] Instance idle_on_world {A} (m : State world A) :
  Idle m → Idle (on_world m).
Proof. intros Hm [h w] Hs. rw /on_world /=. f_equal. by apply Hm. Qed.

#[export] Instance idle_on_heap {A} `{!Inhabited A} (m : State heap A) :
  Idle (on_heap m).
Proof. intros [h w] Hs. rw /on_heap /=. by destruct (raised w) eqn:Hw. Qed.

#[export] Instance idle_walk {A} `{!Inhabited A} (g : heap → option A) :
  Idle (walk g).
Proof.
  intros [h w] Hs. rw /walk /=. destruct (g h); [done|]. by rw /= fail_raised.
Qed.

#[export] Instance idle_print_fields o : Idle (print_fields o).
Proof.
  rw /print_fields. destruct (Obj.is_leaf o); [|apply _].
  destruct (Obj.file_refs o); apply _.
Qed.

#[export] Instance idle_print_node_obj node : Idle (print_node_obj node).
Proof.
  rw /print_node_obj. apply idle_bind; [apply _|]. intros s.
  destruct (s.1 !! node); apply _.
Qed.

#[export] Instance idle_print_tree_obj fuel tree :
  Idle (print_tree_obj fuel tree).
Proof. rw /print_tree_obj. apply _. Qed.

#[export] Instance idle_main_obj fuel : Idle (main_obj fuel).
Proof. rw /main_obj /generate_all_reports_obj. apply _. Qed.

End runs.

Lemma runs_mono {A A'} (h h' : heap) (R Q : A → A' → Prop) m m' :
  (∀ a a', R a a' → Q a a') → runs h h' R m m' → runs h h' Q m m'.
Proof. intros HRQ Hm w. destruct (Hm w) as (a & Ha & HR). eauto. Qed.

(** ** The methods on the trees of the program *)

(** The four trees have height 3: a root, its categories, their LEAFs. *)
Lemma trees_height :
  Forall (λ tree, height (AttackTree.root tree) = 3) trees.
Proof. compute_done. Qed.

Section program.
Context (fuel : nat) (h : heap) (ts : list TreeObj.t).
Context (Hts : stand_for h ts trees) (Hfuel : 3 ≤ fuel).

Lemma stand_for_height :
  Forall2 (λ t tree, read_tree h t = Some tree
                     ∧ height (AttackTree.root tree) ≤ fuel) ts trees.
Proof using Hts Hfuel.
  apply (Forall2_impl_r (λ t tree, read_tree h t = Some tree)); [|exact Hts].
  eapply Forall_impl; [apply trees_height|]. intros tree Htree t Ht.
  simpl in Htree. split; [done|lia].
Qed.

Lemma dicts_enough : mapM (to_dict_obj fuel h) ts = Some (to_dict <$> trees).
Proof using Hts Hfuel.
  apply mapM_Some_2, Forall2_fmap_r.
  eapply Forall2_impl; [exact stand_for_height|].
  intros t tree [Ht Hheight]. by apply to_dict_obj_enough.
Qed.

Lemma diagrams_enough :
  foldM (diagram_section_obj fuel h) [] ts = Some mermaid_diagrams.
Proof using Hts Hfuel.
  destruct (foldM_refines eq (diagram_section_obj fuel h) diagram_section
              ts trees [] []) as (y & -> & ->); [|done..].
  eapply Forall2_impl; [exact stand_for_height|].
  intros t tree [Ht Hheight] b _ <-.
  destruct (read_tree_fields h t tree Ht) as (Hname & _ & _ & Hseverity).
  rw /diagram_section_obj (export_obj_init h fuel t tree) //=.
  eexists. split; [done|]. by rw /diagram_section Hname Hseverity.
Qed.

Lemma leaf_attacks_enough :
  sum_list <$> mapM (λ t, length <$> get_all_leaf_attacks_obj fuel h t) ts
  = Some (sum_list ((λ t, length (get_all_leaf_attacks t)) <$> trees)).
Proof using Hts Hfuel.
  rw (mapM_Some_2 _ _ ((λ t, length (get_all_leaf_attacks t)) <$> trees)) //.
  apply Forall2_fmap_r. eapply Forall2_impl; [exact stand_for_height|].
  intros t tree [Ht Hheight].
  destruct (get_all_leaf_attacks_obj_enough h fuel t tree) as (ls & -> & Hls);
    [done..|].
  by rw /= (Forall2_length _ _ _ Hls).
Qed.

Lemma unmitigated_attacks_enough :
  sum_list <$> mapM (λ t, length <$> get_unmitigated_attacks_obj fuel h t) ts
  = Some (sum_list ((λ t, length (get_unmitigated_attacks t)) <$> trees)).
Proof using Hts Hfuel.
  rw (mapM_Some_2 _ _ ((λ t, length (get_unmitigated_attacks t)) <$> trees)) //.
  apply Forall2_fmap_r. eapply Forall2_impl; [exact stand_for_height|].
  intros t tree [Ht Hheight].
  destruct (get_unmitigated_attacks_obj_enough h fuel t tree) as (ls & -> & Hls);
    [done..|].
  by rw /= (Forall2_length _ _ _ Hls).
Qed.

Lemma print_node_runs node n :
  denotes h node n →
  runs h h (λ _ _, True) (print_node_obj node) (print_node n).
Proof.
  intros (o & Ho & Hval & _)%denotes_inv w.
  rw /print_node_obj /st_bind /st_get /= Ho.
  replace (print_node n) with (print_fields o) by by rw Hval.
  by exists (print_fields o w).1.
Qed.

Lemma print_tree_runs t tree :
  read_tree h t = Some tree ∧ height (AttackTree.root tree) ≤ fuel →
  runs h h (λ _ _, True) (print_tree_obj fuel t) (print_tree tree).
Proof.
  intros [Ht Hheight]. destruct (read_tree_fields h t tree Ht) as (Hname & _ & _ & Hseverity).
  destruct (find_easiest_path_obj_enough h fuel t tree) as (p & Hp & Hpath);
    [done..|].
  rw /print_tree_obj /print_tree -Hname -Hseverity.
  eapply runs_bind; [apply runs_on_world|intros _ _ _].
  apply (runs_walk _ _ _ _ p); [done|].
  eapply runs_mono; [|apply runs_for_each]; [done|].
  eapply Forall2_impl; [exact Hpath|]. apply print_node_runs.
Qed.

(** What follows the construction of the trees in [generate_all_reports]
    and in the main block. *)
Lemma main_runs (h0 : heap) w :
  on_heap (Build.interp trees_obj) (h0, w) = (ts, (h, w)) →
  main_obj fuel (h0, w) = (tt, (h, st_exec main w)).
Proof using Hts Hfuel.
  intros Hbuild. rw /main_obj /generate_all_reports_obj.
  rw (st_bind_assoc _ _ _ (h0, w)) (st_bind_run _ _ _ _ _ Hbuild).
  match goal with
  | |- ?m _ = _ => enough (runs h h (λ _ _, True) m main) as Hruns
  end.
  { by destruct (Hruns w) as ([] & -> & _). }
  eapply (runs_bind h h h (λ r r', r = ts ∧ r' = trees)).
  - rw /generate_all_reports.
    apply (runs_walk _ _ _ _ (to_dict <$> trees)); [apply dicts_enough|].
    eapply runs_bind; [apply runs_on_world|intros _ _ _].
    apply (runs_walk _ _ _ _ mermaid_diagrams); [apply diagrams_enough|].
    do 4 (eapply runs_bind; [apply runs_on_world|intros _ _ _]).
    rw (Forall2_length _ _ _ Hts).
    eapply runs_bind; [apply runs_on_world|intros _ _ _].
    eapply runs_walk; [apply leaf_attacks_enough|].
    eapply runs_bind; [apply runs_on_world|intros _ _ _].
    eapply runs_walk; [apply unmitigated_attacks_enough|].
    eapply runs_bind; [apply runs_on_world|intros _ _ _].
    by apply runs_ret.
  - intros _ _ [-> ->].
    do 3 (eapply runs_bind; [apply runs_on_world|intros _ _ _]).
    eapply runs_mono; [|apply runs_for_each]; [done|].
    eapply Forall2_impl; [exact stand_for_height|]. apply print_tree_runs.
Qed.

End program.

(** The tree objects that the four routines return stand for the trees
    of the value model. *)
Lemma trees_obj_stand_for :
  stand_for (st_exec (Build.interp trees_obj) [])
    (st_eval (Build.interp trees_obj) []) trees
  ∧ length (st_exec (Build.interp trees_obj) []) = 31.
Proof. split; [by apply mapM_Some_1; vm_compute|by vm_compute]. Qed.

(** ** The theorem *)

(** A run in which [to_dict] exceeds the bound ends there. *)
Lemma main_short fuel (h0 h : heap) (ts : list TreeObj.t) w :
  on_heap (Build.interp trees_obj) (h0, w) = (ts, (h, w)) →
  mapM (to_dict_obj fuel h) ts = None →
  main_obj fuel (h0, w) = (tt, (h, fail w RecursionError)).
Proof.
  intros Hbuild Hdicts. rw /main_obj /generate_all_reports_obj.
  rw (st_bind_assoc _ _ _ (h0, w)) (st_bind_run _ _ _ _ _ Hbuild).
  rw (st_bind_assoc _ _ _ (h, w))
     (st_bind_run _ _ _ _ _ (walk_raise _ _ _ Hdicts)).
  apply idle_run_unit; [apply _|apply raised_fail].
Qed.

(** With a bound below their height, [to_dict] of the trees does not
    return. *)
Lemma dicts_short fuel :
  ¬ 3 ≤ fuel →
  mapM (to_dict_obj fuel (st_exec (Build.interp trees_obj) []))
    (st_eval (Build.interp trees_obj) [])
  = None.
Proof. destruct fuel as [|[|[|fuel]]]; [by vm_compute..|lia]. Qed.

(** C7. The program over objects refines the program over values, with
    the bound on the depth of the recursion that it needs.  Started with
    no objects and no exception raised, the program builds the 31 objects
    of the four trees.  With a bound of at least 3, the height of the
    trees, it then does to the outside what the value model does, in the
    same order, whether the files can be opened or not.  With a smaller
    bound [to_dict] of the first tree exceeds the bound: the program
    raises [RecursionError], with nothing written and nothing printed.
    Started after an exception, the program does nothing. *)
Theorem main_obj_refines (fuel : nat) (w : world) :
  main_obj fuel ([], w)
  = (tt, (if raised w is None then st_exec (Build.interp trees_obj) [] else [],
          if decide (3 ≤ fuel) then st_exec main w
          else fail w RecursionError)).
Proof.
  destruct (raised w) as [x|] eqn:Hw.
  { assert (raised w ≠ None) as Hr by by rw Hw.
    rw main_raised // fail_raised // idle_run_unit //. by case_decide. }
  case_decide as Hfuel.
  - destruct trees_obj_stand_for as [Hts _].
    apply (main_runs fuel _ (st_eval (Build.interp trees_obj) [])); [done..|].
    by apply on_heap_run.
  - apply (main_short fuel [] _ (st_eval (Build.interp trees_obj) []));
      [by apply on_heap_run|by apply dicts_short].
Qed.
